(* ===== verification/_CoqProject ===== *)
-Q . S2P
Prelude.v
PyJson.v
PyDecimal.v
Regex.v
Sanitizer.v
SystemPrompt.v
ContextBuilder.v
Invoker.v
Segmenter.v
Handler.v
Aws.v
UserProfile.v
Csv.v
BulkRegister.v
FoodImport.v
FoodMain.v
BulkCli.v
