(* ===== verification/Prelude.v ===== *)
(** * A verification library for the FUUD health-chat backend

    ** The program

    The repository holds five programs that share one AWS account.

    - The chat Lambda [src/lambda_deployment/temp_v17/lambda_function.py]
      with [pii_sanitizer.py].  One request runs, in [lambda_handler]'s
      order: the OpenAI key is read from Secrets Manager
      ([get_openai_api_key]), the client built ([OpenAI(api_key=...)])
      and the body parsed; [userId] and [message]
      are validated (400 [INVALID_REQUEST]); when the sanitizer imported,
      [sanitize_for_openai] replaces the user id by a salted SHA-256
      token, rewrites the message and the history with five regular
      expressions ([PII_PATTERNS]) and cuts the blood, gene and vital
      payloads down to allow-listed fields (500 [PII_SALT_MISSING] without
      a salt); [build_chat_messages] assembles the prompt and contexts;
      [call_openai] sends them with a back-off on rate limits;
      [split_response_into_chunks] cuts the answer on ["---"].
    - The profile Lambda [src/lambda_function.py] (API Gateway): it
      validates the address, creates the user's S3 folders and README and
      writes [{id, name}] to the DynamoDB table [Users].
    - The Cognito trigger [src/lambda_cognito_trigger/lambda_function.py]:
      the same steps on [PostConfirmation_ConfirmSignUp], returning the
      event to Cognito, and the profile Lambda's behaviour for API
      Gateway events.
    - Bulk registration: the Lambda [bulk_register_lambda.py], started by
      S3 for every [bulk-import/*.csv], and the script
      [bulk_register_users.py] both read a CSV of applicants and, per
      row, create a Cognito user with a generated password, a DynamoDB
      item and the S3 folders, then save a report and the credentials.
    - The food import [src/scripts/import_mext_foods.py], which loads the
      MEXT food composition table into DynamoDB.
    The account Lambdas and the bulk registration meet in the three AWS
    services, and the bulk Lambda meets itself: its credentials CSV is
    written under its own trigger.

    ** The files

    - [Prelude] (this file): Python [str] as a list of code points
      ([text]), the Unicode database as a class ([UnicodeDB], its laws
      [UnicodeLaws], the instance [cpython_db]), [str.strip],
      [str.split], [str.join], UTF-8 ([str.encode], [bytes.decode] with
      and without [-sig]), exceptions and the error monad [Py] with its
      notation in [py_scope], the tactics and the hint databases.
    - [PyJson]: decoded JSON values ([pyval]), truth values, [dict.get],
      [len], comparisons, [str()], format specs and [json.loads].
    - [PyDecimal]: CPython's [Decimal(str)] and [Decimal.__str__].
    - [Regex]: the fragment of [re] the patterns use (character sets,
      greedy repetition, [IGNORECASE], the anchors [^] and [$]);
      [match_here] is [sre]'s backtracking, [re_sub], [re_search] and
      [re_match] its scans.
    - [Sanitizer], [SystemPrompt], [ContextBuilder], [Invoker],
      [Segmenter], [Handler]: the chat Lambda, one definition per
      function; [Invoker] also has the retry protocol as a labelled
      transition system [rstep].
    - [FoodImport]: [clean_value], [build_nutrients], [format_food_id] and
      [import_to_dynamodb] with its counters and table as explicit state.
    - [FoodMain]: the rest of the food import: [download_food_data] over
      the class [Http] ([requests.get]), [verify_import] over the class
      [TableReads] (the scan count and [get_item]) and [main], whose
      three [except] clauses become the constructors of [report].
    - [Aws]: the state of S3, the table [Users] and the user pool as one
      record [aws]; each boto3 call as a transition in the monad [AwsM]
      (state and exceptions, notation [x <~ m ;; k] in [aws_scope]);
      failures outside the model from the class [AwsFaults]; the clock
      and the random draws as classes; a weakest precondition [wp] with
      its rules, and frames ([keeps], [same_data], [creates_only]) that
      compose through binds.
    - [UserProfile]: Module [Profile] (the profile Lambda) and Module
      [Trigger] (the Cognito trigger), which calls the profile's helpers.
    - [Csv]: CPython's [csv] reader (the state machine of [_csv.c], with
      its field size limit of 131072 characters), the writer with
      minimal quoting, [DictReader] and [DictWriter].
    - [BulkRegister]: [generate_temp_password], Module [Lambda] (the bulk
      Lambda, one definition per function and one per loop iteration),
      the S3 notification ([triggers], [invoke], [drain]) that runs it.
    - [BulkCli]: Module [Cli], the command-line script with its dry run
      and the files it writes.

    ** The theorems

    - Privacy: no SNP identifier survives [sanitize_text]; with the
      sanitizer loaded, every text sent to the model is free of them
      ([Sanitizer.sanitize_text_no_snp], [Handler.prepare_sanitized_texts]);
      a whole e-mail address, with any number of domain labels, becomes
      ["[EMAIL]"] ([Sanitizer.sanitize_email_whole]);
      when its import fails, the cold start turns it off and the raw
      message is sent ([Handler.sanitizer_import_error_fails_open]).
      Every answer of the chat handler carries the CORS headers and the
      status 200, 400 or 500.
    - Bulk registration: the chain of runs the Lambda starts on its own
      output stops after two runs ([BulkRegister.upload_chain_stops],
      liveness); one run creates at most one object that fires the
      trigger, and a run on a credentials CSV creates none; a run whose
      CSV reading stops with [csv.Error] never writes the credentials
      of the users it registered; a row whose
      Cognito account exists never gets a profile; every generated
      password meets Cognito's policy; the loop counts each row once.
      The script's dry run changes no AWS data but reports every
      addressed row as registered; its name block changes nothing (it
      writes the Lambda's item, an equivalence).
    - Profile and trigger: the profile Lambda never answers 409 and its
      answers are well-typed API Gateway responses; a second
      registration overwrites the profile; the trigger returns the event
      to Cognito and, for API Gateway, is the profile Lambda (a
      refinement); an address with a character outside
      [validate_email]'s alphabet is confirmed but gets nothing.
    - Retry protocol: [call_openai] refines the transition system; its
      exact traces after [k] rate limits.
    - Hand-offs in the chat Lambda: message shape; what the context
      builders make of the sanitizer's output (the vitals, the blood test
      names and the gene categories are lost).
    - Round trips: [clean_value] inverts [str(Decimal)]; as lemmas,
      [csv.reader] and [DictReader] read back what the writers wrote
      ([Csv.read_write_rows], [Csv.dict_read_write]).  Bounds: a field
      over [csv.field_size_limit()] stops the reader with [csv.Error]
      ([Csv.csv_reader_field_limit]).
    - Food import: error paths, counters, [format_food_id] injective on
      its documented ranges; for the whole
      script, what a completed run prints (every food counted once, a
      bounded table count, the right sample) and which [except] clause
      ends a failed one ([except Boto3Error] is never reached).
    - As lemmas the other theorems use: the regular-expression engine is
      sound and complete for its declarative semantics
      ([Regex.match_here_sound], [Regex.match_here_complete]) and its
      scan does not depend on the fuel.

    ** Bounds and fuel

    [re.sub] is [sub_go] with fuel [length s]: every step consumes a
    character, and [Regex.sub_go_fuel] shows more fuel changes nothing.
    The S3 notification chain is run by [drain] with fuel 2: the theorem
    says two runs empty the queue, and its witness that one run does
    not.  All other loops are structural.  Integers are [Z] (Python's are
    unbounded); floats are rationals, used only in comparisons.

    ** Not modelled

    - Output of [print] and logging (the [len()] calls in log lines of
      the chat Lambda, which can raise, are modelled); [json.dumps] of
      responses and reports ([JsonEncoder], an opaque function); the
      rendering of [datetime] beyond its fields.
    - SHA-256, [json.loads], CPython's float [repr] and [.Nf] rounding,
      [secrets] and [urllib.parse.unquote_plus]: classes ([Sha256],
      [JsonDecoder], [PyRepr], [PyFormat], [Entropy], [UrlCodec]), with
      laws only where a theorem needs one.
    - boto3 beyond the calls the sources make; concurrent Lambda
      invocations (the notification chain is run one event at a time);
      [argparse], AWS profiles and sessions of the bulk script.
    - The bulk script decodes its file as a whole; CPython decodes text
      files in chunks of 8192 bytes, so an invalid byte past the first
      chunk is raised here before any row instead of after the rows of
      the earlier chunks.
    - Decimal exponents are unbounded here; CPython's context limits are
      never reached by the cells of the food table.
    - In the food import, the messages printed, and the items a failed
      run has already written (the [report] of a failed run keeps only
      the exception). *)

From Stdlib Require Import NArith ZArith Ascii String.
From stdpp Require Import base list numbers.

Declare Scope py_scope.
Delimit Scope py_scope with py.

(** ** Python text: a [str] is a sequence of Unicode code points *)

Abbreviation char := N.
Definition text := list char.

(** Source literals are written in UTF-8 in the Python files; [T] decodes
    the bytes of a Rocq string literal, so that the model can quote the
    Japanese literals of the source verbatim. *)
Fixpoint utf8_decode (bs : list N) : text :=
  match bs with
  | [] => []
  | b1 :: r1 =>
      if (b1 <? 128)%N then b1 :: utf8_decode r1
      else if (b1 <? 224)%N then
        match r1 with
        | b2 :: r2 => ((b1 - 192) * 64 + (b2 - 128))%N :: utf8_decode r2
        | [] => []
        end
      else if (b1 <? 240)%N then
        match r1 with
        | b2 :: b3 :: r3 =>
            ((b1 - 224) * 4096 + (b2 - 128) * 64 + (b3 - 128))%N :: utf8_decode r3
        | _ => []
        end
      else
        match r1 with
        | b2 :: b3 :: b4 :: r4 =>
            ((b1 - 240) * 262144 + (b2 - 128) * 4096 + (b3 - 128) * 64
             + (b4 - 128))%N :: utf8_decode r4
        | _ => []
        end
  end.

Definition T (s : string) : text :=
  utf8_decode (map N_of_ascii (list_ascii_of_string s)).
Arguments T s%_string.

(** Replace every source literal [T "..."] of the goal by its code points. *)
Ltac eval_T :=
  repeat match goal with
         | |- context [T ?s] => let v := eval vm_compute in (T s) in change (T s) with v
         end.

(** ** Character classes of the ASCII range *)

(** The [n] code points from [lo] on. *)
Fixpoint enum_from (lo : char) (n : nat) : list char :=
  match n with O => [] | S n' => lo :: enum_from (lo + 1)%N n' end.

Definition in_range (lo hi c : char) : bool := (lo <=? c)%N && (c <=? hi)%N.
Definition ascii_digit (c : char) : bool := in_range 48 57 c.
Definition ascii_upper (c : char) : bool := in_range 65 90 c.
Definition ascii_lowerc (c : char) : bool := in_range 97 122 c.
Definition ascii_alnum (c : char) : bool :=
  ascii_digit c || ascii_upper c || ascii_lowerc c.
(** [str.isspace] on ASCII: tab to carriage return, the four information
    separators 0x1c to 0x1f, and the space. *)
Definition ascii_space (c : char) : bool := in_range 9 13 c || in_range 28 32 c.
Definition ascii_tolower (c : char) : char := if ascii_upper c then (c + 32)%N else c.
Definition ascii_toupper (c : char) : char := if ascii_lowerc c then (c - 32)%N else c.

(** ** The Unicode character database that CPython consults

    [re] and [str] read four tables of CPython's [unicodedata]: decimal
    digits ([\d], [Py_UNICODE_ISDECIMAL]), alphanumerics ([\w] is alnum or
    ['_'], [Py_UNICODE_ISALNUM]), white space ([str.strip]), and the
    simple case mappings [sre] uses under [re.IGNORECASE].  [str.lower]
    is a whole-string operation (final sigma), so it is a separate field.
    The development is parametric in the tables; [UnicodeLaws] lists what
    the proofs use, all of which hold of CPython's tables. *)
Class UnicodeDB := {
  uc_isdecimal : char -> bool;
  uc_digit : char -> option N;          (** [Py_UNICODE_TODECIMAL] *)
  uc_isalnum : char -> bool;
  uc_isspace : char -> bool;
  uc_lower1 : char -> char;
  uc_upper1 : char -> char;
  uc_lower : text -> text
}.

Class UnicodeLaws `{UnicodeDB} := {
  law_decimal_ascii c : (c < 128)%N -> uc_isdecimal c = ascii_digit c;
  law_digit_decimal c : uc_isdecimal c = match uc_digit c with Some _ => true | None => false end;
  law_digit_bound c d : uc_digit c = Some d -> (d < 10)%N;
  law_digit_ascii c : (c < 128)%N -> uc_digit c = if ascii_digit c then Some (c - 48)%N else None;
  law_alnum_ascii c : (c < 128)%N -> uc_isalnum c = ascii_alnum c;
  law_space_ascii c : (c < 128)%N -> uc_isspace c = ascii_space c;
  law_decimal_alnum c : uc_isdecimal c = true -> uc_isalnum c = true;
  law_lower1_ascii c : (c < 128)%N -> uc_lower1 c = ascii_tolower c;
  law_upper1_ascii c : (c < 128)%N -> uc_upper1 c = ascii_toupper c;
  law_lower1_alnum c : uc_isalnum (uc_lower1 c) = uc_isalnum c;
  law_long_s_alnum : uc_isalnum 383%N = true;
  law_lower_ascii s : Forall (fun c => c < 128)%N s -> uc_lower s = map ascii_tolower s
}.

(** A concrete table, exact on ASCII, Latin-1, Latin Extended-A, kana,
    CJK ideographs and the full-width forms: enough to run the witnesses
    on Japanese text. *)
Definition db_digit (c : char) : option N :=
  if ascii_digit c then Some (c - 48)%N
  else if in_range 1632 1641 c then Some (c - 1632)%N
  else if in_range 2406 2415 c then Some (c - 2406)%N
  else if in_range 65296 65305 c then Some (c - 65296)%N
  else None.
Definition db_isdecimal (c : char) : bool :=
  match db_digit c with Some _ => true | None => false end.
Definition db_isalnum (c : char) : bool :=
  ascii_alnum c || db_isdecimal c
  || ((in_range 192 591 c) && negb ((c =? 215)%N || (c =? 247)%N))
  || in_range 913 969 c || in_range 12353 12438 c || in_range 12449 12538 c
  || (c =? 12540)%N || in_range 19968 40959 c
  || in_range 65313 65338 c || in_range 65345 65370 c || (c =? 8490)%N
  || (c =? 170)%N || (c =? 181)%N || (c =? 186)%N.
Definition db_isspace (c : char) : bool :=
  ascii_space c || (c =? 133)%N || (c =? 160)%N || (c =? 5760)%N
  || in_range 8192 8202 c || (c =? 8232)%N || (c =? 8233)%N || (c =? 8239)%N
  || (c =? 8287)%N || (c =? 12288)%N.
Definition db_lower1 (c : char) : char :=
  if (c <? 128)%N then ascii_tolower c
  else if (c =? 304)%N then 105%N else if (c =? 8490)%N then 107%N else c.
Definition db_upper1 (c : char) : char :=
  if (c <? 128)%N then ascii_toupper c
  else if (c =? 305)%N then 73%N else if (c =? 383)%N then 83%N else c.

#[export] Instance cpython_db : UnicodeDB := {
  uc_isdecimal := db_isdecimal;
  uc_digit := db_digit;
  uc_isalnum := db_isalnum;
  uc_isspace := db_isspace;
  uc_lower1 := db_lower1;
  uc_upper1 := db_upper1;
  uc_lower := map db_lower1
}.

(** Finite checks over a range of code points, used to discharge the
    laws of [cpython_db] on ASCII by evaluation. *)
Fixpoint all_below (n : nat) (f : char -> bool) : bool :=
  match n with
  | O => true
  | S n' => f (N.of_nat n') && all_below n' f
  end.

Lemma all_below_spec n f :
  all_below n f = true -> forall c, (c < N.of_nat n)%N -> f c = true.
Proof.
  induction n as [|n IH]; simpl; intros Hall c Hc; [lia|].
  apply andb_prop in Hall as [Hn Hrest].
  destruct (N.eq_dec c (N.of_nat n)) as [->|Hne]; [exact Hn|].
  apply IH; [exact Hrest|lia].
Qed.

Lemma ascii_pointwise {A} `{EqDecision A} (f g : char -> A) :
  all_below 128 (fun c => bool_decide (f c = g c)) = true ->
  forall c, (c < 128)%N -> f c = g c.
Proof.
  intros Hall c Hc. apply (bool_decide_eq_true_1 (f c = g c)).
  revert c Hc. change 128%N with (N.of_nat 128). by apply all_below_spec.
Qed.

Ltac by_ascii_table := apply ascii_pointwise; vm_compute; reflexivity.

Lemma db_lower1_alnum c : db_isalnum (db_lower1 c) = db_isalnum c.
Proof.
  destruct (N.ltb_spec c 128) as [Hc|Hc].
  - revert c Hc. by_ascii_table.
  - unfold db_lower1. destruct (N.ltb_spec c 128); [lia|].
    destruct (N.eqb_spec c 304) as [->|]; [reflexivity|].
    destruct (N.eqb_spec c 8490) as [->|]; reflexivity.
Qed.

Lemma db_digit_bound c d : db_digit c = Some d -> (d < 10)%N.
Proof.
  unfold db_digit, ascii_digit, in_range.
  repeat match goal with |- context [(?a <=? ?b)%N] => destruct (N.leb_spec a b) end;
    cbn; intros Hd; first [discriminate | injection Hd as <-; lia].
Qed.

#[export] Instance cpython_laws : UnicodeLaws.
Proof.
  split; simpl.
  - by_ascii_table.
  - reflexivity.
  - exact db_digit_bound.
  - by_ascii_table.
  - by_ascii_table.
  - by_ascii_table.
  - intros c H. unfold db_isalnum. rewrite H. by rewrite !orb_true_r.
  - by_ascii_table.
  - by_ascii_table.
  - exact db_lower1_alnum.
  - reflexivity.
  - intros s Hs. apply map_ext_in. intros c Hin.
    rewrite Forall_forall in Hs. specialize (Hs c Hin).
    unfold db_lower1. destruct (N.ltb_spec c 128); [reflexivity|lia].
Qed.

(** ** The [str] methods the source calls *)

Create HintDb pyhints discriminated.
Create Rewrite HintDb pyrw.

Fixpoint is_prefix (p s : text) : bool :=
  match p, s with
  | [], _ => true
  | _ :: _, [] => false
  | a :: p', b :: s' => (a =? b)%N && is_prefix p' s'
  end.

(** [p in s] for two [str]s. *)
Fixpoint is_infix (p s : text) : bool :=
  is_prefix p s || match s with [] => false | _ :: s' => is_infix p s' end.

Section StrMethods.
Context `{UnicodeDB}.

Fixpoint drop_space (s : text) : text :=
  match s with
  | c :: s' => if uc_isspace c then drop_space s' else s
  | [] => []
  end.

(** [s.strip()]: white space removed at both ends. *)
Definition py_strip (s : text) : text := rev (drop_space (rev (drop_space s))).
End StrMethods.

(** [s.split(sep)] for a non-empty [sep].  The scan is structural: after a
    separator is found, its remaining [length sep - 1] characters are
    skipped one by one. *)
Fixpoint split_go (sep : text) (skip : nat) (cur : text) (s : text) : list text :=
  match s with
  | [] => [rev cur]
  | c :: s' =>
      match skip with
      | S k => split_go sep k cur s'
      | O => if is_prefix sep s then rev cur :: split_go sep (length sep - 1) [] s'
             else split_go sep 0 (c :: cur) s'
      end
  end.

Definition py_split (sep s : text) : list text := split_go sep 0 [] s.

(** [sep.join(parts)]. *)
Definition py_join (sep : text) (parts : list text) : text :=
  match parts with
  | [] => []
  | x :: xs => x ++ mjoin (map (fun y => sep ++ y) xs)
  end.

(** ["\n"] *)
Definition NEWLINE : text := [10%N].

(** [s.startswith(p)]. *)
Definition py_startswith (s p : text) : bool := is_prefix p s.
Definition py_endswith (s p : text) : bool := is_prefix (rev p) (rev s).

Lemma is_prefix_spec p s : is_prefix p s = true <-> exists r, s = p ++ r.
Proof.
  revert s. induction p as [|a p IH]; intros [|b s]; simpl.
  - split; eauto.
  - split; eauto.
  - split; [done|]. intros [r Hr]. done.
  - rewrite andb_true_iff, IH. split.
    + intros [Hab%N.eqb_eq [r ->]]. subst. eauto.
    + intros [r Hr]. injection Hr as -> ->. rewrite N.eqb_refl. eauto.
Qed.

Lemma is_prefix_app p r : is_prefix p (p ++ r) = true.
Proof. apply is_prefix_spec. eauto. Qed.

Lemma is_infix_spec p s :
  is_infix p s = true <-> exists a b, s = a ++ p ++ b.
Proof.
  induction s as [|c s IH]; simpl; rewrite orb_true_iff, is_prefix_spec.
  - split.
    + intros [[r Hr]|Hf]; [exists [], r; done|done].
    + intros ([|x a] & b & Hs); [left; eauto|done].
  - rewrite IH. split.
    + intros [[r Hr]|(a & b & ->)]; [exists [], r; done|exists (c :: a), b; done].
    + intros ([|x a] & b & Hs); [left; eauto|].
      injection Hs as -> ->. right. eauto.
Qed.

Lemma split_go_cons sep k cur s : exists x xs, split_go sep k cur s = x :: xs.
Proof.
  revert k cur. induction s as [|c s IH]; intros k cur; simpl; [eauto|].
  destruct k; [|apply IH]. destruct (is_prefix sep (c :: s)); [eauto|apply IH].
Qed.

Lemma py_join_cons sep x l :
  l <> [] -> py_join sep (x :: l) = x ++ sep ++ py_join sep l.
Proof. destruct l as [|y l]; [done|]. intros _. simpl. by rewrite <- !app_assoc. Qed.

Lemma split_go_join sep k cur s :
  sep <> [] -> (k = 0 \/ cur = []) ->
  py_join sep (split_go sep k cur s) = rev cur ++ drop k s.
Proof.
  intros Hsep. revert k cur. induction s as [|c s IH]; intros k cur Hk.
  - simpl. rewrite drop_nil. by rewrite app_nil_r.
  - simpl. destruct k as [|k].
    + destruct (is_prefix sep (c :: s)) eqn:Hp.
      * destruct (split_go_cons sep (length sep - 1) [] s) as (x & xs & Hx).
        rewrite py_join_cons by (rewrite Hx; done). rewrite IH by auto.
        apply is_prefix_spec in Hp as [r Hr].
        destruct sep as [|a sep']; [done|]. injection Hr as -> ->.
        simpl. rewrite Nat.sub_0_r, drop_app_length. done.
      * rewrite IH by auto. simpl. by rewrite <- app_assoc.
    + destruct Hk as [Hk | ->]; [done|]. rewrite IH by auto. done.
Qed.

Section StripFacts.
Context `{UnicodeDB}.

Lemma drop_space_split s :
  exists ws, s = ws ++ drop_space s /\ Forall (fun c => uc_isspace c = true) ws.
Proof.
  induction s as [|c s (ws & Hs & Hws)]; simpl; [by exists []|].
  destruct (uc_isspace c) eqn:Hc; [|by exists []].
  exists (c :: ws). split; [simpl; by rewrite <- Hs|by constructor].
Qed.

Lemma drop_space_first s c r : drop_space s = c :: r -> uc_isspace c = false.
Proof.
  induction s as [|x s IH]; simpl; [done|].
  destruct (uc_isspace x) eqn:Hx; [apply IH|]. by intros [= -> _].
Qed.

Lemma drop_space_fixed s :
  (forall c r, s = c :: r -> uc_isspace c = false) -> drop_space s = s.
Proof. destruct s as [|c r]; [done|]. intros Hs. simpl. by rewrite (Hs c r eq_refl). Qed.

Lemma drop_space_idem s : drop_space (drop_space s) = drop_space s.
Proof. apply drop_space_fixed. apply drop_space_first. Qed.

(** [s.strip().strip() == s.strip()]. *)
Lemma py_strip_idem s : py_strip (py_strip s) = py_strip s.
Proof.
  unfold py_strip. set (u := drop_space s). set (v := drop_space (rev u)).
  assert (Hv : drop_space (rev v) = rev v).
  { apply drop_space_fixed. intros c r Hcr.
    destruct (drop_space_split (rev u)) as (ws & Hu & _). fold v in Hu.
    apply (f_equal (@rev char)) in Hu. rewrite rev_involutive, rev_app_distr, Hcr in Hu.
    apply (drop_space_first s c (r ++ rev ws)). fold u. by rewrite Hu. }
  rewrite Hv, rev_involutive. unfold v. by rewrite drop_space_idem.
Qed.
End StripFacts.

(** The first field of [s.split(c)] when the first [c] of [s] follows [u]. *)
Lemma split_go_single c cur u d :
  c ∉ u -> split_go [c] 0 cur (u ++ c :: d) = (rev cur ++ u) :: split_go [c] 0 [] d.
Proof.
  revert cur. induction u as [|x u IH]; intros cur Hu; simpl.
  - by rewrite N.eqb_refl, app_nil_r.
  - apply not_elem_of_cons in Hu as [Hx Hu].
    destruct (N.eqb_spec c x) as [->|_]; [done|]. simpl.
    rewrite IH by done. simpl. by rewrite <- app_assoc.
Qed.

Lemma py_split_first c u d : c ∉ u -> head (py_split [c] (u ++ c :: d)) = Some u.
Proof. intros Hu. unfold py_split. by rewrite split_go_single. Qed.

(** Splitting and joining with the same separator is the identity. *)
Lemma py_split_join sep s : sep <> [] -> py_join sep (py_split sep s) = s.
Proof. intros Hsep. unfold py_split. by rewrite split_go_join by auto. Qed.

Lemma py_split_join_witness :
  T "---" <> [] /\ py_join (T "---") (py_split (T "---") (T "A---B---")) = T "A---B---".
Proof. split; [discriminate|]. apply py_split_join. discriminate. Defined.

(** ** Python exceptions and the error monad threading them *)

(** The exception classes the modelled code raises or catches.
    [UnicodeEncodeError] and [UnicodeDecodeError] are subclasses of
    [ValueError], as in CPython;
    [InvalidOperation] is [decimal.InvalidOperation], an
    [ArithmeticError] and not a [ValueError];
    [ProviderError] is any exception of the OpenAI client, identified by
    its class name; [ClientError code] is botocore's [ClientError] whose
    [e.response['Error']['Code']] is [code]; [CsvError] is [csv.Error]; [FileNotFoundError] is what [open] raises
    for a missing file; [RequestException] is the base class of the
    errors of [requests], [Boto3Error] that of [boto3.exceptions];
    [ImportError] is what a failed [import] raises. *)
Inductive exn_class :=
  | ValueError
  | UnicodeEncodeError
  | UnicodeDecodeError
  | TypeError
  | AttributeError
  | KeyError
  | NameError
  | InvalidOperation
  | IndexError
  | CsvError
  | FileNotFoundError
  | ImportError
  | RequestException
  | Boto3Error
  | ClientError (code : text)
  | ProviderError (name : text).

Record exn := mk_exn { exn_cls : exn_class; exn_msg : text }.

(** [isinstance(e, ValueError)] *)
Definition is_value_error (e : exn) : bool :=
  match exn_cls e with ValueError | UnicodeEncodeError | UnicodeDecodeError => true | _ => false end.

Inductive Py (A : Type) : Type :=
  | PyOk (a : A)
  | PyRaise (e : exn).
Arguments PyOk {A} a.
Arguments PyRaise {A} e.

Definition py_bind {A B} (m : Py A) (k : A -> Py B) : Py B :=
  match m with PyOk a => k a | PyRaise e => PyRaise e end.

Notation "x <- m ;; k" := (py_bind m (fun x => k))
  (at level 60, m at next level, right associativity) : py_scope.

(** [for x in xs: ...] collecting results, stopping at the first raise. *)
Fixpoint py_mapM {A B} (f : A -> Py B) (xs : list A) : Py (list B) :=
  match xs with
  | [] => PyOk []
  | x :: xs' =>
      match f x with
      | PyRaise e => PyRaise e
      | PyOk y => match py_mapM f xs' with
                  | PyRaise e => PyRaise e
                  | PyOk ys => PyOk (y :: ys)
                  end
      end
  end.

Lemma py_bind_ok {A B} (a : A) (k : A -> Py B) : py_bind (PyOk a) k = k a.
Proof. reflexivity. Qed.

Lemma py_mapM_ok {A B} (f : A -> B) (xs : list A) :
  py_mapM (fun x => PyOk (f x)) xs = PyOk (map f xs).
Proof. induction xs as [|x xs IH]; simpl; [done|by rewrite IH]. Qed.

Lemma py_mapM_length {A B} (f : A -> Py B) xs ys :
  py_mapM f xs = PyOk ys -> length ys = length xs.
Proof.
  revert ys. induction xs as [|x xs IH]; simpl; intros ys H.
  - by injection H as <-.
  - destruct (f x); [|done]. destruct (py_mapM f xs) eqn:E; [|done].
    injection H as <-. simpl. by rewrite (IH _ eq_refl).
Qed.

Lemma py_mapM_Forall {A B} (f : A -> Py B) (P : B -> Prop) xs ys :
  (forall x y, f x = PyOk y -> P y) -> py_mapM f xs = PyOk ys -> Forall P ys.
Proof.
  intros Hf. revert ys. induction xs as [|x xs IH]; simpl; intros ys H.
  - by injection H as <-.
  - destruct (f x) eqn:Ex; [|done]. destruct (py_mapM f xs) eqn:E; [|done].
    injection H as <-. constructor; [by eapply Hf|by apply IH].
Qed.

#[export] Hint Rewrite @py_bind_ok @py_mapM_ok : pyrw.
#[export] Hint Resolve is_prefix_app : pyhints.

(** ** [str.encode()]: UTF-8, raising on lone surrogates *)

Definition utf8_encode_char (c : char) : option (list N) :=
  if (c <? 128)%N then Some [c]
  else if (c <? 2048)%N then Some [192 + c / 64; 128 + c mod 64]%N
  else if (c <? 65536)%N then
    if in_range 55296 57343 c then None
    else Some [224 + c / 4096; 128 + (c / 64) mod 64; 128 + c mod 64]%N
  else if (c <? 1114112)%N then
    Some [240 + c / 262144; 128 + (c / 4096) mod 64; 128 + (c / 64) mod 64; 128 + c mod 64]%N
  else None.

Fixpoint utf8_encode (s : text) : option (list N) :=
  match s with
  | [] => Some []
  | c :: s' =>
      match utf8_encode_char c, utf8_encode s' with
      | Some bs, Some rest => Some (bs ++ rest)
      | _, _ => None
      end
  end.

(** [s.encode('utf-8')] *)
Definition py_encode (s : text) : Py (list N) :=
  match utf8_encode s with
  | Some bs => PyOk bs
  | None => PyRaise (mk_exn UnicodeEncodeError (T "surrogates not allowed"))
  end.

Lemma add_sub_l (a b : N) : (a + b - a)%N = b.
Proof. lia. Qed.

Lemma split_base64_2 (c : N) : (c / 64 * 64 + c mod 64)%N = c.
Proof. pose proof (N.div_mod c 64 ltac:(lia)). lia. Qed.

Lemma split_base64_3 (c : N) : (c / 4096 * 4096 + (c / 64) mod 64 * 64 + c mod 64)%N = c.
Proof.
  pose proof (N.div_mod c 64 ltac:(lia)) as H0. pose proof (N.div_mod (c / 64) 64 ltac:(lia)) as H1.
  rewrite N.Div0.div_div in H1. change (64 * 64)%N with 4096%N in H1. lia.
Qed.

Lemma split_base64_4 (c : N) :
  (c / 262144 * 262144 + (c / 4096) mod 64 * 4096 + (c / 64) mod 64 * 64 + c mod 64)%N = c.
Proof.
  pose proof (N.div_mod c 64 ltac:(lia)) as H0. pose proof (N.div_mod (c / 64) 64 ltac:(lia)) as H1.
  pose proof (N.div_mod (c / 4096) 64 ltac:(lia)) as H2.
  rewrite N.Div0.div_div in H1. change (64 * 64)%N with 4096%N in H1.
  rewrite N.Div0.div_div in H2. change (4096 * 64)%N with 262144%N in H2. lia.
Qed.

Lemma decode_1 b rest : (b < 128)%N -> utf8_decode (b :: rest) = b :: utf8_decode rest.
Proof. intros Hb. simpl. by destruct (N.ltb_spec b 128); [|lia]. Qed.

Lemma decode_2 b1 b2 rest : (128 <= b1 < 224)%N ->
  utf8_decode (b1 :: b2 :: rest) = ((b1 - 192) * 64 + (b2 - 128))%N :: utf8_decode rest.
Proof.
  intros Hb. cbn [utf8_decode]. destruct (N.ltb_spec b1 128); [lia|].
  by destruct (N.ltb_spec b1 224); [|lia].
Qed.

Lemma decode_3 b1 b2 b3 rest : (224 <= b1 < 240)%N ->
  utf8_decode (b1 :: b2 :: b3 :: rest)
  = ((b1 - 224) * 4096 + (b2 - 128) * 64 + (b3 - 128))%N :: utf8_decode rest.
Proof.
  intros Hb. cbn [utf8_decode]. destruct (N.ltb_spec b1 128); [lia|].
  destruct (N.ltb_spec b1 224); [lia|]. by destruct (N.ltb_spec b1 240); [|lia].
Qed.

Lemma decode_4 b1 b2 b3 b4 rest : (240 <= b1)%N ->
  utf8_decode (b1 :: b2 :: b3 :: b4 :: rest)
  = ((b1 - 240) * 262144 + (b2 - 128) * 4096 + (b3 - 128) * 64 + (b4 - 128))%N
    :: utf8_decode rest.
Proof.
  intros Hb. cbn [utf8_decode]. destruct (N.ltb_spec b1 128); [lia|].
  destruct (N.ltb_spec b1 224); [lia|]. by destruct (N.ltb_spec b1 240); [lia|].
Qed.

(** The digits of [c] in base 64, as opaque numbers with their bounds. *)
Ltac opaque_num t := let x := fresh "d" in let E := fresh "E" in
  remember t as x eqn:E; clear E.

Ltac base64_digits c :=
  pose proof (N.mod_lt c 64 ltac:(lia));
  pose proof (N.mod_lt (c / 64) 64 ltac:(lia));
  pose proof (N.mod_lt (c / 4096) 64 ltac:(lia));
  pose proof (split_base64_2 c); pose proof (split_base64_3 c); pose proof (split_base64_4 c);
  opaque_num ((c / 64) mod 64)%N; opaque_num ((c / 4096) mod 64)%N;
  opaque_num (c mod 64)%N; opaque_num (c / 262144)%N; opaque_num (c / 4096)%N;
  opaque_num (c / 64)%N.

Lemma utf8_char_roundtrip c bs rest :
  utf8_encode_char c = Some bs -> utf8_decode (bs ++ rest) = c :: utf8_decode rest.
Proof.
  unfold utf8_encode_char, in_range.
  destruct (N.ltb_spec c 128); [intros [= <-]; by apply decode_1|].
  destruct (N.ltb_spec c 2048).
  { intros [= <-]. simpl app. base64_digits c.
    rewrite decode_2 by lia. f_equal. lia. }
  destruct (N.ltb_spec c 65536).
  { destruct (_ && _); [done|]. intros [= <-]. simpl app. base64_digits c.
    rewrite decode_3 by lia. f_equal. lia. }
  destruct (N.ltb_spec c 1114112); [|done]. intros [= <-]. simpl app. base64_digits c.
  rewrite decode_4 by lia. f_equal. lia.
Qed.

Lemma utf8_decode_encode s bs : utf8_encode s = Some bs -> utf8_decode bs = s.
Proof.
  revert bs. induction s as [|c s IH]; simpl; intros bs H; [by injection H as <-|].
  destruct (utf8_encode_char c) eqn:Ec; [|done].
  destruct (utf8_encode s) eqn:Es; [|done]. injection H as <-.
  rewrite (utf8_char_roundtrip _ _ _ Ec). by rewrite (IH _ eq_refl).
Qed.

(** [bs.decode('utf-8')]: the bytes are valid UTF-8 exactly when they
    are the encoding of the text they decode to. *)
Definition py_decode (bs : list N) : Py text :=
  let t := utf8_decode bs in
  if bool_decide (utf8_encode t = Some bs) then PyOk t
  else PyRaise (mk_exn UnicodeDecodeError (T "invalid utf-8"))
.

(** [bs.decode('utf-8-sig')]: a leading byte order mark is dropped. *)
Definition py_decode_sig (bs : list N) : Py text :=
  match bs with
  | 239 :: 187 :: 191 :: rest => py_decode rest
  | _ => py_decode bs
  end%N.

Lemma py_decode_encode s bs : utf8_encode s = Some bs -> py_decode bs = PyOk s.
Proof.
  intros He. unfold py_decode. rewrite (utf8_decode_encode _ _ He).
  by rewrite bool_decide_eq_true_2.
Qed.

(** Text that starts with an ASCII character is decoded by
    [utf-8-sig] as by [utf-8]. *)
Lemma py_decode_sig_encode c s bs :
  (c < 128)%N -> utf8_encode (c :: s) = Some bs -> py_decode_sig bs = PyOk (c :: s).
Proof.
  intros Hc He. transitivity (py_decode bs); [|exact (py_decode_encode _ _ He)].
  cbn in He. unfold utf8_encode_char in He. rewrite (proj2 (N.ltb_lt _ _) Hc) in He.
  destruct (utf8_encode s); [|done]. injection He as <-. cbn [app].
  assert (c <> 239%N) by lia. unfold py_decode_sig. by repeat case_match; subst.
Qed.

