(* ===== verification/PyJson.v ===== *)
(** * Python values decoded from JSON request bodies

    [json.loads] turns the request body into nested [dict], [list], [str],
    [int], [float], [bool] and [None] values; every component of the
    pipeline reads and builds such values with [.get], [isinstance] and
    truth tests.  This file models them: [pyval], truthiness ([bool(x)]),
    [dict.get], item assignment and the checks that raise. *)

From Stdlib Require Import NArith ZArith QArith String.
From stdpp Require Import base list numbers.
From S2P Require Import Prelude.

#[local] Set Warnings "-register-all".

Inductive pyval :=
  | VNone
  | VBool (b : bool)
  | VInt (z : Z)
  | VFloat (q : Q)
  | VStr (s : text)
  | VList (xs : list pyval)
  | VDict (kvs : list (text * pyval)).

Definition empty {A} (l : list A) : bool := match l with [] => true | _ => false end.

(** [bool(v)]: [None], [False], zero, and empty containers are false. *)
Definition truthy (v : pyval) : bool :=
  match v with
  | VNone => false
  | VBool b => b
  | VInt z => negb (z =? 0)%Z
  | VFloat q => negb (Qeq_bool q 0)
  | VStr s => negb (empty s)
  | VList xs => negb (empty xs)
  | VDict kvs => negb (empty kvs)
  end.

Definition is_dict (v : pyval) : bool := match v with VDict _ => true | _ => false end.
Definition is_list (v : pyval) : bool := match v with VList _ => true | _ => false end.

Definition text_eqb (a b : text) : bool := bool_decide (a = b).

(** Lookup in a [dict]; keys of a decoded object are distinct, and the
    first binding is the one Python keeps. *)
Fixpoint dict_lookup (kvs : list (text * pyval)) (k : text) : option pyval :=
  match kvs with
  | [] => None
  | (k', v) :: kvs' => if text_eqb k k' then Some v else dict_lookup kvs' k
  end.

(** [d[k] = v]: an existing key keeps its position, a new key is appended. *)
Fixpoint dict_set (kvs : list (text * pyval)) (k : text) (v : pyval) : list (text * pyval) :=
  match kvs with
  | [] => [(k, v)]
  | (k', v') :: kvs' =>
      if text_eqb k k' then (k', v) :: kvs' else (k', v') :: dict_set kvs' k v
  end.

Definition attr_error (what : string) : exn :=
  mk_exn AttributeError (T what).

(** [obj.get(k, default)]: only a [dict] has [.get]. *)
Definition py_get (obj : pyval) (k : text) (default : pyval) : Py pyval :=
  match obj with
  | VDict kvs => PyOk (match dict_lookup kvs k with Some v => v | None => default end)
  | _ => PyRaise (attr_error "object has no attribute 'get'")
  end.

(** [k in d] for a [dict] [d]. *)
Definition has_key (obj : pyval) (k : text) : bool :=
  match obj with
  | VDict kvs => match dict_lookup kvs k with Some _ => true | None => false end
  | _ => false
  end.

Lemma text_eqb_spec a b : text_eqb a b = true <-> a = b.
Proof. unfold text_eqb. apply bool_decide_eq_true. Qed.

Lemma text_eqb_refl a : text_eqb a a = true.
Proof. by apply text_eqb_spec. Qed.

Lemma dict_lookup_set_eq kvs k v : dict_lookup (dict_set kvs k v) k = Some v.
Proof.
  induction kvs as [|[k' v'] kvs IH]; simpl; [by rewrite text_eqb_refl|].
  destruct (text_eqb k k') eqn:E; simpl; [by rewrite E|by rewrite E].
Qed.

Lemma dict_lookup_set_ne kvs k k2 v :
  k <> k2 -> dict_lookup (dict_set kvs k v) k2 = dict_lookup kvs k2.
Proof.
  intros Hne. induction kvs as [|[k' v'] kvs IH]; simpl.
  - destruct (text_eqb k2 k) eqn:E; [apply text_eqb_spec in E; congruence|done].
  - destruct (text_eqb k k') eqn:E; simpl.
    + apply text_eqb_spec in E as ->.
      destruct (text_eqb k2 k') eqn:E2; [apply text_eqb_spec in E2; congruence|done].
    + by rewrite IH.
Qed.

Lemma dict_set_keys kvs k v :
  map fst (dict_set kvs k v) =
  if bool_decide (k ∈ map fst kvs) then map fst kvs else map fst kvs ++ [k].
Proof.
  induction kvs as [|[k' v'] kvs IH]; simpl; [done|].
  destruct (text_eqb k k') eqn:E.
  - apply text_eqb_spec in E as ->. rewrite bool_decide_eq_true_2; [done|].
    apply elem_of_cons. by left.
  - simpl. rewrite IH. assert (k <> k') by (intros ->; by rewrite text_eqb_refl in E).
    destruct (bool_decide (k ∈ map fst kvs)) eqn:B.
    + rewrite bool_decide_eq_true_2; [done|]. apply elem_of_cons. right.
      by apply bool_decide_eq_true in B.
    + rewrite bool_decide_eq_false_2; [done|]. intros Hin.
      apply elem_of_cons in Hin as [Hin|Hin]; [done|].
      apply bool_decide_eq_false in B. done.
Qed.

#[export] Hint Rewrite dict_lookup_set_eq text_eqb_refl : pyrw.

(** ** [str(v)] as f-strings format values *)

(** Decimal digits of a natural number; [S (N.size_nat n)] steps are
    more than the number of digits. *)
Fixpoint n_digits (fuel : nat) (n : N) (acc : text) : text :=
  match fuel with
  | O => acc
  | S f =>
      let acc' := (48 + n mod 10)%N :: acc in
      if (n <? 10)%N then acc' else n_digits f (n / 10)%N acc'
  end.

Definition n_to_dec (n : N) : text := n_digits (S (N.size_nat n)) n [].

(** A run of ['0'] characters. *)
Definition zeros (n : nat) : list N := repeat 48%N n.

(** [format(z, '0<w>d')]: the sign, zeros up to the width, the digits. *)
Definition pad_int (w : nat) (z : Z) : text :=
  let ds := n_to_dec (Z.abs_N z) in
  let sgn := if (z <? 0)%Z then T "-" else [] in
  sgn ++ zeros (w - length sgn - length ds) ++ ds.

(** [obj[k]] with a [str] key: a [dict] looks the key up and raises
    [KeyError] when it is absent; [str] and [list] indices must be
    integers, and other values are not subscriptable. *)
Definition py_getitem (obj : pyval) (k : text) : Py pyval :=
  match obj with
  | VDict kvs =>
      match dict_lookup kvs k with Some v => PyOk v | None => PyRaise (mk_exn KeyError k) end
  | VStr _ | VList _ => PyRaise (mk_exn TypeError (T "indices must be integers or slices, not str"))
  | _ => PyRaise (mk_exn TypeError (T "object is not subscriptable"))
  end.

(** [json.loads]: CPython's decoder is left to this class. *)
Class JsonDecoder := { json_loads : text -> Py pyval }.

(** [json.loads] raises [json.JSONDecodeError], a [ValueError], on
    malformed text. *)
Class JsonLaws `{JsonDecoder} := {
  json_loads_error s e : json_loads s = PyRaise e -> exn_cls e = ValueError
}.

(** [json.loads(v)] of a decoded value: only a [str] is accepted. *)
Definition py_json_loads `{JsonDecoder} (v : pyval) : Py pyval :=
  match v with
  | VStr s => json_loads s
  | _ => PyRaise (mk_exn TypeError (T "the JSON object must be str, bytes or bytearray"))
  end.

(** [str(z)] for an [int]. *)
Definition z_to_dec (z : Z) : text :=
  match z with
  | Z.neg p => T "-" ++ n_to_dec (Npos p)
  | _ => n_to_dec (Z.to_N z)
  end.

(** CPython's [repr] of floats, lists and dicts is left to this class:
    the modelled code formats such values only in log lines and, for a
    malformed request, inside the hashed user id. *)
Class PyRepr := { repr_other : pyval -> text }.

Definition py_str `{PyRepr} (v : pyval) : text :=
  match v with
  | VStr s => s
  | VInt z => z_to_dec z
  | VBool true => T "True"
  | VBool false => T "False"
  | VNone => T "None"
  | _ => repr_other v
  end.

(** [d.get(k, default)] on the pairs of a known [dict]. *)
Definition dget (kvs : list (text * pyval)) (k : text) (default : pyval) : pyval :=
  match dict_lookup kvs k with Some v => v | None => default end.

(** [for x in v]: a [list] yields its items, a [dict] its keys, a [str]
    its characters; anything else is not iterable. *)
Definition py_iter (v : pyval) : Py (list pyval) :=
  match v with
  | VList xs => PyOk xs
  | VDict kvs => PyOk (map (fun kv => VStr kv.1) kvs)
  | VStr s => PyOk (map (fun c => VStr [c]) s)
  | _ => PyRaise (mk_exn TypeError (T "object is not iterable"))
  end.

(** [a or b] *)
Definition py_or (a b : pyval) : pyval := if truthy a then a else b.

(** [a > n] and [a < n] against an [int] literal; [bool] is an [int],
    any other type raises. *)
Definition py_num (a : pyval) : option Q :=
  match a with
  | VInt z => Some (inject_Z z)
  | VFloat q => Some q
  | VBool b => Some (if b then 1 else 0)%Q
  | _ => None
  end.

Definition cmp_error : exn := mk_exn TypeError (T "'<' not supported between instances").

Definition py_gt (a : pyval) (n : Z) : Py bool :=
  match py_num a with Some q => PyOk (negb (Qle_bool q (inject_Z n))) | None => PyRaise cmp_error end.

Definition py_lt (a : pyval) (n : Z) : Py bool :=
  match py_num a with Some q => PyOk (negb (Qle_bool (inject_Z n) q)) | None => PyRaise cmp_error end.

(** [len(v)]: defined on [str], [list] and [dict]. *)
Definition py_len (v : pyval) : Py nat :=
  match v with
  | VStr s => PyOk (length s)
  | VList xs => PyOk (length xs)
  | VDict kvs => PyOk (length kvs)
  | _ => PyRaise (mk_exn TypeError (T "object has no len()"))
  end.

(** One message of the prompt: [{"role": ..., "content": ...}]. *)
Record message := mk_msg { msg_role : pyval; msg_content : pyval }.

(** ** Numeric format specs of f-strings *)

(** [format(x, '.Nf')] of a number: CPython rounds the binary value; the
    rendering is left to this class. *)
Class PyFormat := { format_fixed : nat -> Q -> text }.

(** [f"{v:.Nf}"], or [f"{v*k:.Nf}"] when [scale = Some k]: numbers (and
    [bool]) are formatted; a [str] raises [ValueError] (unknown format
    code), any other type [TypeError]. *)
Definition fmt_fixed `{PyFormat} (digits : nat) (scale : option Q) (v : pyval) : Py text :=
  match py_num v, v with
  | Some q, _ => PyOk (format_fixed digits (match scale with Some k => q * k | None => q end)%Q)
  | None, VStr _ => PyRaise (mk_exn ValueError (T "Unknown format code 'f' for object of type 'str'"))
  | None, _ => PyRaise (mk_exn TypeError (T "unsupported format string passed to __format__"))
  end.

(** [f"{v:+d}"]: an [int] (or [bool]) with its sign; a [float] or [str]
    raises [ValueError], other types [TypeError]. *)
Definition fmt_signed_int (v : pyval) : Py text :=
  match v with
  | VInt z => PyOk ((if (0 <=? z)%Z then T "+" else []) ++ z_to_dec z)
  | VBool b => PyOk (if b then T "+1" else T "+0")
  | VFloat _ => PyRaise (mk_exn ValueError (T "Unknown format code 'd' for object of type 'float'"))
  | VStr _ => PyRaise (mk_exn ValueError (T "Unknown format code 'd' for object of type 'str'"))
  | _ => PyRaise (mk_exn TypeError (T "unsupported format string passed to __format__"))
  end.

(** ** Instances for evaluating examples

    CPython's float [repr] and [.Nf] rounding are not modelled.  The
    examples of the development format only strings, [int]s, [bool]s and
    [None], which [py_str] and [fmt_signed_int] render themselves, so
    these instances are never consulted by them. *)
Definition example_repr : PyRepr := {| repr_other := fun _ => T "<object>" |}.
Definition example_format : PyFormat := {| format_fixed := fun _ q => z_to_dec (Qnum q / Zpos (Qden q))%Z |}.
