(* ===== verification/PyDecimal.v ===== *)
(** * Python [decimal.Decimal]: construction from a string and [str()]

    The food import builds every number it stores with [Decimal(s)], and
    boto3 sends a [Decimal] to DynamoDB as [str(d)].  This file models
    both as CPython's [_decimal] module performs them:
    - [numeric_as_ascii] strips Unicode whitespace, drops every [_],
      keeps ASCII, maps any other whitespace to a space and any Unicode
      decimal digit to its ASCII digit, and rejects everything else;
    - [parse_decimal_ascii] is libmpdec's [mpd_qset_string]: an optional
      sign, then [NaN] or [sNaN] with an optional digit payload, [Inf] or
      [Infinity] (case-insensitive), or digits with at most one point and
      an optional exponent;
    - [decimal_str] is [Decimal.__str__] (scientific notation when the
      exponent is positive or the adjusted exponent is below [-6]).
    A [Decimal] keeps its coefficient and exponent as written
    ([Decimal("1.50")] is [150 * 10^-2]).  The exponent limits of the
    maximal context ([10^18]) are not modelled: exponents are [Z]. *)

From Stdlib Require Import NArith ZArith String.
From stdpp Require Import base list numbers.
From S2P Require Import Prelude PyJson.

Inductive decimal :=
  | DFinite (neg : bool) (coef : N) (exp : Z)
  | DInf (neg : bool)
  | DNaN (signaling : bool) (neg : bool) (diag : N).

#[export] Instance decimal_eq_dec : EqDecision decimal.
Proof. solve_decision. Defined.

Definition invalid_operation : exn :=
  mk_exn InvalidOperation (T "[<class 'decimal.ConversionSyntax'>]").

(** ** From Unicode to the ASCII string libmpdec parses *)

Section Ascii.
Context `{UnicodeDB}.

(** The loop of [numeric_as_ascii] after the whitespace is stripped;
    [None] is the empty string it returns on an invalid character. *)
Fixpoint ascii_digits_of (s : text) : option (list N) :=
  match s with
  | [] => Some []
  | c :: s' =>
      if (c =? 95)%N then ascii_digits_of s'
      else
        let c' := if (0 <? c)%N && (c <=? 127)%N then Some c
                  else if uc_isspace c then Some 32%N
                  else match uc_digit c with Some d => Some (48 + d)%N | None => None end in
        match c', ascii_digits_of s' with
        | Some a, Some r => Some (a :: r)
        | _, _ => None
        end
  end.

Definition numeric_as_ascii (s : text) : option (list N) := ascii_digits_of (py_strip s).
End Ascii.

(** ** [mpd_qset_string] *)

(** An optional ['+'] (43) or ['-'] (45). *)
Definition sign_of (s : list N) : bool * list N :=
  match s with
  | c :: r => if (c =? 43)%N then (false, r) else if (c =? 45)%N then (true, r) else (false, s)
  | [] => (false, [])
  end.

Fixpoint span_digits (s : list N) : list N * list N :=
  match s with
  | c :: r => if ascii_digit c then let '(d, r') := span_digits r in (c :: d, r') else ([], s)
  | [] => ([], [])
  end.

Definition digits_value (ds : list N) : N :=
  fold_left (fun acc c => acc * 10 + (c - 48))%N ds 0%N.

(** [_mpd_strneq]: a case-insensitive prefix of ASCII letters. *)
Definition iprefix (p : string) (s : list N) : bool := is_prefix (T p) (map ascii_tolower s).

(** [scan_payload]: only digits may follow [NaN]. *)
Definition parse_payload (s : list N) : option N :=
  match span_digits s with
  | (ds, []) => Some (digits_value ds)
  | _ => None
  end.

(** The exponent after [e] or [E]: a sign and at least one digit. *)
Definition parse_exponent (s : list N) : option Z :=
  let '(neg, r) := sign_of s in
  match span_digits r with
  | ((_ :: _) as ds, []) =>
      Some (if neg then (- Z.of_N (digits_value ds))%Z else Z.of_N (digits_value ds))
  | _ => None
  end.

(** [scan_dpoint_exp] and the coefficient: digits with at most one point
    and at least one digit, then an optional exponent. *)
Definition parse_finite (neg : bool) (s : list N) : option decimal :=
  let '(ip, r1) := span_digits s in
  let '(fp, r2) := match r1 with
                   | c :: r => if (c =? 46)%N then span_digits r else ([], r1)
                   | [] => ([], [])
                   end in
  match ip ++ fp with
  | [] => None
  | ds =>
      let coef := digits_value ds in
      let shift := Z.of_nat (length fp) in
      match r2 with
      | [] => Some (DFinite neg coef (- shift))
      | e :: r3 =>
          if (e =? 101)%N || (e =? 69)%N then
            match parse_exponent r3 with
            | Some x => Some (DFinite neg coef (x - shift))
            | None => None
            end
          else None
      end
  end.

(** What follows the sign. *)
Definition parse_unsigned (neg : bool) (r : list N) : option decimal :=
  if iprefix "nan" r then option_map (DNaN false neg) (parse_payload (drop 3 r))
  else if iprefix "snan" r then option_map (DNaN true neg) (parse_payload (drop 4 r))
  else if iprefix "inf" r then
    match drop 3 r with
    | [] => Some (DInf neg)
    | rest => if bool_decide (map ascii_tolower rest = T "inity") then Some (DInf neg) else None
    end
  else parse_finite neg r.

Definition parse_decimal_ascii (s : list N) : option decimal :=
  let '(neg, r) := sign_of s in parse_unsigned neg r.

(** [Decimal(s)] for a [str]: [ConversionSyntax] raises [InvalidOperation]. *)
Definition py_Decimal `{UnicodeDB} (s : text) : Py decimal :=
  match numeric_as_ascii s with
  | Some a => match parse_decimal_ascii a with
              | Some d => PyOk d
              | None => PyRaise invalid_operation
              end
  | None => PyRaise invalid_operation
  end.

(** ** [Decimal.__str__] *)

Definition sign_text (neg : bool) : text := if neg then T "-" else [].

(** [_int[:dotplace]] and the rest, with the padding [__str__] adds. *)
Definition place_point (ds : list N) (dotplace : Z) : text :=
  if (dotplace <=? 0)%Z then T "0." ++ zeros (Z.to_nat (- dotplace)) ++ ds
  else if (Z.of_nat (length ds) <=? dotplace)%Z then ds ++ zeros (Z.to_nat dotplace - length ds)
  else take (Z.to_nat dotplace) ds ++ T "." ++ drop (Z.to_nat dotplace) ds.

Definition exp_text (x : Z) : text :=
  if (0 <=? x)%Z then T "+" ++ n_to_dec (Z.to_N x) else T "-" ++ n_to_dec (Z.to_N (- x)).

Definition decimal_str (d : decimal) : text :=
  match d with
  | DInf neg => sign_text neg ++ T "Infinity"
  | DNaN sig neg diag =>
      sign_text neg ++ (if sig then T "sNaN" else T "NaN")
      ++ (if (diag =? 0)%N then [] else n_to_dec diag)
  | DFinite neg coef exp =>
      let ds := n_to_dec coef in
      let leftdigits := (exp + Z.of_nat (length ds))%Z in
      let dotplace := if (exp <=? 0)%Z && (-6 <? leftdigits)%Z then leftdigits else 1%Z in
      sign_text neg ++ place_point ds dotplace
      ++ (if (leftdigits =? dotplace)%Z then [] else T "E" ++ exp_text (leftdigits - dotplace))
  end.

(** ** Digits *)

Definition is_digit_list (ds : list N) : Prop := Forall (fun c => ascii_digit c = true) ds.

Lemma fold_digits ds x :
  fold_left (fun acc c => acc * 10 + (c - 48))%N ds x
  = (x * 10 ^ N.of_nat (length ds) + digits_value ds)%N.
Proof.
  unfold digits_value. revert x. induction ds as [|c ds IH]; intros x; cbn [fold_left length].
  - simpl. lia.
  - rewrite (IH (x * 10 + (c - 48))%N), (IH (0 * 10 + (c - 48))%N).
    rewrite Nat2N.inj_succ, N.pow_succ_r'. lia.
Qed.

Lemma digits_value_cons c ds :
  digits_value (c :: ds) = ((c - 48) * 10 ^ N.of_nat (length ds) + digits_value ds)%N.
Proof. unfold digits_value at 1. simpl. rewrite fold_digits. lia. Qed.

Lemma digits_value_single c : digits_value [c] = (c - 48)%N.
Proof. unfold digits_value. simpl. lia. Qed.

Lemma digits_value_app a b :
  digits_value (a ++ b) = (digits_value a * 10 ^ N.of_nat (length b) + digits_value b)%N.
Proof. unfold digits_value at 1. rewrite fold_left_app. fold (digits_value a). apply fold_digits. Qed.

Lemma digits_value_zeros k ds : digits_value (zeros k ++ ds) = digits_value ds.
Proof.
  induction k as [|k IH]; [done|].
  change (zeros (S k) ++ ds) with (48%N :: (zeros k ++ ds)). rewrite digits_value_cons, IH. lia.
Qed.

Lemma size_nat_bound n : (n < 2 ^ N.of_nat (N.size_nat n))%N.
Proof.
  destruct n as [|p]; [simpl; lia|]. simpl.
  induction p as [p IH|p IH|]; simpl; rewrite ?Nat2N.inj_succ, ?N.pow_succ_r'; lia.
Qed.

Lemma n_digits_spec fuel n acc :
  (n < 10 ^ N.of_nat fuel)%N ->
  exists ds, n_digits fuel n acc = ds ++ acc /\ is_digit_list ds /\ digits_value ds = n
             /\ (0 < fuel -> ds <> []).
Proof.
  revert n acc. induction fuel as [|f IH]; intros n acc Hn; simpl.
  - exists []. simpl in Hn. split_and!; [done|apply Forall_nil|unfold digits_value; simpl; lia|lia].
  - rewrite Nat2N.inj_succ, N.pow_succ_r' in Hn.
    pose proof (N.div_mod n 10 ltac:(lia)) as Hdm. pose proof (N.mod_lt n 10 ltac:(lia)) as Hr.
    set (q := (n / 10)%N) in *. set (r := (n mod 10)%N) in *.
    assert (Hdig : ascii_digit (48 + r)%N = true).
    { unfold ascii_digit, in_range. apply andb_true_intro; split; apply N.leb_le; clearbody r; lia. }
    destruct (N.ltb_spec n 10) as [Hlt|Hge].
    + exists [(48 + r)%N]. split_and!; [done|by repeat constructor| |done].
      rewrite digits_value_single. clearbody q r. nia.
    + destruct (IH q ((48 + r)%N :: acc)) as (ds & Hds & Hd & Hv & _).
      { clearbody q r. nia. }
      exists (ds ++ [(48 + r)%N]). rewrite Hds, <- app_assoc.
      split_and!; [done|apply Forall_app; by repeat constructor| |by destruct ds].
      rewrite digits_value_app, Hv, digits_value_single. cbn [length]. rewrite N.pow_1_r.
      clearbody q r. lia.
Qed.

Lemma n_to_dec_spec n :
  is_digit_list (n_to_dec n) /\ digits_value (n_to_dec n) = n /\ n_to_dec n <> [].
Proof.
  unfold n_to_dec. destruct (n_digits_spec (S (N.size_nat n)) n []) as (ds & -> & Hd & Hv & Hne).
  - pose proof (size_nat_bound n). rewrite Nat2N.inj_succ, N.pow_succ_r'.
    assert (2 ^ N.of_nat (N.size_nat n) <= 10 ^ N.of_nat (N.size_nat n))%N
      by (apply N.pow_le_mono_l; lia). lia.
  - rewrite app_nil_r. split_and!; [done|done|apply Hne; lia].
Qed.

Lemma zeros_digits k : is_digit_list (zeros k).
Proof. induction k as [|k IH]; [apply Forall_nil|by constructor]. Qed.

(** ** Scanning *)

Lemma span_digits_app ds r :
  is_digit_list ds -> span_digits (ds ++ r) = ((ds ++ (span_digits r).1), (span_digits r).2).
Proof.
  induction 1 as [|c ds Hc _ IH]; simpl; [by destruct (span_digits r)|].
  rewrite Hc, IH. by destruct (span_digits r).
Qed.

Lemma span_digits_stop c r : ascii_digit c = false -> span_digits (c :: r) = ([], c :: r).
Proof. simpl. by intros ->. Qed.

Lemma span_digits_all ds : is_digit_list ds -> span_digits ds = (ds, []).
Proof. induction 1 as [|c ds Hc _ IH]; simpl; [done|]. by rewrite Hc, IH. Qed.

Lemma parse_exponent_text x : parse_exponent (exp_text x) = Some x.
Proof.
  unfold exp_text, parse_exponent.
  destruct (Z.leb_spec 0 x);
    [destruct (n_to_dec_spec (Z.to_N x)) as (Hd & Hv & Hne)
    |destruct (n_to_dec_spec (Z.to_N (- x))) as (Hd & Hv & Hne)];
    eval_T; cbn [sign_of app N.eqb Pos.eqb]; rewrite (span_digits_all _ Hd);
    (destruct (n_to_dec _) eqn:E; [congruence|cbv beta iota; rewrite Hv; f_equal; lia]).
Qed.

(** ** Parsing what [__str__] prints *)

(** The exponent part [E+x] / [E-x], when there is one. *)
Definition exp_part (o : option Z) : list N :=
  match o with None => [] | Some x => 69%N :: exp_text x end.
Definition exp_value (o : option Z) : Z := match o with None => 0%Z | Some x => x end.

Lemma span_exp_part o : span_digits (exp_part o) = ([], exp_part o).
Proof. by destruct o. Qed.

Lemma parse_finite_point neg ip fp o :
  is_digit_list ip -> is_digit_list fp -> ip ++ fp <> [] ->
  parse_finite neg (ip ++ [46%N] ++ fp ++ exp_part o)
  = Some (DFinite neg (digits_value (ip ++ fp)) (exp_value o - Z.of_nat (length fp))).
Proof.
  intros Hi Hf Hne. unfold parse_finite.
  rewrite span_digits_app by done. cbn [fst snd app].
  rewrite (span_digits_stop 46%N) by done. cbn [fst snd N.eqb Pos.eqb].
  rewrite app_nil_r, span_digits_app, span_exp_part by done. cbn [fst snd]. rewrite app_nil_r.
  destruct (ip ++ fp) eqn:E; [done|]. rewrite <- E.
  destruct o as [x|]; cbn [exp_part exp_value N.eqb Pos.eqb orb].
  - rewrite parse_exponent_text. reflexivity.
  - do 2 f_equal; lia.
Qed.

Lemma parse_finite_int neg ds o :
  is_digit_list ds -> ds <> [] ->
  parse_finite neg (ds ++ exp_part o) = Some (DFinite neg (digits_value ds) (exp_value o)).
Proof.
  intros Hd Hne. unfold parse_finite.
  rewrite span_digits_app, span_exp_part by done. cbn [fst snd].
  destruct ds as [|c ds]; [done|].
  destruct o as [x|]; cbn [exp_part exp_value length]; rewrite !app_nil_r.
  - cbn -[digits_value]. rewrite parse_exponent_text, app_nil_r. do 2 f_equal; lia.
  - reflexivity.
Qed.

Lemma digit_bounds c : ascii_digit c = true -> (48 <= c <= 57)%N.
Proof. unfold ascii_digit, in_range. intros [H1 H2]%andb_prop. apply N.leb_le in H1, H2. lia. Qed.

Lemma in_range_false lo hi c : (c < lo \/ hi < c)%N -> in_range lo hi c = false.
Proof.
  unfold in_range. intros Hc. apply andb_false_iff.
  destruct Hc; [left|right]; apply N.leb_gt; lia.
Qed.

Lemma tolower_digit c : ascii_digit c = true -> ascii_tolower c = c.
Proof.
  intros Hc%digit_bounds. unfold ascii_tolower, ascii_upper. by rewrite in_range_false by lia.
Qed.

(** After the sign, a digit rules out [NaN], [sNaN] and [Inf]. *)
Lemma iprefix_digit p x p' c r :
  T p = x :: p' -> (97 <= x)%N -> ascii_digit c = true -> iprefix p (c :: r) = false.
Proof.
  intros Hp Hx Hc. unfold iprefix. rewrite Hp. cbn [map is_prefix].
  rewrite tolower_digit by done. apply digit_bounds in Hc.
  destruct (N.eqb_spec x c); [lia|done].
Qed.

Lemma sign_of_text neg c r :
  c <> 43%N -> c <> 45%N -> sign_of (sign_text neg ++ c :: r) = (neg, c :: r).
Proof.
  intros H43 H45. destruct neg; [done|]. cbn.
  by rewrite (proj2 (N.eqb_neq c 43) H43), (proj2 (N.eqb_neq c 45) H45).
Qed.

Lemma parse_decimal_digit neg c r :
  ascii_digit c = true -> parse_decimal_ascii (sign_text neg ++ c :: r) = parse_finite neg (c :: r).
Proof.
  intros Hc. pose proof (digit_bounds c Hc).
  unfold parse_decimal_ascii. rewrite sign_of_text by lia. unfold parse_unsigned.
  rewrite (iprefix_digit "nan" 110%N [97; 110]%N), (iprefix_digit "snan" 115%N [110; 97; 110]%N),
    (iprefix_digit "inf" 105%N [110; 102]%N) by (done || lia).
  reflexivity.
Qed.

Lemma exp_part_if (b : bool) x :
  (if b then [] else T "E" ++ exp_text x) = exp_part (if b then None else Some x).
Proof. by destruct b. Qed.

(** The three shapes of [place_point], each read back by [parse_finite]. *)
Lemma parse_small neg ds k o :
  is_digit_list ds ->
  parse_decimal_ascii (sign_text neg ++ (T "0." ++ zeros k ++ ds) ++ exp_part o)
  = Some (DFinite neg (digits_value ds) (exp_value o - Z.of_nat (k + length ds))).
Proof.
  intros Hd. eval_T. cbn [app].
  rewrite parse_decimal_digit by done.
  change (48%N :: 46%N :: (zeros k ++ ds) ++ exp_part o)
    with ([48%N] ++ [46%N] ++ (zeros k ++ ds) ++ exp_part o).
  rewrite parse_finite_point;
    [|by repeat constructor|apply Forall_app; split; [apply zeros_digits|done]|done].
  change ([48%N] ++ zeros k ++ ds) with (zeros (S k) ++ ds).
  rewrite digits_value_zeros, length_app. unfold zeros. by rewrite repeat_length.
Qed.

Lemma parse_whole neg ds o :
  is_digit_list ds -> ds <> [] ->
  parse_decimal_ascii (sign_text neg ++ ds ++ exp_part o)
  = Some (DFinite neg (digits_value ds) (exp_value o)).
Proof.
  intros Hd Hne. destruct ds as [|c r]; [done|].
  inversion Hd as [|? ? Hc _]; subst.
  rewrite <- app_comm_cons, parse_decimal_digit, app_comm_cons by done.
  by apply parse_finite_int.
Qed.

Lemma parse_split neg ds p o :
  is_digit_list ds -> 0 < p < length ds ->
  parse_decimal_ascii (sign_text neg ++ (take p ds ++ T "." ++ drop p ds) ++ exp_part o)
  = Some (DFinite neg (digits_value ds) (exp_value o - Z.of_nat (length ds - p))).
Proof.
  intros Hd Hp. destruct ds as [|c r]; [simpl in Hp; lia|]. destruct p as [|p]; [lia|].
  inversion Hd as [|? ? Hc Hr]; subst. eval_T.
  rewrite firstn_cons, <- !app_assoc, <- app_comm_cons, parse_decimal_digit by done.
  rewrite app_comm_cons, parse_finite_point.
  - cbn [app drop length]. by rewrite take_drop, length_drop.
  - constructor; [done|by apply Forall_take].
  - by apply Forall_drop.
  - done.
Qed.

Lemma parse_str_finite neg coef exp :
  parse_decimal_ascii (decimal_str (DFinite neg coef exp)) = Some (DFinite neg coef exp).
Proof.
  destruct (n_to_dec_spec coef) as (Hd & Hv & Hne).
  cbn [decimal_str]. rewrite exp_part_if.
  remember (n_to_dec coef) as ds eqn:Eds. clear Eds.
  assert (HL : 1 <= length ds) by (destruct ds; [done|simpl; lia]).
  unfold place_point.
  destruct ((exp <=? 0)%Z && (-6 <? exp + Z.of_nat (length ds))%Z) eqn:C.
  - apply andb_prop in C as [C1 _]. apply Z.leb_le in C1. rewrite Z.eqb_refl.
    destruct (Z.leb_spec (exp + Z.of_nat (length ds)) 0) as [H0|H0].
    + rewrite parse_small, Hv by done. cbn [exp_value]. do 2 f_equal. lia.
    + destruct (Z.leb_spec (Z.of_nat (length ds)) (exp + Z.of_nat (length ds))) as [H1|H1].
      * replace (Z.to_nat _ - length ds) with 0 by lia.
        change (zeros 0) with (@nil N). rewrite (app_nil_r ds), parse_whole, Hv by done. cbn [exp_value]. do 2 f_equal. lia.
      * rewrite parse_split, Hv by (done || lia). cbn [exp_value]. do 2 f_equal. lia.
  - replace (1 <=? 0)%Z with false by reflexivity.
    destruct (Z.eqb_spec (exp + Z.of_nat (length ds)) 1) as [E1|E1];
      destruct (Z.leb_spec (Z.of_nat (length ds)) 1) as [H1|H1].
    + replace (Z.to_nat 1 - length ds) with 0 by lia.
      change (zeros 0) with (@nil N). rewrite (app_nil_r ds), parse_whole, Hv by done. cbn [exp_value]. do 2 f_equal. lia.
    + rewrite parse_split, Hv by (done || lia). cbn [exp_value]. do 2 f_equal. lia.
    + replace (Z.to_nat 1 - length ds) with 0 by lia.
      change (zeros 0) with (@nil N). rewrite (app_nil_r ds), parse_whole, Hv by done. cbn [exp_value]. do 2 f_equal. lia.
    + rewrite parse_split, Hv by (done || lia). cbn [exp_value]. do 2 f_equal. lia.
Qed.

Lemma parse_payload_digits ds : is_digit_list ds -> parse_payload ds = Some (digits_value ds).
Proof. intros Hd. unfold parse_payload. by rewrite span_digits_all. Qed.

Lemma nan_payload diag :
  parse_payload (if (diag =? 0)%N then [] else n_to_dec diag) = Some diag.
Proof.
  destruct (N.eqb_spec diag 0) as [->|_]; [done|].
  destruct (n_to_dec_spec diag) as (Hd & Hv & _). by rewrite parse_payload_digits, Hv.
Qed.

Lemma parse_str d : parse_decimal_ascii (decimal_str d) = Some d.
Proof.
  destruct d as [neg coef exp|neg|sig neg diag]; [apply parse_str_finite|by destruct neg|].
  pose proof (nan_payload diag) as Hpl. unfold decimal_str, parse_decimal_ascii.
  set (pl := if (diag =? 0)%N then [] else n_to_dec diag) in *. clearbody pl.
  destruct sig; eval_T; cbn [app]; rewrite sign_of_text by done;
    cbv -[parse_payload]; by rewrite Hpl.
Qed.

(** ** The Unicode layer leaves printed decimals unchanged *)

(** ASCII, not NUL, not [_], not whitespace: what [numeric_as_ascii]
    passes through unchanged. *)
Definition printable (c : N) : bool :=
  (0 <? c)%N && (c <=? 127)%N && negb (c =? 95)%N && negb (ascii_space c).

Definition all_printable (s : list N) : Prop := Forall (fun c => printable c = true) s.

Lemma digit_printable c : ascii_digit c = true -> printable c = true.
Proof.
  intros Hc%digit_bounds. unfold printable, ascii_space.
  rewrite !in_range_false by lia.
  destruct (N.ltb_spec 0 c), (N.leb_spec c 127), (N.eqb_spec c 95); simpl; lia.
Qed.

Lemma digits_printable ds : is_digit_list ds -> all_printable ds.
Proof. apply Forall_impl. apply digit_printable. Qed.

Ltac printable_literal := unfold all_printable; eval_T; repeat constructor.

Lemma printable_place_point ds dot : is_digit_list ds -> all_printable (place_point ds dot).
Proof.
  intros Hd. pose proof (digits_printable _ Hd) as Hp. unfold all_printable in *.
  unfold place_point. destruct (_ <=? _)%Z; [|destruct (_ <=? _)%Z];
    rewrite ?Forall_app; split_and!; auto using Forall_take, Forall_drop;
    try (apply digits_printable, zeros_digits); printable_literal.
Qed.

Lemma printable_exp_text x : all_printable (exp_text x).
Proof.
  unfold exp_text, all_printable. destruct (_ <=? _)%Z; apply Forall_app; split;
    (printable_literal || apply digits_printable, n_to_dec_spec).
Qed.

Lemma printable_str d : all_printable (decimal_str d).
Proof.
  assert (Hsign : forall neg, all_printable (sign_text neg)) by (intros []; printable_literal).
  assert (Hn : forall n, all_printable (n_to_dec n))
    by (intros n; apply digits_printable, n_to_dec_spec).
  pose proof printable_exp_text. unfold all_printable in *.
  destruct d as [neg coef exp|neg|sig neg diag]; cbn [decimal_str];
    rewrite ?Forall_app; split_and!; auto.
  - apply printable_place_point, n_to_dec_spec.
  - case_match; [constructor|]. apply Forall_app; split; [printable_literal|auto].
  - printable_literal.
  - destruct sig; printable_literal.
  - case_match; [constructor|auto].
Qed.

Section UnicodeFacts.
Context `{UnicodeLaws}.

Lemma ascii_digits_of_printable s : all_printable s -> ascii_digits_of s = Some s.
Proof.
  induction 1 as [|c s Hc _ IH]; [done|]. unfold printable in Hc.
  apply andb_prop in Hc as [Hc H4]. apply andb_prop in Hc as [Hc H3].
  apply andb_prop in Hc as [H1 H2]. apply negb_true_iff in H3. cbn. by rewrite H3, H1, H2, IH.
Qed.

Lemma printable_not_space c : printable c = true -> uc_isspace c = false.
Proof.
  unfold printable. intros Hc. apply andb_prop in Hc as [Hc H4]. apply negb_true_iff in H4.
  apply andb_prop in Hc as [Hc _]. apply andb_prop in Hc as [_ H2]. apply N.leb_le in H2.
  rewrite law_space_ascii by lia. done.
Qed.

Lemma drop_space_printable s : all_printable s -> drop_space s = s.
Proof. intros [|c s' Hc _]; [done|]. cbn. by rewrite printable_not_space. Qed.

Lemma py_strip_printable s : all_printable s -> py_strip s = s.
Proof.
  intros Hs. unfold py_strip. rewrite (drop_space_printable s), drop_space_printable by
    (done || by apply Forall_rev). apply rev_involutive.
Qed.

(** [Decimal(str(d)) == d], coefficient and exponent included. *)
Lemma py_Decimal_str d : py_Decimal (decimal_str d) = PyOk d.
Proof.
  unfold py_Decimal, numeric_as_ascii.
  rewrite py_strip_printable, ascii_digits_of_printable by apply printable_str.
  by rewrite parse_str.
Qed.
End UnicodeFacts.
