(* ===== verification/Regex.v ===== *)
(** * Python [re]: the backtracking matcher for the patterns of the code

    The five redaction patterns of [pii_sanitizer.py] and the e-mail
    pattern of [validate_email] use a small fragment of [re]: the word
    boundary [\b], the anchors [^] and [$] (which also matches before a
    final line feed), and greedy repetitions [x{lo,hi}] ([+], [?], [{2,}], ...) of one
    character set ([[A-Za-z0-9._%+-]], [\d], a literal).  For this
    fragment [sre]'s backtracking is exactly: count the longest run the set
    accepts, then retry the rest of the pattern with one character fewer
    until it matches or the count drops below [lo].  [match_here] is that
    procedure; [re_sub] is [re.sub]'s scan; [rmatch] is the declarative
    language of a pattern, against which [match_here] is proved sound and
    complete; [re_match] is [re.match], anchored at the start. *)

From Stdlib Require Import NArith ZArith String.
From stdpp Require Import base list numbers.
From S2P Require Import Prelude.

(** A member of a character set. *)
Inductive citem :=
  | CChar (c : char)          (** a literal character *)
  | CRange (lo hi : char)     (** [a-z] *)
  | CDigit.                   (** [\d] *)

Inductive atom :=
  | ABound                                      (** [\b] *)
  | ABegin                                      (** [^] (no [MULTILINE]) *)
  | AEnd                                        (** [$] (no [MULTILINE]) *)
  | ARep (set : list citem) (lo : nat) (hi : option nat).  (** greedy [set{lo,hi}] *)

Record regex := mk_regex { rx_atoms : list atom; rx_icase : bool }.

(** [_casefix]: lower-case letters that share an upper case with another
    lower-case letter; [sre] adds them to a set under [IGNORECASE].  Only
    the entries reachable from ASCII letters are listed. *)
Definition casefix (c : char) : list char :=
  if (c =? 105)%N then [305%N]          (* i : dotless i *)
  else if (c =? 305)%N then [105%N]
  else if (c =? 115)%N then [383%N]     (* s : long s *)
  else if (c =? 383)%N then [115%N]
  else [].

(** A single character of a source literal. *)
Definition chr (s : string) : char := hd 0%N (T s).

(** A literal substring [abc] of a pattern. *)
Definition lit (s : string) : list atom := map (fun c => ARep [CChar c] 1 (Some 1)) (T s).

Definition plus (set : list citem) : atom := ARep set 1 None.

Definition enum_range (lo hi : char) : list char :=
  enum_from lo (S (N.to_nat (hi - lo))).

(** [$] holds at the end of the string and before a final newline
    ([SRE_AT_END]). *)
Definition at_end (s : text) : bool :=
  match s with [] => true | [c] => (c =? 10)%N | _ => false end.

Fixpoint last_opt (s : text) : option char :=
  match s with [] => None | [c] => Some c | _ :: s' => last_opt s' end.

Section Engine.
Context `{UnicodeDB}.

Definition fold_eq (lc lx : char) : bool := (lc =? lx)%N || existsb (N.eqb lc) (casefix lx).

(** Membership of [c] in one item; under [IGNORECASE] [sre] compares the
    lower-cased character with the lower-cased members and their
    [_casefix] companions. *)
Definition item_match (icase : bool) (it : citem) (c : char) : bool :=
  match it with
  | CDigit => uc_isdecimal c
  | CChar x => if icase then fold_eq (uc_lower1 c) (uc_lower1 x) else (c =? x)%N
  | CRange lo hi =>
      if icase then existsb (fun x => fold_eq (uc_lower1 c) (uc_lower1 x)) (enum_range lo hi)
      else in_range lo hi c
  end.

Definition set_match (icase : bool) (set : list citem) (c : char) : bool :=
  existsb (fun it => item_match icase it c) set.

(** [\w] for [str] patterns: alphanumeric or underscore. *)
Definition is_word (c : char) : bool := uc_isalnum c || (c =? 95)%N.
Definition word_at (o : option char) : bool :=
  match o with Some c => is_word c | None => false end.

(** [\b] between the previous character and the next one. *)
Definition boundary (prev : option char) (s : text) : bool :=
  xorb (word_at prev) (word_at (head s)).

(** Longest prefix of [s], at most [bound] long, whose characters satisfy [f]. *)
Fixpoint run_len (f : char -> bool) (bound : nat) (s : text) : nat :=
  match bound, s with
  | S b, c :: s' => if f c then S (run_len f b s') else 0
  | _, _ => 0
  end.

(** The character before position [k] of [s], given the one before [s]. *)
Definition advance (prev : option char) (s : text) (k : nat) : option char :=
  match k with O => prev | S _ => last_opt (take k s) end.

Definition rep_bound (hi : option nat) (s : text) : nat :=
  match hi with Some h => h | None => length s end.

(** [sre]'s backtracking over a greedy repeat: from the longest count
    [k] down to [lo], the first count whose continuation [tail] matches. *)
Fixpoint try_counts (lo : nat) (tail : nat -> option nat) (k : nat) : option nat :=
  if k <? lo then None
  else match tail k with
       | Some m => Some (k + m)
       | None => match k with O => None | S k' => try_counts lo tail k' end
       end.

(** The first match of [ps] at the start of [s] in [sre]'s order: the
    length it consumes. *)
Fixpoint match_here (ps : list atom) (icase : bool) (prev : option char) (s : text)
    : option nat :=
  match ps with
  | [] => Some 0
  | ABound :: ps' => if boundary prev s then match_here ps' icase prev s else None
  | ABegin :: ps' => match prev with None => match_here ps' icase prev s | Some _ => None end
  | AEnd :: ps' => if at_end s then match_here ps' icase prev s else None
  | ARep set lo hi :: ps' =>
      try_counts lo (fun k => match_here ps' icase (advance prev s k) (drop k s))
        (run_len (set_match icase set) (rep_bound hi s) s)
  end.

Definition rx_match (r : regex) (prev : option char) (s : text) : option nat :=
  match_here (rx_atoms r) (rx_icase r) prev s.

(** [re.sub(pattern, repl, s)]: scan left to right; at each position
    the first match is replaced and the scan resumes after it, otherwise
    the character is copied.  [\b] looks at the original string, so the
    previous character is the last one consumed.  Patterns of the code
    never match the empty string ([min_width] below), so a match always
    consumes at least one character and [length s] steps suffice. *)
Fixpoint sub_go (fuel : nat) (r : regex) (repl : text) (prev : option char) (s : text)
    : text :=
  match fuel with
  | O => s
  | S f =>
      match s with
      | [] => []
      | c :: s' =>
          match rx_match r prev s with
          | Some (S n) => repl ++ sub_go f r repl (advance prev s (S n)) (drop (S n) s)
          | _ => c :: sub_go f r repl (Some c) s'
          end
      end
  end.

Definition re_sub (r : regex) (repl : text) (s : text) : text :=
  sub_go (length s) r repl None s.

(** [re.search(pattern, s) is not None]. *)
Fixpoint search_go (r : regex) (prev : option char) (s : text) : bool :=
  match rx_match r prev s with
  | Some _ => true
  | None => match s with [] => false | c :: s' => search_go r (Some c) s' end
  end.

Definition re_search (r : regex) (s : text) : bool := search_go r None s.

(** [re.match(pattern, s) is not None]: a match at the start only. *)
Definition re_match (r : regex) (s : text) : bool :=
  match rx_match r None s with Some _ => true | None => false end.

(** Fewest characters any match consumes. *)
Fixpoint min_width (ps : list atom) : nat :=
  match ps with
  | [] => 0
  | ABound :: ps' | ABegin :: ps' | AEnd :: ps' => min_width ps'
  | ARep _ lo _ :: ps' => lo + min_width ps'
  end.
End Engine.

Create HintDb rxhints discriminated.

Section EngineFacts.
Context `{UnicodeDB}.

(** The language of a pattern: every way [ps] can match at the start of
    [s], with the number of characters consumed. *)
Inductive rmatch (icase : bool) : list atom -> option char -> text -> nat -> Prop :=
  | rm_nil prev s : rmatch icase [] prev s 0
  | rm_bound ps prev s n :
      boundary prev s = true -> rmatch icase ps prev s n ->
      rmatch icase (ABound :: ps) prev s n
  | rm_begin ps s n : rmatch icase ps None s n -> rmatch icase (ABegin :: ps) None s n
  | rm_end ps prev s n :
      at_end s = true -> rmatch icase ps prev s n -> rmatch icase (AEnd :: ps) prev s n
  | rm_rep set lo hi ps prev s k m :
      lo <= k -> k <= rep_bound hi s -> k <= length s ->
      Forall (fun c => set_match icase set c = true) (take k s) ->
      rmatch icase ps (advance prev s k) (drop k s) m ->
      rmatch icase (ARep set lo hi :: ps) prev s (k + m).

Lemma run_len_bound f b s : run_len f b s <= b /\ run_len f b s <= length s.
Proof.
  revert b. induction s as [|c s IH]; intros [|b]; simpl; try lia.
  destruct (f c); [|lia]. specialize (IH b). lia.
Qed.

Lemma run_len_forall f b s k : k <= run_len f b s -> Forall (fun c => f c = true) (take k s).
Proof.
  revert b k. induction s as [|c s IH]; intros [|b] [|k]; simpl; intros Hk;
    rewrite ?take_nil; try apply Forall_nil; try lia.
  destruct (f c) eqn:E; [|lia]. constructor; [done|]. apply (IH b). lia.
Qed.

Lemma run_len_maximal f b s k :
  k <= b -> k <= length s -> Forall (fun c => f c = true) (take k s) -> k <= run_len f b s.
Proof.
  revert b k. induction s as [|c s IH]; intros [|b] [|k]; simpl; intros Hb Hl Hf; try lia.
  inversion Hf as [|? ? Hc Hrest]; subst. rewrite Hc.
  specialize (IH b k ltac:(lia) ltac:(lia) Hrest). lia.
Qed.

Lemma try_counts_sound lo tail n r :
  try_counts lo tail n = Some r ->
  exists k m, lo <= k <= n /\ tail k = Some m /\ r = k + m.
Proof.
  induction n as [|n IH]; simpl; intros Hr.
  - destruct (0 <? lo) eqn:Hlo; [done|]. apply Nat.ltb_ge in Hlo.
    destruct (tail 0) as [m|] eqn:Ht; [|done]. injection Hr as <-.
    exists 0, m. split; [lia|done].
  - destruct (S n <? lo) eqn:Hlo; [done|]. apply Nat.ltb_ge in Hlo.
    destruct (tail (S n)) as [m|] eqn:Ht.
    + injection Hr as <-. exists (S n), m. split; [lia|done].
    + destruct (IH Hr) as (k & m & Hk & Hm & ->). exists k, m. split; [lia|done].
Qed.

Lemma try_counts_complete lo tail n k m :
  lo <= k <= n -> tail k = Some m -> exists r, try_counts lo tail n = Some r.
Proof.
  induction n as [|n IH]; intros Hk Hm; simpl.
  - assert (k = 0) as -> by lia. destruct (0 <? lo) eqn:Hlo.
    + apply Nat.ltb_lt in Hlo. lia.
    + rewrite Hm. eauto.
  - destruct (S n <? lo) eqn:Hlo; [apply Nat.ltb_lt in Hlo; lia|].
    destruct (tail (S n)) as [m'|] eqn:Ht; [eauto|].
    destruct (decide (k = S n)) as [->|Hne]; [congruence|].
    apply IH; [lia|done].
Qed.

Lemma rmatch_min_width icase ps prev s n :
  rmatch icase ps prev s n -> min_width ps <= n.
Proof. induction 1; simpl; lia. Qed.

(** The matcher only reports matches of the pattern. *)
Theorem match_here_sound icase ps prev s n :
  match_here ps icase prev s = Some n -> rmatch icase ps prev s n.
Proof.
  revert prev s n. induction ps as [|[| | |set lo hi] ps IH]; intros prev s n Hm; simpl in Hm.
  - injection Hm as <-. constructor.
  - destruct (boundary prev s) eqn:Hb; [|done]. constructor; auto.
  - destruct prev; [done|]. constructor; auto.
  - destruct (at_end s) eqn:He; [|done]. constructor; auto.
  - apply try_counts_sound in Hm as (k & m & Hk & Hm & ->).
    pose proof (run_len_bound (set_match icase set) (rep_bound hi s) s).
    apply rm_rep; try lia; [|auto].
    apply (run_len_forall _ (rep_bound hi s)). lia.
Qed.

(** Backtracking is exhaustive: when the pattern can match at a
    position, the matcher finds a match there. *)
Theorem match_here_complete icase ps prev s n :
  rmatch icase ps prev s n -> exists n', match_here ps icase prev s = Some n'.
Proof.
  induction 1 as [| ps prev s n Hb _ IH | ps s n _ IH | ps prev s n He _ IH
                  | set lo hi ps prev s k m Hlo Hhi Hlen Hall _ IH];
    simpl; [eauto|by rewrite Hb|done|by rewrite He|].
  destruct IH as [m' Hm']. eapply try_counts_complete; [|exact Hm'].
  split; [done|]. by apply run_len_maximal.
Qed.



(** The scan of [re.sub] gives the same result with any fuel at
    least the length of the text, so the fuel [length s] of [re_sub]
    loses nothing. *)
Lemma sub_go_fuel r repl f1 f2 prev s :
  length s <= f1 -> length s <= f2 -> sub_go f1 r repl prev s = sub_go f2 r repl prev s.
Proof.
  revert f2 prev s. induction f1 as [|f1 IH]; intros f2 prev s H1 H2.
  - destruct s; [by destruct f2|simpl in H1; lia].
  - destruct f2 as [|f2]; [destruct s; [done|simpl in H2; lia]|].
    destruct s as [|c s]; simpl; [done|]. simpl in H1, H2.
    destruct (rx_match r prev (c :: s)) as [[|n]|]; f_equal; apply IH;
      rewrite ?length_drop; lia.
Qed.
End EngineFacts.

Section RunFacts.
Context `{UnicodeDB}.

Lemma try_counts_top lo tail n m :
  lo <= n -> tail n = Some m -> try_counts lo tail n = Some (n + m).
Proof.
  intros Hlo Hm. destruct n as [|n]; simpl;
    (destruct (_ <? lo) eqn:E; [apply Nat.ltb_lt in E; lia|]); by rewrite Hm.
Qed.

Lemma try_counts_none lo tail n :
  (forall k, lo <= k <= n -> tail k = None) -> try_counts lo tail n = None.
Proof.
  intros Hk. destruct (try_counts lo tail n) eqn:E; [|done].
  apply try_counts_sound in E as (k & m & Hr & Hm & _). by rewrite Hk in Hm.
Qed.

Lemma run_len_app f b u rest :
  Forall (fun c => f c = true) u -> length u <= b ->
  match rest with [] => True | c :: _ => f c = false end ->
  run_len f b (u ++ rest) = length u.
Proof.
  revert b. induction u as [|c u IH]; intros b Hu Hb Hr; simpl.
  - destruct b, rest; simpl; try done. by rewrite Hr.
  - destruct b as [|b]; [simpl in Hb; lia|]. inversion Hu; subst. simpl.
    rewrite H2, (IH b); auto. simpl in Hb. lia.
Qed.

Lemma last_opt_app_single l c : last_opt (l ++ [c]) = Some c.
Proof. induction l as [|x [|y l] IH]; simpl in *; auto. Qed.

Lemma last_opt_elem l c : last_opt l = Some c -> c ∈ l.
Proof.
  induction l as [|x [|y l] IH]; simpl; intros Hl; try done.
  - injection Hl as ->. apply elem_of_cons. by left.
  - apply elem_of_cons. right. by apply IH.
Qed.

Lemma last_opt_nonempty l : l <> [] -> exists c, last_opt l = Some c.
Proof. destruct l as [|x l] using rev_ind; [done|]. rewrite last_opt_app_single. eauto. Qed.

(** After consuming [k >= 1] characters that all satisfy [P], the
    previous character satisfies [P]. *)
Lemma advance_forall (P : char -> Prop) prev s k :
  1 <= k -> k <= length s -> Forall P (take k s) ->
  exists c, advance prev s k = Some c /\ P c.
Proof.
  intros Hk Hl HP. destruct k as [|k]; [lia|]. simpl.
  destruct (last_opt_nonempty (take (S k) s)) as [c Hc].
  { destruct s as [|x s]; simpl in Hl; [lia|]. done. }
  exists c. split; [done|]. rewrite Forall_forall in HP. apply HP.
  apply list_elem_of_In. by apply last_opt_elem.
Qed.

Lemma head_drop_forall (P : char -> Prop) ds x l k :
  Forall P ds -> P x -> k <= length ds ->
  exists c, head (drop k (ds ++ x :: l)) = Some c /\ P c.
Proof.
  revert k. induction ds as [|d ds IH]; intros [|k] Hds Hx Hk; simpl in *; eauto; try lia.
  - inversion Hds; subst. eauto.
  - inversion Hds; subst. apply IH; auto. lia.
Qed.

(** ** Inverting a derivation of [rmatch] *)

Lemma rmatch_begin_inv icase ps prev s n :
  rmatch icase (ABegin :: ps) prev s n -> prev = None /\ rmatch icase ps prev s n.
Proof. inversion 1; subst; auto. Qed.

Lemma rmatch_rep_inv icase set lo hi ps prev s n :
  rmatch icase (ARep set lo hi :: ps) prev s n ->
  exists k m, n = k + m /\ lo <= k /\ k <= rep_bound hi s /\ k <= length s /\
    Forall (fun c => set_match icase set c = true) (take k s) /\
    rmatch icase ps (advance prev s k) (drop k s) m.
Proof. inversion 1; subst. eexists _, _. eauto 10. Qed.

(** The character [c] is refused by the set of an atom. *)
Definition atom_avoids (icase : bool) (c : char) (a : atom) : bool :=
  match a with ARep set _ _ => negb (set_match icase set c) | _ => true end.

Lemma app_end_cons a ps ps0 : a :: ps = ps0 ++ [AEnd] -> a = AEnd /\ ps = [] \/ exists ps1, ps = ps1 ++ [AEnd].
Proof. destruct ps0 as [|b ps1]; simpl; intros [= -> ->]; [by left|right; eauto]. Qed.

(** A pattern that ends with [$] and whose sets all refuse [c] (other
    than a newline) matches only texts without [c]. *)
Lemma rmatch_end_avoid icase ps ps0 prev s n c :
  rmatch icase ps prev s n -> ps = ps0 ++ [AEnd] -> forallb (atom_avoids icase c) ps = true ->
  (c =? 10)%N = false -> c ∉ s.
Proof.
  intros Hm. revert ps0.
  induction Hm as [prev s|ps prev s n _ _ IH|ps s n _ IH|ps prev s n He _ _
                  |set lo hi ps prev s k m _ _ _ Hall _ IH];
    intros ps0 Hps; cbn [forallb atom_avoids]; intros Hav Hc.
  - by destruct ps0.
  - apply app_end_cons in Hps as [[? _]|[ps1 Hps]]; [done|eauto].
  - apply app_end_cons in Hps as [[? _]|[ps1 Hps]]; [done|eauto].
  - destruct s as [|x [|y r]]; cbn in He; [apply not_elem_of_nil| |done].
    apply N.eqb_eq in He as ->. rewrite list_elem_of_singleton. intros ->. by rewrite N.eqb_refl in Hc.
  - apply andb_prop in Hav as [Hset Hav]. apply negb_true_iff in Hset.
    apply app_end_cons in Hps as [[? _]|[ps1 Hps]]; [done|].
    rewrite <- (take_drop k s), elem_of_app. intros [Hin|Hin]; [|by eapply IH in Hin].
    rewrite Forall_forall in Hall. apply list_elem_of_In, Hall in Hin. congruence.
Qed.
(** The greedy repeat stops at the longest count [k0] from which the
    rest of the pattern matches. *)
Lemma try_counts_first lo tail n k0 m :
  lo <= k0 <= n -> (forall k, k0 < k <= n -> tail k = None) -> tail k0 = Some m ->
  try_counts lo tail n = Some (k0 + m).
Proof.
  induction n as [|n IH]; intros Hk Hnone Hm.
  - assert (k0 = 0) as -> by lia. by apply try_counts_top; [lia|].
  - destruct (decide (k0 = S n)) as [->|Hne]; [by apply try_counts_top; [lia|]|].
    cbn [try_counts]. destruct (S n <? lo) eqn:E; [apply Nat.ltb_lt in E; lia|].
    rewrite Hnone by lia. apply IH; [lia| |done]. intros k Hk'. apply Hnone. lia.
Qed.

(** A pattern with a repeat of [\d] at least once matches only a text
    holding a decimal digit. *)
Lemma rmatch_needs_digit icase ps prev s n lo hi :
  rmatch icase ps prev s n -> In (ARep [CDigit] lo hi) ps -> 1 <= lo ->
  exists c, c ∈ s /\ uc_isdecimal c = true.
Proof.
  induction 1 as [prev s|ps prev s n _ _ IH|ps s n _ IH|ps prev s n _ _ IH
                 |set lo' hi' ps prev s k m Hlo _ Hk Hall _ IH]; intros Hin Hl.
  - done.
  - apply IH; [by destruct Hin as [?|Hin]|done].
  - apply IH; [by destruct Hin as [?|Hin]|done].
  - apply IH; [by destruct Hin as [?|Hin]|done].
  - destruct Hin as [[= -> -> ->]|Hin].
    + destruct s as [|c s]; [cbn in Hk; lia|]. exists c. split; [by left|].
      destruct k as [|k]; [lia|]. inversion Hall as [|? ? Hc _]; subst.
      cbn in Hc. by rewrite orb_false_r in Hc.
    + destruct (IH Hin Hl) as (c & Hc & Hd). exists c. split; [|done].
      rewrite <- (take_drop k s). apply elem_of_app. by right.
Qed.

(** [re.sub] changes nothing in a text none of whose suffixes the
    pattern matches. *)
Lemma sub_go_no_match (Q : char -> Prop) fuel r repl prev s :
  (forall p u, Forall Q u -> rx_match r p u = None) -> Forall Q s -> sub_go fuel r repl prev s = s.
Proof.
  intros Hr. revert fuel prev. induction s as [|c s IH]; intros [|fuel] prev Hs; try done.
  inversion Hs as [|? ? Hc Hs']; subst. cbn [sub_go]. rewrite (Hr prev (c :: s) Hs). f_equal. by apply IH.
Qed.

(** ** Character sets on ASCII *)

(** A property of the characters below 128, checked on each of them. *)
Lemma ascii_brute (f : char -> bool) :
  forallb (fun n => f (N.of_nat n)) (seq 0 128) = true -> forall c, (c < 128)%N -> f c = true.
Proof.
  intros Hall c Hc. rewrite forallb_forall in Hall.
  rewrite <- (N2Nat.id c). apply Hall, in_seq. lia.
Qed.

(** A set item made of characters below 128. *)
Definition ascii_item (it : citem) : bool :=
  match it with CChar x => (x <? 128)%N | CRange _ hi => (hi <? 128)%N | CDigit => false end.

(** Without [IGNORECASE] a set of ASCII items refuses every character
    from 128 on. *)
Lemma set_match_high set c :
  forallb ascii_item set = true -> (128 <= c)%N -> set_match false set c = false.
Proof.
  intros Hs Hc. apply not_true_iff_false. unfold set_match. intros (it & Hin & Hm)%existsb_exists.
  rewrite forallb_forall in Hs. specialize (Hs it Hin).
  destruct it as [x|lo hi|]; cbn in Hs, Hm; [|unfold in_range in Hm; apply andb_prop in Hm as [_ Hm]|done];
    apply N.ltb_lt in Hs; [apply N.eqb_eq in Hm|apply N.leb_le in Hm]; lia.
Qed.

End RunFacts.
