(* ===== verification/Sanitizer.v ===== *)
(** * [pii_sanitizer.py]: redaction before the OpenAI call

    [PIISanitizer] turns a request body into a sanitized dict: the user id
    becomes a salted-hash token, the message and every history entry go
    through the five [PII_PATTERNS] substitutions, and the blood, gene and
    vital payloads are cut down to allow-listed fields.  The file follows
    the class method by method ([get_salt], [anonymize_user_id],
    [sanitize_text], [sanitize_blood_data], [sanitize_gene_data],
    [sanitize_vital_data], [sanitize_conversation_history],
    [sanitize_request]); the process environment is an explicit argument
    and [hashlib.sha256] an interface ([Sha256]).  The theorems: no SNP
    identifier survives [sanitize_text], and a whole e-mail address,
    whatever the number of its domain labels, becomes ["[EMAIL]"] (the
    character sets of its pattern are [EMAIL_LOCAL], [EMAIL_DOMAIN] and
    [EMAIL_TLD]). *)

From Stdlib Require Import NArith ZArith QArith String.
From stdpp Require Import base list numbers.
From S2P Require Import Prelude PyJson Regex.

Definition digits (lo hi : nat) : atom := ARep [CDigit] lo (Some hi).
Definition optional (set : list citem) : atom := ARep set 0 (Some 1).
Definition dash : list citem := [CChar (chr "-"); CChar (chr "−")].

(** [\b[A-Za-z0-9._%+-]+@[A-Za-z0-9.-]+\.[A-Z|a-z]{2,}\b] *)
Definition EMAIL_RE : regex := mk_regex
  ([ABound;
    plus [CRange (chr "A") (chr "Z"); CRange (chr "a") (chr "z"); CRange (chr "0") (chr "9");
          CChar (chr "."); CChar (chr "_"); CChar (chr "%"); CChar (chr "+"); CChar (chr "-")]]
   ++ lit "@" ++
   [plus [CRange (chr "A") (chr "Z"); CRange (chr "a") (chr "z"); CRange (chr "0") (chr "9");
          CChar (chr "."); CChar (chr "-")]]
   ++ lit "." ++
   [ARep [CRange (chr "A") (chr "Z"); CChar (chr "|"); CRange (chr "a") (chr "z")] 2 None;
    ABound]) true.

(** [\b0\d{1,4}[-−]?\d{1,4}[-−]?\d{4}\b] *)
Definition PHONE_RE : regex := mk_regex
  ([ABound] ++ lit "0" ++
   [digits 1 4; optional dash; digits 1 4; optional dash; digits 4 4; ABound]) true.

(** [\b\d{3}[-−]?\d{4}[-−]?\d{4}\b] *)
Definition ID_RE : regex := mk_regex
  [ABound; digits 3 3; optional dash; digits 4 4; optional dash; digits 4 4; ABound] true.

(** [\b\d{4}[-/]\d{1,2}[-/]\d{1,2}\b] *)
Definition DATE_RE : regex := mk_regex
  [ABound; digits 4 4; ARep [CChar (chr "-"); CChar (chr "/")] 1 (Some 1); digits 1 2;
   ARep [CChar (chr "-"); CChar (chr "/")] 1 (Some 1); digits 1 2; ABound] true.

(** [\brs\d+\b] *)
Definition SNP_RE : regex := mk_regex
  ([ABound] ++ lit "rs" ++ [ARep [CDigit] 1 None; ABound]) true.

(** [PIISanitizer.PII_PATTERNS], all used with [flags=re.IGNORECASE]. *)
Definition PII_PATTERNS : list (regex * text) :=
  [(EMAIL_RE, T "[EMAIL]"); (PHONE_RE, T "[PHONE]"); (ID_RE, T "[ID]");
   (DATE_RE, T "[DATE]"); (SNP_RE, T "[SNP]")].

(** [hashlib.sha256(data).hexdigest()]. *)
Class Sha256 := { sha256_hexdigest : list N -> text }.

(** [os.environ]. *)
Definition environ := list (text * text).

Fixpoint env_get (env : environ) (k : text) : option text :=
  match env with
  | [] => None
  | (k', v) :: env' => if text_eqb k k' then Some v else env_get env' k
  end.

Section Sanitize.
Context `{UnicodeDB} `{Sha256} `{PyRepr}.

Definition apply_patterns (pats : list (regex * text)) (s : text) : text :=
  fold_left (fun acc pr => re_sub pr.1 pr.2 acc) pats s.

(** [sanitize_text]: [re.sub] of each pattern in order.  A falsy
    argument gives [""]; [re.sub] raises on anything but a [str]. *)
Definition sanitize_text (v : pyval) : Py text :=
  if negb (truthy v) then PyOk []
  else match v with
       | VStr s => PyOk (apply_patterns PII_PATTERNS s)
       | _ => PyRaise (mk_exn TypeError (T "expected string or bytes-like object"))
       end.

Definition salt_missing : exn :=
  mk_exn ValueError (T "PII_SALT environment variable is required. Set it in Lambda configuration.").

(** [get_salt]: [os.environ.get('PII_SALT')], refusing a missing or
    empty value. *)
Definition get_salt (env : environ) : Py text :=
  match env_get env (T "PII_SALT") with
  | Some (_ :: _ as salt) => PyOk salt
  | _ => PyRaise salt_missing
  end.

(** [anonymize_user_id]: ["anonymous"] for a falsy id, otherwise
    ["user_"] and the first 12 hex digits of the SHA-256 of
    [f"{salt}:{user_id}".encode()]. *)
Definition anonymize_user_id (env : environ) (user_id : pyval) : Py text :=
  if negb (truthy user_id) then PyOk (T "anonymous")
  else match get_salt env with
       | PyRaise e => PyRaise e
       | PyOk salt =>
           match utf8_encode (salt ++ T ":" ++ py_str user_id) with
           | None => PyRaise (mk_exn UnicodeEncodeError (T "surrogates not allowed"))
           | Some bytes => PyOk (T "user_" ++ take 12 (sha256_hexdigest bytes))
           end
       end.
End Sanitize.

Section Structured.
Context `{UnicodeDB} `{Sha256} `{PyRepr}.

Definition pstr (s : string) : pyval := VStr (T s).

(** One item of [sanitize_blood_data]'s comprehension. *)
Definition sanitize_blood_item (item : pyval) : Py pyval :=
  match item with
  | VDict kvs =>
      PyOk (VDict [(T "name", dget kvs (T "nameJp") (dget kvs (T "name") (pstr "")));
                   (T "value", dget kvs (T "value") (pstr ""));
                   (T "unit", dget kvs (T "unit") (pstr ""));
                   (T "status", dget kvs (T "status") (pstr ""));
                   (T "reference", dget kvs (T "reference") (pstr ""))])
  | _ => PyRaise (attr_error "object has no attribute 'get'")
  end.

Definition sanitize_blood_data (blood : pyval) : Py pyval :=
  if negb (truthy blood) then PyOk (VList [])
  else match py_iter blood with
       | PyRaise e => PyRaise e
       | PyOk items => match py_mapM sanitize_blood_item items with
                       | PyRaise e => PyRaise e
                       | PyOk out => PyOk (VList out)
                       end
       end.

(** One marker of a list-shaped category. *)
Definition gene_list_entry (marker : pyval) : Py pyval :=
  match marker with
  | VDict kvs =>
      let impact := dget kvs (T "impact") VNone in
      PyOk (VDict
        [(T "title", dget kvs (T "title") (pstr ""));
         (T "impact_level",
            match impact with VDict ikvs => dget ikvs (T "score") (VInt 0) | _ => VInt 0 end);
         (T "score_level",
            dget kvs (T "scoreLevel")
              (match impact with VDict ikvs => dget ikvs (T "scoreLevel") (pstr "") | _ => pstr "" end))])
  | _ => PyRaise (attr_error "object has no attribute 'get'")
  end.

(** A category holding a single marker dict. *)
Definition gene_single_entry (kvs : list (text * pyval)) : pyval :=
  VDict [(T "title", dget kvs (T "title") (pstr ""));
         (T "impact_level",
            match dget kvs (T "impact") VNone with
            | VDict ikvs => dget ikvs (T "score") (VInt 0)
            | _ => dget kvs (T "score") (VInt 0)
            end);
         (T "score_level", dget kvs (T "scoreLevel") (pstr ""))].

(** The [for category, data in gene_data.items()] loop. *)
Fixpoint gene_loop (cats : list (text * pyval)) (acc : list (text * pyval))
    : Py (list (text * pyval)) :=
  match cats with
  | [] => PyOk acc
  | (cat, data) :: rest =>
      if text_eqb cat (T "availableCategories") then gene_loop rest acc
      else match data with
           | VList markers =>
               match py_mapM gene_list_entry markers with
               | PyRaise e => PyRaise e
               | PyOk entries => gene_loop rest (dict_set acc cat (VList entries))
               end
           | VDict kvs => gene_loop rest (dict_set acc cat (gene_single_entry kvs))
           | _ => gene_loop rest acc
           end
  end.

Definition sanitize_gene_data (gene : pyval) : Py pyval :=
  if negb (truthy gene) then PyOk (VDict [])
  else match gene with
       | VDict cats => match gene_loop cats [] with
                       | PyRaise e => PyRaise e
                       | PyOk out => PyOk (VDict out)
                       end
       | _ => PyRaise (attr_error "object has no attribute 'items'")
       end.
End Structured.

Section VitalsHistory.
Context `{UnicodeDB} `{Sha256} `{PyRepr}.
Local Open Scope string_scope.

(** [sanitize_vital_data]: presence flags and coarse levels only. *)
Definition sanitize_vital_data (vital : pyval) : Py pyval :=
  if negb (truthy vital) then PyOk (VDict [])
  else match vital with
       | VDict kvs =>
           let g (k : string) := dget kvs (T k) VNone in
           match py_gt (py_or (g "vo2Max") (VInt 0)) 45 with
           | PyRaise e => PyRaise e
           | PyOk hi45 =>
           match (if hi45 then PyOk (pstr "high") else
                  match py_gt (py_or (g "vo2Max") (VInt 0)) 35 with
                  | PyRaise e => PyRaise e
                  | PyOk hi35 => PyOk (if hi35 then pstr "moderate"
                                       else if truthy (g "vo2Max") then pstr "low" else VNone)
                  end) with
           | PyRaise e => PyRaise e
           | PyOk vo2_level =>
           match py_lt (py_or (g "restingHeartRate") (VInt 100)) 55 with
           | PyRaise e => PyRaise e
           | PyOk lt55 =>
           match (if lt55 then PyOk (pstr "athlete") else
                  match py_lt (py_or (g "restingHeartRate") (VInt 100)) 70 with
                  | PyRaise e => PyRaise e
                  | PyOk lt70 => PyOk (if lt70 then pstr "good" else pstr "average")
                  end) with
           | PyRaise e => PyRaise e
           | PyOk hr_level =>
               PyOk (VDict
                 [(T "has_body_composition", VBool (truthy (g "bodyMass")));
                  (T "has_heart_data",
                     VBool (truthy (py_or (g "restingHeartRate") (g "heartRateVariability"))));
                  (T "has_activity_data",
                     VBool (truthy (py_or (g "stepCount") (g "activeEnergyBurned"))));
                  (T "has_vo2max", VBool (truthy (g "vo2Max")));
                  (T "vo2max_level", vo2_level);
                  (T "resting_hr_level", hr_level)])
           end end end end
       | _ => PyRaise (attr_error "object has no attribute 'get'")
       end.

Definition sanitize_history_entry (msg : pyval) : Py pyval :=
  match msg with
  | VDict kvs =>
      match sanitize_text (dget kvs (T "content") (pstr "")) with
      | PyRaise e => PyRaise e
      | PyOk c => PyOk (VDict [(T "role", dget kvs (T "role") (pstr "")); (T "content", VStr c)])
      end
  | _ => PyRaise (attr_error "object has no attribute 'get'")
  end.

Definition sanitize_conversation_history (history : pyval) : Py pyval :=
  if negb (truthy history) then PyOk (VList [])
  else match py_iter history with
       | PyRaise e => PyRaise e
       | PyOk msgs => match py_mapM sanitize_history_entry msgs with
                      | PyRaise e => PyRaise e
                      | PyOk out => PyOk (VList out)
                      end
       end.

(** [if key in request_data and request_data[key]: sanitized[key] = f(...)] *)
Definition sanitize_optional (req : list (text * pyval)) (key : string)
    (f : pyval -> Py pyval) (acc : list (text * pyval)) : Py (list (text * pyval)) :=
  match dict_lookup req (T key) with
  | Some v => if truthy v then
                match f v with
                | PyRaise e => PyRaise e
                | PyOk v' => PyOk (dict_set acc (T key) v')
                end
              else PyOk acc
  | None => PyOk acc
  end.

(** [sanitize_request] (and [sanitize_for_openai], which only calls it). *)
Definition sanitize_request (env : environ) (body : pyval) : Py pyval :=
  match body with
  | VDict req =>
      match anonymize_user_id env (dget req (T "userId") (pstr "")) with
      | PyRaise e => PyRaise e
      | PyOk token =>
      match sanitize_text (dget req (T "message") (pstr "")) with
      | PyRaise e => PyRaise e
      | PyOk msg =>
      let acc := [(T "user_token", VStr token); (T "message", VStr msg);
                  (T "topic", dget req (T "topic") (pstr "general_health"))] in
      match sanitize_optional req "bloodData" sanitize_blood_data acc with
      | PyRaise e => PyRaise e
      | PyOk acc =>
      match sanitize_optional req "geneData" sanitize_gene_data acc with
      | PyRaise e => PyRaise e
      | PyOk acc =>
      match sanitize_optional req "vitalData" sanitize_vital_data acc with
      | PyRaise e => PyRaise e
      | PyOk acc =>
      match sanitize_optional req "conversationHistory" sanitize_conversation_history acc with
      | PyRaise e => PyRaise e
      | PyOk acc => PyOk (VDict acc)
      end end end end end end
  | _ => PyRaise (attr_error "object has no attribute 'get'")
  end.
End VitalsHistory.

(** ** The SNP pattern: what it matches, and that [re.sub] leaves none *)

Section SnpSpec.
Context `{UnicodeDB}.
Definition is_r (c : char) : bool := (uc_lower1 c =? 114)%N.
Definition is_s (c : char) : bool := (uc_lower1 c =? 115)%N || (uc_lower1 c =? 383)%N.
Definition snp_word (w : text) : bool :=
  match w with
  | r :: s :: ds => is_r r && is_s s && negb (empty ds) && forallb uc_isdecimal ds
  | _ => false
  end.
End SnpSpec.

Section SnpProofs.
Context `{UnicodeLaws}.

Lemma item_r c : item_match true (CChar 114) c = is_r c.
Proof. unfold item_match, fold_eq, is_r. rewrite (law_lower1_ascii 114) by lia. simpl. by rewrite orb_false_r. Qed.

Lemma item_s c : item_match true (CChar 115) c = is_s c.
Proof. unfold item_match, fold_eq, is_s. rewrite (law_lower1_ascii 115) by lia. simpl. by rewrite orb_false_r. Qed.

Lemma set_match_single icase it c : set_match icase [it] c = item_match icase it c.
Proof. unfold set_match. simpl. by rewrite orb_false_r. Qed.

Lemma is_word_ascii c : (c < 128)%N -> is_word c = ascii_alnum c || (c =? 95)%N.
Proof. intros Hc. unfold is_word. by rewrite law_alnum_ascii. Qed.

Lemma is_r_word c : is_r c = true -> is_word c = true.
Proof.
  unfold is_r, is_word. intros Hc%N.eqb_eq. rewrite <- law_lower1_alnum, Hc.
  rewrite law_alnum_ascii by lia. done.
Qed.

Lemma is_s_word c : is_s c = true -> is_word c = true.
Proof.
  unfold is_s, is_word. intros [Hc%N.eqb_eq|Hc%N.eqb_eq]%orb_true_iff;
    rewrite <- law_lower1_alnum, Hc; [rewrite law_alnum_ascii by lia|rewrite law_long_s_alnum]; done.
Qed.

Lemma decimal_word c : uc_isdecimal c = true -> is_word c = true.
Proof. intros Hc. unfold is_word. by rewrite law_decimal_alnum. Qed.

Lemma SNP_RE_unfold prev s : rx_match SNP_RE prev s =
  match_here [ABound; ARep [CChar 114] 1 (Some 1); ARep [CChar 115] 1 (Some 1);
              ARep [CDigit] 1 None; ABound] true prev s.
Proof. reflexivity. Qed.

Lemma forallb_split (f : char -> bool) u :
  forallb f u = false -> exists ds x tl, u = ds ++ x :: tl /\ forallb f ds = true /\ f x = false.
Proof.
  induction u as [|y u IH]; simpl; [done|]. intros Hf.
  destruct (f y) eqn:Hy; simpl in Hf.
  - destruct (IH Hf) as (ds & x & tl & -> & Hds & Hx). exists (y :: ds), x, tl.
    simpl. by rewrite Hy, Hds.
  - by exists [], y, u.
Qed.

Lemma boundary_some c s : boundary (Some c) s = xorb (is_word c) (word_at (head s)).
Proof. reflexivity. Qed.

Lemma snp_digits d u rest :
  Forall (fun c => is_word c = true) u -> word_at (head rest) = false ->
  match_here [ARep [CDigit] 1 None; ABound] true (Some d) (u ++ rest) =
  if negb (empty u) && forallb uc_isdecimal u then Some (length u) else None.
Proof.
  intros Hu Hr. cbn [match_here]. unfold rep_bound.
  assert (Hset : forall c, set_match true [CDigit] c = uc_isdecimal c)
    by (intros c; by rewrite set_match_single).
  destruct (forallb uc_isdecimal u) eqn:Hdec.
  - rewrite run_len_app; [| |rewrite length_app; lia|].
    + destruct u as [|x u']; [done|]. simpl negb.
      rewrite try_counts_top with (m := 0); [by rewrite Nat.add_0_r|simpl; lia|].
      destruct (advance_forall (fun c => is_word c = true) (Some d) ((x :: u') ++ rest) (length (x :: u')))
        as (c & Hc & Hw); [simpl; lia|rewrite length_app; lia| |].
      { rewrite take_app_length. done. }
      rewrite Hc, drop_app_length, boundary_some, Hw, Hr. done.
    + apply Forall_forall. intros c Hc. rewrite Hset.
      apply forallb_forall with (x := c) in Hdec; done.
    + destruct rest as [|c rest]; [done|]. rewrite Hset. simpl in Hr.
      destruct (uc_isdecimal c) eqn:Hc; [|done]. apply decimal_word in Hc. congruence.
  - rewrite andb_false_r. apply forallb_split in Hdec as (ds & x & tl & -> & Hds & Hx).
    rewrite <- app_assoc. simpl app.
    rewrite run_len_app; [| |rewrite length_app; simpl; lia|by rewrite Hset].
    2:{ apply Forall_forall. intros c Hc. rewrite Hset.
        apply forallb_forall with (x := c) in Hds; done. }
    apply try_counts_none. intros k Hk.
    apply Forall_app in Hu as [Hds_w Hx_w]. inversion Hx_w as [|? ? Hxw _]; subst.
    destruct (advance_forall (fun c => is_word c = true) (Some d) (ds ++ x :: tl ++ rest) k)
      as (c & Hc & Hw); [lia|rewrite length_app; simpl; lia| |].
    { rewrite take_app_le by lia. by apply Forall_take. }
    destruct (head_drop_forall (fun c => is_word c = true) ds x (tl ++ rest) k Hds_w Hxw ltac:(lia))
      as (c' & Hc' & Hw').
    rewrite Hc. simpl. unfold boundary. rewrite Hc'. simpl. by rewrite Hw, Hw'.
Qed.

Lemma lit_run_nonword f rest :
  (forall c, f c = true -> is_word c = true) -> word_at (head rest) = false ->
  run_len f 1 rest = 0.
Proof.
  intros Hf Hr. destruct rest as [|c rest]; [done|]. simpl in *.
  destruct (f c) eqn:Hc; [|done]. apply Hf in Hc. congruence.
Qed.

Lemma run_len_one f c s : run_len f 1 (c :: s) = if f c then 1 else 0.
Proof. simpl. by destruct (f c). Qed.

Lemma try_counts_one tail : try_counts 1 tail 1 = option_map (Nat.add 1) (tail 1).
Proof. simpl. by destruct (tail 1). Qed.

Lemma match_here_bound_eq ps icase prev s :
  match_here (ABound :: ps) icase prev s =
  if boundary prev s then match_here ps icase prev s else None.
Proof. reflexivity. Qed.

Lemma match_here_rep_eq set lo hi ps icase prev s :
  match_here (ARep set lo hi :: ps) icase prev s =
  try_counts lo (fun k => match_here ps icase (advance prev s k) (drop k s))
    (run_len (set_match icase set) (rep_bound hi s) s).
Proof. reflexivity. Qed.

Lemma snp_word_not_r c w : is_r c = false -> snp_word (c :: w) = false.
Proof. intros Hc. destruct w as [|? ?]; simpl; by rewrite ?Hc. Qed.

Lemma snp_word_not_s c c2 w : is_s c2 = false -> snp_word (c :: c2 :: w) = false.
Proof. intros Hc. simpl. by rewrite Hc, andb_false_r. Qed.

Lemma drop_one (c : char) s : drop 1 (c :: s) = s.
Proof. reflexivity. Qed.

Lemma advance_one prev c s : advance prev (c :: s) 1 = Some c.
Proof. reflexivity. Qed.

(** [\brs\d+\b] matches exactly at the start of a maximal word run
    of the form [rs<digits>], preceded by a non-word character. *)
Lemma snp_match_run prev w rest :
  Forall (fun c => is_word c = true) w -> word_at (head rest) = false ->
  rx_match SNP_RE prev (w ++ rest) =
  if negb (word_at prev) && snp_word w then Some (length w) else None.
Proof.
  intros Hw Hr. rewrite SNP_RE_unfold, match_here_bound_eq, match_here_rep_eq.
  unfold rep_bound.
  assert (Hsr : forall c, set_match true [CChar 114] c = true -> is_word c = true)
    by (intros c; rewrite set_match_single, item_r; apply is_r_word).
  assert (Hss : forall c, set_match true [CChar 115] c = true -> is_word c = true)
    by (intros c; rewrite set_match_single, item_s; apply is_s_word).
  destruct w as [|c w']; simpl app.
  - unfold boundary. rewrite Hr, xorb_false_r.
    destruct (word_at prev); [|done]. by rewrite lit_run_nonword.
  - inversion Hw as [|? ? Hc Hw']; subst. unfold boundary at 1. simpl list.head.
    cbn [word_at]. rewrite Hc. destruct (word_at prev); [done|]. cbn [negb xorb].
    rewrite run_len_one, set_match_single, item_r.
    destruct (is_r c) eqn:Hrc; [|by rewrite snp_word_not_r].
    rewrite try_counts_one. cbn beta. rewrite advance_one, drop_one.
    destruct w' as [|c2 w'']; simpl app.
    + rewrite match_here_rep_eq, lit_run_nonword by done. destruct (snp_word [c]) eqn:E; [|done]. simpl in E.
      done.
    + inversion Hw' as [|? ? Hc2 Hw'']; subst.
      rewrite match_here_rep_eq, run_len_one, set_match_single, item_s.
      destruct (is_s c2) eqn:Hsc; [|by rewrite snp_word_not_s].
      rewrite try_counts_one. cbn beta. rewrite advance_one, drop_one.
      rewrite snp_digits by done. cbn [snp_word]. rewrite Hrc, Hsc. cbn [andb negb].
      destruct (negb (empty w'') && forallb uc_isdecimal w''); [|done]. done.
Qed.

Lemma word_split s :
  exists w rest, s = w ++ rest /\ Forall (fun c => is_word c = true) w /\
                 word_at (head rest) = false.
Proof.
  induction s as [|c s (w & rest & -> & Hw & Hr)].
  - by exists [], [].
  - destruct (is_word c) eqn:Hc.
    + exists (c :: w), rest. split; [done|]. split; [by constructor|done].
    + exists [], (c :: w ++ rest). simpl. by rewrite Hc.
Qed.

Lemma snp_none_nonword prev s : word_at (head s) = false -> rx_match SNP_RE prev s = None.
Proof. intros Hs. rewrite <- (app_nil_l s), snp_match_run; [|constructor|done]. by rewrite andb_false_r. Qed.

Lemma snp_none_prev_word prev s : word_at prev = true -> rx_match SNP_RE prev s = None.
Proof.
  intros Hp. destruct (word_split s) as (w & rest & -> & Hw & Hr).
  rewrite snp_match_run by done. by rewrite Hp.
Qed.

Lemma search_go_cons_none r prev c s :
  rx_match r prev (c :: s) = None -> search_go r prev (c :: s) = search_go r (Some c) s.
Proof. intros Hm. simpl. by rewrite Hm. Qed.

Lemma sub_go_cons_none r repl fuel prev c s :
  rx_match r prev (c :: s) = None ->
  sub_go (S fuel) r repl prev (c :: s) = c :: sub_go fuel r repl (Some c) s.
Proof. intros Hm. simpl. by rewrite Hm. Qed.

Definition snp_repl : text := T "[SNP]".

Lemma sub_snp_word_prefix fuel prev u rest :
  word_at prev = true -> Forall (fun c => is_word c = true) u ->
  length (u ++ rest) <= fuel ->
  exists f' p', sub_go fuel SNP_RE snp_repl prev (u ++ rest) = u ++ sub_go f' SNP_RE snp_repl p' rest
                /\ length rest <= f'.
Proof.
  revert fuel prev. induction u as [|c u IH]; intros fuel prev Hp Hu Hl.
  - exists fuel, prev. split; [done|]. simpl in Hl. lia.
  - inversion Hu as [|? ? Hc Hu']; subst. destruct fuel as [|fuel]; [simpl in Hl; lia|].
    simpl app. rewrite sub_go_cons_none by (by apply snp_none_prev_word).
    destruct (IH fuel (Some c)) as (f' & p' & -> & Hf'); [done|done|simpl in Hl; lia|].
    by exists f', p'.
Qed.

Lemma sub_snp_head_nonword fuel p rest :
  word_at (head rest) = false -> length rest <= fuel ->
  word_at (head (sub_go fuel SNP_RE snp_repl p rest)) = false.
Proof.
  intros Hr Hl. destruct rest as [|x rest]; [by destruct fuel|].
  destruct fuel as [|fuel]; [simpl in Hl; lia|].
  rewrite sub_go_cons_none by (by apply snp_none_nonword). done.
Qed.

Lemma repl_chars_word :
  is_word 91 = false /\ is_word 83 = true /\ is_word 78 = true /\ is_word 80 = true /\
  is_word 93 = false /\ is_r 83 = false.
Proof.
  rewrite !is_word_ascii by lia. unfold is_r. rewrite law_lower1_ascii by lia. done.
Qed.

Lemma search_snp_repl p x :
  search_go SNP_RE p (snp_repl ++ x) = search_go SNP_RE (Some 93%N) x.
Proof.
  destruct repl_chars_word as (H91 & H83 & H78 & H80 & H93 & Hr83).
  change (snp_repl ++ x) with (91%N :: 83%N :: 78%N :: 80%N :: 93%N :: x).
  rewrite search_go_cons_none by (apply snp_none_nonword; done).
  rewrite search_go_cons_none.
  2:{ change (83%N :: 78%N :: 80%N :: 93%N :: x) with ([83%N; 78%N; 80%N] ++ 93%N :: x).
      rewrite snp_match_run; [by rewrite snp_word_not_r, andb_false_r| |done].
      repeat constructor; done. }
  rewrite !search_go_cons_none; try done;
    [apply snp_none_nonword|apply snp_none_prev_word|apply snp_none_prev_word]; done.
Qed.

Lemma sub_snp_clean fuel prev_in prev_out s :
  length s <= fuel ->
  (word_at prev_out = word_at prev_in \/ word_at (head s) = false) ->
  search_go SNP_RE prev_out (sub_go fuel SNP_RE snp_repl prev_in s) = false.
Proof.
  revert prev_in prev_out s. induction fuel as [|fuel IH]; intros prev_in prev_out s Hl Hinv.
  - destruct s; [|simpl in Hl; lia]. simpl. by rewrite snp_none_nonword.
  - destruct s as [|c s']; [simpl; by rewrite snp_none_nonword|].
    destruct (word_split (c :: s')) as (w & rest & Hs & Hw & Hr).
    cbn [sub_go]. rewrite Hs, snp_match_run by done. rewrite <- Hs.
    destruct (negb (word_at prev_in) && snp_word w) eqn:Hm.
    + destruct w as [|c0 w']; [by rewrite andb_false_r in Hm|]. cbn [length].
      replace (drop (S (length w')) (c :: s')) with rest by (rewrite Hs; simpl; by rewrite drop_app_length).
      rewrite search_snp_repl.
      apply IH; [|by right]. apply (f_equal length) in Hs. rewrite length_app in Hs.
      simpl in Hs, Hl. lia.
    + assert (Hfirst : rx_match SNP_RE prev_out (c :: sub_go fuel SNP_RE snp_repl (Some c) s') = None).
      { destruct (is_word c) eqn:Hc; [|by apply snp_none_nonword].
        destruct w as [|c0 w']; [simpl in Hs; subst; simpl in Hr; congruence|].
        injection Hs as <- Hs'. inversion Hw as [|? ? _ Hw']; subst.
        destruct Hinv as [Hinv|Hinv]; [|simpl in Hinv; congruence].
        destruct (sub_snp_word_prefix fuel (Some c) w' rest) as (f' & p' & Hsub & Hf');
          [done|done|simpl in Hl; lia|].
        rewrite Hsub, app_comm_cons, snp_match_run; [|by constructor|].
        - by rewrite Hinv, Hm.
        - by apply sub_snp_head_nonword. }
      simpl. rewrite Hfirst. apply IH; [simpl in Hl; lia|by left].
Qed.

Lemma snp_sub_clean t : re_search SNP_RE (re_sub SNP_RE snp_repl t) = false.
Proof. unfold re_search, re_sub. apply sub_snp_clean; [lia|by left]. Qed.

(** [sanitize_text] leaves no match of the SNP pattern in what it returns. *)
Lemma sanitize_text_clean v out :
  sanitize_text v = PyOk out -> re_search SNP_RE out = false.
Proof.
  unfold sanitize_text. destruct (truthy v); cbn [negb].
  - destruct v; try discriminate. intros [= <-]. apply snp_sub_clean.
  - by intros [= <-].
Qed.

(** C1: [sanitize_text] is total on strings and no SNP identifier
    survives it: for every string, the result contains no match of
    [\brs\d+\b] (case-insensitive), the last of [PII_PATTERNS]. *)
Theorem sanitize_text_no_snp (s : text) :
  exists out, sanitize_text (VStr s) = PyOk out /\ re_search SNP_RE out = false.
Proof.
  destruct (sanitize_text (VStr s)) as [out|e] eqn:Hs.
  - exists out. split; [done|]. by eapply sanitize_text_clean.
  - revert Hs. unfold sanitize_text. by destruct (truthy (VStr s)).
Qed.
End SnpProofs.

(** ** The e-mail pattern takes the whole address

    [sre]'s repeats are greedy: the domain part [[A-Za-z0-9.-]+] first
    takes the rest of the address, dots included, and gives characters
    back only until [\.] and the top-level domain match.  So an address
    with several domain labels is replaced whole; a matcher that tried
    the shortest domain first would stop after the first label. *)

Section EmailSets.
(** The three sets of [EMAIL_RE], as written in the pattern. *)
Definition EMAIL_LOCAL : list citem :=
  [CRange (chr "A") (chr "Z"); CRange (chr "a") (chr "z"); CRange (chr "0") (chr "9");
   CChar (chr "."); CChar (chr "_"); CChar (chr "%"); CChar (chr "+"); CChar (chr "-")].
Definition EMAIL_DOMAIN : list citem :=
  [CRange (chr "A") (chr "Z"); CRange (chr "a") (chr "z"); CRange (chr "0") (chr "9");
   CChar (chr "."); CChar (chr "-")].
Definition EMAIL_TLD : list citem := [CRange (chr "A") (chr "Z"); CChar (chr "|"); CRange (chr "a") (chr "z")].

Lemma EMAIL_RE_atoms :
  EMAIL_RE = mk_regex [ABound; ARep EMAIL_LOCAL 1 None; ARep [CChar 64] 1 (Some 1);
                       ARep EMAIL_DOMAIN 1 None; ARep [CChar 46] 1 (Some 1); ARep EMAIL_TLD 2 None;
                       ABound] true.
Proof. reflexivity. Qed.

(** The characters of an address the statement below allows. *)
Definition local_char (c : char) : bool := ascii_alnum c || existsb (N.eqb c) (T "._%+-").
Definition domain_char (c : char) : bool := ascii_alnum c || existsb (N.eqb c) (T ".-").
Definition ascii_letter (c : char) : bool := ascii_upper c || ascii_lowerc c.

(** Under [IGNORECASE], on ASCII, with the case mappings of ASCII. *)
Definition item_icase_ascii (it : citem) (c : char) : bool :=
  match it with
  | CChar x => fold_eq (ascii_tolower c) (ascii_tolower x)
  | CRange lo hi => existsb (fun x => fold_eq (ascii_tolower c) (ascii_tolower x)) (enum_range lo hi)
  | CDigit => ascii_digit c
  end.
Definition set_icase_ascii (set : list citem) (c : char) : bool :=
  existsb (fun it => item_icase_ascii it c) set.
Definition item_all_ascii (it : citem) : bool :=
  match it with
  | CChar x => (x <? 128)%N
  | CRange lo hi => forallb (fun x => x <? 128)%N (enum_range lo hi)
  | CDigit => true
  end.
End EmailSets.

Section EmailProofs.
Context `{UnicodeLaws}.

Lemma existsb_congr {A} (f g : A -> bool) l : Forall (fun x => f x = g x) l -> existsb f l = existsb g l.
Proof. induction 1 as [|x l Hx _ IH]; [done|]. cbn. by rewrite Hx, IH. Qed.

Lemma item_match_icase_ascii it c :
  (c < 128)%N -> item_all_ascii it = true -> item_match true it c = item_icase_ascii it c.
Proof.
  intros Hc Hit. destruct it as [x|lo hi|]; cbn [item_match item_icase_ascii item_all_ascii] in *.
  - apply N.ltb_lt in Hit. by rewrite !law_lower1_ascii.
  - rewrite law_lower1_ascii by done. apply existsb_congr, Forall_forall. intros x Hx.
    rewrite forallb_forall in Hit.
    assert (Hlt : (x < 128)%N) by (apply N.ltb_lt, Hit, Hx).
    by rewrite (law_lower1_ascii x Hlt).
  - by rewrite law_decimal_ascii.
Qed.

Lemma set_match_icase_ascii set c :
  (c < 128)%N -> forallb item_all_ascii set = true -> set_match true set c = set_icase_ascii set c.
Proof.
  intros Hc Hs. apply existsb_congr, Forall_forall. intros it Hit.
  rewrite forallb_forall in Hs. apply item_match_icase_ascii; [done|]. apply Hs, Hit.
Qed.

(** A fact about a set on the ASCII characters with a property, checked
    on each of them. *)
Lemma icase_class (P : char -> bool) set b :
  forallb item_all_ascii set = true -> (forall c, P c = true -> (c < 128)%N) ->
  forallb (fun n => implb (P (N.of_nat n)) (Bool.eqb (set_icase_ascii set (N.of_nat n)) b)) (seq 0 128) = true ->
  forall c, P c = true -> set_match true set c = b.
Proof.
  intros Hs HP Hb c Hc. pose proof (HP c Hc) as Hlt. rewrite set_match_icase_ascii by done.
  pose proof (ascii_brute (fun c => implb (P c) (Bool.eqb (set_icase_ascii set c) b)) Hb c Hlt) as Hx.
  cbn beta in Hx. rewrite Hc in Hx. by apply Bool.eqb_prop in Hx.
Qed.

Lemma ascii_alnum_lt c : ascii_alnum c = true -> (c < 128)%N.
Proof.
  unfold ascii_alnum, ascii_digit, ascii_upper, ascii_lowerc, in_range.
  intros Hc. repeat (apply orb_true_iff in Hc as [Hc|Hc]); apply andb_prop in Hc as [_ Hc]; apply N.leb_le in Hc; lia.
Qed.

Lemma existsb_eqb_lt c l : forallb (fun x => x <? 128)%N l = true -> existsb (N.eqb c) l = true -> (c < 128)%N.
Proof.
  intros Hl (x & Hx & Hcx)%existsb_exists. apply N.eqb_eq in Hcx as ->.
  rewrite forallb_forall in Hl. by apply N.ltb_lt, Hl.
Qed.

Lemma local_char_lt c : local_char c = true -> (c < 128)%N.
Proof. intros [Hc|Hc]%orb_true_iff; [by apply ascii_alnum_lt|refine (existsb_eqb_lt c _ _ Hc); vm_compute; reflexivity]. Qed.

Lemma domain_char_lt c : domain_char c = true -> (c < 128)%N.
Proof. intros [Hc|Hc]%orb_true_iff; [by apply ascii_alnum_lt|refine (existsb_eqb_lt c _ _ Hc); vm_compute; reflexivity]. Qed.

Lemma letter_alnum c : ascii_letter c = true -> ascii_alnum c = true.
Proof.
  unfold ascii_letter, ascii_alnum. intros [Hc|Hc]%orb_true_iff; rewrite Hc; by rewrite ?orb_true_r.
Qed.

Lemma ascii_letter_lt c : ascii_letter c = true -> (c < 128)%N.
Proof. intros Hc. by apply ascii_alnum_lt, letter_alnum. Qed.

Lemma eqb_lt (x c : char) : (x < 128)%N -> (c =? x)%N = true -> (c < 128)%N.
Proof. intros Hx Hc%N.eqb_eq. lia. Qed.

Ltac class_fact P := apply (icase_class P); [vm_compute; reflexivity| |vm_compute; reflexivity].

Lemma local_in c : local_char c = true -> set_match true EMAIL_LOCAL c = true.
Proof. class_fact local_char. apply local_char_lt. Qed.

Lemma at_not_local : set_match true EMAIL_LOCAL 64 = false.
Proof. refine (icase_class (fun c => c =? 64)%N _ _ _ _ _ 64 _); [vm_compute; reflexivity| |vm_compute; reflexivity|done].
  intros c. by apply eqb_lt. Qed.

Lemma domain_in c : domain_char c = true -> set_match true EMAIL_DOMAIN c = true.
Proof. class_fact domain_char. apply domain_char_lt. Qed.

Lemma tld_in c : ascii_letter c = true -> set_match true EMAIL_TLD c = true.
Proof. class_fact ascii_letter. apply ascii_letter_lt. Qed.

Lemma letter_not_dot c : ascii_letter c = true -> set_match true [CChar 46] c = false.
Proof. class_fact ascii_letter. apply ascii_letter_lt. Qed.

Lemma char_self x : (x < 128)%N -> set_match true [CChar x] x = true.
Proof. intros Hx. unfold set_match. cbn. unfold fold_eq. by rewrite N.eqb_refl. Qed.

Lemma letter_domain c : ascii_letter c = true -> domain_char c = true.
Proof. intros Hc. unfold domain_char. by rewrite letter_alnum. Qed.

Lemma alnum_word c : ascii_alnum c = true -> is_word c = true.
Proof. intros Hc. rewrite is_word_ascii by (by apply ascii_alnum_lt). by rewrite Hc. Qed.

Lemma letter_word c : ascii_letter c = true -> is_word c = true.
Proof. intros Hc. by apply alnum_word, letter_alnum. Qed.

Lemma run_len_all f s : Forall (fun c => f c = true) s -> run_len f (length s) s = length s.
Proof. induction 1 as [|c s Hc _ IH]; [done|]. cbn. by rewrite Hc, IH. Qed.

Lemma drop_past (d t : text) x k : length d < k -> drop k (d ++ x :: t) = drop (k - S (length d)) t.
Proof.
  intros Hk. rewrite drop_app_ge by lia. by replace (k - length d) with (S (k - S (length d))) by lia.
Qed.

(** [[A-Z|a-z]{2,}\b] takes a whole top-level domain of letters. *)
Lemma email_tld prev t :
  2 <= length t -> Forall (fun c => ascii_letter c = true) t ->
  match_here [ARep EMAIL_TLD 2 None; ABound] true prev t = Some (length t).
Proof.
  intros Hl Ht. rewrite match_here_rep_eq. unfold rep_bound.
  rewrite run_len_all by (eapply Forall_impl; [|exact Ht]; apply tld_in).
  rewrite (try_counts_top _ _ _ 0); [by rewrite Nat.add_0_r|done|].
  destruct (advance_forall (fun c => is_word c = true) prev t (length t)) as (c & Hc & Hw); [lia|lia| |].
  { rewrite take_ge by lia. eapply Forall_impl; [|exact Ht]. apply letter_word. }
  rewrite Hc, drop_all, match_here_bound_eq, boundary_some, Hw. done.
Qed.

Lemma email_dot_tld prev t :
  2 <= length t -> Forall (fun c => ascii_letter c = true) t ->
  match_here [ARep [CChar 46] 1 (Some 1); ARep EMAIL_TLD 2 None; ABound] true prev (46%N :: t)
  = Some (S (length t)).
Proof.
  intros Hl Ht. rewrite match_here_rep_eq. cbn [rep_bound].
  rewrite run_len_one, char_self by lia. rewrite try_counts_one. cbn beta.
  by rewrite advance_one, drop_one, email_tld.
Qed.

(** After the domain part has taken some letters of the top-level
    domain, [\.] fails. *)
Lemma email_dot_fail prev u rest :
  Forall (fun c => ascii_letter c = true) u ->
  match_here (ARep [CChar 46] 1 (Some 1) :: rest) true prev u = None.
Proof.
  intros Hu. rewrite match_here_rep_eq. cbn [rep_bound]. destruct u as [|c u]; [done|].
  inversion Hu as [|? ? Hc _]; subst. by rewrite run_len_one, letter_not_dot.
Qed.

(** The domain part takes everything to the end, dots included, then
    gives back the top-level domain and the dot before it. *)
Lemma email_domain d t :
  d <> [] -> Forall (fun c => domain_char c = true) d ->
  2 <= length t -> Forall (fun c => ascii_letter c = true) t ->
  match_here [ARep EMAIL_DOMAIN 1 None; ARep [CChar 46] 1 (Some 1); ARep EMAIL_TLD 2 None; ABound]
    true (Some 64%N) (d ++ 46%N :: t) = Some (length d + S (length t)).
Proof.
  intros Hd Hdc Hl Ht. rewrite match_here_rep_eq. unfold rep_bound.
  rewrite run_len_all.
  2:{ apply Forall_app. split; [eapply Forall_impl; [|exact Hdc]; apply domain_in|].
      constructor; [by apply domain_in|]. eapply Forall_impl; [|exact Ht].
      intros c Hc. by apply domain_in, letter_domain. }
  apply try_counts_first.
  - destruct d; [done|]. rewrite length_app. cbn. lia.
  - intros k Hk. cbn beta. rewrite drop_past by (rewrite length_app in Hk; cbn in Hk; lia).
    apply email_dot_fail. by apply Forall_drop.
  - cbn beta. rewrite drop_app_length. by apply email_dot_tld.
Qed.

(** [EMAIL_RE] matches a whole address [local@domain.tld] whose domain
    may hold further dots. *)
Lemma email_match_whole l d t :
  l <> [] -> Forall (fun c => local_char c = true) l -> ascii_alnum (hd 0%N l) = true ->
  d <> [] -> Forall (fun c => domain_char c = true) d ->
  2 <= length t -> Forall (fun c => ascii_letter c = true) t ->
  rx_match EMAIL_RE None (l ++ 64%N :: d ++ 46%N :: t) = Some (length (l ++ 64%N :: d ++ 46%N :: t)).
Proof.
  intros Hl Hlc Hh Hd Hdc Hlt Ht. rewrite EMAIL_RE_atoms. unfold rx_match. cbn [rx_atoms rx_icase].
  rewrite match_here_bound_eq.
  replace (boundary None _) with true.
  2:{ destruct l as [|c l']; [done|]. unfold boundary. cbn. symmetry. by apply alnum_word. }
  rewrite match_here_rep_eq. unfold rep_bound.
  rewrite run_len_app.
  - rewrite (try_counts_top _ _ _ (S (length d + S (length t)))).
    + f_equal. rewrite length_app. cbn [length]. rewrite length_app. cbn [length]. lia.
    + destruct l; [done|cbn; lia].
    + cbn beta. rewrite drop_app_length, match_here_rep_eq. cbn [rep_bound].
      rewrite run_len_one, char_self by lia. rewrite try_counts_one. cbn beta.
      by rewrite advance_one, drop_one, email_domain.
  - eapply Forall_impl; [|exact Hlc]. apply local_in.
  - rewrite length_app. cbn. lia.
  - exact at_not_local.
Qed.

(** [re.sub] of a match covering the whole text is the replacement. *)
Lemma re_sub_whole r repl s : s <> [] -> rx_match r None s = Some (length s) -> re_sub r repl s = repl.
Proof.
  intros Hs Hm. destruct s as [|c s']; [done|]. cbn [length] in Hm. unfold re_sub. cbn [length sub_go].
  rewrite Hm. cbn [drop]. rewrite drop_all. destruct (length s'); cbn [sub_go]; apply app_nil_r.
Qed.

(** A pattern with a repeat of [\d] at least once. *)
Definition has_digit_atom (r : regex) : bool :=
  existsb (fun a => match a with ARep [CDigit] lo _ => 1 <=? lo | _ => false end) (rx_atoms r).

Lemma digit_free_no_match r p u :
  has_digit_atom r = true -> Forall (fun c => uc_isdecimal c = false) u -> rx_match r p u = None.
Proof.
  intros Hr Hu. destruct (rx_match r p u) as [n|] eqn:E; [exfalso|done].
  apply match_here_sound in E. apply existsb_exists in Hr as (a & Hin & Ha).
  destruct a as [| | |set lo hi]; try done. destruct set as [|[| |] [|]]; try done.
  apply Nat.leb_le in Ha. destruct (rmatch_needs_digit _ _ _ _ _ lo hi E Hin Ha) as (c & Hc & Hd).
  rewrite Forall_forall in Hu. rewrite (Hu c (proj1 (list_elem_of_In _ _) Hc)) in Hd. discriminate.
Qed.

Lemma re_sub_digit_free r repl s :
  has_digit_atom r = true -> Forall (fun c => uc_isdecimal c = false) s -> re_sub r repl s = s.
Proof.
  intros Hr Hs. unfold re_sub. apply (sub_go_no_match (fun c => uc_isdecimal c = false)); [|done].
  intros p u Hu. by apply digit_free_no_match.
Qed.

Lemma email_repl_digit_free : Forall (fun c => uc_isdecimal c = false) (T "[EMAIL]").
Proof.
  change (T "[EMAIL]") with [91; 69; 77; 65; 73; 76; 93]%N.
  repeat constructor; (rewrite law_decimal_ascii; [reflexivity|lia]).
Qed.

(** C25: [sanitize_text] replaces a whole e-mail address by ["[EMAIL]"],
    for every address [local@domain.tld] of the ASCII characters the
    pattern names, whose local part starts with a letter or a digit and
    whose domain may have any number of further labels
    ([taro@mail.example.co.jp]): the greedy domain part takes them all,
    and no later pattern touches the replacement. *)
Theorem sanitize_email_whole l d t :
  l <> [] -> Forall (fun c => local_char c = true) l -> ascii_alnum (hd 0%N l) = true ->
  d <> [] -> Forall (fun c => domain_char c = true) d ->
  2 <= length t -> Forall (fun c => ascii_letter c = true) t ->
  sanitize_text (VStr (l ++ 64%N :: d ++ 46%N :: t)) = PyOk (T "[EMAIL]").
Proof.
  intros Hl Hlc Hh Hd Hdc Hlt Ht. unfold sanitize_text.
  replace (truthy (VStr _)) with true by (destruct l; [done|reflexivity]).
  cbn [negb]. f_equal. unfold apply_patterns, PII_PATTERNS. cbn [fold_left fst snd].
  rewrite (re_sub_whole EMAIL_RE); [| |by apply email_match_whole]; [|intros E; destruct l; discriminate].
  rewrite (re_sub_digit_free PHONE_RE), (re_sub_digit_free ID_RE), (re_sub_digit_free DATE_RE),
    (re_sub_digit_free SNP_RE); try (vm_compute; reflexivity); exact email_repl_digit_free.
Qed.
End EmailProofs.

(** ** Where [sanitize_request] puts the sanitized texts *)

Section RequestFacts.
Context `{UnicodeDB} `{Sha256} `{PyRepr}.

Lemma sanitize_optional_other req key f acc acc' k :
  sanitize_optional req key f acc = PyOk acc' -> k <> T key ->
  dict_lookup acc' k = dict_lookup acc k.
Proof.
  unfold sanitize_optional. intros Hs Hk.
  destruct (dict_lookup req (T key)) as [v|]; [|by injection Hs as <-].
  destruct (truthy v); [|by injection Hs as <-].
  destruct (f v) as [v'|]; [|done]. injection Hs as <-.
  apply dict_lookup_set_ne. congruence.
Qed.

Lemma sanitize_optional_key req key f acc acc' :
  sanitize_optional req key f acc = PyOk acc' ->
  (dict_lookup acc' (T key) = dict_lookup acc (T key)
   /\ truthy (dget req (T key) VNone) = false)
  \/ exists v v', dict_lookup req (T key) = Some v /\ f v = PyOk v'
                 /\ dict_lookup acc' (T key) = Some v'.
Proof.
  unfold sanitize_optional, dget. intros Hs.
  destruct (dict_lookup req (T key)) as [v|]; [|injection Hs as <-; by left].
  destruct (truthy v) eqn:Hv; [|injection Hs as <-; by left].
  destruct (f v) as [v'|] eqn:Hf; [|done]. injection Hs as <-.
  right. exists v, v'. split; [done|]. split; [done|]. apply dict_lookup_set_eq.
Qed.

Ltac peel_optional H :=
  match type of H with
  | context [match sanitize_optional ?r ?k ?f ?a with _ => _ end] =>
      let acc := fresh "acc" in let Ho := fresh "Ho" in
      destruct (sanitize_optional r k f a) as [acc|] eqn:Ho; [|discriminate H]
  end.

(** The sanitized message is the entry ["message"] of the result. *)
Lemma sanitize_request_message env body s :
  sanitize_request env body = PyOk (VDict s) ->
  exists b out, body = VDict b /\ sanitize_text (dget b (T "message") (pstr "")) = PyOk out
                /\ dict_lookup s (T "message") = Some (VStr out).
Proof.
  unfold sanitize_request. intros Hs. destruct body as [| | | | | |b]; try discriminate.
  destruct (anonymize_user_id env _) as [tok|]; [|discriminate].
  destruct (sanitize_text _) as [out|] eqn:Hout; [|discriminate].
  peel_optional Hs. peel_optional Hs. peel_optional Hs. peel_optional Hs.
  injection Hs as <-. exists b, out. split; [done|]. split; [done|].
  do 4 (erewrite sanitize_optional_other; [|eassumption|done]). reflexivity.
Qed.

(** The history entry of the result is the sanitized history, or is
    absent when the request's history is falsy. *)
Lemma sanitize_request_history env b s :
  sanitize_request env (VDict b) = PyOk (VDict s) ->
  (dict_lookup s (T "conversationHistory") = None
   /\ truthy (dget b (T "conversationHistory") VNone) = false)
  \/ exists v v', dict_lookup b (T "conversationHistory") = Some v
                 /\ sanitize_conversation_history v = PyOk v'
                 /\ dict_lookup s (T "conversationHistory") = Some v'.
Proof.
  unfold sanitize_request. intros Hs.
  destruct (anonymize_user_id env _) as [tok|]; [|discriminate].
  destruct (sanitize_text _) as [out|]; [|discriminate].
  peel_optional Hs. peel_optional Hs. peel_optional Hs. peel_optional Hs.
  injection Hs as <-. destruct (sanitize_optional_key _ _ _ _ _ Ho2) as [[-> Hf]|Hv]; [|by right].
  left. split; [|done].
  do 3 (erewrite sanitize_optional_other; [|eassumption|done]). reflexivity.
Qed.
End RequestFacts.

Section HistoryClean.
Context `{UnicodeLaws} `{Sha256} `{PyRepr}.

Lemma py_mapM_forall {A B} (f : A -> Py B) (P : B -> Prop) xs ys :
  (forall x y, f x = PyOk y -> P y) -> py_mapM f xs = PyOk ys -> Forall P ys.
Proof.
  intros Hf. revert ys. induction xs as [|x xs IH]; simpl; intros ys Hm.
  - injection Hm as <-. constructor.
  - destruct (f x) as [y|] eqn:Hx; [|done].
    destruct (py_mapM f xs) as [ys'|] eqn:Hxs; [|done]. injection Hm as <-.
    constructor; [by eapply Hf|by apply IH].
Qed.

(** Every entry of a sanitized history is a two-key dict whose content
    has no SNP identifier. *)
Lemma sanitize_history_clean h h' :
  sanitize_conversation_history h = PyOk h' ->
  exists es, h' = VList es /\
    Forall (fun e => exists r c, e = VDict [(T "role", r); (T "content", VStr c)]
                                 /\ re_search SNP_RE c = false) es.
Proof.
  unfold sanitize_conversation_history. destruct (truthy h); simpl.
  - destruct (py_iter h) as [items|]; [|done].
    destruct (py_mapM sanitize_history_entry items) as [es|] eqn:Hes; [|done].
    intros [= <-]. exists es. split; [done|]. revert Hes. apply py_mapM_forall.
    intros [| | | | | |kvs] y; try discriminate. simpl.
    destruct (sanitize_text _) as [c|] eqn:Hc; [|done]. intros [= <-].
    eexists _, c. split; [done|]. by eapply sanitize_text_clean.
  - intros [= <-]. exists []. split; [done|constructor].
Qed.
End HistoryClean.

(** A digest for evaluating examples: SHA-256 itself is not modelled, and
    the examples only need some 64-character hexadecimal string. *)
Definition example_sha256 : Sha256 :=
  {| sha256_hexdigest := fun _ => T "0123456789abcdef0123456789abcdef0123456789abcdef0123456789abcdef" |}.

Lemma sanitize_text_no_snp_witness :
  exists out, sanitize_text (VStr (T "rs429358 と RS7412 の結果")) = PyOk out
  /\ re_search SNP_RE out = false.
Proof. apply sanitize_text_no_snp. Defined.

Lemma sanitize_email_whole_witness :
  sanitize_text (VStr (T "taro.yamada" ++ 64%N :: T "mail.example.co" ++ 46%N :: T "jp"))
  = PyOk (T "[EMAIL]").
Proof.
  apply sanitize_email_whole;
    first [ intros E; vm_compute in E; discriminate
          | apply (bool_decide_unpack _); vm_compute; reflexivity
          | vm_compute; reflexivity
          | cbn; lia ].
Defined.
