(* ===== verification/ContextBuilder.v ===== *)
(** * The context builder: the message list sent to the model

    [build_chat_messages] and the functions it calls in
    [lambda_deployment/temp_v17/lambda_function.py]: the system prompt,
    the symptom hint ([detect_symptoms_consultation]), one system message
    per data block ([build_blood_data_context],
    [build_vital_data_context], [build_gene_data_context] or
    [build_available_categories_context]), the conversation history and
    the user message.  The unused [build_initial_context] is modelled too,
    since it is the only builder that summarises normal blood items as a
    count.  Each builder returns [Py text]: the [.get], [.lower],
    [.items()] and format calls raise on ill-typed payloads. *)

From Stdlib Require Import NArith ZArith QArith String.
From stdpp Require Import base list numbers.
From S2P Require Import Prelude PyJson Regex Sanitizer SystemPrompt.

Local Open Scope py_scope.

Definition SYMPTOMS_KEYWORDS : list text :=
  [T "痛い"; T "痛み"; T "痛"; T "いたい";
   T "症状"; T "発熱"; T "熱"; T "吐き気"; T "めまい"; T "しびれ";
   T "頭痛"; T "腹痛"; T "胸痛"; T "背中が痛"; T "関節痛";
   T "息苦しい"; T "息切れ"; T "咳"; T "鼻水"; T "下痢"; T "便秘";
   T "体調不良"; T "調子が悪い"; T "具合が悪い"; T "気分が悪い";
   T "だるい"; T "倦怠感"; T "疲れ"; T "眠れない"; T "不眠";
   T "病気"; T "疾患"; T "診断"; T "受診"; T "医者";
   T "赤い"; T "腫れ"; T "かゆい"; T "発疹"; T "しこり"].

Definition SYMPTOM_HINT : text :=
  T "【ヒント】ユーザーのメッセージに症状関連のキーワードが含まれています。症状相談モードの適用を検討してください。".

Definition BLOOD_HEADER : text := T "【ユーザーの血液検査結果】".
Definition ABNORMAL_LABEL : text := NEWLINE ++ T "【要注意】以下の項目が異常値です：".
Definition ATTENTION_LABEL : text := NEWLINE ++ T "【注意】以下の項目が基準値外です：".
Definition NORMAL_LABEL : text := NEWLINE ++ T "【正常範囲】以下の項目が正常範囲内です：".
Definition VITAL_HEADER : text := T "【ユーザーのバイタルデータ（最新7日間）】".
Definition GENE_HEADER : text := T "【ユーザーの遺伝子データ】".
Definition GENE_NOT_RETURNED : text :=
  GENE_HEADER ++ NEWLINE
  ++ T "要求された遺伝子データがシステムから返されませんでした。小カテゴリー名の形式が正しいか確認してください。"
  ++ NEWLINE ++ NEWLINE ++ T "※ヒント: 小カテゴリーは半角カンマ「,」で区切る必要があります。".
Definition AVAILABLE_HEADER : text := T "【利用可能な遺伝子データカテゴリー】".
Definition AVAILABLE_INTRO : text := T "以下のカテゴリーの遺伝子情報を要求できます：".
Definition AVAILABLE_FOOTER : text :=
  NEWLINE ++ T "必要に応じて「🧬 [カテゴリー名]に関する遺伝子情報」の形式で要求してください。".

(** The three status buckets of the blood builders. *)
Inductive bucket := Normal | Attention | Abnormal.

#[export] Instance bucket_eq_dec : EqDecision bucket.
Proof. solve_decision. Defined.

(** [if status in ['正常', 'normal'] ... elif status in ['注意', 'caution', '要注意'] ... else] *)
Definition classify_status (status : text) : bucket :=
  if existsb (text_eqb status) [T "正常"; T "normal"] then Normal
  else if existsb (text_eqb status) [T "注意"; T "caution"; T "要注意"] then Attention
  else Abnormal.

Definition system_msg (content : text) : message := mk_msg (VStr (T "system")) (VStr content).

(** [[label] + items] when [items] is non-empty, as the builders do with
    [if items: parts.append(label); parts.extend(items)]. *)
Definition labelled (label : text) (items : list text) : list text :=
  match items with [] => [] | _ => label :: items end.

(** One vital metric: key, text before the number, decimals, scale and
    unit suffix. *)
Record metric_spec := mk_metric {
  m_key : string; m_prefix : string; m_digits : nat; m_scale : option Q; m_suffix : string }.

Section Builders.
Context `{UnicodeDB} `{PyRepr} `{PyFormat}.

Definition detect_symptoms_consultation (user_message : text) : bool :=
  existsb (fun keyword => is_infix keyword (uc_lower user_message)) SYMPTOMS_KEYWORDS.

(** One iteration of the blood loop: the bucket and the line
    [f"- {item.get('nameJp', key)}: {value} {unit} (基準値: {reference})"],
    where [key] is [item.get('key', '')] in [build_blood_data_context]
    and [item.get('key')] in [build_initial_context]. *)
Definition blood_line (key_default : pyval) (item : pyval) : Py (bucket * text) :=
  match item with
  | VDict kvs =>
      let key := dget kvs (T "key") key_default in
      match dget kvs (T "status") (VStr []) with
      | VStr st =>
          PyOk (classify_status (uc_lower st),
                T "- " ++ py_str (dget kvs (T "nameJp") key) ++ T ": "
                ++ py_str (dget kvs (T "value") VNone) ++ T " "
                ++ py_str (dget kvs (T "unit") VNone) ++ T " (基準値: "
                ++ py_str (dget kvs (T "reference") VNone) ++ T ")")
      | _ => PyRaise (attr_error "object has no attribute 'lower'")
      end
  | _ => PyRaise (attr_error "object has no attribute 'get'")
  end.

Definition in_bucket (b : bucket) (lines : list (bucket * text)) : list text :=
  map snd (List.filter (fun bl => bool_decide (bl.1 = b)) lines).

Definition build_blood_data_context (blood : pyval) : Py text :=
  items <- py_iter blood ;;
  lines <- py_mapM (blood_line (VStr [])) items ;;
  PyOk (py_join NEWLINE
          ([BLOOD_HEADER] ++ labelled ABNORMAL_LABEL (in_bucket Abnormal lines)
           ++ labelled ATTENTION_LABEL (in_bucket Attention lines)
           ++ labelled NORMAL_LABEL (in_bucket Normal lines))).

(** [if vital_data.get(key): metrics.append(f"{prefix}{vital_data[key]*scale:.{digits}f}{suffix}")] *)
Definition metric_line (kvs : list (text * pyval)) (m : metric_spec) : Py (list text) :=
  let v := dget kvs (T (m_key m)) VNone in
  if truthy v then
    s <- fmt_fixed (m_digits m) (m_scale m) v ;;
    PyOk [T (m_prefix m) ++ s ++ T (m_suffix m)]
  else PyOk [].

Definition metric_group (kvs : list (text * pyval)) (header : text) (ms : list metric_spec)
    : Py (list text) :=
  lines <- py_mapM (metric_line kvs) ms ;;
  PyOk (labelled header (mjoin lines)).

Definition BODY_METRICS : list metric_spec :=
  [mk_metric "bodyMass" "- 体重: " 1 None " kg";
   mk_metric "height" "- 身長: " 1 None " cm";
   mk_metric "bodyFatPercentage" "- 体脂肪率: " 1 (Some 100%Q) "%";
   mk_metric "leanBodyMass" "- 除脂肪体重: " 1 None " kg"].
Definition CARDIAC_METRICS : list metric_spec :=
  [mk_metric "restingHeartRate" "- 安静時心拍数: " 0 None " bpm";
   mk_metric "vo2Max" "- VO2Max: " 1 None " ml/kg/min";
   mk_metric "heartRateVariability" "- 心拍変動 (HRV): " 0 None " ms";
   mk_metric "heartRate" "- 心拍数: " 0 None " bpm"].
Definition ACTIVITY_METRICS : list metric_spec :=
  [mk_metric "activeEnergyBurned" "- アクティブカロリー: " 0 None " kcal";
   mk_metric "exerciseTime" "- エクササイズ時間: " 0 None " 分";
   mk_metric "stepCount" "- 歩数: " 0 None " steps"].
Definition DISTANCE_METRICS : list metric_spec :=
  [mk_metric "walkingRunningDistance" "- 歩行・ランニング距離: " 2 None " km";
   mk_metric "cyclingDistance" "- サイクリング距離: " 2 None " km"].

Definition build_vital_data_context (vital : pyval) : Py text :=
  match vital with
  | VDict kvs =>
      body <- metric_group kvs (NEWLINE ++ T "【体組成】") BODY_METRICS ;;
      cardiac <- metric_group kvs (NEWLINE ++ T "【心臓・循環器】") CARDIAC_METRICS ;;
      activity <- metric_group kvs (NEWLINE ++ T "【活動量】") ACTIVITY_METRICS ;;
      distance <- metric_group kvs (NEWLINE ++ T "【移動距離】") DISTANCE_METRICS ;;
      PyOk (py_join NEWLINE ([VITAL_HEADER] ++ body ++ cardiac ++ activity ++ distance))
  | _ => PyRaise (attr_error "object has no attribute 'get'")
  end.

(** The lines of one marker: [f"  - {title}"], then, when the marker has
    [genotypes], one line per genotype and the impact line. *)
Definition marker_lines (title : pyval) (kvs : list (text * pyval)) : Py (list text) :=
  let title_line := T "  - " ++ py_str title in
  match dict_lookup kvs (T "genotypes") with
  | None => PyOk [title_line]
  | Some _ =>
      let genotypes := dget kvs (T "genotypes") (VDict []) in
      let impact := dget kvs (T "impact") (VDict []) in
      glines <- (match genotypes with
                 | VDict g => PyOk (map (fun sg => T "    " ++ sg.1 ++ T ": " ++ py_str sg.2) g)
                 | _ => PyRaise (attr_error "object has no attribute 'items'")
                 end) ;;
      ilines <- (if truthy impact then
                   match impact with
                   | VDict ikvs =>
                       score <- fmt_signed_int (dget ikvs (T "score") (VInt 0)) ;;
                       PyOk [T "    影響: 保護" ++ py_str (dget ikvs (T "protective") (VInt 0))
                             ++ T "/リスク" ++ py_str (dget ikvs (T "risk") (VInt 0))
                             ++ T "/中立" ++ py_str (dget ikvs (T "neutral") (VInt 0))
                             ++ T " (スコア: " ++ score ++ T ")"]
                   | _ => PyRaise (attr_error "object has no attribute 'get'")
                   end
                 else PyOk []) ;;
      PyOk (title_line :: glines ++ ilines)
  end.

(** [type(v).__name__] for the values that reach the fallback branch. *)
Definition type_name (v : pyval) : text :=
  match v with
  | VNone => T "NoneType" | VBool _ => T "bool" | VInt _ => T "int" | VFloat _ => T "float"
  | VStr _ => T "str" | VList _ => T "list" | VDict _ => T "dict"
  end.

(** One category of [build_gene_data_context]: whether it sets
    [has_data], and its lines. *)
Definition gene_category (category : text) (markers : pyval) : Py (bool * list text) :=
  let header := NEWLINE ++ T "■ " ++ category in
  if negb (truthy markers) then
    PyOk (false, [header ++ T ": データが見つかりませんでした（小カテゴリー名が正しいか確認してください）"])
  else match markers with
       | VDict kvs =>
           lines <- marker_lines (dget kvs (T "title") (VStr category)) kvs ;;
           PyOk (true, header :: lines)
       | VList ms =>
           lines <- py_mapM (fun m => match m with
                                      | VDict kvs => marker_lines (dget kvs (T "title") (VStr [])) kvs
                                      | _ => PyRaise (attr_error "object has no attribute 'get'")
                                      end) ms ;;
           PyOk (true, header :: mjoin lines)
       | v => PyOk (true, [header; T "  - (不明な形式: " ++ type_name v ++ T ")"])
       end.

Definition build_gene_data_context (gene : pyval) : Py text :=
  match gene with
  | VDict cats =>
      rs <- py_mapM (fun cm => gene_category cm.1 cm.2) cats ;;
      if existsb fst rs then PyOk (py_join NEWLINE (GENE_HEADER :: mjoin (map snd rs)))
      else PyOk GENE_NOT_RETURNED
  | _ => PyRaise (attr_error "object has no attribute 'items'")
  end.

Definition build_available_categories_context (categories : pyval) : Py text :=
  cats <- py_iter categories ;;
  PyOk (py_join NEWLINE
          ([AVAILABLE_HEADER; AVAILABLE_INTRO] ++ map (fun c => T "- " ++ py_str c) cats
           ++ [AVAILABLE_FOOTER])).

(** [build_initial_context]: defined in the source but called nowhere. *)
Definition build_initial_context (blood : pyval) (available : pyval) : Py text :=
  blood_part <- (if truthy blood then
                   items <- py_iter blood ;;
                   lines <- py_mapM (blood_line VNone) items ;;
                   let normal := in_bucket Normal lines in
                   PyOk ([BLOOD_HEADER] ++ labelled ABNORMAL_LABEL (in_bucket Abnormal lines)
                         ++ labelled ATTENTION_LABEL (in_bucket Attention lines)
                         ++ match normal with
                            | [] => []
                            | _ => [NEWLINE ++ T "【正常範囲】" ++ n_to_dec (N.of_nat (length normal))
                                    ++ T "項目が正常範囲内"]
                            end)
                 else PyOk []) ;;
  gene_part <- (if truthy available then
                  cats <- py_iter available ;;
                  PyOk ([NEWLINE ++ NEWLINE ++ AVAILABLE_HEADER; AVAILABLE_INTRO]
                        ++ map (fun c => T "- " ++ py_str c) cats ++ [AVAILABLE_FOOTER])
                else PyOk []) ;;
  PyOk (py_join NEWLINE (blood_part ++ gene_part)).

(** One history entry: [{"role": msg.get("role"), "content": msg.get("content")}]. *)
Definition history_message (msg : pyval) : Py message :=
  match msg with
  | VDict kvs => PyOk (mk_msg (dget kvs (T "role") VNone) (dget kvs (T "content") VNone))
  | _ => PyRaise (attr_error "object has no attribute 'get'")
  end.

Definition build_chat_messages (user_message : text) (conversation_history : pyval)
    (blood vital gene : pyval) : Py (list message) :=
  let hint := if detect_symptoms_consultation user_message then [system_msg SYMPTOM_HINT] else [] in
  blood_msgs <- (if truthy blood then c <- build_blood_data_context blood ;; PyOk [system_msg c]
                 else PyOk []) ;;
  vital_msgs <- (if truthy vital then c <- build_vital_data_context vital ;; PyOk [system_msg c]
                 else PyOk []) ;;
  gene_msgs <- (if truthy gene then
                  match gene with
                  | VDict kvs =>
                      let available := dget kvs (T "availableCategories") VNone in
                      c <- (if truthy available then build_available_categories_context available
                            else build_gene_data_context gene) ;;
                      PyOk [system_msg c]
                  | _ => PyRaise (attr_error "object has no attribute 'get'")
                  end
                else PyOk []) ;;
  items <- py_iter conversation_history ;;
  history <- py_mapM history_message items ;;
  PyOk ([system_msg build_system_prompt] ++ hint ++ blood_msgs ++ vital_msgs ++ gene_msgs
        ++ history ++ [mk_msg (VStr (T "user")) (VStr user_message)]).
End Builders.

(** ** The shape of the message list *)

Definition role_is (r : string) (m : message) : Prop := msg_role m = VStr (T r).

Section Shape.
Context `{UnicodeDB} `{PyRepr} `{PyFormat}.

Lemma py_bind_ok_inv {A B} (m : Py A) (k : A -> Py B) b :
  py_bind m k = PyOk b -> exists a, m = PyOk a /\ k a = PyOk b.
Proof. destruct m; simpl; [eauto|done]. Qed.

Lemma block_system (b : bool) (f : Py text) ms :
  (if b then c <- f ;; PyOk [system_msg c] else PyOk []) = PyOk ms ->
  Forall (role_is "system") ms /\ length ms <= 1.
Proof.
  destruct b; simpl; [|intros [= <-]; split; [constructor|simpl; lia]].
  destruct f; simpl; [|done]. intros [= <-]. split; [by repeat constructor|simpl; lia].
Qed.

Lemma gene_block_system gene ms :
  (if truthy gene then
     match gene with
     | VDict kvs =>
         let available := dget kvs (T "availableCategories") VNone in
         c <- (if truthy available then build_available_categories_context available
               else build_gene_data_context gene) ;;
         PyOk [system_msg c]
     | _ => PyRaise (attr_error "object has no attribute 'get'")
     end
   else PyOk []) = PyOk ms ->
  Forall (role_is "system") ms /\ length ms <= 1.
Proof.
  destruct (truthy gene); [|intros [= <-]; split; [constructor|simpl; lia]].
  destruct gene; try discriminate. simpl.
  destruct (if truthy _ then _ else _); simpl; [|done].
  intros [= <-]. split; [by repeat constructor|simpl; lia].
Qed.

(** The decomposition of a built message list. *)
Lemma build_chat_messages_inv um history blood vital gene msgs :
  build_chat_messages um history blood vital gene = PyOk msgs ->
  exists ctx items hs,
    msgs = [system_msg build_system_prompt] ++ ctx ++ hs ++ [mk_msg (VStr (T "user")) (VStr um)]
    /\ Forall (role_is "system") ctx /\ length ctx <= 4
    /\ py_iter history = PyOk items /\ py_mapM history_message items = PyOk hs.
Proof.
  unfold build_chat_messages. intros Hb.
  apply py_bind_ok_inv in Hb as (bm & Hbm & Hb). apply block_system in Hbm as [Hbs Hbl].
  apply py_bind_ok_inv in Hb as (vm & Hvm & Hb). apply block_system in Hvm as [Hvs Hvl].
  apply py_bind_ok_inv in Hb as (gm & Hgm & Hb). apply gene_block_system in Hgm as [Hgs Hgl].
  apply py_bind_ok_inv in Hb as (items & Hit & Hb).
  apply py_bind_ok_inv in Hb as (hs & Hhs & Hb). injection Hb as <-.
  set (hint := if detect_symptoms_consultation um then [system_msg SYMPTOM_HINT] else []).
  exists (hint ++ bm ++ vm ++ gm), items, hs. split; [by rewrite <- !app_assoc|].
  assert (Forall (role_is "system") hint /\ length hint <= 1) as [Hhs' Hhl].
  { unfold hint. destruct (detect_symptoms_consultation um); split; try (repeat constructor);
      simpl; lia. }
  split; [by repeat apply Forall_app_2|]. split; [rewrite !length_app; lia|done].
Qed.

(** C11: the message list starts with the system prompt, continues with
    at most four system-role context messages (hint, blood, vitals,
    genes) and exactly one message per history entry in order, and ends
    with the user message. *)
Theorem build_chat_messages_shape um history blood vital gene msgs :
  build_chat_messages um history blood vital gene = PyOk msgs ->
  exists ctx items hs,
    msgs = [system_msg build_system_prompt] ++ ctx ++ hs ++ [mk_msg (VStr (T "user")) (VStr um)]
    /\ Forall (role_is "system") ctx /\ length ctx <= 4
    /\ py_iter history = PyOk items /\ py_mapM history_message items = PyOk hs
    /\ length msgs = length ctx + length items + 2.
Proof.
  intros Hb. apply build_chat_messages_inv in Hb as (ctx & items & hs & -> & Hc & Hl & Hi & Hh).
  exists ctx, items, hs. do 5 (split; [done|]).
  rewrite !length_app, (py_mapM_length _ _ _ Hh). simpl. lia.
Qed.
End Shape.

(** ** What the builders make of the sanitizer's output

    [lambda_handler] passes the output of [sanitize_for_openai] to the
    builders, but the two sides disagree on the keys: the builders read
    the keys of the raw request ([nameJp], [key], [bodyMass],
    [availableCategories], ...), the sanitizer emits other ones ([name],
    [has_*], [*_level]) or drops them. *)

Section Handoffs.
Context `{UnicodeDB} `{Sha256} `{PyRepr} `{PyFormat}.

(** The keys [gene_loop] writes are the categories it meets, other than
    [availableCategories]. *)
Lemma gene_loop_no_available cats acc out :
  gene_loop cats acc = PyOk out ->
  dict_lookup acc (T "availableCategories") = None ->
  dict_lookup out (T "availableCategories") = None.
Proof.
  revert acc. induction cats as [|[cat data] cats IH]; intros acc Hl Hacc; simpl in Hl.
  - by injection Hl as <-.
  - destruct (text_eqb cat (T "availableCategories")) eqn:Hc; [by eapply IH|].
    assert (Hne : cat <> T "availableCategories").
    { intros ->. by rewrite text_eqb_refl in Hc. }
    destruct data; try by eapply IH.
    + destruct (py_mapM gene_list_entry _); [|done].
      eapply IH; [done|]. by rewrite dict_lookup_set_ne.
    + eapply IH; [done|]. by rewrite dict_lookup_set_ne.
Qed.

(** C27: after sanitization a blood item has no [nameJp] and no [key], so
    its line in [build_blood_data_context] names no test: it is
    ["- : value unit (基準値: reference)"]. *)
Theorem sanitized_blood_line_nameless item it b l :
  sanitize_blood_item item = PyOk it -> blood_line (VStr []) it = PyOk (b, l) ->
  exists rest, l = T "- : " ++ rest.
Proof.
  destruct item; try discriminate. intros [= <-]. cbn -[T py_str].
  destruct (dget _ (T "status") _); try discriminate. intros [= _ <-].
  eexists. reflexivity.
Qed.

(** [build_vital_data_context] on a dict none of whose keys is a metric
    key renders the header alone. *)
Lemma vital_context_no_metrics kvs :
  Forall (fun m => dget kvs (T (m_key m)) VNone = VNone)
    (BODY_METRICS ++ CARDIAC_METRICS ++ ACTIVITY_METRICS ++ DISTANCE_METRICS) ->
  build_vital_data_context (VDict kvs) = PyOk VITAL_HEADER.
Proof.
  rewrite !Forall_app. intros (Hb & Hc & Ha & Hd).
  assert (Hg : forall hd ms, Forall (fun m => dget kvs (T (m_key m)) VNone = VNone) ms ->
               metric_group kvs hd ms = PyOk []).
  { intros hd ms Hms. unfold metric_group.
    assert (Hl : py_mapM (metric_line kvs) ms = PyOk (map (fun _ => []) ms)).
    { induction Hms as [|m ms Hm _ IH]; [done|]. cbn. unfold metric_line at 1.
      rewrite Hm. cbn. by rewrite IH. }
    rewrite Hl. cbn [py_bind]. clear. induction ms as [|m ms IH]; [done|].
    exact IH. }
  unfold build_vital_data_context. by rewrite !Hg.
Qed.

(** C26: the sanitized vital data carries only presence flags and levels,
    none of the keys [build_vital_data_context] formats, so on the
    sanitized path the vitals message is the bare header and the model
    sees no vital sign at all. *)
Theorem sanitized_vitals_header_only v sv :
  sanitize_vital_data v = PyOk sv -> build_vital_data_context sv = PyOk VITAL_HEADER.
Proof.
  unfold sanitize_vital_data. destruct (truthy v); cbn [negb].
  - destruct v; try discriminate.
    repeat match goal with
           | |- match ?m with PyOk _ => _ | PyRaise _ => _ end = _ -> _ => destruct m; try discriminate
           end.
    intros [= <-]. apply vital_context_no_metrics. repeat constructor.
  - intros [= <-]. apply vital_context_no_metrics. repeat constructor.
Qed.

(** The sanitized gene data is always a dict without
    [availableCategories]. *)
Theorem sanitized_gene_drops_available g sg :
  sanitize_gene_data g = PyOk sg ->
  exists kvs, sg = VDict kvs /\ dget kvs (T "availableCategories") VNone = VNone.
Proof.
  unfold sanitize_gene_data. destruct (truthy g); cbn [negb].
  - destruct g; try discriminate. destruct (gene_loop _ []) as [out|] eqn:Hl; [|done].
    intros [= <-]. exists out. split; [done|]. unfold dget.
    by rewrite (gene_loop_no_available _ _ _ Hl).
  - intros [= <-]. by exists [].
Qed.

Lemma dget_single k v d : dget [(k, v)] k d = v.
Proof. unfold dget. cbn [dict_lookup]. by rewrite text_eqb_refl. Qed.

(** C28: on a first-stage request, whose gene data holds only a truthy
    list of available categories, the prompt built from the raw request
    carries the category list as a system message; the prompt built
    from the sanitized gene data is the same list of messages without
    that one: the sanitizer drops the list and nothing replaces it. *)
Theorem sanitized_first_stage_gene_dropped cats um history blood vital sg msgs :
  truthy cats = true ->
  sanitize_gene_data (VDict [(T "availableCategories", cats)]) = PyOk sg ->
  build_chat_messages um history blood vital (VDict [(T "availableCategories", cats)]) = PyOk msgs ->
  exists pre post c, build_available_categories_context cats = PyOk c
    /\ msgs = pre ++ system_msg c :: post
    /\ build_chat_messages um history blood vital sg = PyOk (pre ++ post).
Proof.
  intros Hc Hs Hb.
  assert (Hs0 : sanitize_gene_data (VDict [(T "availableCategories", cats)]) = PyOk (VDict [])) by reflexivity.
  rewrite Hs0 in Hs. injection Hs as <-. unfold build_chat_messages in *.
  destruct (if truthy blood then _ else _) as [bm|]; cbn [py_bind] in *; [|done].
  destruct (if truthy vital then _ else _) as [vm|]; cbn [py_bind] in *; [|done].
  cbn [truthy empty negb] in Hb |- *. rewrite dget_single, Hc in Hb.
  destruct (build_available_categories_context cats) as [c|]; cbn [py_bind] in Hb; [|done].
  destruct (py_iter history) as [items|]; cbn [py_bind] in *; [|done].
  destruct (py_mapM history_message items) as [hs|]; cbn [py_bind] in *; [|done].
  injection Hb as <-.
  exists ([system_msg build_system_prompt]
          ++ (if detect_symptoms_consultation um then [system_msg SYMPTOM_HINT] else []) ++ bm ++ vm),
    (hs ++ [mk_msg (VStr (T "user")) (VStr um)]), c.
  split; [done|]. split; by rewrite <- !app_assoc.
Qed.
End Handoffs.

(** ** The shape on a concrete request

    A symptom question with one earlier turn and one blood item: the list
    is the prompt, the symptom hint, the blood context, the earlier turn
    and the question. *)

#[local] Existing Instances example_repr example_format example_sha256.

Definition demo_history : pyval :=
  VList [VDict [(T "role", VStr (T "user")); (T "content", VStr (T "前回の結果は？"))]].

Definition demo_blood : pyval :=
  VList [VDict [(T "key", VStr (T "LDL")); (T "nameJp", VStr (T "LDLコレステロール"));
                (T "value", VInt 160); (T "unit", VStr (T "mg/dL"));
                (T "status", VStr (T "high")); (T "reference", VStr (T "<140"))]].

Lemma build_chat_messages_shape_witness :
  exists msgs,
    build_chat_messages (T "最近頭痛がします") demo_history demo_blood VNone VNone = PyOk msgs
    /\ exists ctx items hs,
      msgs = [system_msg build_system_prompt] ++ ctx ++ hs
             ++ [mk_msg (VStr (T "user")) (VStr (T "最近頭痛がします"))]
      /\ Forall (role_is "system") ctx /\ length ctx <= 4
      /\ py_iter demo_history = PyOk items /\ py_mapM history_message items = PyOk hs
      /\ length msgs = length ctx + length items + 2.
Proof.
  destruct (build_chat_messages (T "最近頭痛がします") demo_history demo_blood VNone VNone)
    as [msgs|e] eqn:Hb; [|vm_compute in Hb; discriminate].
  exists msgs. split; [done|]. exact (build_chat_messages_shape _ _ _ _ _ _ Hb).
Defined.

Definition demo_blood_item : pyval :=
  VDict [(T "key", VStr (T "LDL")); (T "nameJp", VStr (T "LDLコレステロール"));
         (T "value", VInt 160); (T "unit", VStr (T "mg/dL"));
         (T "status", VStr (T "high")); (T "reference", VStr (T "<140"))].

Lemma sanitized_blood_line_nameless_witness :
  exists it b l, sanitize_blood_item demo_blood_item = PyOk it
  /\ blood_line (VStr []) it = PyOk (b, l) /\ exists rest, l = T "- : " ++ rest.
Proof.
  destruct (sanitize_blood_item demo_blood_item) as [it|e] eqn:Hs; [|vm_compute in Hs; discriminate].
  destruct (blood_line (VStr []) it) as [[b l]|e] eqn:Hl;
    [|vm_compute in Hs; injection Hs as <-; vm_compute in Hl; discriminate].
  exists it, b, l. do 2 (split; [done|]). exact (sanitized_blood_line_nameless _ _ _ _ Hs Hl).
Defined.

Definition demo_vital : pyval :=
  VDict [(T "bodyMass", VInt 62); (T "restingHeartRate", VInt 58); (T "vo2Max", VInt 41);
         (T "stepCount", VInt 8000)].

Lemma sanitized_vitals_header_only_witness :
  exists sv, sanitize_vital_data demo_vital = PyOk sv
  /\ build_vital_data_context sv = PyOk VITAL_HEADER.
Proof.
  destruct (sanitize_vital_data demo_vital) as [sv|e] eqn:Hs; [|vm_compute in Hs; discriminate].
  exists sv. split; [done|]. exact (sanitized_vitals_header_only _ _ Hs).
Defined.

Definition demo_categories : pyval := VList [VStr (T "栄養・代謝"); VStr (T "運動")].

Lemma sanitized_first_stage_gene_dropped_witness :
  exists msgs,
    build_chat_messages (T "おすすめの食事は？") (VList []) VNone VNone
      (VDict [(T "availableCategories", demo_categories)]) = PyOk msgs
    /\ exists pre post c, build_available_categories_context demo_categories = PyOk c
       /\ msgs = pre ++ system_msg c :: post
       /\ build_chat_messages (T "おすすめの食事は？") (VList []) VNone VNone (VDict []) = PyOk (pre ++ post).
Proof.
  destruct (build_chat_messages (T "おすすめの食事は？") (VList []) VNone VNone
              (VDict [(T "availableCategories", demo_categories)])) as [msgs|e] eqn:Hb;
    [|vm_compute in Hb; discriminate].
  exists msgs. split; [done|].
  apply (sanitized_first_stage_gene_dropped demo_categories _ _ _ _ (VDict [])); [reflexivity|reflexivity|exact Hb].
Defined.
