(* ===== verification/Invoker.v ===== *)
(** * [call_openai]: the retrying call to the chat-completion service

    [call_openai(client, messages, max_retries=3)] in
    [lambda_deployment/temp_v17/lambda_function.py].  Each attempt is one
    request; an exception whose text mentions a rate limit is followed by
    a sleep of [2 ** attempt + 1] seconds and the next attempt, any other
    exception is re-raised at once, and when the loop ends the last error
    is raised.  The service is an oracle [provider] giving the outcome of
    the request made at each attempt number, and the observable effects
    (requests and sleeps) are returned as a trace.  The abstract machine
    [inv_step] is the retry protocol of the design; [call_openai] is
    proved to implement it. *)

From Stdlib Require Import NArith ZArith String.
From stdpp Require Import base list numbers.
From S2P Require Import Prelude PyJson.

(** What [client.chat.completions.create] does on one attempt: return a
    completion whose [choices[0].message.content] may be [None], or raise. *)
Inductive outcome :=
  | Completed (content : option text)
  | Raised (e : exn).

Inductive effect :=
  | ECall (attempt : nat)
  | ESleep (seconds : nat).

Section Invoker.
Context `{UnicodeDB}.

(** [if "rate_limit" in error_str or "429" in str(e) or "rate limit" in error_str] *)
Definition is_rate_limit (e : exn) : bool :=
  let error_str := uc_lower (exn_msg e) in
  is_infix (T "rate_limit") error_str || is_infix (T "429") (exn_msg e)
  || is_infix (T "rate limit") error_str.

(** [time.sleep(2 ** attempt + 1)] *)
Definition backoff (attempt : nat) : nat := 2 ^ attempt + 1.

(** [raise last_error] with [last_error = None] raises [TypeError]. *)
Definition raise_last (last_error : option exn) : Py (option text) :=
  match last_error with
  | Some e => PyRaise e
  | None => PyRaise (mk_exn TypeError (T "exceptions must derive from BaseException"))
  end.

(** The [for attempt in range(max_retries)] loop: [left] attempts remain,
    the next is number [attempt]. *)
Fixpoint retry_loop (provider : nat -> outcome) (left attempt : nat) (last_error : option exn)
    : Py (option text) * list effect :=
  match left with
  | O => (raise_last last_error, [])
  | S left' =>
      match provider attempt with
      | Completed content => (PyOk content, [ECall attempt])
      | Raised e =>
          if is_rate_limit e then
            let '(r, effs) := retry_loop provider left' (S attempt) (Some e) in
            (r, ECall attempt :: ESleep (backoff attempt) :: effs)
          else (PyRaise e, [ECall attempt])
      end
  end.

(** [total_chars = sum(len(msg.get('content', '')) for msg in messages)]
    is evaluated before the loop and raises on a content without [len]. *)
Definition total_chars (messages : list message) : Py nat :=
  match py_mapM (fun m => py_len (msg_content m)) messages with
  | PyRaise e => PyRaise e
  | PyOk ls => PyOk (sum_list ls)
  end.

Definition call_openai (provider : nat -> outcome) (messages : list message)
    (max_retries : nat) : Py (option text) * list effect :=
  match total_chars messages with
  | PyRaise e => (PyRaise e, [])
  | PyOk _ => retry_loop provider max_retries 0 None
  end.
End Invoker.

(** ** The retry protocol as a labelled transition system *)

Inductive rstate :=
  | Attempt (n : nat) (last_error : option exn)
  | Waiting (n : nat) (e : exn)
  | Done (content : option text)
  | Failed (e : exn).

Section Protocol.
Context `{UnicodeDB} (provider : nat -> outcome) (max_retries : nat).

Inductive rstep : rstate -> option effect -> rstate -> Prop :=
  | rs_success n last c :
      n < max_retries -> provider n = Completed c ->
      rstep (Attempt n last) (Some (ECall n)) (Done c)
  | rs_fatal n last e :
      n < max_retries -> provider n = Raised e -> is_rate_limit e = false ->
      rstep (Attempt n last) (Some (ECall n)) (Failed e)
  | rs_limited n last e :
      n < max_retries -> provider n = Raised e -> is_rate_limit e = true ->
      rstep (Attempt n last) (Some (ECall n)) (Waiting n e)
  | rs_wake n e :
      rstep (Waiting n e) (Some (ESleep (backoff n))) (Attempt (S n) (Some e))
  | rs_exhausted e :
      rstep (Attempt max_retries (Some e)) None (Failed e).

Definition label_trace (l : option effect) : list effect :=
  match l with Some ef => [ef] | None => [] end.

(** Runs of the protocol with the effects they produce. *)
Inductive run : rstate -> list effect -> rstate -> Prop :=
  | run_refl s : run s [] s
  | run_step s l s' effs s'' :
      rstep s l s' -> run s' effs s'' -> run s (label_trace l ++ effs) s''.

Definition terminal (s : rstate) : Prop := forall l s', ~ rstep s l s'.

Lemma rstep_det s l1 s1 l2 s2 : rstep s l1 s1 -> rstep s l2 s2 -> l1 = l2 /\ s1 = s2.
Proof.
  destruct 1; inversion 1; subst; try lia; try congruence; split; congruence.
Qed.
End Protocol.

Definition final_state (r : Py (option text)) : rstate :=
  match r with PyOk c => Done c | PyRaise e => Failed e end.

Create HintDb invoker discriminated.
#[export] Hint Constructors rstep run : invoker.

(** ** [call_openai] implements the protocol *)

Section Refinement.
Context `{UnicodeDB} (provider : nat -> outcome) (max_retries : nat).

Lemma retry_loop_run left attempt last r effs :
  attempt + left = max_retries -> (0 < left \/ last <> None) ->
  retry_loop provider left attempt last = (r, effs) ->
  run provider max_retries (Attempt attempt last) effs (final_state r).
Proof.
  revert attempt last r effs.
  induction left as [|left IH]; intros attempt last r effs Hsum Hinv Hloop; simpl in Hloop.
  - destruct last as [e|]; [|destruct Hinv as [Hinv|Hinv]; [lia|done]].
    injection Hloop as <- <-. rewrite Nat.add_0_r in Hsum. subst.
    change (@nil effect) with (label_trace None ++ []). eauto with invoker.
  - destruct (provider attempt) as [c|e] eqn:Hp;
      [|destruct (is_rate_limit e) eqn:Hrl].
    + injection Hloop as <- <-.
      change [ECall attempt] with (label_trace (Some (ECall attempt)) ++ []).
      eapply run_step; [apply rs_success; [lia|done]|constructor].
    + destruct (retry_loop provider left (S attempt) (Some e)) as [r' effs'] eqn:Hrec.
      injection Hloop as <- <-.
      change (ECall attempt :: ESleep (backoff attempt) :: effs') with
        (label_trace (Some (ECall attempt)) ++ label_trace (Some (ESleep (backoff attempt))) ++ effs').
      eapply run_step; [apply rs_limited; [lia|done|done]|].
      eapply run_step; [constructor|]. apply IH; [lia|by right|done].
    + injection Hloop as <- <-.
      change [ECall attempt] with (label_trace (Some (ECall attempt)) ++ []).
      eapply run_step; [apply rs_fatal; [lia|done|done]|constructor].
Qed.

Lemma final_state_terminal r : terminal provider max_retries (final_state r).
Proof. intros l s' Hs. destruct r; inversion Hs. Qed.

(** C8: refinement.  Once the message list is measured, every execution
    of [call_openai] with [max_retries >= 1] is a run of the retry
    protocol from [Attempt 0] whose effects are exactly the requests and
    sleeps performed, ending in the terminal state holding the returned
    text or the raised exception. *)
Theorem call_openai_refines messages r effs n :
  0 < max_retries -> total_chars messages = PyOk n ->
  call_openai provider messages max_retries = (r, effs) ->
  run provider max_retries (Attempt 0 None) effs (final_state r)
  /\ terminal provider max_retries (final_state r).
Proof.
  intros Hmax Htc Hcall. unfold call_openai in Hcall. rewrite Htc in Hcall.
  split; [|apply final_state_terminal].
  apply (retry_loop_run max_retries); [lia|by left|done].
Qed.
End Refinement.

(** ** The retry schedule *)

(** One rate-limited attempt: the request, then the back-off sleep. *)
Definition limited_round (i : nat) : list effect := [ECall i; ESleep (2 ^ i + 1)].

(** What a decisive (not rate-limited) outcome makes the loop return. *)
Definition decisive_result (o : outcome) : Py (option text) :=
  match o with Completed c => PyOk c | Raised e => PyRaise e end.

Section Schedule.
Context `{UnicodeDB} (provider : nat -> outcome).

Definition rate_limited_at (err : nat -> exn) (i : nat) : Prop :=
  provider i = Raised (err i) /\ is_rate_limit (err i) = true.

Definition decisive (o : outcome) : Prop :=
  match o with Completed _ => True | Raised e => is_rate_limit e = false end.

Lemma retry_loop_limited_prefix err k left attempt last :
  (forall i, attempt <= i < attempt + k -> rate_limited_at err i) ->
  retry_loop provider (k + left) attempt last =
  let '(r, effs) := retry_loop provider left (attempt + k)
                      (match k with O => last | S _ => Some (err (attempt + k - 1)) end) in
  (r, flat_map limited_round (seq attempt k) ++ effs).
Proof.
  revert attempt last. induction k as [|k IH]; intros attempt last Hlim; simpl.
  - rewrite Nat.add_0_r. by destruct (retry_loop provider left attempt last).
  - destruct (Hlim attempt ltac:(lia)) as [Hp Hrl]. rewrite Hp, Hrl.
    rewrite (IH (S attempt) (Some (err attempt))) by (intros i Hi; apply Hlim; lia).
    replace (S attempt + k) with (attempt + S k) by lia.
    destruct k as [|k]; simpl;
      [replace (attempt + 1 - 1) with attempt by lia|
       replace (attempt + S (S k) - 1) with (S attempt + S k - 1) by lia];
      by destruct (retry_loop _ _ _ _).
Qed.

(** C10: after [k] rate-limited attempts, a decisive outcome at attempt
    [k < max_retries] ends the loop: the effects are [k] rounds of
    request-and-sleep with sleeps [2 ** i + 1], then one last request,
    and no request follows a non-rate-limit failure. *)
Theorem call_openai_decisive err k o messages n max_retries :
  (forall i, i < k -> rate_limited_at err i) ->
  provider k = o -> decisive o -> k < max_retries ->
  total_chars messages = PyOk n ->
  call_openai provider messages max_retries
  = (decisive_result o, flat_map limited_round (seq 0 k) ++ [ECall k]).
Proof.
  intros Hlim Ho Hdec Hk Htc. unfold call_openai. rewrite Htc.
  replace max_retries with (k + S (max_retries - S k)) by lia.
  rewrite (retry_loop_limited_prefix err) by (intros i Hi; apply Hlim; lia).
  simpl. rewrite Ho. destruct o as [c|e]; simpl in *; [done|]. by rewrite Hdec.
Qed.

(** C9: retry bound.  When every attempt is rate-limited, exactly
    [max_retries] requests are made, each followed by its back-off, and
    the error of the last attempt is raised. *)
Theorem call_openai_exhausted err messages n max_retries :
  (forall i, rate_limited_at err i) -> 0 < max_retries ->
  total_chars messages = PyOk n ->
  call_openai provider messages max_retries
  = (PyRaise (err (max_retries - 1)), flat_map limited_round (seq 0 max_retries)).
Proof.
  intros Hlim Hmax Htc. unfold call_openai. rewrite Htc.
  rewrite <- (Nat.add_0_r max_retries) at 1.
  rewrite (retry_loop_limited_prefix err) by (intros i _; apply Hlim).
  destruct max_retries as [|m]; [lia|]. simpl. by rewrite app_nil_r, Nat.sub_0_r.
Qed.
End Schedule.

(** ** The theorems on a concrete service

    A service that answers 429 to the first two requests and then
    completes: with [max_retries = 3] the call sleeps 2 and 3 seconds and
    returns the third answer; a service that always answers 429 exhausts
    the three attempts. *)

Definition e429 : exn :=
  mk_exn (ProviderError (T "RateLimitError")) (T "Error code: 429 - Rate limit reached").

Definition demo_provider (i : nat) : outcome :=
  if i <? 2 then Raised e429 else Completed (Some (T "ok")).

Definition demo_messages : list message := [mk_msg (VStr (T "user")) (VStr (T "hi"))].

Lemma call_openai_refines_witness :
  call_openai demo_provider demo_messages 3
  = (PyOk (Some (T "ok")), [ECall 0; ESleep 2; ECall 1; ESleep 3; ECall 2])
  /\ run demo_provider 3 (Attempt 0 None) [ECall 0; ESleep 2; ECall 1; ESleep 3; ECall 2]
       (final_state (PyOk (Some (T "ok"))))
  /\ terminal demo_provider 3 (final_state (PyOk (Some (T "ok")))).
Proof.
  split; [vm_compute; reflexivity|].
  apply (call_openai_refines demo_provider 3 demo_messages _ _ 2);
    [lia|vm_compute; reflexivity|vm_compute; reflexivity].
Defined.

Lemma call_openai_exhausted_witness :
  (forall i, rate_limited_at (fun _ => Raised e429) (fun _ => e429) i)
  /\ call_openai (fun _ => Raised e429) demo_messages 3
     = (PyRaise e429, flat_map limited_round (seq 0 3)).
Proof.
  assert (Hl : forall i, rate_limited_at (fun _ => Raised e429) (fun _ => e429) i).
  { intros i. split; [done|vm_compute; reflexivity]. }
  split; [exact Hl|].
  apply (call_openai_exhausted (fun _ => Raised e429) (fun _ => e429) demo_messages 2 3 Hl);
    [lia|vm_compute; reflexivity].
Defined.

Lemma call_openai_decisive_witness :
  call_openai demo_provider demo_messages 3
  = (PyOk (Some (T "ok")), flat_map limited_round (seq 0 2) ++ [ECall 2]).
Proof.
  apply (call_openai_decisive demo_provider (fun _ => e429) 2 (Completed (Some (T "ok")))
           demo_messages 2 3).
  - intros i Hi. split; [|vm_compute; reflexivity].
    unfold demo_provider. destruct (Nat.ltb_spec i 2); [done|lia].
  - reflexivity.
  - exact I.
  - lia.
  - vm_compute; reflexivity.
Defined.
