(* ===== verification/Segmenter.v ===== *)
(** * [split_response_into_chunks]: the answer cut into display chunks

    The generated answer is split on the section delimiter ["---"]; each
    part is stripped, empty parts are dropped, lines whose stripped form
    starts with the section label ["【セクション"] are removed, and parts
    that become empty are dropped.  Without a delimiter, or when no part
    survives, the stripped whole text is the only chunk. *)

From Stdlib Require Import NArith String.
From stdpp Require Import base list numbers.
From S2P Require Import Prelude.

Definition DELIMITER : text := T "---".
Definition SECTION_LABEL : text := T "【セクション".

Section Segmenter.
Context `{UnicodeDB}.

Definition nonempty (s : text) : bool := match s with [] => false | _ => true end.

(** [[line for line in lines if not line.strip().startswith('【セクション')]] *)
Definition drop_label_lines (lines : list text) : list text :=
  List.filter (fun line => negb (py_startswith (py_strip line) SECTION_LABEL)) lines.

(** [cleaned_chunk = '\n'.join(filtered_lines).strip()] *)
Definition clean_chunk (chunk : text) : text :=
  py_strip (py_join NEWLINE (drop_label_lines (py_split NEWLINE chunk))).

Definition split_response_into_chunks (response_text : text) : list text :=
  if is_infix DELIMITER response_text then
    let chunks := List.map py_strip
                    (List.filter (fun c => nonempty (py_strip c)) (py_split DELIMITER response_text)) in
    let cleaned_chunks := List.filter nonempty (List.map clean_chunk chunks) in
    match cleaned_chunks with
    | [] => [py_strip response_text]
    | _ => cleaned_chunks
    end
  else [py_strip response_text].
End Segmenter.

Section SegmenterFacts.
Context `{UnicodeDB}.

Lemma filter_nonempty_forall (l : list text) :
  Forall (fun c => c <> []) (List.filter nonempty l).
Proof.
  induction l as [|x l IH]; simpl; [constructor|].
  destruct x as [|a x]; simpl; [done|]. by constructor.
Qed.

(** the output is never empty, whatever the text. *)
Theorem split_response_nonempty t : split_response_into_chunks t <> [].
Proof.
  unfold split_response_into_chunks. destruct (is_infix DELIMITER t); [|done].
  by destruct (List.filter nonempty _).
Qed.

(** C35: either the whole stripped text is the only chunk, or every
    chunk is non-empty and already stripped. *)
Theorem split_response_chunks_clean t :
  split_response_into_chunks t = [py_strip t]
  \/ Forall (fun c => c <> [] /\ py_strip c = c) (split_response_into_chunks t).
Proof.
  unfold split_response_into_chunks. destruct (is_infix DELIMITER t); [|by left].
  set (cl := List.filter nonempty _).
  assert (Hcl : Forall (fun c => c <> [] /\ py_strip c = c) cl).
  { pose proof (filter_nonempty_forall (List.map clean_chunk
      (List.map py_strip (List.filter (fun c => nonempty (py_strip c)) (py_split DELIMITER t))))) as Hne.
    unfold cl. apply Forall_forall. intros c Hc. rewrite Forall_forall in Hne.
    split; [by apply Hne|].
    apply filter_In in Hc as [Hc _]. apply in_map_iff in Hc as (c0 & <- & _).
    apply py_strip_idem. }
  destruct cl; [by left|by right].
Qed.
End SegmenterFacts.
