(* ===== verification/Handler.v ===== *)
(** * [lambda_handler]: one request through the whole pipeline

    The handler of [lambda_deployment/temp_v17/lambda_function.py]: fetch
    the API key ([get_openai_api_key]), build the client
    ([openai_client]), parse the body, validate
    [userId] and [message], sanitize ([sanitize_for_openai]), build the
    messages, call the model ([call_openai]) and split the answer
    ([split_response_into_chunks]).  Exceptions are values of [Py]; the
    outer [try]/[except Exception] maps any of them to a 500
    [INTERNAL_ERROR] response, and a [ValueError] raised while sanitizing
    to [PII_SALT_MISSING].  The handler's inputs from outside (the secret,
    the environment, the clock, [json.loads], the model) are arguments or
    classes; the effects it has on the model service are the trace of
    [call_openai].  The module's cold start ([module_init]: the guarded
    imports of [pii_sanitizer] and [openai]) sets the switch
    [PII_SANITIZER_AVAILABLE]; every response carries [cors_headers]. *)

From Stdlib Require Import NArith ZArith QArith String.
From stdpp Require Import base list numbers.
From S2P Require Import Prelude PyJson Regex Sanitizer SystemPrompt ContextBuilder Invoker Segmenter.

Local Open Scope py_scope.

(** The module's cold start: the import of [pii_sanitizer], whose
    [ImportError] alone is caught and turns the sanitizer off, then the
    import of [openai], whose [ImportError] is raised again; any other
    exception of either import fails the cold start too.  The result is
    [PII_SANITIZER_AVAILABLE]. *)
Definition module_init (import_pii import_openai : Py unit) : Py bool :=
  available <- match import_pii with
               | PyOk _ => PyOk true
               | PyRaise e => match exn_cls e with ImportError => PyOk false | _ => PyRaise e end
               end ;;
  _ <- import_openai ;;
  PyOk available.

(** The outside world of one invocation. *)
Record world := mk_world {
  w_environ : environ;                   (** [os.environ] *)
  w_secret : Py pyval;                   (** [json.loads(get_secret_value(...)['SecretString'])] *)
  w_sanitizer_available : bool;          (** [PII_SANITIZER_AVAILABLE], from [module_init] *)
  w_now : text;                          (** [datetime.now().isoformat()] *)
  w_provider : nat -> outcome            (** the model service, per attempt *)
}.

(** The API Gateway event: its [body], when present. *)
Record event := mk_event { ev_body : option pyval }.

(** [cors_headers()] *)
Definition cors_headers : list (text * text) :=
  [(T "Content-Type", T "application/json"); (T "Access-Control-Allow-Origin", T "*");
   (T "Access-Control-Allow-Headers", T "Content-Type,Authorization");
   (T "Access-Control-Allow-Methods", T "OPTIONS,POST,GET")].

(** The response dict: [statusCode], [headers] and the dict whose
    [json.dumps] is the [body]. *)
Record response := mk_response {
  status_code : Z;
  resp_headers : list (text * text);
  resp_body : list (text * pyval)
}.

Definition DISCLAIMER : text := T "この情報は参考情報です。医療的な判断は医師にご相談ください。".

Definition error_response (code : Z) (error code_name : string) (details : option text) : response :=
  mk_response code cors_headers
    ([(T "error", VStr (T error)); (T "errorCode", VStr (T code_name))]
     ++ match details with Some d => [(T "details", VStr d)] | None => [] end).

(** [get_openai_api_key]: the first of three key names present in the secret. *)
Definition get_openai_api_key (secret : Py pyval) : Py pyval :=
  s <- secret ;;
  match s with
  | VDict kvs =>
      match dict_lookup kvs (T "api_key"), dict_lookup kvs (T "OPENAI_API_KEY"),
            dict_lookup kvs (T "openai_api_key") with
      | Some k, _, _ => PyOk k
      | None, Some k, _ => PyOk k
      | None, None, Some k => PyOk k
      | None, None, None => PyRaise (mk_exn KeyError (T "No valid API key found in secret."))
      end
  | _ => PyRaise (attr_error "object has no attribute 'keys'")
  end.

(** [OpenAI(api_key=api_key)]: a [None] key falls back to the
    environment variable [OPENAI_API_KEY], and the client raises
    [OpenAIError] when that is missing too; any other value is kept. *)
Definition openai_client (env : environ) (api_key : pyval) : Py unit :=
  match api_key with
  | VNone =>
      match env_get env (T "OPENAI_API_KEY") with
      | Some _ => PyOk tt
      | None => PyRaise (mk_exn (ProviderError (T "OpenAIError"))
                               (T "The api_key client option must be set"))
      end
  | _ => PyOk tt
  end.

Definition invalid_request : response :=
  error_response 400 "userId and message are required" "INVALID_REQUEST" None.

Definition pii_salt_missing (e : exn) : response :=
  error_response 500 "Server configuration error" "PII_SALT_MISSING" (Some (exn_msg e)).

Definition internal_error (e : exn) : response :=
  error_response 500 "Internal server error" "INTERNAL_ERROR" (Some (exn_msg e)).

Definition ok_response (answer : text) (chunks : list text) (now : text) : response :=
  mk_response 200 cors_headers
    [(T "response", VStr answer); (T "chunks", VList (map VStr chunks));
     (T "chunked", VBool true); (T "timestamp", VStr now); (T "disclaimer", VStr DISCLAIMER)].

(** [json.loads(event.get('body', '{}'))]: a missing body is ["{}"]; a
    body that is not a string raises [TypeError]. *)
Definition load_body `{JsonDecoder} (ev : event) : Py pyval :=
  match ev_body ev with
  | None => PyOk (VDict [])
  | Some (VStr s) => json_loads s
  | Some _ => PyRaise (mk_exn TypeError (T "the JSON object must be str, bytes or bytearray"))
  end.

(** [.lower()] is only defined on a [str]. *)
Definition as_str (v : pyval) : Py text :=
  match v with VStr s => PyOk s | _ => PyRaise (attr_error "object has no attribute 'lower'") end.

Section Handler.
Context `{UnicodeDB} `{Sha256} `{PyRepr} `{PyFormat} `{JsonDecoder}.

(** The [len(...)] calls of the request log, which raise on values
    without a length. *)
Definition log_checks (message history blood gene : pyval) : Py unit :=
  _ <- (if truthy message then py_len message else PyOk 0) ;;
  _ <- py_len history ;;
  _ <- (if truthy blood then py_len blood else PyOk 0) ;;
  _ <- (if truthy gene then
          match gene with
          | VDict kvs =>
              let available := dget kvs (T "availableCategories") (VList []) in
              if truthy available then py_len available else py_len gene
          | _ => PyRaise (attr_error "object has no attribute 'get'")
          end
        else PyOk 0) ;;
  PyOk tt.

(** Everything before the model call: an early response, or the
    messages to send. *)
Definition prepare (w : world) (ev : event) : Py (response + list message) :=
  api_key <- get_openai_api_key (w_secret w) ;;
  _ <- openai_client (w_environ w) api_key ;;
  body <- load_body ev ;;
  match body with
  | VDict b =>
      let user_id := dget b (T "userId") VNone in
      let message := dget b (T "message") VNone in
      let history := dget b (T "conversationHistory") (VList []) in
      let blood := dget b (T "bloodData") VNone in
      let vital := dget b (T "vitalData") VNone in
      let gene := dget b (T "geneData") VNone in
      _ <- log_checks message history blood gene ;;
      if negb (truthy user_id) || negb (truthy message) then PyOk (inl invalid_request)
      else if w_sanitizer_available w then
        match sanitize_request (w_environ w) body with
        | PyRaise e => if is_value_error e then PyOk (inl (pii_salt_missing e)) else PyRaise e
        | PyOk (VDict s) =>
            let s_blood := if truthy blood then dget s (T "bloodData") VNone else VNone in
            let s_vital := if truthy vital then dget s (T "vitalData") VNone else VNone in
            let s_gene := if truthy gene then dget s (T "geneData") VNone else VNone in
            let s_history := dget s (T "conversationHistory") history in
            um <- as_str (dget s (T "message") message) ;;
            msgs <- build_chat_messages um s_history s_blood s_vital s_gene ;;
            PyOk (inr msgs)
        | PyOk _ => PyRaise (attr_error "object has no attribute 'get'")
        end
      else
        um <- as_str message ;;
        msgs <- build_chat_messages um history blood vital gene ;;
        PyOk (inr msgs)
  | _ => PyRaise (attr_error "object has no attribute 'get'")
  end.

Definition lambda_handler (w : world) (ev : event) : response * list effect :=
  match prepare w ev with
  | PyRaise e => (internal_error e, [])
  | PyOk (inl r) => (r, [])
  | PyOk (inr msgs) =>
      match py_mapM (fun m => py_len (msg_content m)) msgs with
      | PyRaise e => (internal_error e, [])
      | PyOk _ =>
          let '(r, effs) := call_openai (w_provider w) msgs 3 in
          match r with
          | PyRaise e => (internal_error e, effs)
          | PyOk None =>
              (internal_error (mk_exn TypeError (T "object of type 'NoneType' has no len()")), effs)
          | PyOk (Some answer) =>
              (ok_response answer (split_response_into_chunks answer) (w_now w), effs)
          end
      end
  end.
End Handler.

(** ** What reaches the model *)

Definition content_clean `{UnicodeDB} (m : message) : Prop :=
  exists c, msg_content m = VStr c /\ re_search SNP_RE c = false.

Lemma dget_falsy kvs k d :
  truthy (dget kvs k VNone) = false -> truthy d = false -> truthy (dget kvs k d) = false.
Proof. unfold dget. by destruct (dict_lookup kvs k). Qed.

Lemma py_iter_falsy v items : truthy v = false -> py_iter v = PyOk items -> items = [].
Proof.
  destruct v as [| | | |s|xs|kvs]; simpl; intros Hf Hi; try discriminate;
    [destruct s|destruct xs|destruct kvs]; try discriminate; by injection Hi as <-.
Qed.

Lemma py_mapM_forall_in {A B} (f : A -> Py B) (P : B -> Prop) xs ys :
  (forall x y, In x xs -> f x = PyOk y -> P y) -> py_mapM f xs = PyOk ys -> Forall P ys.
Proof.
  revert ys. induction xs as [|x xs IH]; simpl; intros ys Hf Hm.
  - injection Hm as <-. constructor.
  - destruct (f x) as [y|] eqn:Hx; [|done].
    destruct (py_mapM f xs) as [ys'|] eqn:Hxs; [|done]. injection Hm as <-.
    constructor; [by eapply Hf; [left|]|apply IH; [|done]].
    intros x' y' Hin. apply Hf. by right.
Qed.

Section HandlerFacts.
Context `{UnicodeLaws} `{Sha256} `{PyRepr} `{PyFormat} `{JsonDecoder}.

(** C2: with the sanitizer loaded, every message the handler sends
    whose text comes from the request (each history entry and the final
    user message) is a string with no SNP identifier; the only other
    messages are the system prompt and system-role context blocks. *)
Theorem prepare_sanitized_texts w ev msgs :
  w_sanitizer_available w = true -> prepare w ev = PyOk (inr msgs) ->
  exists ctx hs out,
    msgs = [system_msg build_system_prompt] ++ ctx ++ hs ++ [mk_msg (VStr (T "user")) (VStr out)]
    /\ Forall (role_is "system") ctx /\ re_search SNP_RE out = false /\ Forall content_clean hs.
Proof.
  intros Hav. unfold prepare.
  destruct (get_openai_api_key _) as [key|]; cbn [py_bind]; [|done].
  destruct (openai_client _ key); cbn [py_bind]; [|done].
  destruct (load_body ev) as [body|]; cbn [py_bind]; [|done].
  destruct body as [| | | | | |b]; try discriminate.
  destruct (log_checks _ _ _ _); cbn [py_bind]; [|done].
  destruct (_ || _); [done|]. rewrite Hav.
  destruct (sanitize_request (w_environ w) (VDict b)) as [sv|e] eqn:Hsr;
    [|by destruct (is_value_error e)].
  destruct sv as [| | | | | |s]; try discriminate.
  destruct (sanitize_request_message _ _ _ Hsr) as (b' & out & [= <-] & Hout & Hmsg).
  replace (dget s (T "message") _) with (VStr out) by (unfold dget; by rewrite Hmsg).
  cbn [as_str py_bind].
  destruct (build_chat_messages _ _ _ _ _) as [msgs'|] eqn:Hbuild; cbn [py_bind]; [|done].
  intros [= <-].
  apply build_chat_messages_inv in Hbuild as (ctx & items & hs & -> & Hctx & _ & Hit & Hhs).
  exists ctx, hs, out. split; [done|]. split; [done|].
  split; [by eapply sanitize_text_clean|].
  destruct (sanitize_request_history _ _ _ Hsr) as [[Hnone Hfalsy]|(v & v' & Hv & Hsh & Hs)].
  - unfold dget at 1 in Hit. rewrite Hnone in Hit.
    apply py_iter_falsy in Hit; [|by apply dget_falsy]. subst items.
    injection Hhs as <-. constructor.
  - unfold dget at 1 in Hit. rewrite Hs in Hit.
    destruct (sanitize_history_clean _ _ Hsh) as (es & -> & Hes).
    injection Hit as <-. revert Hhs. apply py_mapM_forall_in.
    intros e m Hin He. rewrite Forall_forall in Hes.
    destruct (Hes e Hin) as (r & c & -> & Hc). injection He as <-. by exists c.
Qed.

Lemma dget_truthy kvs k d :
  truthy (dget kvs k VNone) = true -> dget kvs k d = dget kvs k VNone.
Proof. unfold dget. by destruct (dict_lookup kvs k). Qed.

Lemma prepare_early w ev k b :
  get_openai_api_key (w_secret w) = PyOk k -> openai_client (w_environ w) k = PyOk tt ->
  load_body ev = PyOk (VDict b) ->
  log_checks (dget b (T "message") VNone) (dget b (T "conversationHistory") (VList []))
             (dget b (T "bloodData") VNone) (dget b (T "geneData") VNone) = PyOk tt ->
  prepare w ev =
  if negb (truthy (dget b (T "userId") VNone)) || negb (truthy (dget b (T "message") VNone))
  then PyOk (inl invalid_request)
  else if w_sanitizer_available w then
    match sanitize_request (w_environ w) (VDict b) with
    | PyRaise e => if is_value_error e then PyOk (inl (pii_salt_missing e)) else PyRaise e
    | PyOk (VDict s) =>
        let blood := dget b (T "bloodData") VNone in
        let vital := dget b (T "vitalData") VNone in
        let gene := dget b (T "geneData") VNone in
        um <- as_str (dget s (T "message") (dget b (T "message") VNone)) ;;
        msgs <- build_chat_messages um
                  (dget s (T "conversationHistory") (dget b (T "conversationHistory") (VList [])))
                  (if truthy blood then dget s (T "bloodData") VNone else VNone)
                  (if truthy vital then dget s (T "vitalData") VNone else VNone)
                  (if truthy gene then dget s (T "geneData") VNone else VNone) ;;
        PyOk (inr msgs)
    | PyOk _ => PyRaise (attr_error "object has no attribute 'get'")
    end
  else um <- as_str (dget b (T "message") VNone) ;;
       msgs <- build_chat_messages um (dget b (T "conversationHistory") (VList []))
                 (dget b (T "bloodData") VNone) (dget b (T "vitalData") VNone)
                 (dget b (T "geneData") VNone) ;;
       PyOk (inr msgs).
Proof.
  intros Hk Hc Hb Hl. unfold prepare. rewrite Hk. cbn [py_bind]. rewrite Hc. cbn [py_bind].
  rewrite Hb. cbn [py_bind]. by rewrite Hl.
Qed.

(** A request without a truthy [userId] or [message] is answered
    400 [INVALID_REQUEST] before any call to the model. *)
Theorem lambda_handler_invalid_request w ev k b :
  get_openai_api_key (w_secret w) = PyOk k -> openai_client (w_environ w) k = PyOk tt ->
  load_body ev = PyOk (VDict b) ->
  log_checks (dget b (T "message") VNone) (dget b (T "conversationHistory") (VList []))
             (dget b (T "bloodData") VNone) (dget b (T "geneData") VNone) = PyOk tt ->
  truthy (dget b (T "userId") VNone) && truthy (dget b (T "message") VNone) = false ->
  lambda_handler w ev = (invalid_request, []).
Proof.
  intros Hk Hc Hb Hl Hv. unfold lambda_handler. rewrite (prepare_early w ev k b) by done.
  rewrite <- negb_andb, Hv. reflexivity.
Qed.

(** A valid request with the sanitizer loaded and no [PII_SALT]
    (missing or empty) is answered 500 [PII_SALT_MISSING], never
    hashed without salt and never sent to the model. *)
Theorem lambda_handler_salt_missing w ev k b :
  get_openai_api_key (w_secret w) = PyOk k -> openai_client (w_environ w) k = PyOk tt ->
  load_body ev = PyOk (VDict b) ->
  log_checks (dget b (T "message") VNone) (dget b (T "conversationHistory") (VList []))
             (dget b (T "bloodData") VNone) (dget b (T "geneData") VNone) = PyOk tt ->
  truthy (dget b (T "userId") VNone) = true -> truthy (dget b (T "message") VNone) = true ->
  w_sanitizer_available w = true ->
  env_get (w_environ w) (T "PII_SALT") = None \/ env_get (w_environ w) (T "PII_SALT") = Some [] ->
  lambda_handler w ev = (pii_salt_missing salt_missing, []).
Proof.
  intros Hk Hc Hb Hl Hu Hm Hav Hsalt. unfold lambda_handler.
  rewrite (prepare_early w ev k b) by done. rewrite Hu, Hm, Hav. cbn [negb orb].
  unfold sanitize_request, anonymize_user_id. rewrite (dget_truthy _ _ _ Hu), Hu.
  cbn [negb]. unfold get_salt. by destruct Hsalt as [->| ->].
Qed.
End HandlerFacts.

(** ** The responses and the cold start *)

Definition api_response_wf (r : response) : Prop :=
  resp_headers r = cors_headers
  /\ (status_code r = 200 \/ status_code r = 400 \/ status_code r = 500)%Z.

Lemma error_response_wf code error code_name details :
  (code = 400 \/ code = 500)%Z -> api_response_wf (error_response code error code_name details).
Proof. intros Hc. split; [done|]. cbn [status_code error_response]. lia. Qed.

Lemma internal_error_wf e : api_response_wf (internal_error e).
Proof. apply error_response_wf. lia. Qed.

Lemma ok_response_wf answer chunks now : api_response_wf (ok_response answer chunks now).
Proof. split; [done|]. by left. Qed.

Lemma as_str_ok v s : as_str v = PyOk s -> v = VStr s.
Proof. destruct v; cbn [as_str]; try done. by intros [= ->]. Qed.

Lemma module_init_import_error e :
  exn_cls e = ImportError -> module_init (PyRaise e) (PyOk tt) = PyOk false.
Proof. intros He. unfold module_init. cbn [py_bind]. by rewrite He. Qed.

Section ResponseFacts.
Context `{UnicodeDB} `{Sha256} `{PyRepr} `{PyFormat} `{JsonDecoder}.

Lemma prepare_early_response w ev r :
  prepare w ev = PyOk (inl r) -> r = invalid_request \/ exists e, r = pii_salt_missing e.
Proof.
  unfold prepare. destruct (get_openai_api_key _) as [key|]; cbn [py_bind]; [|done].
  destruct (openai_client _ key); cbn [py_bind]; [|done].
  destruct (load_body ev) as [body|]; cbn [py_bind]; [|done].
  destruct body as [| | | | | |b]; try done.
  destruct (log_checks _ _ _ _); cbn [py_bind]; [|done].
  destruct (_ || _); [intros [= <-]; by left|].
  destruct (w_sanitizer_available w).
  - destruct (sanitize_request _ _) as [[| | | | | |s]|e]; try done.
    + destruct (as_str _); cbn [py_bind]; [|done]. by destruct (build_chat_messages _ _ _ _ _).
    + destruct (is_value_error e); [intros [= <-]; right; by exists e|done].
  - destruct (as_str _); cbn [py_bind]; [|done]. by destruct (build_chat_messages _ _ _ _ _).
Qed.

(** C17: every answer of the handler is an API Gateway response with the
    CORS headers of [cors_headers] and the status 200, 400 or 500, on
    every path, the exceptions caught by the outer [try] included. *)
Theorem lambda_handler_response_wf w ev : api_response_wf (lambda_handler w ev).1.
Proof.
  unfold lambda_handler.
  destruct (prepare w ev) as [[r|msgs]|e] eqn:Hp; [| |apply internal_error_wf].
  - destruct (prepare_early_response _ _ _ Hp) as [->|[e ->]]; apply error_response_wf; lia.
  - destruct (py_mapM _ msgs); [|apply internal_error_wf].
    destruct (call_openai _ _ _) as [[[answer|]|e] effs];
      [apply ok_response_wf|apply internal_error_wf|apply internal_error_wf].
Qed.

(** C3: when the import of [pii_sanitizer] fails with [ImportError], the
    cold start turns the sanitizer off, and every request the handler
    then sends to the model ends with the request's [message], verbatim:
    the privacy layer fails open. *)
Theorem sanitizer_import_error_fails_open e w ev msgs :
  exn_cls e = ImportError ->
  module_init (PyRaise e) (PyOk tt) = PyOk (w_sanitizer_available w) ->
  prepare w ev = PyOk (inr msgs) ->
  exists b m, load_body ev = PyOk (VDict b) /\ dget b (T "message") VNone = VStr m
    /\ exists pre, msgs = pre ++ [mk_msg (VStr (T "user")) (VStr m)].
Proof.
  intros He. rewrite (module_init_import_error e He). intros [= Hoff].
  unfold prepare. destruct (get_openai_api_key _) as [key|]; cbn [py_bind]; [|done].
  destruct (openai_client _ key); cbn [py_bind]; [|done].
  destruct (load_body ev) as [body|] eqn:Hb; cbn [py_bind]; [|done].
  destruct body as [| | | | | |b]; try done.
  destruct (log_checks _ _ _ _); cbn [py_bind]; [|done].
  destruct (_ || _); [done|]. rewrite <- Hoff.
  destruct (as_str _) as [m|] eqn:Ha; cbn [py_bind]; [|done].
  destruct (build_chat_messages _ _ _ _ _) as [msgs'|] eqn:Hbuild; cbn [py_bind]; [|done].
  intros [= <-]. apply build_chat_messages_inv in Hbuild as (ctx & items & hs & -> & _).
  exists b, m. split_and!; [done|by apply as_str_ok|].
  eexists. by rewrite !app_assoc.
Qed.
End ResponseFacts.

(** ** The handler on concrete requests

    The examples decode every body to a request of user [u-1] whose
    message is the body's text, with one earlier turn; the secret holds
    [api_key]; the service answers at once. *)

#[local] Existing Instances example_repr example_format example_sha256.

#[local] Instance demo_decoder : JsonDecoder := {|
  json_loads := fun s =>
    PyOk (VDict [(T "userId", VStr (T "u-1")); (T "message", VStr s);
                 (T "conversationHistory",
                    VList [VDict [(T "role", VStr (T "user"));
                                  (T "content", VStr (T "rs1801133は？"))]])]) |}.

Definition demo_world (env : environ) : world :=
  mk_world env (PyOk (VDict [(T "api_key", VStr (T "sk-test"))])) true (T "2025-01-01T00:00:00")
    (fun _ => Completed (Some (T "回答")))%string.

Definition demo_event (body : option pyval) : event := mk_event body.

Lemma prepare_sanitized_texts_witness :
  exists msgs,
    prepare (demo_world [(T "PII_SALT", T "pepper")]) (demo_event (Some (VStr (T "rs429358 の意味は？"))))
    = PyOk (inr msgs)
    /\ exists ctx hs out,
      msgs = [system_msg build_system_prompt] ++ ctx ++ hs ++ [mk_msg (VStr (T "user")) (VStr out)]
      /\ Forall (role_is "system") ctx /\ re_search SNP_RE out = false /\ Forall content_clean hs.
Proof.
  destruct (prepare (demo_world [(T "PII_SALT", T "pepper")])
              (demo_event (Some (VStr (T "rs429358 の意味は？"))))) as [[r|msgs]|e] eqn:Hp;
    [vm_compute in Hp; discriminate| |vm_compute in Hp; discriminate].
  exists msgs. split; [done|]. exact (prepare_sanitized_texts _ _ _ (eq_refl : w_sanitizer_available (demo_world _) = true) Hp).
Defined.

Lemma lambda_handler_invalid_request_witness :
  lambda_handler (demo_world []) (demo_event None) = (invalid_request, []).
Proof.
  apply (lambda_handler_invalid_request _ _ (VStr (T "sk-test")) []);
    vm_compute; reflexivity.
Defined.

Lemma lambda_handler_salt_missing_witness :
  lambda_handler (demo_world []) (demo_event (Some (VStr (T "こんにちは"))))
  = (pii_salt_missing salt_missing, []).
Proof.
  apply (lambda_handler_salt_missing _ _ (VStr (T "sk-test"))
           [(T "userId", VStr (T "u-1")); (T "message", VStr (T "こんにちは"));
            (T "conversationHistory",
               VList [VDict [(T "role", VStr (T "user")); (T "content", VStr (T "rs1801133は？"))]])]);
    try (vm_compute; reflexivity). by left.
Defined.

(** The cold start where [pii_sanitizer] is missing from the package. *)
Definition no_sanitizer : exn := mk_exn ImportError (T "No module named 'pii_sanitizer'").

Definition offline_world : world :=
  mk_world [] (w_secret (demo_world [])) false (w_now (demo_world [])) (w_provider (demo_world [])).

Lemma sanitizer_import_error_fails_open_witness :
  exists msgs,
    prepare offline_world (demo_event (Some (VStr (T "rs429358 の意味は？")))) = PyOk (inr msgs)
    /\ exists b m, load_body (demo_event (Some (VStr (T "rs429358 の意味は？")))) = PyOk (VDict b)
       /\ dget b (T "message") VNone = VStr m
       /\ exists pre, msgs = pre ++ [mk_msg (VStr (T "user")) (VStr m)].
Proof.
  destruct (prepare offline_world (demo_event (Some (VStr (T "rs429358 の意味は？")))))
    as [[r|msgs]|e] eqn:Hp; [vm_compute in Hp; discriminate| |vm_compute in Hp; discriminate].
  exists msgs. split; [done|].
  apply (sanitizer_import_error_fails_open no_sanitizer offline_world _ _); [reflexivity|vm_compute; reflexivity|exact Hp].
Defined.
