(* ===== verification/Aws.v ===== *)
(** * The AWS services of the account Lambdas

    The profile Lambda ([src/lambda_function.py]), the Cognito trigger
    ([src/lambda_cognito_trigger/lambda_function.py]) and the bulk
    registration Lambda ([src/lambda_cognito_trigger/bulk_register_lambda.py])
    call three services through boto3: S3 ([put_object], [get_object]),
    the DynamoDB table [Users] ([put_item]) and the Cognito user pool
    ([admin_create_user]).  Their state is the record [aws], and each call
    is a transition of it in the state-and-exception monad [AwsM].

    A call answers from the service's state (an existing user name, a
    missing key, a rejected item), or fails for a reason outside the model
    (throttling, permissions, the network).  The class [AwsFaults] decides
    the second kind: the [n]-th call of an invocation fails with
    [aws_fault n] when that is [Some e].  [FaultLaws] states that such a
    failure never carries a code that only the service's state produces.
    [datetime.now()] reads the class [Clock], one instant per call. *)

From Stdlib Require Import NArith ZArith String.
From stdpp Require Import base list numbers gmap.
From S2P Require Import Prelude PyJson.

Declare Scope aws_scope.
Delimit Scope aws_scope with aws.

(** ** The services' state *)

Record s3_object := mk_s3_object { obj_body : list N; obj_content_type : option text }.

(** A user of the pool: its attributes, temporary password and status. *)
Record cognito_user := mk_cognito_user {
  cu_attributes : list (text * text);
  cu_password : text;
  cu_status : text
}.

Record aws := mk_aws {
  s3 : gmap (text * text) s3_object;          (** (bucket, key) to object *)
  users : gmap text (list (text * pyval));    (** table [Users], by [id] *)
  pool : gmap text cognito_user;              (** the user pool, by user name *)
  calls : nat;                                (** service calls made so far *)
  ticks : nat;                                (** [datetime.now()] calls so far *)
  draws : nat;                                (** random numbers drawn so far *)
  s3_log : list (text * text)                 (** objects created, in order *)
}.

Definition set_users (m : gmap text (list (text * pyval))) (st : aws) : aws :=
  mk_aws (s3 st) m (pool st) (calls st) (ticks st) (draws st) (s3_log st).
Definition set_pool (m : gmap text cognito_user) (st : aws) : aws :=
  mk_aws (s3 st) (users st) m (calls st) (ticks st) (draws st) (s3_log st).
Definition count_call (st : aws) : aws :=
  mk_aws (s3 st) (users st) (pool st) (S (calls st)) (ticks st) (draws st) (s3_log st).
Definition count_tick (st : aws) : aws :=
  mk_aws (s3 st) (users st) (pool st) (calls st) (S (ticks st)) (draws st) (s3_log st).
Definition count_draw (st : aws) : aws :=
  mk_aws (s3 st) (users st) (pool st) (calls st) (ticks st) (S (draws st)) (s3_log st).

(** Two states with the same data in every service: what the random
    draws and the clock leave alone. *)
Definition same_data (st st' : aws) : Prop :=
  users st' = users st /\ pool st' = pool st /\ s3 st' = s3 st /\ s3_log st' = s3_log st.

#[export] Instance same_data_preorder : PreOrder same_data.
Proof. split; [by intros ?|intros ??? (?&?&?&?) (?&?&?&?); split_and!; congruence]. Qed.

(** The objects created between [st] and [st'] all satisfy [ok]. *)
Definition creates_only (ok : text * text -> bool) (st st' : aws) : Prop :=
  exists new, s3_log st' = s3_log st ++ new /\ forallb ok new = true.

#[export] Instance creates_only_preorder ok : PreOrder (creates_only ok).
Proof.
  split; [intros st; exists []; by rewrite app_nil_r|].
  intros s1 s2 s3 (n1 & E1 & O1) (n2 & E2 & O2). exists (n1 ++ n2).
  rewrite E2, E1, app_assoc, forallb_app, O1, O2. done.
Qed.

Lemma same_data_creates_only ok st st' : same_data st st' -> creates_only ok st st'.
Proof. intros (_ & _ & _ & E). exists []. by rewrite E, app_nil_r. Qed.

(** An object is stored and S3 records its creation, the event that
    bucket notifications deliver. *)
Definition store_object (bk : text * text) (o : s3_object) (st : aws) : aws :=
  mk_aws (<[bk := o]> (s3 st)) (users st) (pool st) (calls st) (ticks st) (draws st) (s3_log st ++ [bk]).

(** ** The monad: state passing with Python exceptions *)

Definition AwsM (A : Type) : Type := aws -> Py A * aws.

Definition aret {A} (a : A) : AwsM A := fun st => (PyOk a, st).
Definition araise {A} (e : exn) : AwsM A := fun st => (PyRaise e, st).
Definition alift {A} (m : Py A) : AwsM A := fun st => (m, st).

Definition abind {A B} (m : AwsM A) (k : A -> AwsM B) : AwsM B :=
  fun st =>
    match m st with
    | (PyOk a, st') => k a st'
    | (PyRaise e, st') => (PyRaise e, st')
    end.

(** [try: m except Exception as e: h(e)]: the handler runs in the state
    the failed block left behind. *)
Definition atry {A} (m : AwsM A) (h : exn -> AwsM A) : AwsM A :=
  fun st =>
    match m st with
    | (PyRaise e, st') => h e st'
    | r => r
    end.

Notation "x <~ m ;; k" := (abind m (fun x => k))
  (at level 60, m at next level, right associativity) : aws_scope.
Notation "m ;;; k" := (abind m (fun _ => k))
  (at level 60, right associativity) : aws_scope.

Local Open Scope aws_scope.

(** ** The world outside the model *)

Class AwsFaults := { aws_fault : nat -> option exn }.

Definition CONDITIONAL_CHECK_FAILED : text := T "ConditionalCheckFailedException".
Definition USERNAME_EXISTS : text := T "UsernameExistsException".

(** Throttling, permissions and the network never produce the codes of a
    failed condition or an existing user name: those come from the
    service's state only. *)
Class FaultLaws `{AwsFaults} := {
  fault_not_conditional n e :
    aws_fault n = Some e -> exn_cls e <> ClientError CONDITIONAL_CHECK_FAILED;
  fault_not_exists n e :
    aws_fault n = Some e -> exn_cls e <> ClientError USERNAME_EXISTS
}.

(** A [datetime] as the code reads it, and the clock. *)
Record datetime := mk_datetime {
  dt_year : Z; dt_month : Z; dt_day : Z;
  dt_hour : Z; dt_minute : Z; dt_second : Z; dt_microsecond : Z
}.

Class Clock := { clock_at : nat -> datetime }.

(** The operating system's entropy as [secrets] reads it: the [n]-th draw
    of [randbelow(k)]. *)
Class Entropy := { rand_below : nat -> nat -> nat }.

Class EntropyLaws `{Entropy} := { rand_below_lt n k : 0 < k -> rand_below n k < k }.

(** [strftime('%Y-%m-%d %H:%M:%S')] *)
Definition fmt_datetime (d : datetime) : text :=
  pad_int 4 (dt_year d) ++ T "-" ++ pad_int 2 (dt_month d) ++ T "-" ++ pad_int 2 (dt_day d)
  ++ T " " ++ pad_int 2 (dt_hour d) ++ T ":" ++ pad_int 2 (dt_minute d) ++ T ":"
  ++ pad_int 2 (dt_second d).

(** [strftime('%Y%m%d_%H%M%S')] *)
Definition fmt_stamp (d : datetime) : text :=
  pad_int 4 (dt_year d) ++ pad_int 2 (dt_month d) ++ pad_int 2 (dt_day d) ++ T "_"
  ++ pad_int 2 (dt_hour d) ++ pad_int 2 (dt_minute d) ++ pad_int 2 (dt_second d).

(** [isoformat()]: the microseconds only when they are not zero. *)
Definition isoformat (d : datetime) : text :=
  pad_int 4 (dt_year d) ++ T "-" ++ pad_int 2 (dt_month d) ++ T "-" ++ pad_int 2 (dt_day d)
  ++ T "T" ++ pad_int 2 (dt_hour d) ++ T ":" ++ pad_int 2 (dt_minute d) ++ T ":"
  ++ pad_int 2 (dt_second d)
  ++ (if (dt_microsecond d =? 0)%Z then [] else T "." ++ pad_int 6 (dt_microsecond d)).

Section Calls.
Context `{AwsFaults} `{Clock} `{Entropy}.

(** [secrets.randbelow(k)] *)
Definition randbelow (k : nat) : AwsM nat := fun st => (PyOk (rand_below (draws st) k), count_draw st).

(** [datetime.now()] *)
Definition now : AwsM datetime := fun st => (PyOk (clock_at (ticks st)), count_tick st).

(** Every service call is counted; the fault oracle decides first
    whether it reaches the service. *)
Definition aws_call {A} (op : AwsM A) : AwsM A :=
  fun st =>
    match aws_fault (calls st) with
    | Some e => (PyRaise e, count_call st)
    | None => op (count_call st)
    end.

Definition client_error (code msg : string) : exn := mk_exn (ClientError (T code)) (T msg).

(** [s3.put_object(Bucket=b, Key=k, Body=body, ContentType=ct)]: S3
    replaces any object under the same key. *)
Definition put_object (bucket key : text) (body : list N) (ctype : option text) : AwsM unit :=
  aws_call (fun st => (PyOk tt, store_object (bucket, key) (mk_s3_object body ctype) st)).

(** [s3.get_object(Bucket=b, Key=k)['Body'].read()] *)
Definition get_object (bucket key : text) : AwsM (list N) :=
  aws_call (fun st =>
    match s3 st !! (bucket, key) with
    | Some o => (PyOk (obj_body o), st)
    | None => (PyRaise (client_error "NoSuchKey" "The specified key does not exist."), st)
    end).

(** The key attribute [id] of an item: a non-empty string. *)
Definition item_key (item : list (text * pyval)) : option text :=
  match dict_lookup item (T "id") with
  | Some (VStr k) => if empty k then None else Some k
  | _ => None
  end.

(** boto3's serializer refuses [float] values before the request is
    sent. *)
Definition item_serializable (item : list (text * pyval)) : bool :=
  forallb (fun kv => match kv.2 with VFloat _ => false | _ => true end) item.

(** [table.put_item(Item=item)] without a [ConditionExpression]:
    DynamoDB replaces the item with the same key. *)
Definition put_item (item : list (text * pyval)) : AwsM unit :=
  if negb (item_serializable item)
  then araise (mk_exn TypeError (T "Float types are not supported. Use Decimal types instead."))
  else aws_call (fun st =>
    match item_key item with
    | Some k => (PyOk tt, set_users (<[k := item]> (users st)) st)
    | None =>
        (PyRaise (client_error "ValidationException"
                    "One or more parameter values were invalid: Missing the key id in the item"), st)
    end).

(** Cognito's default password policy: at least 8 characters, with an
    upper-case letter, a lower-case letter, a digit and a symbol of its
    list. *)
Definition COGNITO_SYMBOLS : text := T "^$*.[]{}()?!@#%&/\,><':;|_~`=+- " ++ [34%N].

Definition password_policy_ok (p : text) : bool :=
  (8 <=? length p) && existsb ascii_upper p && existsb ascii_lowerc p
  && existsb ascii_digit p && existsb (fun c => existsb (N.eqb c) COGNITO_SYMBOLS) p.

Definition FORCE_CHANGE_PASSWORD : text := T "FORCE_CHANGE_PASSWORD".

(** [cognito.admin_create_user(UserPoolId, Username, TemporaryPassword,
    UserAttributes, MessageAction='SUPPRESS')]: the user name and status
    of the new user. *)
Definition admin_create_user (username password : text) (attrs : list (text * text))
    : AwsM (text * text) :=
  aws_call (fun st =>
    match pool st !! username with
    | Some _ => (PyRaise (client_error "UsernameExistsException"
                           "An account with the given email already exists."), st)
    | None =>
        if password_policy_ok password then
          (PyOk (username, FORCE_CHANGE_PASSWORD),
           set_pool (<[username := mk_cognito_user attrs password FORCE_CHANGE_PASSWORD]> (pool st)) st)
        else (PyRaise (client_error "InvalidPasswordException"
                         "Password does not conform to policy"), st)
    end).
End Calls.

(** ** A program logic for [AwsM]

    [wp m Q R st]: run from [st], [m] either returns [a] in a state [st']
    with [Q a st'], or raises [e] in a state [st'] with [R e st']. *)
Definition wp {A} (m : AwsM A) (Q : A -> aws -> Prop) (R : exn -> aws -> Prop) (st : aws) : Prop :=
  match m st with
  | (PyOk a, st') => Q a st'
  | (PyRaise e, st') => R e st'
  end.

Section Wp.
Context {A B : Type}.
Implicit Types (Q : A -> aws -> Prop) (R : exn -> aws -> Prop).

Lemma wp_ret (a : A) Q R st : Q a st -> wp (aret a) Q R st.
Proof. done. Qed.

Lemma wp_raise e Q R st : R e st -> wp (araise (A:=A) e) Q R st.
Proof. done. Qed.

Lemma wp_lift (m : Py A) Q R st :
  match m with PyOk a => Q a st | PyRaise e => R e st end -> wp (alift m) Q R st.
Proof. unfold wp, alift. by destruct m. Qed.

Lemma wp_bind (m : AwsM B) (k : B -> AwsM A) Q R st :
  wp m (fun b st' => wp (k b) Q R st') R st -> wp (abind m k) Q R st.
Proof. unfold wp, abind. by destruct (m st) as [[b|e] st']. Qed.

Lemma wp_try (m : AwsM A) h Q R st :
  wp m Q (fun e st' => wp (h e) Q R st') st -> wp (atry m h) Q R st.
Proof. unfold wp, atry. by destruct (m st) as [[a|e] st']. Qed.

Lemma wp_mono (m : AwsM A) Q R Q' R' st :
  wp m Q R st -> (forall a s, Q a s -> Q' a s) -> (forall e s, R e s -> R' e s) -> wp m Q' R' st.
Proof. unfold wp. destruct (m st) as [[a|e] st']; auto. Qed.

Lemma wp_any (m : AwsM A) Q R st :
  (forall a s, Q a s) -> (forall e s, R e s) -> wp m Q R st.
Proof. unfold wp. destruct (m st) as [[a|e] st']; auto. Qed.

Lemma wp_call `{AwsFaults} (op : AwsM A) Q R st :
  (forall e, aws_fault (calls st) = Some e -> R e (count_call st)) ->
  (aws_fault (calls st) = None -> wp op Q R (count_call st)) ->
  wp (aws_call op) Q R st.
Proof.
  intros Hf Hok. unfold wp at 1, aws_call.
  destruct (aws_fault (calls st)) eqn:E; [by apply Hf|by apply Hok].
Qed.
End Wp.

(** Steps through a computation: binds, handlers, returns and lifted
    [Py] values; what remains are the goals about the services. *)
Ltac wp_step :=
  match goal with
  | |- wp (abind _ _) _ _ _ => apply wp_bind
  | |- wp (atry _ _) _ _ _ => apply wp_try
  | |- wp (aret _) _ _ _ => apply wp_ret
  | |- wp (araise _) _ _ _ => apply wp_raise
  | |- wp (alift _) _ _ _ => apply wp_lift
  end.
Ltac wp_steps := repeat wp_step.

(** ** What each call does *)

Definition no_ccf (e : exn) : Prop := exn_cls e <> ClientError CONDITIONAL_CHECK_FAILED.

Section Services.
Context `{AwsFaults} `{Clock} `{Entropy}.

Lemma now_spec {A} (k : datetime -> AwsM A) Q R st :
  wp (k (clock_at (ticks st))) Q R (count_tick st) -> wp (abind now k) Q R st.
Proof. done. Qed.

Lemma randbelow_spec {A} k (f : nat -> AwsM A) Q R st :
  wp (f (rand_below (draws st) k)) Q R (count_draw st) -> wp (abind (randbelow k) f) Q R st.
Proof. done. Qed.

Lemma put_object_spec b k body ct st :
  wp (put_object b k body ct)
     (fun _ st' => aws_fault (calls st) = None /\
                   st' = store_object (b, k) (mk_s3_object body ct) (count_call st))
     (fun e st' => aws_fault (calls st) = Some e /\ st' = count_call st) st.
Proof. apply wp_call; [auto|by intros]. Qed.

Lemma put_item_spec it st :
  wp (put_item it)
     (fun _ st' => aws_fault (calls st) = None /\ exists k, item_key it = Some k /\
                   st' = set_users (<[k := it]> (users st)) (count_call st))
     (fun e st' => (item_serializable it = false /\ exn_cls e = TypeError) \/
                   aws_fault (calls st) = Some e \/
                   (item_key it = None /\ exn_cls e = ClientError (T "ValidationException"))) st.
Proof.
  unfold put_item. destruct (item_serializable it) eqn:Hs; cbn [negb]; [|by left].
  apply wp_call; [by right; left|]. intros Hf. unfold wp.
  destruct (item_key it) as [k|]; [eauto|by right; right].
Qed.

Lemma put_object_no_ccf `{!FaultLaws} b k body ct st :
  wp (put_object b k body ct) (fun _ _ => True) (fun e _ => no_ccf e) st.
Proof.
  eapply wp_mono; [apply put_object_spec|done|]. intros e s [Hf _]. by apply fault_not_conditional in Hf.
Qed.

Lemma put_item_no_ccf `{!FaultLaws} it st :
  wp (put_item it) (fun _ _ => True) (fun e _ => no_ccf e) st.
Proof.
  eapply wp_mono; [apply put_item_spec|done|].
  intros e s [[_ He]|[Hf|[_ He]]]; unfold no_ccf; [by rewrite He| |by rewrite He].
  by apply fault_not_conditional in Hf.
Qed.
End Services.

(** ** Frames

    [keeps P m]: on every path, normal or exceptional, [m] relates the
    state it starts from and the state it ends in by [P].  With [P] a
    preorder the property composes along binds and handlers, so the
    frame of a whole handler follows from the frames of its calls. *)
Section Keeps.
Context (P : aws -> aws -> Prop) `{!PreOrder P}.

Definition keeps {A} (m : AwsM A) : Prop := forall st, wp m (fun _ s => P st s) (fun _ s => P st s) st.

Lemma keeps_ret {A} (a : A) : keeps (aret a).
Proof. intros st. apply wp_ret. reflexivity. Qed.

Lemma keeps_raise {A} e : keeps (araise (A:=A) e).
Proof. intros st. apply wp_raise. reflexivity. Qed.

Lemma keeps_lift {A} (m : Py A) : keeps (alift m).
Proof. intros st. apply wp_lift. destruct m; reflexivity. Qed.

Lemma keeps_bind {A B} (m : AwsM B) (k : B -> AwsM A) :
  keeps m -> (forall b, keeps (k b)) -> keeps (abind m k).
Proof.
  intros Hm Hk st. apply wp_bind. eapply wp_mono; [apply Hm| |intros ?? H'; exact H'].
  intros b s Hs. eapply wp_mono; [apply Hk|..]; intros ?? Hs'; by transitivity s.
Qed.

Lemma keeps_try {A} (m : AwsM A) h : keeps m -> (forall e, keeps (h e)) -> keeps (atry m h).
Proof.
  intros Hm Hh st. apply wp_try. eapply wp_mono; [apply Hm|intros ?? H'; exact H'|].
  intros e s Hs. eapply wp_mono; [apply Hh|..]; intros ?? Hs'; by transitivity s.
Qed.

(** A computation that reads the state and stays in it. *)
Lemma keeps_read {A} (f : aws -> Py A) : keeps (fun st => (f st, st)).
Proof. intros st. unfold wp. destruct (f st); reflexivity. Qed.

Lemma keeps_call `{AwsFaults} {A} (op : AwsM A) :
  (forall st, P st (count_call st)) -> keeps op -> keeps (aws_call op).
Proof.
  intros Hc Hop st. apply wp_call; [done|]. intros _.
  eapply wp_mono; [apply Hop|..]; intros ?? Hs'; by transitivity (count_call st).
Qed.
End Keeps.

(** Takes a computation apart into the calls whose frames remain. *)
Ltac keeps_steps :=
  repeat match goal with
  | |- keeps _ (abind _ _) => apply keeps_bind; try typeclasses eauto; [|intros ?]
  | |- keeps _ (atry _ _) => apply keeps_try; try typeclasses eauto; [|intros ?]
  | |- keeps _ (aret _) => apply keeps_ret; typeclasses eauto
  | |- keeps _ (araise _) => apply keeps_raise; typeclasses eauto
  | |- keeps _ (alift _) => apply keeps_lift; typeclasses eauto
  | |- keeps _ (match ?x with _ => _ end) => destruct x
  end.

Lemma keeps_wp {A} P `{!PreOrder P} (m : AwsM A) Q R st :
  keeps P m -> wp m Q R st -> wp m (fun a s => Q a s /\ P st s) (fun e s => R e s /\ P st s) st.
Proof. intros Hk Hw. specialize (Hk st). unfold wp in *. by destruct (m st) as [[]]. Qed.

(** Steps over a computation with a frame, keeping the frame from the
    state [st0] the proof started in. *)
Lemma wp_snd {A} (m : AwsM A) (P : aws -> Prop) st :
  wp m (fun _ s => P s) (fun _ s => P s) st -> P (snd (m st)).
Proof. unfold wp. by destruct (m st) as [[]]. Qed.

Lemma wp_keeps {A} P `{!PreOrder P} st0 (m : AwsM A) Q R st :
  P st0 st -> keeps P m -> (forall a s, P st0 s -> Q a s) -> (forall e s, P st0 s -> R e s) -> wp m Q R st.
Proof.
  intros H0 Hm HQ HR. eapply wp_mono; [apply Hm|..]; cbv beta; intros ?? Hs; [apply HQ|apply HR]; by etrans.
Qed.

Lemma wp_keeps_bind {A B} P `{!PreOrder P} st0 (m : AwsM B) (k : B -> AwsM A) Q R st :
  P st0 st -> keeps P m -> (forall b s, P st0 s -> wp (k b) Q R s) -> (forall e s, P st0 s -> R e s) ->
  wp (abind m k) Q R st.
Proof. intros H0 Hm Hk HR. apply wp_bind. by apply (wp_keeps P st0). Qed.

Section Frames.
Context `{AwsFaults} `{Clock} `{Entropy}.

Lemma creates_only_counters ok st :
  creates_only ok st (count_call st) /\ creates_only ok st (count_tick st) /\
  creates_only ok st (count_draw st).
Proof. split_and!; apply same_data_creates_only; by split_and!. Qed.

Lemma keeps_now ok : keeps (creates_only ok) now.
Proof. intros st. apply creates_only_counters. Qed.

Lemma keeps_randbelow ok k : keeps (creates_only ok) (randbelow k).
Proof. intros st. apply creates_only_counters. Qed.

Lemma keeps_put_object ok b k body ct :
  ok (b, k) = true -> keeps (creates_only ok) (put_object b k body ct).
Proof.
  intros Hok. apply keeps_call; [apply _|apply creates_only_counters|].
  intros st. exists [(b, k)]. cbn. by rewrite Hok.
Qed.

Lemma keeps_get_object ok b k : keeps (creates_only ok) (get_object b k).
Proof.
  apply keeps_call; [apply _|apply creates_only_counters|]. intros st. unfold wp. destruct (s3 _ !! _); reflexivity.
Qed.

Lemma keeps_put_item ok it : keeps (creates_only ok) (put_item it).
Proof.
  unfold put_item. destruct (negb (item_serializable it)); [apply keeps_raise; apply _|].
  apply keeps_call; [apply _|apply creates_only_counters|]. intros st. unfold wp.
  destruct (item_key it); [exists []; by rewrite app_nil_r|reflexivity].
Qed.

Lemma keeps_admin_create_user ok u pw attrs : keeps (creates_only ok) (admin_create_user u pw attrs).
Proof.
  apply keeps_call; [apply _|apply creates_only_counters|]. intros st. unfold wp.
  destruct (pool _ !! u); [reflexivity|]. destruct (password_policy_ok pw); [exists []; by rewrite app_nil_r|reflexivity].
Qed.
End Frames.
