(* ===== verification/UserProfile.v ===== *)
(** * The profile Lambda and the Cognito post-confirmation trigger

    [src/lambda_function.py] (Module [Profile]) answers an API Gateway
    request: it normalises the e-mail address of the body, checks it with
    [validate_email], creates the user's S3 folders and README
    ([create_user_folders]) and writes the profile to the table [Users]
    ([create_user_profile]); [except ClientError] and [except Exception]
    turn every failure into a response.
    [src/lambda_cognito_trigger/lambda_function.py] (Module [Trigger]) is
    the same code behind a dispatch on the event source: for Cognito's
    [PostConfirmation] trigger it gives the event back or raises, for API
    Gateway it answers as the profile Lambda.  Lines 116-233 of the trigger
    are a verbatim copy of lines 63-180 of the profile Lambda, and
    [Trigger] names [Profile]'s definitions for them.  The services are
    the state of [Aws]. *)

From Stdlib Require Import NArith ZArith String.
From stdpp Require Import base list numbers gmap.
From S2P Require Import Prelude PyJson Regex Aws.

Local Open Scope py_scope.
Local Open Scope aws_scope.

Definition S3_BUCKET : text := T "tuunapp-gene-data-a7x9k3".

Definition alnum_items : list citem :=
  [CRange (chr "a") (chr "z"); CRange (chr "A") (chr "Z"); CRange (chr "0") (chr "9")].

Definition LOCAL_SET : list citem :=
  alnum_items ++ [CChar (chr "."); CChar (chr "_"); CChar (chr "%"); CChar (chr "+"); CChar (chr "-")].
Definition DOMAIN_SET : list citem := alnum_items ++ [CChar (chr "."); CChar (chr "-")].
Definition TLD_SET : list citem := [CRange (chr "a") (chr "z"); CRange (chr "A") (chr "Z")].

(** [^[a-zA-Z0-9._%+-]+@[a-zA-Z0-9.-]+\.[a-zA-Z]{2,}$] *)
Definition EMAIL_PATTERN : regex := mk_regex
  ([ABegin; plus LOCAL_SET] ++ lit "@" ++ [plus DOMAIN_SET] ++ lit "." ++ [ARep TLD_SET 2 None; AEnd])
  false.

(** The API Gateway response; [body] is the value [json.dumps] encodes. *)
Record api_response := mk_api_response {
  statusCode : Z;
  headers : list (text * text);
  body : pyval
}.

Definition CORS_HEADERS : list (text * text) :=
  [(T "Content-Type", T "application/json"); (T "Access-Control-Allow-Origin", T "*");
   (T "Access-Control-Allow-Headers", T "Content-Type");
   (T "Access-Control-Allow-Methods", T "POST,OPTIONS")].

Definition error_body (msg : text) : pyval := VDict [(T "error", VStr msg)].

Definition INVALID_EMAIL : text := T "無効なメールアドレス形式です".
Definition ALREADY_REGISTERED : text := T "このユーザーは既に登録されています".
Definition UNEXPECTED : text := T "予期しないエラーが発生しました".
Definition CREATED : text := T "ユーザープロファイルが正常に作成されました".

(** The lines of a text, each ended by a newline. *)
Definition lines (ls : list text) : text := mjoin (map (fun l => l ++ NEWLINE) ls).

Module Profile.
Section Lambda.
Context `{UnicodeDB} `{JsonDecoder} `{AwsFaults} `{Clock}.

(** [validate_email]: [re.match(pattern, email) is not None]. *)
Definition validate_email (email : text) : bool := re_match EMAIL_PATTERN email.

(** [v.lower().strip()], a [str] method. *)
Definition lower_strip (v : pyval) : Py text :=
  match v with
  | VStr s => PyOk (py_strip (uc_lower s))
  | _ => PyRaise (attr_error "object has no attribute 'lower'")
  end.

Definition folders (email : text) : list (text * text) :=
  [(T "raw-gene/" ++ email ++ T "/", T "遺伝子データ用");
   (T "raw-blood/" ++ email ++ T "/", T "血液検査データ用")].

Definition readme_content (email : text) (d : datetime) : text :=
  lines [T "# " ++ email ++ T " のデータフォルダ"; []; T "作成日: " ++ fmt_datetime d; [];
         T "## フォルダ構成"; T "- raw-gene/: 遺伝子データをアップロード";
         T "- raw-blood/: 血液検査データをアップロード"; []; T "## 使用方法";
         T "各フォルダに.txtファイルをアップロードしてください。";
         T "アップロードされたファイルは自動的に処理されます。"; []; T "## 注意事項";
         T "- 遺伝子データは23andMe形式のテキストファイルをアップロード";
         T "- 血液検査データは指定フォーマットのテキストファイルをアップロード"].

(** One folder: an empty object under [path]; a failure is recorded with
    [str(e)], the exception's message. *)
Definition create_folder (f : text * text) : AwsM pyval :=
  atry (put_object S3_BUCKET f.1 [] None ;;;
        aret (VDict [(T "path", VStr f.1); (T "status", VStr (T "created"));
                     (T "description", VStr f.2)]))
       (fun e => aret (VDict [(T "path", VStr f.1); (T "status", VStr (T "failed"));
                               (T "error", VStr (exn_msg e))])).

Fixpoint create_folders (fs : list (text * text)) : AwsM (list pyval) :=
  match fs with
  | [] => aret []
  | f :: fs' => r <~ create_folder f ;; rs <~ create_folders fs' ;; aret (r :: rs)
  end.

Definition README_KEY (email : text) : text := T "raw-gene/" ++ email ++ T "/README.md".

(** [create_user_folders]: the README is written after the folders; a
    failure to encode or store it is only printed. *)
Definition create_user_folders (email : text) : AwsM (list pyval) :=
  results <~ create_folders (folders email) ;;
  d <~ now ;;
  atry (bs <~ alift (py_encode (readme_content email d)) ;;
        put_object S3_BUCKET (README_KEY email) bs (Some (T "text/markdown")) ;;;
        aret (results ++ [VDict [(T "path", VStr (README_KEY email)); (T "status", VStr (T "created"));
                                 (T "description", VStr (T "READMEファイル"))]]))
       (fun _ => aret results).

(** [create_user_profile]: [{'id': email, 'name': email.split('@')[0]}];
    the [except] block prints and re-raises. *)
Definition profile_item (email : text) : list (text * pyval) :=
  [(T "id", VStr email); (T "name", VStr (default [] (head (py_split (T "@") email))))].

Definition create_user_profile (email : text) : AwsM pyval :=
  put_item (profile_item email) ;;; aret (VDict (profile_item email)).

Definition create_response (status : Z) (b : pyval) : api_response :=
  mk_api_response status CORS_HEADERS b.

(** [json.loads(event['body'])['email'].lower().strip()] *)
Definition body_email (event : list (text * pyval)) : Py text :=
  b <- py_getitem (VDict event) (T "body") ;;
  parsed <- py_json_loads b ;;
  e <- py_getitem parsed (T "email") ;;
  lower_strip e.

Definition created_body (email : text) (s3_results : list pyval) (profile : pyval) : pyval :=
  VDict [(T "message", VStr CREATED); (T "userId", VStr email);
         (T "s3Folders", VList s3_results); (T "profile", profile)].

(** The two [except] clauses. *)
Definition error_response (e : exn) : api_response :=
  match exn_cls e with
  | ClientError code =>
      if text_eqb code CONDITIONAL_CHECK_FAILED then create_response 409 (error_body ALREADY_REGISTERED)
      else create_response 500 (error_body (T "エラー: " ++ exn_msg e))
  | _ => create_response 500 (error_body UNEXPECTED)
  end.

Definition lambda_handler (event : list (text * pyval)) : AwsM api_response :=
  atry (email <~ alift (body_email event) ;;
        if negb (validate_email email) then aret (create_response 400 (error_body INVALID_EMAIL))
        else
          s3_results <~ create_user_folders email ;;
          profile <~ create_user_profile email ;;
          aret (create_response 200 (created_body email s3_results profile)))
       (fun e => aret (error_response e)).
End Lambda.
End Profile.

Module Trigger.
Section Lambda.
Context `{UnicodeDB} `{JsonDecoder} `{AwsFaults} `{Clock}.

Definition validate_email := Profile.validate_email.
Definition create_user_folders := Profile.create_user_folders.
Definition create_user_profile := Profile.create_user_profile.
Definition create_response := Profile.create_response.

Definition POST_CONFIRMATION : text := T "PostConfirmation_ConfirmSignUp".

(** What the handler gives back: the Cognito event itself, or an API
    Gateway response. *)
Inductive trigger_result :=
  | ReturnEvent (ev : list (text * pyval))
  | ReturnResponse (r : api_response).

(** ['triggerSource' in event] *)
Definition is_cognito (event : list (text * pyval)) : bool := has_key (VDict event) (T "triggerSource").

(** [event.get('triggerSource', '') != 'PostConfirmation_ConfirmSignUp'];
    a value that is not a [str] is never equal to one. *)
Definition skipped_source (event : list (text * pyval)) : bool :=
  match dget event (T "triggerSource") (VStr []) with
  | VStr s => negb (text_eqb s POST_CONFIRMATION)
  | _ => true
  end.

Definition unknown_source : exn :=
  mk_exn ValueError (T "Unknown event source - neither Cognito nor API Gateway").

(** The dispatch on the event source: [None] for a trigger the handler
    skips, otherwise the normalised e-mail address. *)
Definition source_email (event : list (text * pyval)) : Py (option text) :=
  if is_cognito event then
    if skipped_source event then PyOk None
    else
      r <- py_getitem (VDict event) (T "request") ;;
      a <- py_getitem r (T "userAttributes") ;;
      e <- py_getitem a (T "email") ;;
      email <- Profile.lower_strip e ;;
      PyOk (Some email)
  else if has_key (VDict event) (T "body") then
    email <- Profile.body_email event ;; PyOk (Some email)
  else PyRaise unknown_source.

(** The [except] clauses: a Cognito event re-raises ([raise]) unless the
    profile already existed; an API event gets a response. *)
Definition handle_error (event : list (text * pyval)) (e : exn) : AwsM trigger_result :=
  match exn_cls e with
  | ClientError code =>
      if text_eqb code CONDITIONAL_CHECK_FAILED then
        if is_cognito event then aret (ReturnEvent event)
        else aret (ReturnResponse (create_response 409 (error_body ALREADY_REGISTERED)))
      else if is_cognito event then araise e
      else aret (ReturnResponse (create_response 500 (error_body (T "エラー: " ++ exn_msg e))))
  | _ =>
      if is_cognito event then araise e
      else aret (ReturnResponse (create_response 500 (error_body UNEXPECTED)))
  end.

Definition lambda_handler (event : list (text * pyval)) : AwsM trigger_result :=
  atry (src <~ alift (source_email event) ;;
        match src with
        | None => aret (ReturnEvent event)
        | Some email =>
            if negb (validate_email email) then
              if is_cognito event then aret (ReturnEvent event)
              else aret (ReturnResponse (create_response 400 (error_body INVALID_EMAIL)))
            else
              s3_results <~ create_user_folders email ;;
              profile <~ create_user_profile email ;;
              if is_cognito event then aret (ReturnEvent event)
              else aret (ReturnResponse (create_response 200
                                           (Profile.created_body email s3_results profile)))
        end)
       (handle_error event).
End Lambda.
End Trigger.

(** ** The folder helper touches S3 only and never raises *)

(** [st'] differs from [st] at most in S3 and the counters. *)
Definition s3_only (st st' : aws) : Prop := users st' = users st /\ pool st' = pool st.

Lemma s3_only_refl st : s3_only st st.
Proof. done. Qed.

Lemma s3_only_trans st1 st2 st3 : s3_only st1 st2 -> s3_only st2 st3 -> s3_only st1 st3.
Proof. intros [H1 H2] [H3 H4]. split; congruence. Qed.

#[local] Hint Resolve s3_only_refl s3_only_trans : core.

Section FolderFacts.
Context `{UnicodeDB} `{JsonDecoder} `{AwsFaults} `{Clock}.

Lemma put_object_s3_only b k body ct Q st :
  (forall st', s3_only st st' -> Q st') ->
  wp (put_object b k body ct) (fun _ st' => Q st') (fun _ st' => Q st') st.
Proof.
  intros HQ. eapply wp_mono; [apply put_object_spec| |]; intros ? s [_ ->]; by apply HQ.
Qed.

Lemma create_folder_ok f st :
  wp (Profile.create_folder f) (fun _ st' => s3_only st st') (fun _ _ => False) st.
Proof.
  unfold Profile.create_folder. wp_steps.
  eapply wp_mono; [apply (put_object_s3_only _ _ _ _ (s3_only st)); done| |]; intros; by wp_steps.
Qed.

Lemma create_folders_ok fs st :
  wp (Profile.create_folders fs) (fun _ st' => s3_only st st') (fun _ _ => False) st.
Proof.
  revert st. induction fs as [|f fs IH]; intros st; cbn [Profile.create_folders]; wp_steps.
  - done.
  - eapply wp_mono; [apply create_folder_ok| |done]. intros r s1 Hs1. wp_step.
    eapply wp_mono; [apply IH| |done]. intros rs s2 Hs2. wp_step. cbv beta in *. eauto.
Qed.

Lemma create_user_folders_ok email st :
  wp (Profile.create_user_folders email) (fun _ st' => s3_only st st') (fun _ _ => False) st.
Proof.
  unfold Profile.create_user_folders. wp_step.
  eapply wp_mono; [apply create_folders_ok| |done]. intros rs s1 Hs1.
  apply now_spec. wp_steps.
  destruct (py_encode _); [|done]. wp_step.
  eapply wp_mono; [apply (put_object_s3_only _ _ _ _ (s3_only st))| |]; [|intros; by wp_steps..].
  intros s2 Hs2. cbv beta in *. eapply s3_only_trans; [exact Hs1|]. eapply s3_only_trans; [|exact Hs2]. done.
Qed.
End FolderFacts.

(** ** The profile Lambda *)

Section ProfileFacts.
Context `{UnicodeDB} `{JsonDecoder} `{AwsFaults} `{Clock}.

Lemma validate_email_nonempty : Profile.validate_email [] = false.
Proof. reflexivity. Qed.

Lemma item_key_profile email : item_key (Profile.profile_item email) = if empty email then None else Some email.
Proof. reflexivity. Qed.

Lemma item_serializable_profile email : item_serializable (Profile.profile_item email) = true.
Proof. reflexivity. Qed.

(** [create_user_profile] writes [{'id': email, 'name': ...}] under
    [email], or raises what [put_item] raises. *)
Lemma create_user_profile_spec email st :
  wp (Profile.create_user_profile email)
     (fun p st' => p = VDict (Profile.profile_item email) /\ aws_fault (calls st) = None /\
                   users st' = <[email := Profile.profile_item email]> (users st))
     (fun e _ => aws_fault (calls st) = Some e \/
                 (email = [] /\ exn_cls e = ClientError (T "ValidationException"))) st.
Proof.
  unfold Profile.create_user_profile. wp_step.
  eapply wp_mono; [apply put_item_spec| |].
  - intros _ s (Hf & k & Hk & ->). wp_step.
    rewrite item_key_profile in Hk. destruct (empty email); [done|]. injection Hk as <-. done.
  - rewrite item_serializable_profile, item_key_profile.
    intros e s [[? _]|[Hf|[Hk He]]]; [done|by left|]. right. by destruct email.
Qed.

Lemma body_email_no_ccf `{!JsonLaws} event :
  match Profile.body_email event with PyOk _ => True | PyRaise e => no_ccf e end.
Proof.
  unfold Profile.body_email, py_getitem.
  destruct (dict_lookup event (T "body")) as [b|]; cbn [py_bind]; [|done].
  unfold py_json_loads. destruct b; try done.
  destruct (json_loads s) as [v|e] eqn:Hj; cbn [py_bind].
  - destruct v; try done. destruct (dict_lookup kvs (T "email")) as [[]|]; done.
  - unfold no_ccf. by rewrite (json_loads_error _ _ Hj).
Qed.

Lemma error_response_no_409 e : no_ccf e -> statusCode (Profile.error_response e) <> 409%Z.
Proof.
  unfold no_ccf, Profile.error_response. destruct (exn_cls e); try done.
  destruct (text_eqb code CONDITIONAL_CHECK_FAILED) eqn:E; [|done].
  apply text_eqb_spec in E as ->. done.
Qed.
End ProfileFacts.

Section ProfileClaims.
Context `{UnicodeDB} `{JsonDecoder} `{!JsonLaws} `{AwsFaults} `{!FaultLaws} `{Clock}.

(** C7: the profile Lambda never raises and never answers 409 ("already
    registered"): [put_item] is called without a [ConditionExpression],
    so DynamoDB never reports [ConditionalCheckFailedException] and the
    branch of [except ClientError] for it is dead code. *)
Theorem profile_never_409 event st :
  wp (Profile.lambda_handler event) (fun r _ => statusCode r <> 409%Z) (fun _ _ => False) st.
Proof.
  unfold Profile.lambda_handler. wp_steps. pose proof (body_email_no_ccf event) as Hb.
  destruct (Profile.body_email event) as [email|e]; [|by apply wp_ret, error_response_no_409].
  destruct (Profile.validate_email email); cbn [negb]; wp_steps; [|done].
  eapply wp_mono; [apply create_user_folders_ok| |done]. intros ? s1 _. wp_step.
  eapply wp_mono; [apply create_user_profile_spec| |]; [by intros; wp_step|].
  intros e s He. wp_step. apply error_response_no_409. unfold no_ccf.
  destruct He as [Hf|[_ He]]; [by apply fault_not_conditional in Hf|by rewrite He].
Qed.
End ProfileClaims.

(** The shape of an API Gateway proxy response as [create_response]
    builds it. *)
Definition api_typed (r : api_response) : Prop :=
  headers r = CORS_HEADERS /\ (exists kvs, body r = VDict kvs) /\ statusCode r ∈ [200; 400; 409; 500]%Z.

Lemma create_response_typed code kvs :
  code ∈ [200; 400; 409; 500]%Z -> api_typed (Profile.create_response code (VDict kvs)).
Proof. intros Hs. split; [done|split; [by eexists|done]]. Qed.

Lemma error_response_typed e : api_typed (Profile.error_response e).
Proof.
  unfold Profile.error_response. destruct (exn_cls e); try case_match;
    apply create_response_typed; rewrite !elem_of_cons; tauto.
Qed.

Section ResponseType.
Context `{UnicodeDB} `{JsonDecoder} `{AwsFaults} `{Clock}.

(** C16: every answer of the profile Lambda is an API Gateway proxy
    response: the CORS headers of [create_response], a JSON object as
    body and a status among 200, 400, 409 and 500; and the handler never
    raises, whatever the event and the faults. *)
Theorem profile_response_type event st :
  wp (Profile.lambda_handler event) (fun r _ => api_typed r) (fun _ _ => False) st.
Proof.
  unfold Profile.lambda_handler. apply wp_try.
  apply wp_mono with (Q := fun r _ => api_typed r) (R := fun _ _ => True);
    [|done|intros; wp_step; apply error_response_typed].
  wp_steps. destruct (Profile.body_email event) as [email|e]; [|done].
  destruct (Profile.validate_email email); cbn [negb]; wp_steps.
  - apply wp_any; [|done]. intros r s. wp_step. apply wp_any; [|done]. intros p s'. wp_step.
    apply create_response_typed. rewrite !elem_of_cons; tauto.
  - apply create_response_typed. rewrite !elem_of_cons; tauto.
Qed.
End ResponseType.

Section Reregistration.
Context `{UnicodeDB} `{JsonDecoder} `{AwsFaults} `{Clock}.

(** C18: when no call fails, a valid request is answered 200 and the
    profile [{'id': email, 'name': ...}] is stored under the address,
    whatever the table held there before: registering an address twice
    overwrites the first profile instead of reporting a conflict. *)
Theorem profile_registration_overwrites event email st :
  (forall n, aws_fault n = None) ->
  Profile.body_email event = PyOk email -> Profile.validate_email email = true ->
  wp (Profile.lambda_handler event)
     (fun r st' => statusCode r = 200%Z /\
                   users st' = <[email := Profile.profile_item email]> (users st))
     (fun _ _ => False) st.
Proof.
  intros Hnf Hb Hv. unfold Profile.lambda_handler. wp_steps. rewrite Hb, Hv. cbn [negb]. wp_step.
  eapply wp_mono; [apply create_user_folders_ok| |done]. intros ? s1 [Hu _]. wp_step.
  eapply wp_mono; [apply create_user_profile_spec| |].
  - intros p s2 (_ & _ & Hs2). wp_step. split; [done|]. by rewrite Hs2, Hu.
  - intros e s [Hf|[-> _]]; [by rewrite Hnf in Hf|by rewrite validate_email_nonempty in Hv].
Qed.
End Reregistration.

(** ** The Cognito trigger *)

Section TriggerFacts.
Context `{UnicodeDB} `{JsonDecoder} `{AwsFaults} `{Clock}.

Lemma handle_error_cognito event e st :
  Trigger.is_cognito event = true ->
  wp (Trigger.handle_error event e) (fun r _ => r = Trigger.ReturnEvent event) (fun _ _ => True) st.
Proof.
  intros Hc. unfold Trigger.handle_error. rewrite Hc.
  destruct (exn_cls e); try destruct (text_eqb _ _); by wp_steps.
Qed.

Lemma handle_error_api event e st :
  Trigger.is_cognito event = false ->
  Trigger.handle_error event e st = (PyOk (Trigger.ReturnResponse (Profile.error_response e)), st).
Proof.
  intros Hc. unfold Trigger.handle_error, Profile.error_response. rewrite Hc.
  destruct (exn_cls e); try destruct (text_eqb _ _); done.
Qed.

(** The API branch of the dispatch is the profile Lambda's parsing. *)
Lemma source_email_api event :
  Trigger.is_cognito event = false ->
  Trigger.source_email event =
    if has_key (VDict event) (T "body") then email <- Profile.body_email event ;; PyOk (Some email)
    else PyRaise Trigger.unknown_source.
Proof. intros Hc. unfold Trigger.source_email. by rewrite Hc. Qed.

Lemma body_email_no_body event :
  has_key (VDict event) (T "body") = false -> exists e, Profile.body_email event = PyRaise e /\ exn_cls e = KeyError.
Proof.
  unfold has_key, Profile.body_email, py_getitem.
  destruct (dict_lookup event (T "body")); [done|]. intros _. by eexists.
Qed.
End TriggerFacts.

Definition lift_response (r : Py api_response * aws) : Py Trigger.trigger_result * aws :=
  match r with
  | (PyOk resp, st) => (PyOk (Trigger.ReturnResponse resp), st)
  | (PyRaise e, st) => (PyRaise e, st)
  end.

Section TriggerClaims.
Context `{UnicodeDB} `{JsonDecoder} `{AwsFaults} `{Clock}.

(** C14: for a Cognito event the trigger gives back the event itself or
    raises (which fails the sign-up confirmation); it never answers with
    an API Gateway response, which Cognito would reject. *)
Theorem trigger_cognito_returns_event event st :
  Trigger.is_cognito event = true ->
  wp (Trigger.lambda_handler event) (fun r _ => r = Trigger.ReturnEvent event) (fun _ _ => True) st.
Proof.
  intros Hc. unfold Trigger.lambda_handler. apply wp_try.
  apply wp_mono with (Q := fun r _ => r = Trigger.ReturnEvent event) (R := fun _ _ => True);
    [|done|intros; by apply handle_error_cognito].
  wp_steps. destruct (Trigger.source_email event) as [[email|]|e]; [|by wp_step|done].
  destruct (Trigger.validate_email email); cbn [negb]; [|rewrite Hc; by wp_step].
  wp_step. apply wp_any; [|done]. intros ? s. wp_step.
  apply wp_any; [|done]. intros ? s'. rewrite Hc. by wp_step.
Qed.

(** C15: for an API Gateway event the trigger answers exactly as the
    profile Lambda does, response for response and state for state. *)
Theorem trigger_api_is_profile event st :
  Trigger.is_cognito event = false ->
  Trigger.lambda_handler event st = lift_response (Profile.lambda_handler event st).
Proof.
  intros Hc. unfold Trigger.lambda_handler, Profile.lambda_handler, atry, abind, alift.
  rewrite (source_email_api event Hc).
  destruct (has_key (VDict event) (T "body")) eqn:Hbody.
  - destruct (Profile.body_email event) as [email|e]; cbn [py_bind];
      [|by rewrite handle_error_api].
    unfold Trigger.validate_email, Trigger.create_user_folders, Trigger.create_user_profile,
      Trigger.create_response. destruct (Profile.validate_email email); cbn [negb]; [|by rewrite Hc].
    destruct (Profile.create_user_folders email st) as [[r1|e1] s1]; [|by rewrite handle_error_api].
    destruct (Profile.create_user_profile email s1) as [[p|e2] s2]; [by rewrite Hc|].
    by rewrite handle_error_api.
  - destruct (body_email_no_body event Hbody) as (e & -> & He).
    rewrite handle_error_api by done. unfold Profile.error_response. by rewrite He.
Qed.

(** For a Cognito event whose address fails [validate_email] the trigger
    returns at once: no folder, no profile, no call. *)
Lemma trigger_invalid_email_untouched event email st :
  Trigger.is_cognito event = true -> Trigger.source_email event = PyOk (Some email) ->
  Profile.validate_email email = false ->
  Trigger.lambda_handler event st = (PyOk (Trigger.ReturnEvent event), st).
Proof.
  intros Hc Hs Hv. unfold Trigger.lambda_handler, atry, abind, alift. rewrite Hs.
  unfold Trigger.validate_email. by rewrite Hv, Hc.
Qed.
End TriggerClaims.

(** ** What [validate_email] accepts *)

Section EmailShape.
Context `{UnicodeDB}.

Lemma email_atoms :
  rx_atoms EMAIL_PATTERN =
    [ABegin; ARep LOCAL_SET 1 None; ARep [CChar 64] 1 (Some 1)]
    ++ [ARep DOMAIN_SET 1 None; ARep [CChar 46] 1 (Some 1); ARep TLD_SET 2 None] ++ [AEnd].
Proof. reflexivity. Qed.

(** An accepted address is a non-empty local part, one ['@'] and a
    domain, neither of which contains another ['@']. *)
Lemma email_shape email :
  Profile.validate_email email = true ->
  exists u d, email = u ++ 64%N :: d /\ u <> [] /\ (64%N ∉ u) /\ (64%N ∉ d).
Proof.
  unfold Profile.validate_email, re_match, rx_match.
  destruct (match_here _ _ _ _) as [n|] eqn:E; [intros _|done].
  apply match_here_sound in E. rewrite email_atoms in E. cbn [app] in E.
  apply rmatch_begin_inv in E as [_ E].
  apply rmatch_rep_inv in E as (k1 & m1 & -> & Hk1 & _ & Hlen1 & Hall1 & E).
  apply rmatch_rep_inv in E as (k2 & m2 & -> & Hk2 & Hhi2 & Hlen2 & Hall2 & E).
  cbn [rep_bound] in Hhi2. assert (k2 = 1) as -> by lia.
  destruct (drop k1 email) as [|c0 d] eqn:Hd; [cbn in Hlen2; lia|].
  inversion Hall2 as [|? ? Hat _]; subst. cbn in Hat. rewrite orb_false_r in Hat.
  apply N.eqb_eq in Hat as ->.
  exists (take k1 email), d. split; [by rewrite <- Hd, take_drop|]. split.
  { intros Hu. apply (f_equal length) in Hu. rewrite length_take in Hu. cbn in Hu. lia. }
  split.
  - rewrite Forall_forall in Hall1. intros Hin%Hall1. revert Hin. vm_compute. discriminate.
  - eapply (rmatch_end_avoid false _ [_; _; _]); [exact E|reflexivity|reflexivity|reflexivity].
Qed.
End EmailShape.

(** ** The characters [validate_email] accepts *)

Section EmailAlphabet.
Context `{UnicodeDB}.

(** A character the pattern of [validate_email] accepts somewhere:
    [A-Za-z0-9._%+-] or ['@']. *)
Definition email_char (c : char) : bool := set_match false LOCAL_SET c || (c =? 64)%N.

Lemma email_avoid c :
  email_char c = false -> forallb (atom_avoids false c) (rx_atoms EMAIL_PATTERN) = true.
Proof.
  intros Hc. destruct (N.lt_ge_cases c 128) as [Hlo|Hhi].
  - pose proof (ascii_brute (fun c => implb (negb (email_char c))
                                        (forallb (atom_avoids false c) (rx_atoms EMAIL_PATTERN)))
                  ltac:(vm_compute; reflexivity) c Hlo) as Hb.
    cbn beta in Hb. by rewrite Hc in Hb.
  - rewrite email_atoms. cbn [app forallb atom_avoids].
    rewrite !set_match_high by first [exact Hhi|vm_compute; reflexivity]. reflexivity.
Qed.

(** An address with a character outside that alphabet (a line feed
    apart, which [$] lets through at the very end) is refused. *)
Lemma validate_email_avoid email c :
  c ∈ email -> email_char c = false -> (c =? 10)%N = false -> Profile.validate_email email = false.
Proof.
  intros Hin Hc Hnl. destruct (Profile.validate_email email) eqn:Hv; [|done]. exfalso.
  unfold Profile.validate_email, re_match, rx_match in Hv.
  destruct (match_here _ _ _ _) as [n|] eqn:E; [|done].
  apply match_here_sound in E.
  refine (rmatch_end_avoid false _ (ABegin :: ARep LOCAL_SET 1 None :: ARep [CChar 64] 1 (Some 1)
            :: ARep DOMAIN_SET 1 None :: ARep [CChar 46] 1 (Some 1) :: [ARep TLD_SET 2 None])
            _ _ _ _ E _ _ Hnl Hin); [exact email_atoms|exact (email_avoid c Hc)].
Qed.
End EmailAlphabet.

Section UnsupportedChar.
Context `{UnicodeDB} `{JsonDecoder} `{AwsFaults} `{Clock}.

(** C36: a user confirmed by Cognito whose address holds any character
    outside [A-Za-z0-9._%+-] and ['@'] (an apostrophe, a non-ASCII
    letter, a space), other than a line feed, gets nothing: the trigger
    returns the event at once, with no folder, no profile and no change
    to the state, and nothing reports it. *)
Theorem trigger_unsupported_char_dropped event email c st :
  Trigger.is_cognito event = true -> Trigger.source_email event = PyOk (Some email) ->
  c ∈ email -> email_char c = false -> (c =? 10)%N = false ->
  Trigger.lambda_handler event st = (PyOk (Trigger.ReturnEvent event), st).
Proof.
  intros Hcog Hs Hin Hc Hnl. apply (trigger_invalid_email_untouched event email st Hcog Hs).
  exact (validate_email_avoid email c Hin Hc Hnl).
Qed.
End UnsupportedChar.

Section NameClaim.
Context `{UnicodeDB}.

(** the profile's [name] is the whole local part of the address:
    every address [validate_email] accepts is [u@d] with a single ['@']
    and a non-empty [u], and [email.split('@')[0]] is [u]. *)
Theorem profile_name_local_part email :
  Profile.validate_email email = true ->
  exists u d, email = u ++ 64%N :: d /\ u <> [] /\ (64%N ∉ d) /\
    Profile.profile_item email = [(T "id", VStr email); (T "name", VStr u)].
Proof.
  intros Hv. destruct (email_shape email Hv) as (u & d & -> & Hu & Hnu & Hnd).
  exists u, d. do 3 (split; [done|]). unfold Profile.profile_item.
  change (T "@") with [64%N]. by rewrite py_split_first.
Qed.
End NameClaim.

(** ** Running the Lambdas

    A service with no outage, a clock that starts at 2025-01-01 and a
    decoder that reads the body as the address itself stand in for
    AWS, [datetime] and [json]. *)

#[local] Instance no_outage : AwsFaults := {| aws_fault _ := None |}.
#[local] Instance no_outage_laws : FaultLaws.
Proof. by split. Qed.

#[local] Instance demo_clock : Clock := {| clock_at n := mk_datetime 2025 1 1 9 0 (Z.of_nat n) 0 |}.

#[local] Instance demo_json : JsonDecoder := {| json_loads s := PyOk (VDict [(T "email", VStr s)]) |}.
#[local] Instance demo_json_laws : JsonLaws.
Proof. by split. Qed.

Definition demo_api_event : list (text * pyval) := [(T "body", VStr (T " Taro@Example.com "))].

Definition cognito_event (email : text) : list (text * pyval) :=
  [(T "triggerSource", VStr Trigger.POST_CONFIRMATION);
   (T "request", VDict [(T "userAttributes", VDict [(T "email", VStr email)])])].

(** The table already holds a profile for the address. *)
Definition demo_state : aws :=
  mk_aws ∅ {[T "taro@example.com" := [(T "id", VStr (T "taro@example.com")); (T "name", VStr (T "old"))]]}
    ∅ 0 0 0 [].

Lemma profile_never_409_witness :
  wp (Profile.lambda_handler demo_api_event) (fun r _ => statusCode r <> 409%Z) (fun _ _ => False) demo_state.
Proof. apply profile_never_409. Defined.

Lemma profile_registration_overwrites_witness :
  wp (Profile.lambda_handler demo_api_event)
     (fun r st' => statusCode r = 200%Z /\
                   users st' = <[T "taro@example.com" := Profile.profile_item (T "taro@example.com")]>
                                 (users demo_state))
     (fun _ _ => False) demo_state.
Proof.
  apply (profile_registration_overwrites demo_api_event (T "taro@example.com") demo_state);
    [done|vm_compute; reflexivity|vm_compute; reflexivity].
Defined.

Lemma trigger_cognito_returns_event_witness :
  wp (Trigger.lambda_handler (cognito_event (T "hanako@example.jp")))
     (fun r _ => r = Trigger.ReturnEvent (cognito_event (T "hanako@example.jp"))) (fun _ _ => True) demo_state.
Proof. apply trigger_cognito_returns_event. reflexivity. Defined.

Lemma trigger_api_is_profile_witness :
  Trigger.lambda_handler demo_api_event demo_state = lift_response (Profile.lambda_handler demo_api_event demo_state).
Proof. apply trigger_api_is_profile. reflexivity. Defined.

Lemma profile_name_local_part_witness :
  exists u d, T "taro@example.com" = u ++ 64%N :: d /\ u <> [] /\ (64%N ∉ d) /\
    Profile.profile_item (T "taro@example.com") = [(T "id", VStr (T "taro@example.com")); (T "name", VStr u)].
Proof. apply profile_name_local_part. vm_compute. reflexivity. Defined.

Lemma trigger_unsupported_char_dropped_witness :
  Trigger.lambda_handler (cognito_event (T "o'brien@example.com")) demo_state =
    (PyOk (Trigger.ReturnEvent (cognito_event (T "o'brien@example.com"))), demo_state).
Proof.
  apply (trigger_unsupported_char_dropped _ (T "o'brien@example.com") 39%N);
    [reflexivity|vm_compute; reflexivity|apply (bool_decide_unpack _); vm_compute; reflexivity
    |vm_compute; reflexivity|reflexivity].
Defined.
