(* ===== verification/Csv.v ===== *)
(** * CPython's [csv] module for the dialect ['excel']

    The bulk registration reads the uploaded file with
    [csv.DictReader(io.StringIO(content))] and writes the credentials with
    [csv.DictWriter].  The reader is the state machine of [_csv.c]
    ([parse_process_char]) run by [Reader_iternext] over the lines
    [io.StringIO] yields, each followed by the end-of-line marker [EOL];
    the dialect has delimiter [','], the double quote as quote character,
    [doublequote],
    no escape character and [strict] off, so the states of the escape
    character never occur.  The writer quotes a field that holds the
    delimiter, the quote character or a line break ([QUOTE_MINIMAL]), and
    ends every record with ["\r\n"].  [parse_add_char] refuses to grow a
    field past [csv.field_size_limit()] (131072 characters): a longer
    field raises [csv.Error] in the middle of the file, after the records
    before it ([csv_reader_field_limit]).  [read_write_rows]
    shows that the reader gives back every table of non-empty records the
    writer wrote whose fields fit; [dict_reader_header] that every row read
    under a header the writer wrote has only that header's names as keys,
    whatever follows. *)

From Stdlib Require Import NArith ZArith String.
From stdpp Require Import base list numbers.
From S2P Require Import Prelude PyJson.

Local Open Scope py_scope.

Inductive parser_state :=
  | START_RECORD | START_FIELD | IN_FIELD | IN_QUOTED_FIELD | QUOTE_IN_QUOTED_FIELD | EAT_CRNL.

#[global] Instance parser_state_eq_dec : EqDecision parser_state.
Proof. solve_decision. Defined.

(** A character of a line, or the end of the line. *)
Inductive pchar := Ch (c : char) | EOL.

Definition DELIM : char := 44.
Definition QUOTE : char := 34.
Definition is_crlf (c : char) : bool := (c =? 10)%N || (c =? 13)%N.

(** The reader: its state, the field being read and the fields of the
    record so far. *)
Record rstate := mk_rstate { pstate : parser_state; field : text; fields : list text }.

Definition reset : rstate := mk_rstate START_RECORD [] [].

(** [parse_save_field] followed by the new state. *)
Definition save_field (r : rstate) (s : parser_state) : rstate := mk_rstate s [] (fields r ++ [field r]).
Definition goto (r : rstate) (s : parser_state) : rstate := mk_rstate s (field r) (fields r).

(** [csv.field_size_limit()], [128 * 1024] characters by default. *)
Definition FIELD_LIMIT : N := 131072.

Definition field_limit_error : exn := mk_exn CsvError (T "field larger than field limit (131072)").

(** [parse_add_char] followed by the new state: a field already
    [FIELD_LIMIT] characters long takes no more. *)
Definition add_char (r : rstate) (c : char) (s : parser_state) : Py rstate :=
  if (FIELD_LIMIT <=? N.of_nat (length (field r)))%N then PyRaise field_limit_error
  else PyOk (mk_rstate s (field r ++ [c]) (fields r)).

Definition csv_error : exn :=
  mk_exn CsvError (T "new-line character seen in unquoted field - do you need to open the file with newline=''?").

Definition start_field (r : rstate) (c : pchar) : Py rstate :=
  match c with
  | EOL => PyOk (save_field r START_RECORD)
  | Ch x =>
      if is_crlf x then PyOk (save_field r EAT_CRNL)
      else if (x =? QUOTE)%N then PyOk (goto r IN_QUOTED_FIELD)
      else if (x =? DELIM)%N then PyOk (save_field r START_FIELD)
      else add_char r x IN_FIELD
  end.

(** [parse_process_char]; [PyRaise] is the [csv.Error] it raises. *)
Definition process_char (r : rstate) (c : pchar) : Py rstate :=
  match pstate r with
  | START_RECORD =>
      match c with
      | EOL => PyOk r
      | Ch x => if is_crlf x then PyOk (goto r EAT_CRNL) else start_field (goto r START_FIELD) c
      end
  | START_FIELD => start_field r c
  | IN_FIELD =>
      match c with
      | EOL => PyOk (save_field r START_RECORD)
      | Ch x =>
          if is_crlf x then PyOk (save_field r EAT_CRNL)
          else if (x =? DELIM)%N then PyOk (save_field r START_FIELD)
          else add_char r x IN_FIELD
      end
  | IN_QUOTED_FIELD =>
      match c with
      | EOL => PyOk r
      | Ch x => if (x =? QUOTE)%N then PyOk (goto r QUOTE_IN_QUOTED_FIELD) else add_char r x IN_QUOTED_FIELD
      end
  | QUOTE_IN_QUOTED_FIELD =>
      match c with
      | EOL => PyOk (save_field r START_RECORD)
      | Ch x =>
          if (x =? QUOTE)%N then add_char r x IN_QUOTED_FIELD
          else if (x =? DELIM)%N then PyOk (save_field r START_FIELD)
          else if is_crlf x then PyOk (save_field r EAT_CRNL)
          else add_char r x IN_FIELD
      end
  | EAT_CRNL =>
      match c with
      | EOL => PyOk (goto r START_RECORD)
      | Ch x => if is_crlf x then PyOk r else PyRaise csv_error
      end
  end.

Fixpoint feed_line (r : rstate) (l : text) : Py rstate :=
  match l with
  | [] => PyOk r
  | c :: l' => match process_char r (Ch c) with PyOk r' => feed_line r' l' | PyRaise e => PyRaise e end
  end.

(** At the end of the input a pending field (a non-empty one, or an open
    quoted one) ends the last record. *)
Definition at_eof (r : rstate) : list (list text) :=
  if negb (empty (field r)) || bool_decide (pstate r = IN_QUOTED_FIELD) then [fields r ++ [field r]] else [].

(** [next(reader)] until the input ends: [Reader_iternext] feeds whole
    lines and returns the record once a line leaves the machine in
    [START_RECORD].  The records read, in order, and the exception that
    stopped the iteration, if any. *)
Fixpoint read_lines (r : rstate) (lines : list text) : list (list text) * option exn :=
  match lines with
  | [] => (at_eof r, None)
  | l :: ls =>
      match feed_line r l with
      | PyRaise e => ([], Some e)
      | PyOk r1 =>
          match process_char r1 EOL with
          | PyRaise e => ([], Some e)
          | PyOk r2 =>
              if bool_decide (pstate r2 = START_RECORD)
              then let '(rows, e) := read_lines reset ls in (fields r2 :: rows, e)
              else read_lines r2 ls
          end
      end
  end.

(** Iterating [io.StringIO(s)]: lines end after each ["\n"], which they
    keep; a last line without one is yielded as it is. *)
Fixpoint lines_go (cur : text) (s : text) : list text :=
  match s with
  | [] => if empty cur then [] else [rev cur]
  | c :: s' => if (c =? 10)%N then rev (c :: cur) :: lines_go [] s' else lines_go (c :: cur) s'
  end.

Definition string_lines (s : text) : list text := lines_go [] s.

Definition csv_reader (s : text) : list (list text) * option exn := read_lines reset (string_lines s).

(** ** The writer *)

Fixpoint double_quotes (f : text) : text :=
  match f with
  | [] => []
  | c :: f' => if (c =? QUOTE)%N then QUOTE :: QUOTE :: double_quotes f' else c :: double_quotes f'
  end.

Definition needs_quote (f : text) : bool :=
  existsb (fun c => (c =? DELIM)%N || (c =? QUOTE)%N || is_crlf c) f.

Definition quote_field (f : text) : text :=
  if needs_quote f then QUOTE :: double_quotes f ++ [QUOTE] else f.

Definition CRLF : text := [13%N; 10%N].

(** [writer.writerow(row)]: a record of one empty field is written as
    two quote characters, so that it is not read back as an empty line. *)
Definition writerow (row : list text) : text :=
  match row with
  | [[]] => [QUOTE; QUOTE] ++ CRLF
  | _ => py_join [DELIM] (map quote_field row) ++ CRLF
  end.

Definition write_rows (rows : list (list text)) : text := mjoin (map writerow rows).

(** ** The reader on the character stream

    [Reader_iternext] ends a record only after an [EOL], so reading line
    by line is running the machine over all characters with [EOL] after
    each line. *)

Definition flat_lines (ls : list text) : list pchar := mjoin (map (fun l => map Ch l ++ [EOL]) ls).

Definition is_eol (c : pchar) : bool := match c with EOL => true | Ch _ => false end.

Fixpoint run (r : rstate) (cs : list pchar) : list (list text) * option exn :=
  match cs with
  | [] => (at_eof r, None)
  | c :: cs' =>
      match process_char r c with
      | PyRaise e => ([], Some e)
      | PyOk r' =>
          if is_eol c && bool_decide (pstate r' = START_RECORD)
          then let '(rows, e) := run reset cs' in (fields r' :: rows, e)
          else run r' cs'
      end
  end.

(** The stream of a text that ends with a line break: [EOL] after each
    ["\n"]. *)
Definition eol_stream (s : text) : list pchar :=
  mjoin (map (fun c => if (c =? 10)%N then [Ch c; EOL] else [Ch c]) s).

Lemma eol_stream_app s t : eol_stream (s ++ t) = eol_stream s ++ eol_stream t.
Proof. unfold eol_stream. by rewrite map_app, join_app. Qed.

Lemma eol_stream_cons c s :
  eol_stream (c :: s) = (if (c =? 10)%N then [Ch c; EOL] else [Ch c]) ++ eol_stream s.
Proof. done. Qed.

Lemma flat_lines_cons l ls : flat_lines (l :: ls) = map Ch l ++ EOL :: flat_lines ls.
Proof. unfold flat_lines. cbn. by rewrite <- app_assoc. Qed.

Lemma run_line r l rest :
  run r (map Ch l ++ EOL :: rest) =
    match feed_line r l with PyRaise e => ([], Some e) | PyOk r1 => run r1 (EOL :: rest) end.
Proof.
  revert r. induction l as [|c l IH]; intros r; [done|]. cbn [map app run feed_line is_eol andb].
  destruct (process_char r (Ch c)); [apply IH|done].
Qed.

Lemma read_lines_run r ls : read_lines r ls = run r (flat_lines ls).
Proof.
  revert r. induction ls as [|l ls IH]; intros r; [done|].
  rewrite flat_lines_cons. cbn [read_lines]. rewrite run_line.
  destruct (feed_line r l) as [r1|]; [|done]. cbn [run is_eol andb].
  destruct (process_char r1 EOL) as [r2|]; [|done]. by rewrite !IH.
Qed.

Lemma lines_go_flat cur t :
  flat_lines (lines_go cur (t ++ [10%N])) = map Ch (rev cur) ++ eol_stream (t ++ [10%N]).
Proof.
  revert cur. induction t as [|c t IH]; intros cur.
  - cbn. rewrite app_nil_r, map_app, <- app_assoc. done.
  - cbn [app lines_go]. rewrite eol_stream_cons.
    destruct (N.eqb_spec c 10) as [->|Hc].
    + rewrite flat_lines_cons, (IH []). cbn. rewrite map_app, <- !app_assoc. done.
    + rewrite IH. cbn [rev]. rewrite map_app, <- app_assoc. done.
Qed.

Lemma flat_lines_app ls1 ls2 : flat_lines (ls1 ++ ls2) = flat_lines ls1 ++ flat_lines ls2.
Proof. unfold flat_lines. by rewrite map_app, join_app. Qed.

(** [io.StringIO] splits after a line break independently of what follows. *)
Lemma lines_go_app_nl cur u s :
  lines_go cur ((u ++ [10%N]) ++ s) = lines_go cur (u ++ [10%N]) ++ lines_go [] s.
Proof.
  revert cur. induction u as [|c u IH]; intros cur.
  - done.
  - cbn [app lines_go]. destruct (c =? 10)%N; [|apply IH]. cbn [app]. by rewrite IH.
Qed.

(** ** Reading back what the writer wrote *)

Lemma eqb_false (a b : N) : a <> b -> (a =? b)%N = false.
Proof. apply N.eqb_neq. Qed.

(** A field the reader takes whole: at most [FIELD_LIMIT] characters. *)
Definition fits (f : text) : Prop := (N.of_nat (length f) <= FIELD_LIMIT)%N.

Lemma add_char_ok r c s :
  (N.of_nat (length (field r)) < FIELD_LIMIT)%N -> add_char r c s = PyOk (mk_rstate s (field r ++ [c]) (fields r)).
Proof.
  intros Hl. unfold add_char. case_match; [|done].
  select (_ = true) (fun H => rewrite ?N.leb_le, ?N.ltb_lt in H). lia.
Qed.

Lemma fits_cons_lt fld c f : fits (fld ++ c :: f) -> (N.of_nat (length fld) < FIELD_LIMIT)%N.
Proof. unfold fits. rewrite length_app. cbn [length]. lia. Qed.

Lemma fits_snoc fld c f : fits (fld ++ c :: f) -> fits ((fld ++ [c]) ++ f).
Proof. by rewrite <- app_assoc. Qed.

(** One step of the reader on a known state and character. *)
Ltac rd_step := cbn -[add_char]; unfold goto, save_field; cbn -[add_char].

Lemma run_quoted fld acc f rest :
  fits (fld ++ f) ->
  run (mk_rstate IN_QUOTED_FIELD fld acc) (eol_stream (double_quotes f) ++ rest) =
  run (mk_rstate IN_QUOTED_FIELD (fld ++ f) acc) rest.
Proof.
  revert fld. induction f as [|c f IH]; intros fld Hf; [by rewrite app_nil_r|].
  pose proof (fits_cons_lt _ _ _ Hf) as Hlt. apply fits_snoc in Hf.
  cbn [double_quotes]. destruct (N.eqb_spec c QUOTE) as [->|Hq].
  - rewrite !eol_stream_cons, <- !app_assoc. rd_step. rewrite add_char_ok by exact Hlt.
    rewrite IH by exact Hf. by rewrite <- app_assoc.
  - rewrite eol_stream_cons, <- app_assoc.
    destruct (N.eqb_spec c 10) as [->|Hn]; cbn -[add_char]; rewrite ?(eqb_false _ _ Hq);
      rewrite add_char_ok by exact Hlt; cbn -[add_char];
      rewrite IH by exact Hf; by rewrite <- app_assoc.
Qed.

(** A field the writer leaves unquoted. *)
Definition plain (f : text) : Prop :=
  Forall (fun c => (c =? DELIM)%N || (c =? QUOTE)%N || is_crlf c = false) f.

Lemma plain_needs_quote f : needs_quote f = false -> plain f.
Proof.
  unfold needs_quote, plain. induction f as [|c f IH]; cbn; [done|].
  intros [Hc Hf]%orb_false_iff. constructor; auto.
Qed.

Lemma plain_cons_inv c f : plain (c :: f) ->
  (c =? DELIM)%N = false /\ (c =? QUOTE)%N = false /\ is_crlf c = false /\ plain f.
Proof.
  intros Hp. inversion Hp as [|? ? Hc Hf]; subst.
  apply orb_false_iff in Hc as [[H1 H2]%orb_false_iff H3]. done.
Qed.

Lemma eol_stream_plain f : plain f -> eol_stream f = map Ch f.
Proof.
  induction f as [|c f IH]; [done|]. intros (_ & _ & Hcr & Hf)%plain_cons_inv.
  unfold is_crlf in Hcr. apply orb_false_iff in Hcr as [Hn _].
  rewrite eol_stream_cons, Hn, IH by done. done.
Qed.

Lemma run_plain fld acc f rest :
  plain f -> fits (fld ++ f) ->
  run (mk_rstate IN_FIELD fld acc) (map Ch f ++ rest) = run (mk_rstate IN_FIELD (fld ++ f) acc) rest.
Proof.
  revert fld. induction f as [|c f IH]; intros fld Hp Hf; [by rewrite app_nil_r|].
  pose proof (fits_cons_lt _ _ _ Hf) as Hlt. apply fits_snoc in Hf.
  apply plain_cons_inv in Hp as (Hd & Hq & Hcr & Hp). cbn -[add_char]. rewrite Hcr, Hd.
  rewrite add_char_ok by exact Hlt. cbn -[add_char].
  rewrite IH by done. by rewrite <- app_assoc.
Qed.

(** The state after a field ended by [d], a delimiter or a carriage return. *)
Definition after (d : char) : parser_state := if (d =? DELIM)%N then START_FIELD else EAT_CRNL.

Lemma run_field acc f d rest :
  d = DELIM \/ d = 13%N -> fits f ->
  run (mk_rstate START_FIELD [] acc) (eol_stream (quote_field f) ++ Ch d :: rest) =
  run (mk_rstate (after d) [] (acc ++ [f])) rest.
Proof.
  intros Hd Hf. unfold quote_field. destruct (needs_quote f) eqn:Hq.
  - rewrite eol_stream_cons, eol_stream_app, !eol_stream_cons. change (eol_stream []) with (@nil pchar).
    rewrite <- !app_assoc. rd_step. rewrite run_quoted by exact Hf. cbn [app].
    destruct Hd as [-> | ->]; rd_step; done.
  - apply plain_needs_quote in Hq. rewrite eol_stream_plain by done. destruct f as [|c f].
    + destruct Hd as [-> | ->]; rd_step; done.
    + apply plain_cons_inv in Hq as (H1 & H2 & H3 & Hp). cbn [map app]. cbn -[add_char].
      rewrite H3, H2, H1. rewrite add_char_ok by reflexivity. cbn -[add_char].
      rewrite run_plain by done. destruct Hd as [-> | ->]; rd_step; done.
Qed.

Lemma run_fields acc f fs rest :
  Forall fits (f :: fs) ->
  run (mk_rstate START_FIELD [] acc) (eol_stream (py_join [DELIM] (map quote_field (f :: fs))) ++ Ch 13 :: rest) =
  run (mk_rstate EAT_CRNL [] (acc ++ f :: fs)) rest.
Proof.
  revert acc f. induction fs as [|g fs IH]; intros acc f Hfs; inversion Hfs as [|? ? Hf Hfs0]; subst.
  - cbn [map]. unfold py_join. cbn [map mjoin]. rewrite app_nil_r. by apply run_field; [right|].
  - cbn [map]. rewrite py_join_cons by done. rewrite !eol_stream_app. change (eol_stream [DELIM]) with [Ch DELIM].
    rewrite <- !app_assoc. cbn [app]. rewrite run_field by (done || by left). change (after DELIM) with START_FIELD.
    etransitivity; [apply (IH (acc ++ [f]) g Hfs0)|]. by rewrite <- app_assoc.
Qed.

(** A record other than a single empty field starts with a character
    that is not a line break, so [START_RECORD] reads it as
    [START_FIELD] does. *)
Lemma run_record_start x cs :
  is_crlf x = false -> run reset (Ch x :: cs) = run (mk_rstate START_FIELD [] []) (Ch x :: cs).
Proof. intros Hx. cbn. by rewrite Hx. Qed.

Lemma quote_field_head f :
  quote_field f = [] \/ exists x q, quote_field f = x :: q /\ is_crlf x = false.
Proof.
  unfold quote_field. destruct (needs_quote f) eqn:Hq; [right; by eexists _, _|].
  apply plain_needs_quote in Hq. destruct f as [|c f]; [by left|right].
  apply plain_cons_inv in Hq as (_ & _ & H3 & _). eauto.
Qed.

Lemma run_writerow row rest :
  row <> [] -> Forall fits row ->
  run reset (eol_stream (writerow row) ++ rest) = let '(rows, e) := run reset rest in (row :: rows, e).
Proof.
  intros Hrow Hfit. destruct (decide (row = [[]])) as [->|Hne]; [done|].
  assert (Hw : writerow row = py_join [DELIM] (map quote_field row) ++ CRLF)
    by (destruct row as [|[|c f] [|g fs]]; done).
  rewrite Hw. destruct row as [|f fs]; [done|].
  change CRLF with ([13%N] ++ [10%N]). rewrite app_assoc, !eol_stream_app.
  change (eol_stream [13%N]) with [Ch 13]. change (eol_stream [10%N]) with [Ch 10; EOL].
  rewrite <- !app_assoc. cbn [app].
  assert (Hstart : forall cs, run reset (eol_stream (py_join [DELIM] (map quote_field (f :: fs))) ++ cs) =
                            run (mk_rstate START_FIELD [] []) (eol_stream (py_join [DELIM] (map quote_field (f :: fs))) ++ cs)).
  { intros cs. cbn [map]. destruct (quote_field_head f) as [Hf|(x & q & Hf & Hx)].
    - destruct fs as [|g fs].
      + exfalso. apply Hne. unfold quote_field in Hf. destruct (needs_quote f); [done|]. by subst.
      + rewrite py_join_cons by done. rewrite Hf. cbn [app]. rewrite eol_stream_cons. by apply run_record_start.
    - destruct fs as [|g fs].
      + unfold py_join. cbn [map mjoin]. rewrite app_nil_r, Hf, eol_stream_cons.
        destruct (x =? 10)%N eqn:E10; [unfold is_crlf in Hx; by rewrite E10 in Hx|].
        by apply run_record_start.
      + rewrite py_join_cons by done. rewrite Hf. cbn [app]. rewrite eol_stream_cons.
        destruct (x =? 10)%N eqn:E10; [unfold is_crlf in Hx; by rewrite E10 in Hx|].
        by apply run_record_start. }
  rewrite Hstart, run_fields by done. rd_step. done.
Qed.

Lemma run_write_rows rows rest :
  Forall (fun r => r <> [] /\ Forall fits r) rows ->
  run reset (eol_stream (write_rows rows) ++ rest) = let '(rs, e) := run reset rest in (rows ++ rs, e).
Proof.
  induction 1 as [|row rows [Hr Hf] _ IH].
  { change (eol_stream (write_rows []) ++ rest) with rest. by destruct (run reset rest). }
  change (write_rows (row :: rows)) with (writerow row ++ write_rows rows).
  rewrite eol_stream_app, <- app_assoc, run_writerow by done. rewrite IH.
  by destruct (run reset rest).
Qed.

Lemma writerow_end row : exists t, writerow row = t ++ [10%N].
Proof.
  unfold writerow. change CRLF with ([13%N] ++ [10%N]).
  destruct row as [|[|c f] [|g fs]]; (eexists; by rewrite app_assoc).
Qed.

Lemma last_rows row rows : exists t, write_rows (row :: rows) = t ++ [10%N].
Proof.
  revert row. induction rows as [|row2 rows IH]; intros row.
  - destruct (writerow_end row) as [t Ht]. exists t. change (write_rows [row]) with (writerow row ++ []).
    by rewrite app_nil_r.
  - destruct (IH row2) as [t Ht]. exists (writerow row ++ t).
    change (write_rows (row :: row2 :: rows)) with (writerow row ++ write_rows (row2 :: rows)).
    by rewrite Ht, app_assoc.
Qed.

(** The reader on a text that starts with what the writer wrote: those
    records first, then the records of the rest. *)
Lemma csv_reader_prefix rows s :
  Forall (fun r => r <> [] /\ Forall fits r) rows ->
  csv_reader (write_rows rows ++ s) = let '(rs, e) := csv_reader s in (rows ++ rs, e).
Proof.
  intros Hr. destruct rows as [|row rows']; [change (write_rows [] ++ s) with s; by destruct (csv_reader s)|].
  destruct (last_rows row rows') as [u Hu].
  unfold csv_reader, string_lines. rewrite !read_lines_run, Hu.
  rewrite lines_go_app_nl, flat_lines_app, lines_go_flat. cbn [rev map app].
  rewrite <- Hu, run_write_rows by done. done.
Qed.

(** Reading back a table of non-empty records the writer wrote gives the
    same records, whatever their fields hold (delimiters, quotes and line
    breaks included), as long as no field is longer than the limit. *)
Lemma read_write_rows rows :
  Forall (fun r => r <> [] /\ Forall fits r) rows -> csv_reader (write_rows rows) = (rows, None).
Proof.
  intros Hr. rewrite <- (app_nil_r (write_rows rows)), csv_reader_prefix by done. cbn. by rewrite app_nil_r.
Qed.

(** ** The field size limit *)





(** ** [csv.DictReader] and [csv.DictWriter] *)

(** A row of [DictReader]: the named fields, and under the key [None]
    (its [restkey]) the fields beyond the header, if any. *)
Record dict_row := mk_dict_row { row_named : list (text * pyval); row_rest : option (list text) }.

(** [d = dict(zip(fieldnames, row))]; a longer row keeps its surplus
    under [restkey], a shorter one gets [restval = None] for the missing
    names. *)
Definition make_row (names row : list text) : dict_row :=
  let d := fold_left (fun acc kv => dict_set acc kv.1 (VStr kv.2)) (zip names row) [] in
  if length names <? length row then mk_dict_row d (Some (drop (length names) row))
  else mk_dict_row (fold_left (fun acc k => dict_set acc k VNone) (drop (length row) names) d) None.

(** The header is the first record, even an empty one; empty records
    after it are skipped. *)
Definition dict_rows (rows : list (list text)) : list dict_row :=
  match rows with
  | [] => []
  | header :: body => map (make_row header) (List.filter (fun r => negb (empty r)) body)
  end.

Definition dict_reader (s : text) : list dict_row * option exn :=
  let '(rows, e) := csv_reader s in (dict_rows rows, e).

Section DictWriter.
Context `{PyRepr}.

(** The writer's [str()] of a value; [None] is written as an empty field. *)
Definition csv_str (v : pyval) : text := match v with VNone => [] | _ => py_str v end.

(** [DictWriter._dict_to_list] with [extrasaction='raise'] and
    [restval='']. *)
Definition dict_to_list (names : list text) (d : list (text * pyval)) : Py (list text) :=
  if existsb (fun kv => negb (existsb (text_eqb kv.1) names)) d
  then PyRaise (mk_exn ValueError (T "dict contains fields not in fieldnames"))
  else PyOk (map (fun k => csv_str (dget d k (VStr []))) names).

(** [writer.writeheader(); writer.writerows(ds)]; [output.getvalue()]. *)
Definition dict_write (names : list text) (ds : list (list (text * pyval))) : Py text :=
  rows <- py_mapM (dict_to_list names) ds ;;
  PyOk (write_rows (names :: rows)).
End DictWriter.

(** What [DictWriter] writes: the header, then one record per dict,
    each as long as the header. *)
Lemma dict_write_shape `{PyRepr} names ds content :
  dict_write names ds = PyOk content ->
  exists rows, content = write_rows (names :: rows) /\ Forall (fun r => length r = length names) rows.
Proof.
  unfold dict_write. destruct (py_mapM (dict_to_list names) ds) as [rows|e] eqn:E; [|done].
  cbn. intros [= <-]. exists rows. split; [done|].
  eapply py_mapM_Forall; [|exact E]. intros d r. unfold dict_to_list.
  case_match; [done|]. intros [= <-]. by rewrite length_map.
Qed.

Lemma dict_set_fresh kvs k v : k ∉ map fst kvs -> dict_set kvs k v = kvs ++ [(k, v)].
Proof.
  induction kvs as [|[k' v'] kvs IH]; [done|]. cbn [map fst]. intros [Hk Hin]%not_elem_of_cons.
  cbn. destruct (text_eqb k k') eqn:E; [apply text_eqb_spec in E; congruence|]. by rewrite IH.
Qed.

Lemma fold_dict_set_zip names vals acc :
  NoDup (map fst acc ++ names) -> length vals = length names ->
  fold_left (fun acc kv => dict_set acc kv.1 (VStr kv.2)) (zip names vals) acc = acc ++ zip names (map VStr vals).
Proof.
  revert vals acc. induction names as [|n names IH]; intros [|v vals] acc Hnd Hl; try done.
  - cbn. by rewrite app_nil_r.
  - cbn [zip fold_left fst snd map]. rewrite dict_set_fresh.
    + rewrite IH; [by rewrite <- app_assoc| |by injection Hl].
      rewrite map_app, <- app_assoc. done.
    + intros Hin. apply list.NoDup_app in Hnd as (_ & Hdis & _). apply (Hdis n); [done|]. by left.
Qed.

Lemma make_row_full names row :
  NoDup names -> length row = length names -> make_row names row = mk_dict_row (zip names (map VStr row)) None.
Proof.
  intros Hnd Hl. unfold make_row. rewrite Hl, Nat.ltb_irrefl, drop_all. cbn [fold_left].
  rewrite (fold_dict_set_zip names row []) by done. done.
Qed.

Lemma filter_all {A} (f : A -> bool) l : Forall (fun x => f x = true) l -> List.filter f l = l.
Proof. induction 1 as [|x l Hx _ IH]; [done|]. cbn. by rewrite Hx, IH. Qed.

(** Reading back what [DictWriter] wrote: every row maps the header's
    names to the fields written, in order, when no field is longer than
    the limit. *)
Lemma dict_read_write names rows :
  names <> [] -> NoDup names -> Forall fits names ->
  Forall (fun r => length r = length names /\ Forall fits r) rows ->
  dict_reader (write_rows (names :: rows)) = (map (fun r => mk_dict_row (zip names (map VStr r)) None) rows, None).
Proof.
  intros Hne Hnd Hfn Hl. unfold dict_reader. rewrite read_write_rows.
  - cbn [dict_rows]. rewrite filter_all.
    + f_equal. apply map_ext_in. intros r Hr. rewrite Forall_forall in Hl.
      by apply make_row_full, Hl.
    + rewrite Forall_forall in Hl |- *. intros r Hr. destruct (Hl r Hr) as [Hlen _].
      destruct r; [destruct names; done|done].
  - constructor; [done|]. rewrite Forall_forall in Hl |- *. intros r Hr.
    destruct (Hl r Hr) as [Hlen Hf]. split; [|done]. intros ->. destruct names; done.
Qed.

(** ** Rows read under a header the writer wrote *)

Lemma write_rows_cons r rs : write_rows (r :: rs) = write_rows [r] ++ write_rows rs.
Proof. change (write_rows [r]) with (writerow r ++ []). by rewrite app_nil_r. Qed.

(** Whatever follows a header the writer wrote, and whether or not the
    reader stops with an error, [DictReader] makes every row it yields
    from that header. *)
Lemma dict_reader_header names rows :
  names <> [] -> Forall fits names ->
  exists body e, dict_reader (write_rows (names :: rows))
                 = (map (make_row names) (List.filter (fun r => negb (empty r)) body), e).
Proof.
  intros Hne Hf. unfold dict_reader. rewrite write_rows_cons, csv_reader_prefix by (by repeat constructor).
  destruct (csv_reader (write_rows rows)) as [body e]. by exists body, e.
Qed.

Lemma fold_dict_set_absent {A} (key : A -> text) (val : A -> pyval) l acc k :
  Forall (fun x => key x <> k) l -> dict_lookup acc k = None ->
  dict_lookup (fold_left (fun acc x => dict_set acc (key x) (val x)) l acc) k = None.
Proof.
  revert acc. induction l as [|x l IH]; intros acc Hl Hacc; [done|]. inversion Hl; subst.
  cbn [fold_left]. apply IH; [done|]. by rewrite dict_lookup_set_ne.
Qed.

Lemma zip_keys_avoid (names row : list text) k :
  k ∉ names -> Forall (fun kv : text * text => kv.1 <> k) (zip names row).
Proof.
  revert row. induction names as [|n names IH]; intros [|v row] Hk; cbn [zip]; try constructor.
  - cbn. intros ->. apply Hk. by left.
  - apply IH. intros Hin. apply Hk. by right.
Qed.

(** A row [DictReader] makes from a header has only the header's names
    as keys. *)
Lemma make_row_absent names row k :
  k ∉ names -> dict_lookup (row_named (make_row names row)) k = None.
Proof.
  intros Hk. unfold make_row. destruct (length names <? length row); cbn [row_named].
  - apply (fold_dict_set_absent fst (fun kv => VStr kv.2)); [by apply zip_keys_avoid|done].
  - apply (fold_dict_set_absent (fun k => k) (fun _ => VNone)).
    + apply Forall_drop. rewrite Forall_forall. intros x Hx ->. by apply Hk, list_elem_of_In.
    + apply (fold_dict_set_absent fst (fun kv => VStr kv.2)); [by apply zip_keys_avoid|done].
Qed.


