(* ===== verification/BulkRegister.v ===== *)
(** * Bulk registration from a CSV upload

    [src/lambda_cognito_trigger/bulk_register_lambda.py] (Module [Lambda])
    runs when a CSV file is uploaded under [bulk-import/]: for each row of
    the file it creates a Cognito user with a random temporary password
    ([generate_temp_password], [create_cognito_user]), a profile in the
    table [Users] ([create_dynamodb_user]) and the user's S3 folders
    ([create_s3_folders]), then stores a JSON report and a CSV of the
    credentials back under [bulk-import/results/]
    ([save_results_to_s3]).  The services are the state of [Aws], the
    file formats those of [Csv]; [json.dumps] and
    [urllib.parse.unquote_plus] are classes.  The S3 notification that
    starts the Lambda is [triggers] and [s3_event]; [drain] runs the
    queue of notifications one event at a time.  The theorems: the
    passwords meet Cognito's policy, the loop counts every row once, a
    row whose Cognito account exists never reaches DynamoDB, one run
    creates at most one object that fires the trigger (its credentials
    CSV), a run on that CSV creates none, and so the chain started by an
    upload stops after two runs; a run whose CSV reading stops with
    [csv.Error] never writes the credentials of the users it registered.  The command-line version of the loop
    is in [BulkCli]. *)

From Stdlib Require Import NArith ZArith String.
From stdpp Require Import base list numbers gmap.
From S2P Require Import Prelude PyJson Aws Csv UserProfile.

Local Open Scope py_scope.
Local Open Scope aws_scope.

(** ** [generate_temp_password] *)

Definition ascii_uppercase : text := enum_from 65 26.
Definition ascii_lowercase : text := enum_from 97 26.
Definition digits : text := enum_from 48 10.
Definition SYMBOLS : text := T "!@#$%^&*".
(** [string.ascii_letters + string.digits + "!@#$%^&*"] *)
Definition all_chars : text := ascii_lowercase ++ ascii_uppercase ++ digits ++ SYMBOLS.

Section Password.
Context `{Entropy}.

Definition index_error : exn := mk_exn IndexError (T "list index out of range").

(** [secrets.choice(seq)]: [seq[randbelow(len(seq))]]. *)
Definition choice (s : list char) : AwsM char :=
  if empty s then araise (mk_exn IndexError (T "Cannot choose from an empty sequence"))
  else i <~ randbelow (length s) ;;
       match s !! i with Some c => aret c | None => araise index_error end.

Fixpoint choices (s : list char) (n : nat) : AwsM (list char) :=
  match n with
  | O => aret []
  | S n' => c <~ choice s ;; cs <~ choices s n' ;; aret (c :: cs)
  end.

(** [x[i], x[j] = x[j], x[i]]: the right side is read first, then [x[i]]
    and [x[j]] are assigned in that order. *)
Definition swap (x : list char) (i j : nat) : option (list char) :=
  match x !! j, x !! i with
  | Some xj, Some xi => Some (<[j := xi]> (<[i := xj]> x))
  | _, _ => None
  end.

(** [for i in reversed(range(1, len(x))): j = randbelow(i + 1); swap]:
    the loop at index [i] and below. *)
Fixpoint shuffle_from (i : nat) (x : list char) : AwsM (list char) :=
  match i with
  | O => aret x
  | S k =>
      j <~ randbelow (S i) ;;
      match swap x i j with
      | Some x' => shuffle_from k x'
      | None => araise index_error
      end
  end.

(** [random.SystemRandom().shuffle(x)] *)
Definition shuffle (x : list char) : AwsM (list char) := shuffle_from (length x - 1) x.

Definition generate_temp_password (len : nat) : AwsM text :=
  u <~ choice ascii_uppercase ;;
  l <~ choice ascii_lowercase ;;
  d <~ choice digits ;;
  s <~ choice SYMBOLS ;;
  rest <~ choices all_chars (len - 4) ;;
  shuffle ([u; l; d; s] ++ rest).
End Password.

(** ** The shuffle only reorders *)

Lemma swap_lt (x : list char) i j a b :
  i < j -> x !! i = Some a -> x !! j = Some b -> <[j := a]> (<[i := b]> x) ≡ₚ x.
Proof.
  intros Hij Hi Hj.
  set (A := take i x). set (R := drop (S i) x).
  assert (Hx : x = A ++ a :: R) by (symmetry; by apply take_drop_middle).
  assert (HA : length A = i) by (apply length_take_le; apply lookup_lt_Some in Hi; lia).
  assert (HR : R !! (j - S i) = Some b)
    by (unfold R; rewrite lookup_drop; by replace (S i + (j - S i)) with j by lia).
  set (B := take (j - S i) R). set (C := drop (S (j - S i)) R).
  assert (HR2 : R = B ++ b :: C) by (symmetry; by apply take_drop_middle).
  assert (HB : length B = j - S i) by (apply length_take_le; apply lookup_lt_Some in HR; lia).
  assert (H0 : forall (y z : char) l, <[0 := y]> (z :: l) = y :: l) by done.
  assert (HS : forall n (y z : char) l, <[S n := y]> (z :: l) = z :: <[n := y]> l) by done.
  rewrite Hx, HR2. replace i with (length A + 0) by lia. rewrite insert_app_r, H0.
  replace j with (length A + S (length B + 0)) by lia. rewrite insert_app_r, HS, insert_app_r, H0.
  apply Permutation_app_head. solve_Permutation.
Qed.

Lemma swap_perm (x : list char) i j x' : swap x i j = Some x' -> x' ≡ₚ x.
Proof.
  unfold swap. destruct (x !! j) as [b|] eqn:Hj, (x !! i) as [a|] eqn:Hi; intros Hs; try done.
  injection Hs as <-. destruct (lt_eq_lt_dec i j) as [[Hlt| ->]|Hgt].
  - by apply swap_lt.
  - rewrite Hj in Hi. injection Hi as ->. by rewrite list_insert_insert_eq, list_insert_id.
  - rewrite list_insert_insert_ne by lia. by apply swap_lt.
Qed.

Lemma swap_some (x : list char) i j : i < length x -> j < length x -> exists x', swap x i j = Some x'.
Proof.
  intros Hi Hj. unfold swap.
  destruct (lookup_lt_is_Some_2 x j Hj) as [b ->], (lookup_lt_is_Some_2 x i Hi) as [a ->]. eauto.
Qed.

Lemma existsb_elem (f : char -> bool) (l : list char) x : x ∈ l -> f x = true -> existsb f l = true.
Proof. intros Hx Hf. apply existsb_exists. exists x. split; [by apply list_elem_of_In|done]. Qed.

Section PasswordFacts.
Context `{Entropy} `{!EntropyLaws}.

(** The draws leave the table and the user pool alone. *)
Lemma choice_spec s st :
  s <> [] -> wp (choice s) (fun c s' => c ∈ s /\ same_data st s') (fun _ _ => False) st.
Proof.
  intros Hs. unfold choice. destruct s as [|c0 s']; [done|]. cbn [empty].
  apply randbelow_spec.
  destruct (lookup_lt_is_Some_2 (c0 :: s') (rand_below (draws st) (length (c0 :: s')))) as [c Hc].
  { apply rand_below_lt. cbn. lia. }
  rewrite Hc. apply wp_ret. split; [by eapply list_elem_of_lookup_2|done].
Qed.

Lemma choices_spec s n st :
  s <> [] ->
  wp (choices s n) (fun cs s' => (length cs = n /\ Forall (fun c => c ∈ s) cs) /\ same_data st s')
     (fun _ _ => False) st.
Proof.
  intros Hs. revert st. induction n as [|n IH]; intros st; cbn [choices]; wp_steps; [done|].
  eapply wp_mono; [by apply choice_spec| |done]. intros c s1 [Hc H1]. wp_step.
  eapply wp_mono; [apply IH| |done]. intros cs s2 [[Hl Hcs] H2]. wp_step. cbn.
  split; [split; [by rewrite Hl|by constructor]|by etrans].
Qed.

Lemma shuffle_from_spec i (x : list char) st :
  i < length x -> wp (shuffle_from i x) (fun y s' => y ≡ₚ x /\ same_data st s') (fun _ _ => False) st.
Proof.
  revert x st. induction i as [|k IH]; intros x st Hi; cbn [shuffle_from]; [by wp_step|].
  apply randbelow_spec.
  assert (Hj : rand_below (draws st) (S (S k)) < length x) by (pose proof (rand_below_lt (draws st) (S (S k))); lia).
  destruct (swap_some x (S k) _ Hi Hj) as [x' Hs]. rewrite Hs. pose proof (swap_perm _ _ _ _ Hs) as Hp.
  eapply wp_mono; [apply IH| |done].
  - apply Permutation_length in Hp. lia.
  - intros y s [Hy Hacc]. cbv beta in *. split; [by rewrite Hy|by etrans].
Qed.

Lemma shuffle_spec (x : list char) st :
  x <> [] -> wp (shuffle x) (fun y s' => y ≡ₚ x /\ same_data st s') (fun _ _ => False) st.
Proof. intros Hx. apply shuffle_from_spec. destruct x; [done|]. cbn. lia. Qed.

(** What [generate_temp_password] returns: a reordering of one
    upper-case letter, one lower-case letter, one digit, one symbol and
    [len - 4] characters of [all_chars]. *)
Lemma generate_temp_password_spec len st :
  wp (generate_temp_password len)
     (fun pw s' => (exists u l d s rest, pw ≡ₚ [u; l; d; s] ++ rest /\ u ∈ ascii_uppercase /\
                   l ∈ ascii_lowercase /\ d ∈ digits /\ s ∈ SYMBOLS /\ length rest = len - 4) /\
                   same_data st s')
     (fun _ _ => False) st.
Proof.
  unfold generate_temp_password.
  wp_step. eapply wp_mono; [by apply choice_spec| |done]. intros u s1 [Hu H1].
  wp_step. eapply wp_mono; [by apply choice_spec| |done]. intros l s2 [Hl H2].
  wp_step. eapply wp_mono; [by apply choice_spec| |done]. intros d s3 [Hd H3].
  wp_step. eapply wp_mono; [by apply choice_spec| |done]. intros sy s4 [Hs H4].
  wp_step. eapply wp_mono; [by apply choices_spec| |done]. intros rest s5 [[Hr _] H5].
  eapply wp_mono; [by apply shuffle_spec| |done]. intros pw s6 [Hp H6]. cbv beta in *.
  split; [eauto 12|]. by do 5 (etrans; [eassumption|]).
Qed.
End PasswordFacts.

Lemma forallb_elem (f : char -> bool) (l : list char) x : forallb f l = true -> x ∈ l -> f x = true.
Proof. intros Hall Hx. apply list_elem_of_In in Hx. by eapply forallb_forall in Hall. Qed.

Section PolicyClaim.
Context `{Entropy} `{!EntropyLaws}.

(** C6: every temporary password [generate_temp_password] draws, at its
    default length 12 or any length from 8 on, has that length and meets
    Cognito's policy (an upper-case letter, a lower-case letter, a digit
    and a symbol), whatever the random draws; so [admin_create_user]
    never refuses it. *)
Theorem temp_password_policy len st :
  8 <= len ->
  wp (generate_temp_password len) (fun pw _ => password_policy_ok pw = true /\ length pw = len)
     (fun _ _ => False) st.
Proof.
  intros Hlen. eapply wp_mono; [apply generate_temp_password_spec| |done].
  intros pw _ [(u & l & d & sy & rest & Hp & Hu & Hl & Hd & Hs & Hr) _].
  assert (Hin : forall x, x ∈ [u; l; d; sy] -> x ∈ pw)
    by (intros x Hx; rewrite Hp; apply elem_of_app; by left).
  assert (Hpl : length pw = len) by (rewrite Hp, length_app; cbn; lia).
  split; [|done]. unfold password_policy_ok. rewrite Hpl.
  repeat (apply andb_true_intro; split); [apply Nat.leb_le; lia|..].
  - apply (existsb_elem _ _ u); [apply Hin; rewrite !elem_of_cons; tauto|]. by apply (forallb_elem _ ascii_uppercase).
  - apply (existsb_elem _ _ l); [apply Hin; rewrite !elem_of_cons; tauto|]. by apply (forallb_elem _ ascii_lowercase).
  - apply (existsb_elem _ _ d); [apply Hin; rewrite !elem_of_cons; tauto|]. by apply (forallb_elem _ digits).
  - apply (existsb_elem _ _ sy); [apply Hin; rewrite !elem_of_cons; tauto|].
    by apply (forallb_elem (fun c => existsb (N.eqb c) COGNITO_SYMBOLS) SYMBOLS).
Qed.
End PolicyClaim.

(** ** The Lambda *)

(** [json.dumps(v, ensure_ascii=False, indent=2)]. *)
Class JsonEncoder := { json_dumps : pyval -> text }.

(** S3 writes object keys URL-encoded in its events; [unquote_plus]
    decodes them. *)
Class UrlCodec := { s3_quote : text -> text; unquote_plus : text -> text }.
Class UrlLaws `{UrlCodec} := { unquote_s3_quote k : unquote_plus (s3_quote k) = k }.

Definition col (k : string) : text :=
  match k with
  | "submission_id" => T "Submission ID" | "respondent_id" => T "Respondent ID"
  | "submitted_at" => T "Submitted at" | "last_name" => T "お名前（姓　漢字）"
  | "first_name" => T "お名前（名　漢字）" | "last_name_kana" => T "お名前（姓　カタカナ）"
  | "first_name_kana" => T "お名前（名　カタカナ）" | "birth_date" => T "生年月日"
  | "gender" => T "性別" | _ => T "メールアドレス"
  end%string.

Definition CRED_FIELDS : list text := [T "email"; T "name"; T "temp_password"].

(** The counters and lists the loop fills: [results] and [credentials]. *)
Record bulk_results := mk_bulk_results {
  total : nat; success : nat; failed : nat; skipped : nat;
  users_log : list pyval;
  credentials : list (list (text * pyval))
}.

Record lambda_response := mk_lambda_response { l_status : Z; l_body : pyval }.

Module Lambda.
Section Lambda.
Context `{UnicodeDB} `{PyRepr} `{AwsFaults} `{Clock} `{Entropy} `{JsonEncoder} `{UrlCodec}.

Definition status_dict (st : string) : list (text * pyval) := [(T "status", VStr (T st))].

(** [create_cognito_user]: an existing user name is reported, any other
    [ClientError] re-raised. *)
Definition create_cognito_user (email pw : text) : AwsM pyval :=
  atry (r <~ admin_create_user email pw [(T "email", email); (T "email_verified", T "true")] ;;
        aret (VDict (status_dict "success" ++ [(T "username", VStr r.1); (T "user_status", VStr r.2)])))
       (fun e => match exn_cls e with
                 | ClientError code =>
                     if text_eqb code USERNAME_EXISTS
                     then aret (VDict (status_dict "exists" ++ [(T "message", VStr (T "ユーザーは既に存在します"))]))
                     else araise e
                 | _ => araise e
                 end).

(** [create_dynamodb_user]: the falsy values are dropped before
    [put_item]. *)
Definition create_dynamodb_user (user_data : list (text * pyval)) : AwsM pyval :=
  let clean := List.filter (fun kv => truthy kv.2) user_data in
  atry (put_item clean ;;; aret (VDict (status_dict "success")))
       (fun e => match exn_cls e with
                 | ClientError code =>
                     if text_eqb code CONDITIONAL_CHECK_FAILED
                     then aret (VDict (status_dict "exists" ++ [(T "message", VStr (T "ユーザーは既に存在します"))]))
                     else araise e
                 | _ => araise e
                 end).

Definition s3_folder (path : text) : AwsM pyval :=
  atry (put_object S3_BUCKET path [] None ;;; aret (VDict [(T "path", VStr path); (T "status", VStr (T "created"))]))
       (fun e => aret (VDict [(T "path", VStr path); (T "status", VStr (T "failed")); (T "error", VStr (exn_msg e))])).

Definition readme_content (email : text) (d : datetime) : text :=
  lines [T "# " ++ email ++ T " のデータフォルダ"; []; T "作成日: " ++ fmt_datetime d; [];
         T "## フォルダ構成"; T "- raw-gene/: 遺伝子データをアップロード";
         T "- raw-blood/: 血液検査データをアップロード"].

(** [create_s3_folders]; a failure of the README is only printed. *)
Definition create_s3_folders (email : text) : AwsM pyval :=
  r1 <~ s3_folder (T "raw-gene/" ++ email ++ T "/") ;;
  r2 <~ s3_folder (T "raw-blood/" ++ email ++ T "/") ;;
  d <~ now ;;
  rs <~ atry (bs <~ alift (py_encode (readme_content email d)) ;;
              put_object S3_BUCKET (Profile.README_KEY email) bs (Some (T "text/markdown")) ;;;
              aret [r1; r2; VDict [(T "path", VStr (Profile.README_KEY email)); (T "status", VStr (T "created"))]])
             (fun _ => aret [r1; r2]) ;;
  aret (VDict (status_dict "success" ++ [(T "folders", VList rs)])).

(** [cognito_result["status"] == "exists"] *)
Definition cognito_exists (cr : pyval) : bool :=
  match cr with
  | VDict kvs => match dict_lookup kvs (T "status") with Some (VStr s) => text_eqb s (T "exists") | _ => false end
  | _ => false
  end.

Definition row_get (row : dict_row) (k : string) : pyval := dget (row_named row) (col k) (VStr []).

Definition skip_row (res : bulk_results) (entry : pyval) : bulk_results :=
  mk_bulk_results (total res) (success res) (failed res) (S (skipped res)) (users_log res ++ [entry])
    (credentials res).

(** [except Exception as e]: the failure is recorded in [user_result] as
    the [try] block had left it. *)
Definition failed_result (res : bulk_results) (ur : list (text * pyval)) (e : exn) : bulk_results :=
  mk_bulk_results (total res) (success res) (S (failed res)) (skipped res)
    (users_log res ++ [VDict (dict_set (dict_set ur (T "status") (VStr (T "failed"))) (T "error") (VStr (exn_msg e)))])
    (credentials res).

(** One statement of the [try] block, with the [user_result] its
    exception would be recorded with. *)
Definition catching {A} (res : bulk_results) (ur : list (text * pyval)) (m : AwsM A)
    (k : A -> AwsM bulk_results) : AwsM bulk_results :=
  r <~ atry (x <~ m ;; aret (inl x)) (fun e => aret (inr e)) ;;
  match r with inl x => k x | inr e => aret (failed_result res ur e) end.

Definition dynamo_data (row : dict_row) (email pw created : text) : list (text * pyval) :=
  [(T "id", VStr email); (T "submission_id", row_get row "submission_id");
   (T "respondent_id", row_get row "respondent_id"); (T "submitted_at", row_get row "submitted_at");
   (T "last_name", row_get row "last_name"); (T "first_name", row_get row "first_name");
   (T "last_name_kana", row_get row "last_name_kana"); (T "first_name_kana", row_get row "first_name_kana");
   (T "birth_date", row_get row "birth_date"); (T "gender", row_get row "gender");
   (T "temp_password", VStr pw); (T "created_at", VStr created);
   (T "registration_source", VStr (T "bulk_import"))].

(** [f"{last_name}{first_name}" if first_name else last_name] *)
Definition display_name (row : dict_row) : pyval :=
  let last := row_get row "last_name" in
  let first := row_get row "first_name" in
  if truthy first then VStr (py_str last ++ py_str first) else last.

(** One iteration of [for row in reader]; [res0] is [results] before
    [results["total"] += 1]. *)
Definition process_row (res0 : bulk_results) (row : dict_row) : AwsM bulk_results :=
  let res := mk_bulk_results (S (total res0)) (success res0) (failed res0) (skipped res0)
               (users_log res0) (credentials res0) in
  let n := VInt (Z.of_nat (total res)) in
  email <~ alift (Profile.lower_strip (row_get row "email")) ;;
  if empty email then
    aret (skip_row res (VDict [(T "row", n); (T "status", VStr (T "skipped"));
                               (T "reason", VStr (T "メールアドレスが空"))]))
  else
    pw <~ generate_temp_password 12 ;;
    let ur0 := [(T "row", n); (T "email", VStr email)] in
    catching res ur0 (create_cognito_user email pw) (fun cr =>
      let ur1 := dict_set ur0 (T "cognito") cr in
      if cognito_exists cr then
        aret (skip_row res (VDict (dict_set (dict_set ur1 (T "status") (VStr (T "skipped")))
                                            (T "reason") (VStr (T "Cognitoに既存ユーザー")))))
      else
        d <~ now ;;
        catching res ur1 (create_dynamodb_user (dynamo_data row email pw (isoformat d))) (fun dr =>
          let ur2 := dict_set ur1 (T "dynamodb") dr in
          catching res ur2 (create_s3_folders email) (fun sr =>
            let ur3 := dict_set (dict_set (dict_set ur2 (T "s3") sr) (T "status") (VStr (T "success")))
                                (T "temp_password") (VStr pw) in
            aret (mk_bulk_results (total res) (S (success res)) (failed res) (skipped res)
                    (users_log res ++ [VDict ur3])
                    (credentials res ++ [[(T "email", VStr email); (T "name", display_name row);
                                          (T "temp_password", VStr pw)]]))))).

Fixpoint bulk_loop (res : bulk_results) (rows : list dict_row) : AwsM bulk_results :=
  match rows with
  | [] => aret res
  | row :: rows' => res' <~ process_row res row ;; bulk_loop res' rows'
  end.

Definition empty_results : bulk_results := mk_bulk_results 0 0 0 0 [] [].

Definition results_value (timestamp key : text) (res : bulk_results) : pyval :=
  VDict [(T "timestamp", VStr timestamp); (T "csv_file", VStr key);
         (T "total", VInt (Z.of_nat (total res))); (T "success", VInt (Z.of_nat (success res)));
         (T "failed", VInt (Z.of_nat (failed res))); (T "skipped", VInt (Z.of_nat (skipped res)));
         (T "users", VList (users_log res))].

Definition RESULTS_PREFIX : text := T "bulk-import/results/".
Definition report_key (ts : text) : text := RESULTS_PREFIX ++ T "report_" ++ ts ++ T ".json".
Definition creds_key (ts : text) : text := RESULTS_PREFIX ++ T "credentials_" ++ ts ++ T ".csv".

(** [save_results_to_s3]: the JSON report, then the credentials CSV when
    there are credentials. *)
Definition save_results_to_s3 (results : pyval) (creds : list (list (text * pyval))) : AwsM unit :=
  d <~ now ;;
  let ts := fmt_stamp d in
  bs <~ alift (py_encode (json_dumps results)) ;;
  put_object S3_BUCKET (report_key ts) bs (Some (T "application/json")) ;;;
  if empty creds then aret tt
  else
    content <~ alift (dict_write CRED_FIELDS creds) ;;
    bs2 <~ alift (py_encode content) ;;
    put_object S3_BUCKET (creds_key ts) bs2 (Some (T "text/csv")).

(** [x[0]] *)
Definition py_index0 (v : pyval) : Py pyval :=
  match v with
  | VList (x :: _) => PyOk x
  | VStr (c :: _) => PyOk (VStr [c])
  | VList [] | VStr [] => PyRaise (mk_exn IndexError (T "list index out of range"))
  | VDict _ => PyRaise (mk_exn KeyError (T "0"))
  | _ => PyRaise (mk_exn TypeError (T "object is not subscriptable"))
  end.

(** The bucket and the decoded key of [event["Records"][0]]. *)
Definition parse_event (event : list (text * pyval)) : Py (pyval * text) :=
  records <- py_getitem (VDict event) (T "Records") ;;
  record <- py_index0 records ;;
  s3v <- py_getitem record (T "s3") ;;
  b <- py_getitem s3v (T "bucket") ;;
  bucket <- py_getitem b (T "name") ;;
  o <- py_getitem s3v (T "object") ;;
  k <- py_getitem o (T "key") ;;
  match k with
  | VStr s => PyOk (bucket, unquote_plus s)
  | _ => PyRaise (attr_error "object has no attribute 'replace'")
  end.

(** [s3_client.get_object(...)["Body"].read().decode("utf-8-sig")], with
    its [except Exception]. *)
Definition read_csv (bucket : pyval) (key : text) : AwsM (text + exn) :=
  atry (bs <~ (match bucket with
               | VStr b => get_object b key
               | _ => araise (mk_exn TypeError (T "Invalid type for parameter Bucket"))
               end) ;;
        content <~ alift (py_decode_sig bs) ;;
        aret (inl content))
       (fun e => aret (inr e)).

Definition summary (res : bulk_results) : pyval :=
  VDict [(T "message", VStr (T "Bulk registration completed")); (T "total", VInt (Z.of_nat (total res)));
         (T "success", VInt (Z.of_nat (success res))); (T "skipped", VInt (Z.of_nat (skipped res)));
         (T "failed", VInt (Z.of_nat (failed res)))].

Definition lambda_handler (event : list (text * pyval)) : AwsM lambda_response :=
  match parse_event event with
  | PyRaise e =>
      match exn_cls e with
      | KeyError | IndexError => aret (mk_lambda_response 400 (VStr (T "Invalid event format")))
      | _ => araise e
      end
  | PyOk (bucket, key) =>
      r <~ read_csv bucket key ;;
      match r with
      | inr e => aret (mk_lambda_response 500 (VStr (T "Failed to read CSV: " ++ exn_msg e)))
      | inl content =>
          d <~ now ;;
          let '(rows, err) := dict_reader content in
          res <~ bulk_loop empty_results rows ;;
          match err with
          | Some e => araise e
          | None =>
              save_results_to_s3 (results_value (isoformat d) key res) (credentials res) ;;;
              aret (mk_lambda_response 200 (summary res))
          end
      end
  end.
End Lambda.
End Lambda.

(** ** The counters of the loop *)

(** Every row counted once: [total] is the sum of the three outcomes,
    with one [users] entry per row and one credential per success. *)
Definition counts_ok (res : bulk_results) : Prop :=
  total res = success res + failed res + skipped res /\
  length (credentials res) = success res /\ length (users_log res) = total res.

Ltac counts_simpl :=
  unfold counts_ok; cbn [total success failed skipped users_log credentials Lambda.skip_row
                         Lambda.failed_result]; rewrite ?length_app; cbn [length]; lia.

Section LoopFacts.
Context `{UnicodeDB} `{PyRepr} `{AwsFaults} `{Clock} `{Entropy} `{!EntropyLaws} `{JsonEncoder} `{UrlCodec}.

Lemma catching_spec {A} res ur (m : AwsM A) k Q R st :
  (forall e s, Q (Lambda.failed_result res ur e) s) -> (forall x s, wp (k x) Q R s) ->
  wp (Lambda.catching res ur m k) Q R st.
Proof.
  intros Hf Hk. unfold Lambda.catching. apply wp_bind, wp_try, wp_bind.
  apply wp_any; intros; wp_steps; [apply Hk|apply Hf].
Qed.

(** Cognito answers [UsernameExistsException] for an address it holds;
    a fault of the call is either reported the same way or raised. *)
Lemma create_cognito_user_registered email pw st :
  is_Some (pool st !! email) ->
  wp (Lambda.create_cognito_user email pw)
     (fun cr st' => Lambda.cognito_exists cr = true /\ st' = count_call st) (fun _ st' => st' = count_call st) st.
Proof.
  intros [u Hu]. unfold Lambda.create_cognito_user. wp_steps. apply wp_call.
  - intros e _. destruct (exn_cls e); wp_steps; try done. case_match; wp_steps; done.
  - intros _. unfold wp at 1. cbn [pool count_call]. rewrite Hu. by wp_steps.
Qed.

Lemma process_row_counts res row st :
  counts_ok res ->
  wp (Lambda.process_row res row)
     (fun res' _ => counts_ok res' /\ total res' = S (total res))
     (fun e _ => Profile.lower_strip (Lambda.row_get row "email") = PyRaise e) st.
Proof.
  intros (Ht & Hc & Hu). unfold Lambda.process_row. wp_steps.
  destruct (Profile.lower_strip _) as [email|e]; [|done].
  destruct (empty email).
  { wp_step. counts_simpl. }
  wp_step. eapply wp_mono; [apply generate_temp_password_spec| |done]. intros pw s1 _.
  apply catching_spec; [intros; counts_simpl|]. intros cr s2.
  destruct (Lambda.cognito_exists cr).
  { wp_step. counts_simpl. }
  apply now_spec. apply catching_spec; [intros; counts_simpl|].
  intros dr s3. apply catching_spec; [intros; counts_simpl|].
  intros sr s4. wp_step. counts_simpl.
Qed.
End LoopFacts.

Section LoopClaim.
Context `{UnicodeDB} `{PyRepr} `{AwsFaults} `{Clock} `{Entropy} `{!EntropyLaws} `{JsonEncoder} `{UrlCodec}.

Lemma bulk_loop_spec res rows st :
  counts_ok res ->
  wp (Lambda.bulk_loop res rows)
     (fun res' _ => total res' = total res + length rows /\ counts_ok res')
     (fun e _ => exists row, row ∈ rows /\ Profile.lower_strip (Lambda.row_get row "email") = PyRaise e) st.
Proof.
  revert res st. induction rows as [|row rows IH]; intros res st Hok; cbn [Lambda.bulk_loop].
  - wp_step. split; [cbn; lia|done].
  - wp_step. eapply wp_mono; [by apply process_row_counts| |].
    + intros res1 s1 [Hok1 Ht1]. eapply wp_mono; [by apply IH| |].
      * intros res2 s2 [Ht2 Hok2]. split; [cbn [length] in *; lia|done].
      * intros e s2 (r & Hr & He). exists r. split; [by right|done].
    + intros e s1 He. exists row. split; [by left|done].
Qed.

(** C13: the loop counts every row of the file exactly once: when it
    ends, [total] is the number of rows and the sum of [success],
    [failed] and [skipped], with one [users] entry per row and one
    credential per success.  It stops early only by raising, and only
    on a row whose e-mail cell is missing ([None]: the row is shorter
    than the header), whose [.lower()] raises [AttributeError] outside
    the [try]. *)
Theorem bulk_loop_counts rows st :
  wp (Lambda.bulk_loop Lambda.empty_results rows)
     (fun res _ => total res = length rows /\ counts_ok res)
     (fun e _ => exists row, row ∈ rows /\ Profile.lower_strip (Lambda.row_get row "email") = PyRaise e) st.
Proof.
  eapply wp_mono; [apply bulk_loop_spec; unfold counts_ok; cbn; lia| |done].
  intros res _ [Ht Hok]. split; [cbn in Ht; lia|done].
Qed.

(** C5: a row whose address already has a Cognito account never reaches
    DynamoDB and issues no credential: whatever the faults, the table
    and the pool are left as they were and the row is skipped or
    failed.  So a user whose account was created by an earlier run that
    then failed at [create_dynamodb_user] (lines 266-290) stays without
    a profile on every later upload of the same file. *)
Theorem registered_row_skipped res row email st :
  Profile.lower_strip (Lambda.row_get row "email") = PyOk email ->
  is_Some (pool st !! email) ->
  wp (Lambda.process_row res row)
     (fun res' st' => same_data st st' /\ success res' = success res /\ credentials res' = credentials res)
     (fun _ _ => False) st.
Proof.
  intros He Hp. unfold Lambda.process_row. wp_steps. rewrite He.
  destruct (empty email); [by wp_step|].
  wp_step. eapply wp_mono; [apply generate_temp_password_spec| |done]. intros pw s1 [_ Hs1].
  assert (Hc1 : same_data st (count_call s1)) by (etrans; [exact Hs1|]; by split_and!).
  unfold Lambda.catching. wp_steps.
  eapply wp_mono; [apply create_cognito_user_registered; by destruct Hs1 as (_ & -> & _)| |].
  - intros cr s2 [Hc ->]. wp_step. cbn beta iota. rewrite Hc. by wp_step.
  - intros e s2 ->. by wp_steps.
Qed.
End LoopClaim.

(** ** The S3 notification that runs the Lambda

    The module docstring configures the trigger: objects created in the
    bucket under [bulk-import/] with the suffix [.csv].  S3 delivers one
    event per created object; [drain] runs the Lambda on the queued
    objects one after the other and queues the objects each run creates
    that fire the trigger again. *)

Definition triggers (bk : text * text) : bool :=
  text_eqb bk.1 S3_BUCKET && py_startswith bk.2 (T "bulk-import/") && py_endswith bk.2 (T ".csv").

Section Notifications.
Context `{UnicodeDB} `{PyRepr} `{AwsFaults} `{Clock} `{Entropy} `{JsonEncoder} `{UrlCodec}.

Definition s3_event (bk : text * text) : list (text * pyval) :=
  [(T "Records", VList [VDict [(T "s3", VDict [(T "bucket", VDict [(T "name", VStr bk.1)]);
                                              (T "object", VDict [(T "key", VStr (s3_quote bk.2))])])]])].

(** The objects a run created, in order. *)
Definition created (st st' : aws) : list (text * text) := drop (length (s3_log st)) (s3_log st').

Definition invoke (st : aws) (bk : text * text) : aws * list (text * text) :=
  let st' := snd (Lambda.lambda_handler (s3_event bk) st) in
  (st', List.filter triggers (created st st')).

Fixpoint drain (fuel : nat) (st : aws) (q : list (text * text)) : aws * list (text * text) :=
  match fuel, q with
  | O, _ => (st, q)
  | _, [] => (st, [])
  | S f, bk :: q' => let '(st', fresh) := invoke st bk in drain f st' (q' ++ fresh)
  end.
End Notifications.

(** ** The objects a run creates

    [quiet st st']: no object created between [st] and [st'] fires the
    trigger.  The per-user folders and README lie under [raw-gene/] and
    [raw-blood/], the report ends in [.json]; only the credentials CSV
    under [bulk-import/results/] fires it. *)

Definition quiet : aws -> aws -> Prop := creates_only (fun bk => negb (triggers bk)).

#[export] Instance quiet_preorder : PreOrder quiet := _.

Create HintDb bulk_frames discriminated.

Lemma raw_keys_quiet x : triggers (S3_BUCKET, T "raw-gene/" ++ x) = false /\ triggers (S3_BUCKET, T "raw-blood/" ++ x) = false.
Proof. split; vm_compute; reflexivity. Qed.

Lemma report_key_quiet ts : triggers (S3_BUCKET, Lambda.report_key ts) = false.
Proof.
  unfold triggers, py_endswith, Lambda.report_key. cbn [fst snd].
  rewrite !rev_app_distr. vm_compute. reflexivity.
Qed.

Lemma creds_key_triggers ts : triggers (S3_BUCKET, Lambda.creds_key ts) = true.
Proof.
  unfold triggers, py_endswith, Lambda.creds_key. cbn [fst snd].
  rewrite !rev_app_distr. vm_compute. reflexivity.
Qed.

Section Frames.
Context `{UnicodeDB} `{PyRepr} `{AwsFaults} `{Clock} `{Entropy} `{!EntropyLaws} `{JsonEncoder} `{UrlCodec}.

Lemma keeps_now_quiet : keeps quiet now.
Proof. apply keeps_now. Qed.

Lemma keeps_generate_temp_password len : keeps quiet (generate_temp_password len).
Proof.
  intros st. eapply wp_mono; [apply generate_temp_password_spec|..]; [|done].
  intros pw s [_ Hs]. by apply same_data_creates_only.
Qed.

Lemma keeps_create_cognito_user email pw : keeps quiet (Lambda.create_cognito_user email pw).
Proof. unfold Lambda.create_cognito_user. keeps_steps; apply keeps_admin_create_user. Qed.

Lemma keeps_create_dynamodb_user data : keeps quiet (Lambda.create_dynamodb_user data).
Proof. unfold Lambda.create_dynamodb_user. keeps_steps; apply keeps_put_item. Qed.

Lemma keeps_create_s3_folders email : keeps quiet (Lambda.create_s3_folders email).
Proof.
  unfold Lambda.create_s3_folders, Lambda.s3_folder, Profile.README_KEY. keeps_steps;
    try apply keeps_now; apply keeps_put_object; cbn beta; rewrite ?(proj1 (raw_keys_quiet _)), ?(proj2 (raw_keys_quiet _)); done.
Qed.

#[local] Hint Resolve keeps_now_quiet keeps_generate_temp_password keeps_create_cognito_user
  keeps_create_dynamodb_user keeps_create_s3_folders : bulk_frames.

Lemma keeps_process_row res row : keeps quiet (Lambda.process_row res row).
Proof.
  unfold Lambda.process_row, Lambda.catching. cbv zeta. keeps_steps;
    auto with bulk_frames.
Qed.

Lemma keeps_bulk_loop res rows : keeps quiet (Lambda.bulk_loop res rows).
Proof.
  revert res. induction rows as [|row rows IH]; intros res; cbn [Lambda.bulk_loop];
    keeps_steps; auto using keeps_process_row.
Qed.
End Frames.


(** What one run leaves behind: no object that fires the trigger, or as
    its last object the credentials CSV of its successes, which does. *)
Definition at_most_creds `{PyRepr} (st st' : aws) : Prop :=
  quiet st st' \/
  exists s1 ts creds content bs, quiet st s1 /\ creds <> [] /\
    dict_write CRED_FIELDS creds = PyOk content /\ py_encode content = PyOk bs /\
    st' = store_object (S3_BUCKET, Lambda.creds_key ts) (mk_s3_object bs (Some (T "text/csv"))) (count_call s1).

Lemma at_most_creds_trans `{PyRepr} st s1 s2 : quiet st s1 -> at_most_creds s1 s2 -> at_most_creds st s2.
Proof.
  intros H1 [H2|(s' & ts & creds & c & bs & H2 & Hrest)]; [left; by etrans|].
  right. exists s', ts, creds, c, bs. split; [by etrans|done].
Qed.

Section HandlerFrames.
Context `{UnicodeDB} `{PyRepr} `{AwsFaults} `{Clock} `{Entropy} `{!EntropyLaws} `{JsonEncoder} `{UrlCodec}.

Lemma keeps_read_csv bucket key : keeps quiet (Lambda.read_csv bucket key).
Proof. unfold Lambda.read_csv. keeps_steps. apply keeps_get_object. Qed.

Lemma save_results_spec v creds st :
  wp (Lambda.save_results_to_s3 v creds) (fun _ s => (creds = [] -> quiet st s) /\ at_most_creds st s)
     (fun _ s => quiet st s) st.
Proof.
  unfold Lambda.save_results_to_s3.
  apply (wp_keeps_bind quiet st); [done|apply keeps_now_quiet| |done]. intros d s1 Hq1.
  wp_step. apply wp_lift. destruct (py_encode _) as [bs|e]; [|done].
  apply (wp_keeps_bind quiet st); [done|apply keeps_put_object; by rewrite report_key_quiet| |done].
  intros _ s2 Hq2. destruct (empty creds) eqn:Ec; [wp_step; split; [done|by left]|].
  wp_step. apply wp_lift. destruct (dict_write CRED_FIELDS creds) as [content|e] eqn:Ew; [|done].
  wp_step. apply wp_lift. destruct (py_encode content) as [bs2|e] eqn:Eb; [|done].
  eapply wp_mono; [apply put_object_spec|..]; cbv beta.
  - intros _ s [_ ->]. split; [by intros ->|].
    right. exists s2, (fmt_stamp d), creds, content, bs2. split_and!; try done. by intros ->.
  - intros e s [_ ->]. etrans; [exact Hq2|]. apply creates_only_counters.
Qed.

Lemma handler_frame event st :
  wp (Lambda.lambda_handler event) (fun _ s => at_most_creds st s) (fun _ s => quiet st s) st.
Proof.
  unfold Lambda.lambda_handler. destruct (Lambda.parse_event event) as [[bucket key]|e].
  - apply (wp_keeps_bind quiet st); [done|apply keeps_read_csv| |done]. intros r s1 Hq1.
    destruct r as [content|e]; [|wp_step; by left].
    apply (wp_keeps_bind quiet st); [done|apply keeps_now_quiet| |done]. intros d s2 Hq2.
    destruct (dict_reader content) as [rows err].
    apply (wp_keeps_bind quiet st); [done|apply keeps_bulk_loop| |done]. intros res s3 Hq3.
    destruct err as [e|]; [by wp_step|]. wp_step.
    eapply wp_mono; [apply save_results_spec|..]; cbv beta.
    + intros _ s [_ Hs]. wp_step. by eapply at_most_creds_trans.
    + intros e s Hs. by etrans.
  - destruct (exn_cls e); wp_step; try (left; done); done.
Qed.

(** C12: one run of the Lambda, on any event and under any faults, creates
    at most one object that fires its own trigger: the credentials CSV
    [bulk-import/results/credentials_<stamp>.csv], written last and only
    when some user was registered.  That object lies under the prefix
    and has the suffix of the trigger the module docstring configures,
    so every run that registers someone starts one more run. *)
Theorem handler_at_most_creds event st :
  wp (Lambda.lambda_handler event) (fun _ s => at_most_creds st s) (fun _ s => quiet st s) st.
Proof. apply handler_frame. Qed.
End HandlerFrames.


(** ** The run on the credentials CSV *)
Section SecondRun.
Context `{UnicodeDB} `{!UnicodeLaws} `{PyRepr} `{AwsFaults} `{Clock} `{Entropy} `{!EntropyLaws}
        `{JsonEncoder} `{UrlCodec} `{!UrlLaws}.

Lemma parse_s3_event b k : Lambda.parse_event (s3_event (b, k)) = PyOk (VStr b, k).
Proof.
  transitivity (PyOk (VStr b, unquote_plus (s3_quote k)) : Py (pyval * text)); [vm_compute; reflexivity|].
  by rewrite unquote_s3_quote.
Qed.

Lemma lower_strip_nil : Profile.lower_strip (VStr []) = PyOk [].
Proof. cbn [Profile.lower_strip]. by rewrite (law_lower_ascii []). Qed.

(** The rows read under the credentials header have no e-mail column. *)
Lemma creds_rows_no_email body :
  Forall (fun row => Lambda.row_get row "email" = VStr []) (map (make_row CRED_FIELDS) body).
Proof.
  apply Forall_map, Forall_forall. intros r _. unfold Lambda.row_get, dget.
  rewrite make_row_absent; [done|]. apply (bool_decide_unpack _). vm_compute. reflexivity.
Qed.

Lemma bulk_loop_no_email res rows st :
  Forall (fun row => Lambda.row_get row "email" = VStr []) rows ->
  wp (Lambda.bulk_loop res rows) (fun res' s => credentials res' = credentials res /\ s = st) (fun _ _ => False) st.
Proof.
  revert res. induction rows as [|row rows IH]; intros res Hrows; cbn [Lambda.bulk_loop]; [by wp_step|].
  apply Forall_cons in Hrows as [Hrow Hrows]. wp_step. unfold Lambda.process_row. cbv zeta. wp_steps.
  rewrite Hrow, lower_strip_nil. cbn [empty]. wp_step.
  eapply wp_mono; [by apply IH| |done]. intros res' s [Hc ->]. by rewrite Hc.
Qed.

Lemma creds_content_head rows : exists s, write_rows (CRED_FIELDS :: rows) = 101%N :: s.
Proof. eexists. reflexivity. Qed.

Lemma creds_run_frame ts creds content bs ct st :
  dict_write CRED_FIELDS creds = PyOk content -> py_encode content = PyOk bs ->
  s3 st !! (S3_BUCKET, Lambda.creds_key ts) = Some (mk_s3_object bs ct) ->
  wp (Lambda.lambda_handler (s3_event (S3_BUCKET, Lambda.creds_key ts)))
     (fun _ s => quiet st s) (fun _ s => quiet st s) st.
Proof.
  intros Hw He Hs. destruct (dict_write_shape _ _ _ Hw) as (rows & Hc & Hl).
  unfold Lambda.lambda_handler. rewrite parse_s3_event. cbn iota beta.
  unfold Lambda.read_csv, get_object. wp_steps. apply wp_call.
  { intros e _. wp_steps. apply creates_only_counters. }
  intros _. unfold wp at 1. cbn [s3 count_call]. rewrite Hs. cbn [obj_body].
  assert (Hd : py_decode_sig bs = PyOk content).
  { destruct (creds_content_head rows) as [s0 Hs0]. rewrite Hc, Hs0 in *.
    unfold py_encode in He. destruct (utf8_encode _) eqn:Eu; [|done]. injection He as <-.
    apply py_decode_sig_encode; [lia|done]. }
  assert (Hq : quiet st (count_tick (count_call st))) 
    by (etrans; [apply (creates_only_counters _ st)|apply (creates_only_counters _ (count_call st))]).
  wp_steps. rewrite Hd. wp_steps. cbn iota.
  destruct (dict_reader_header CRED_FIELDS rows) as (body & err & Hr);
    [done|by apply (bool_decide_unpack _); vm_compute|].
  rewrite Hc, Hr. unfold wp at 1, now. cbn beta iota. wp_step.
  eapply wp_mono; [apply bulk_loop_no_email, creds_rows_no_email| |done].
  intros res s [Hcr ->]. destruct err as [e|]; [by wp_step|]. wp_step.
  eapply wp_mono; [apply save_results_spec|..]; cbv beta.
  - intros _ s [Hq' _]. wp_step. etrans; [exact Hq|]. by apply Hq'.
  - intros e s Hq'. by etrans.
Qed.


(** C21: a run on a credentials CSV that a run wrote, under any faults,
    creates no object that fires the trigger.  The CSV's header
    ([email], [name], [temp_password]) has no [メールアドレス] column, so
    every row is skipped as having an empty address, no credential is
    issued, and only the JSON report is written. *)
Theorem creds_run_quiet ts creds content bs ct st :
  dict_write CRED_FIELDS creds = PyOk content -> py_encode content = PyOk bs ->
  s3 st !! (S3_BUCKET, Lambda.creds_key ts) = Some (mk_s3_object bs ct) ->
  wp (Lambda.lambda_handler (s3_event (S3_BUCKET, Lambda.creds_key ts)))
     (fun _ s => quiet st s) (fun _ s => quiet st s) st.
Proof. apply creds_run_frame. Qed.
End SecondRun.


(** ** The chain of runs stops *)

Lemma created_quiet st st' : quiet st st' -> List.filter triggers (created st st') = [].
Proof.
  intros (new & E & Hok). unfold created. rewrite E, drop_app_length. clear E.
  induction new as [|bk new IH]; [done|]. cbn [forallb] in Hok. cbn [List.filter].
  apply andb_prop in Hok as [Hb Hok]. destruct (triggers bk); [discriminate|by apply IH].
Qed.

Lemma created_creds st s1 ts o :
  quiet st s1 ->
  List.filter triggers (created st (store_object (S3_BUCKET, Lambda.creds_key ts) o (count_call s1)))
  = [(S3_BUCKET, Lambda.creds_key ts)].
Proof.
  intros Hq. pose proof (created_quiet _ _ Hq) as Hf. destruct Hq as (new & E & _).
  unfold created in *. rewrite E, drop_app_length in Hf. cbn [store_object s3_log count_call].
  rewrite E, <- app_assoc, drop_app_length, List.filter_app, Hf. cbn [app List.filter].
  by rewrite creds_key_triggers.
Qed.

Section Chain.
Context `{UnicodeDB} `{!UnicodeLaws} `{PyRepr} `{AwsFaults} `{Clock} `{Entropy} `{!EntropyLaws}
        `{JsonEncoder} `{UrlCodec} `{!UrlLaws}.

(** The objects of a run that fire the trigger: none, or the credentials
    CSV it wrote. *)
Lemma invoke_fresh st bk :
  snd (invoke st bk) = [] \/
  exists ts creds content bs, dict_write CRED_FIELDS creds = PyOk content /\ py_encode content = PyOk bs /\
    s3 (fst (invoke st bk)) !! (S3_BUCKET, Lambda.creds_key ts) = Some (mk_s3_object bs (Some (T "text/csv"))) /\
    snd (invoke st bk) = [(S3_BUCKET, Lambda.creds_key ts)].
Proof.
  assert (Hs : at_most_creds st (snd (Lambda.lambda_handler (s3_event bk) st))).
  { apply wp_snd. eapply wp_mono; [apply handler_frame|done|]. intros e s Hq. by left. }
  unfold invoke. cbn [fst snd]. revert Hs. generalize (snd (Lambda.lambda_handler (s3_event bk) st)).
  intros st1 [Hq|(s1 & ts & creds & content & bs & Hq & _ & Hw & He & ->)].
  - left. by apply created_quiet.
  - right. exists ts, creds, content, bs. split_and!; [exact Hw|exact He| |by apply created_creds].
    cbn [store_object s3]. by rewrite lookup_insert_eq.
Qed.

(** C4: the runs the Lambda starts on its own output stop: from one
    upload and any state, under any faults, the queue of S3 events is
    empty after at most two runs (the upload's, and the run on the
    credentials CSV it may write). *)
Theorem upload_chain_stops st bk : snd (drain 2 st [bk]) = [].
Proof.
  cbn [drain]. destruct (invoke_fresh st bk) as [E|(ts & creds & content & bs & Hw & He & Hs & E)];
    destruct (invoke st bk) as [st1 fresh1]; cbn [fst snd] in *; subst fresh1; [done|].
  cbn [drain app]. destruct (invoke st1 _) as [st2 fresh2] eqn:E2. cbn [snd app].
  pose proof (creds_run_frame _ _ _ _ _ st1 Hw He Hs) as Hq. apply wp_snd, created_quiet in Hq.
  unfold invoke in E2. by injection E2 as <- <-.
Qed.
End Chain.

(** ** Instances for evaluating examples *)

Definition bulk_entropy : Entropy := {| rand_below n k := n mod k |}.
Definition bulk_clock : Clock := {| clock_at n := mk_datetime 2025 4 1 9 0 (Z.of_nat n) 0 |}.
Definition bulk_json : JsonEncoder := {| json_dumps _ := T "{}" |}.
Definition bulk_url : UrlCodec := {| s3_quote k := k; unquote_plus k := k |}.
Definition no_faults : AwsFaults := {| aws_fault _ := None |}.
(** DynamoDB rejects the third call of a run: the [put_item] of the first
    row, after [get_object] and [admin_create_user]. *)
Definition dynamo_outage : AwsFaults :=
  {| aws_fault n := if n =? 2 then Some (client_error "ProvisionedThroughputExceededException"
                                                      "Rate of requests exceeds the allowed throughput.")
                    else None |}.

Section Scenario.
#[local] Existing Instances bulk_entropy bulk_clock bulk_json bulk_url example_repr.

Definition upload_key : text * text := (S3_BUCKET, T "bulk-import/users.csv").

Definition demo_csv : text :=
  T "メールアドレス,お名前（姓　漢字）,お名前（名　漢字）" ++ CRLF ++ T "Taro@Example.com,山田,太郎" ++ CRLF.

Definition upload_state : aws :=
  mk_aws {[upload_key := mk_s3_object (default [] (utf8_encode demo_csv)) (Some (T "text/csv"))]}
         ∅ ∅ 0 0 0 [].

(** A run of the Lambda on the upload under the faults [f], from [st]. *)
Definition run_upload (f : AwsFaults) (st : aws) : Py lambda_response * aws :=
  @Lambda.lambda_handler _ _ f _ _ _ _ (s3_event upload_key) st.
End Scenario.

Lemma bulk_entropy_laws : @EntropyLaws bulk_entropy.
Proof. split. intros n k Hk. cbn. apply Nat.mod_upper_bound. lia. Qed.

Lemma bulk_url_laws : @UrlLaws bulk_url.
Proof. by split. Qed.

Section Examples.
#[local] Existing Instances bulk_entropy bulk_entropy_laws bulk_clock bulk_json bulk_url example_repr.

Definition taro : text := T "taro@example.com".

(** The half registration on a concrete upload.  The first run meets
    a DynamoDB fault at the row's [put_item]: the row fails, but Cognito
    keeps the account.  The second run, with every service healthy,
    skips the row as an existing Cognito user, and the table still has
    no profile for it. *)
Example dynamo_outage_leaves_user_without_profile :
  let '(r1, st1) := run_upload dynamo_outage upload_state in
  let '(r2, st2) := run_upload no_faults st1 in
  r1 = PyOk (mk_lambda_response 200 (Lambda.summary (mk_bulk_results 1 0 1 0 [] []))) /\
  is_Some (pool st1 !! taro) /\ users st1 !! taro = None /\
  r2 = PyOk (mk_lambda_response 200 (Lambda.summary (mk_bulk_results 1 0 0 1 [] []))) /\
  users st2 !! taro = None.
Proof. vm_compute. split_and!; try reflexivity. eexists. reflexivity. Qed.

(** The Lambda starts itself: the run on the upload registers the
    user and writes its credentials CSV under [bulk-import/results/],
    which fires the trigger of [bulk-import/*.csv] once more. *)
Example bulk_run_triggers_itself :
  snd (@invoke _ _ no_faults _ _ _ _ upload_state upload_key) =
  [(S3_BUCKET, Lambda.creds_key (T "20250401_090003"))].
Proof. vm_compute. reflexivity. Qed.
End Examples.

Section Witnesses.
#[local] Existing Instances bulk_entropy bulk_entropy_laws bulk_clock bulk_json bulk_url example_repr no_faults.

Definition demo_rows : list dict_row := fst (dict_reader demo_csv).
Definition demo_row : dict_row := default (mk_dict_row [] None) (head demo_rows).
Definition half_registered : aws := snd (run_upload dynamo_outage upload_state).

Lemma temp_password_policy_witness :
  8 <= 12 /\
  wp (generate_temp_password 12) (fun pw _ => password_policy_ok pw = true /\ length pw = 12)
     (fun _ _ => False) upload_state.
Proof. split; [lia|]. apply temp_password_policy. lia. Defined.

Lemma bulk_loop_counts_witness :
  wp (Lambda.bulk_loop Lambda.empty_results demo_rows)
     (fun res _ => total res = length demo_rows /\ counts_ok res)
     (fun e _ => exists row, row ∈ demo_rows /\ Profile.lower_strip (Lambda.row_get row "email") = PyRaise e)
     upload_state.
Proof. apply bulk_loop_counts. Defined.

Lemma registered_row_skipped_witness :
  Profile.lower_strip (Lambda.row_get demo_row "email") = PyOk taro /\ is_Some (pool half_registered !! taro) /\
  wp (Lambda.process_row Lambda.empty_results demo_row)
     (fun res' st' => same_data half_registered st' /\ success res' = 0 /\ credentials res' = [])
     (fun _ _ => False) half_registered.
Proof.
  assert (He : Profile.lower_strip (Lambda.row_get demo_row "email") = PyOk taro) by (vm_compute; reflexivity).
  assert (Hp : is_Some (pool half_registered !! taro)) by (vm_compute; eexists; reflexivity).
  split; [exact He|split; [exact Hp|]].
  exact (registered_row_skipped Lambda.empty_results demo_row taro half_registered He Hp).
Defined.

#[local] Existing Instance bulk_url_laws.

Definition demo_creds : list (list (text * pyval)) :=
  [[(T "email", VStr taro); (T "name", VStr (T "山田太郎")); (T "temp_password", VStr (T "Ab1!cdefgh2K"))]].
Definition demo_creds_csv : text :=
  match dict_write CRED_FIELDS demo_creds with PyOk c => c | PyRaise _ => [] end.
Definition demo_creds_bytes : list N := default [] (utf8_encode demo_creds_csv).
Definition demo_ts : text := T "20250401_090003".
Definition creds_written : aws :=
  store_object (S3_BUCKET, Lambda.creds_key demo_ts) (mk_s3_object demo_creds_bytes (Some (T "text/csv"))) upload_state.

Lemma handler_at_most_creds_witness :
  wp (Lambda.lambda_handler (s3_event upload_key)) (fun _ s => at_most_creds upload_state s)
     (fun _ s => quiet upload_state s) upload_state.
Proof. apply handler_at_most_creds. Defined.

Lemma creds_run_quiet_witness :
  dict_write CRED_FIELDS demo_creds = PyOk demo_creds_csv /\ py_encode demo_creds_csv = PyOk demo_creds_bytes /\
  s3 creds_written !! (S3_BUCKET, Lambda.creds_key demo_ts) = Some (mk_s3_object demo_creds_bytes (Some (T "text/csv"))) /\
  wp (Lambda.lambda_handler (s3_event (S3_BUCKET, Lambda.creds_key demo_ts)))
     (fun _ s => quiet creds_written s) (fun _ s => quiet creds_written s) creds_written.
Proof.
  assert (Hw : dict_write CRED_FIELDS demo_creds = PyOk demo_creds_csv) by (vm_compute; reflexivity).
  assert (He : py_encode demo_creds_csv = PyOk demo_creds_bytes) by (vm_compute; reflexivity).
  assert (Hs : s3 creds_written !! (S3_BUCKET, Lambda.creds_key demo_ts) =
               Some (mk_s3_object demo_creds_bytes (Some (T "text/csv")))) by (vm_compute; reflexivity).
  split_and!; [exact Hw|exact He|exact Hs|]. exact (creds_run_quiet _ _ _ _ _ _ Hw He Hs).
Defined.

(** An upload whose third line holds a lone carriage return in an
    unquoted field: the first row is registered, then [csv.Error]. *)
Definition cr_csv : text :=
  T "メールアドレス,お名前（姓　漢字）" ++ CRLF ++ T "Taro@Example.com,山田" ++ CRLF ++ T "a" ++ [13%N] ++ T "b" ++ CRLF.
Definition cr_bytes : list N := default [] (utf8_encode cr_csv).
Definition cr_state : aws := mk_aws {[upload_key := mk_s3_object cr_bytes (Some (T "text/csv"))]} ∅ ∅ 0 0 0 [].

(** On that upload the run raises [csv.Error] after creating the
    Cognito account of the first row, and no credentials CSV exists. *)
Example cr_upload_loses_password :
  let '(r, st') := run_upload no_faults cr_state in
  r = PyRaise csv_error /\ is_Some (pool st' !! taro)
  /\ filter (fun kv => kv.1.2 = Lambda.creds_key (T "20250401_090003")) (s3 st') = ∅.
Proof. vm_compute. split_and!; try reflexivity. eexists. reflexivity. Qed.


Lemma upload_chain_stops_witness :
  snd (drain 1 upload_state [upload_key]) <> [] /\ snd (drain 2 upload_state [upload_key]) = [].
Proof. split; [vm_compute; discriminate|apply upload_chain_stops]. Defined.
End Witnesses.
