(* ===== verification/FoodImport.v ===== *)
(** * [scripts/import_mext_foods.py]: the food composition import

    The script downloads the MEXT food composition table as a JSON list
    and writes one DynamoDB item per food.  Modelled here:
    - [clean_value]: a raw cell ([None], a number or a string such as
      ["Tr"], ["-"], ["(12)"]) to an optional [Decimal];
    - [build_nutrients]: the nineteen nutrient columns, renamed, without
      the empty ones;
    - [format_food_id]: [f"{group_id:02d}{food_id:03d}"];
    - [import_to_dynamodb]: the loop over the foods, with its counters
      and the table it fills, as explicit state; [table.put_item] is the
      class [DynamoTable], which may refuse an item.
    The download, [verify_import] and [main] are in [FoodMain]. *)

From Stdlib Require Import NArith ZArith String.
From stdpp Require Import base list numbers.
From S2P Require Import Prelude PyJson PyDecimal.

Local Open Scope py_scope.

(** [except (ValueError, decimal.InvalidOperation)] evaluates the name
    [decimal], which the script never imports ([from decimal import
    Decimal] only binds [Decimal]). *)
Definition name_error_decimal : exn := mk_exn NameError (T "name 'decimal' is not defined").

(** ** [clean_value] *)

Definition MISSING_MARKERS : list text := [T "Tr"; T "-"; []; T "(Tr)"; T "―"].

(** [val[1:-1]] on a string of length at least two. *)
Definition strip_parens (s : text) : text := removelast (tail s).

Section Clean.
Context `{UnicodeDB} `{PyRepr}.

(** [try: return Decimal(str(val)) except Exception: return None] *)
Definition decimal_or_none (v : pyval) : Py (option decimal) :=
  match py_Decimal (py_str v) with
  | PyOk d => PyOk (Some d)
  | PyRaise _ => PyOk None
  end.

Definition clean_value (v : pyval) : Py (option decimal) :=
  match v with
  | VNone => PyOk None
  | VStr s0 =>
      let s := py_strip s0 in
      if existsb (text_eqb s) MISSING_MARKERS then
        PyOk (if text_eqb s (T "Tr") || text_eqb s (T "(Tr)") then Some (DFinite false 0 0) else None)
      else if py_startswith s (T "(") && py_endswith s (T ")") then
        match py_Decimal (strip_parens s) with
        | PyOk d => PyOk (Some d)
        | PyRaise _ => PyRaise name_error_decimal
        end
      else decimal_or_none (VStr s)
  | _ => decimal_or_none v
  end.

(** ** [build_nutrients] *)

(** The [fields] dict: DynamoDB key and column of the source data. *)
Definition NUTRIENT_FIELDS : list (string * string) :=
  [("enerc_kcal", "enercKcal"); ("water", "water"); ("protein", "prot"); ("fat", "fat");
   ("carbs", "choavldf"); ("fiber", "fib"); ("na", "na"); ("k", "k"); ("ca", "ca");
   ("mg", "mg"); ("p", "p"); ("fe", "fe"); ("zn", "zn"); ("cu", "cu"); ("mn", "mn");
   ("vitb1", "thia"); ("vitb2", "ribf"); ("vitc", "vitc"); ("chole", "chole")]%string.

(** [for key, raw in fields.items(): v = clean_value(raw); if v is not None: nutrients[key] = v] *)
Fixpoint nutrients_loop (food : list (text * pyval)) (fields : list (string * string))
    : Py (list (text * decimal)) :=
  match fields with
  | [] => PyOk []
  | (key, src) :: rest =>
      v <- clean_value (dget food (T src) VNone) ;;
      out <- nutrients_loop food rest ;;
      PyOk (match v with Some d => (T key, d) :: out | None => out end)
  end.

Definition build_nutrients (food : list (text * pyval)) : Py (list (text * decimal)) :=
  nutrients_loop food NUTRIENT_FIELDS.
End Clean.

(** ** [format_food_id] *)

(** The [d] presentation type accepts [int] and [bool] only. *)
Definition fmt_int_width (w : nat) (v : pyval) : Py text :=
  match v with
  | VInt z => PyOk (pad_int w z)
  | VBool b => PyOk (pad_int w (if b then 1 else 0))
  | VFloat _ => PyRaise (mk_exn ValueError (T "Unknown format code 'd' for object of type 'float'"))
  | VStr _ => PyRaise (mk_exn ValueError (T "Unknown format code 'd' for object of type 'str'"))
  | _ => PyRaise (mk_exn TypeError (T "unsupported format string passed to __format__"))
  end.

Definition format_food_id (group_id food_id : pyval) : Py text :=
  g <- fmt_int_width 2 group_id ;;
  f <- fmt_int_width 3 food_id ;;
  PyOk (g ++ f).

(** ** [import_to_dynamodb] *)

(** The item written for one food. *)
Record food_item := mk_food_item {
  fi_food_id : text;
  fi_group_id : pyval;
  fi_index_id : pyval;
  fi_food_name : pyval;
  fi_refuse : decimal;
  fi_nutrients : list (text * decimal);
  fi_source : text;
  fi_created_at : text
}.

Definition missing_ids : exn := mk_exn ValueError (T "Missing groupId or foodId").

Section Items.
Context `{UnicodeDB} `{PyRepr}.

(** The body of the [try] up to [table.put_item]. *)
Definition build_item (timestamp : text) (food : list (text * pyval)) : Py food_item :=
  if negb (has_key (VDict food) (T "groupId")) || negb (has_key (VDict food) (T "foodId"))
  then PyRaise missing_ids
  else
    let g := dget food (T "groupId") VNone in
    let f := dget food (T "foodId") VNone in
    fid <- format_food_id g f ;;
    refuse <- py_Decimal (py_str (py_or (dget food (T "refuse") (VInt 0)) (VInt 0))) ;;
    nutrients <- build_nutrients food ;;
    PyOk (mk_food_item fid g (dget food (T "indexId") f) (dget food (T "foodName") (VStr []))
            refuse nutrients (T "mext_8th") timestamp).
End Items.

(** [table.put_item(Item=item)]: the exception it raises, if any. *)
Class DynamoTable := { put_item_error : food_item -> option exn }.

Definition decimal_finite (d : decimal) : bool :=
  match d with DFinite _ _ _ => true | _ => false end.

Definition item_finite (it : food_item) : bool :=
  decimal_finite (fi_refuse it) && forallb (fun kd => decimal_finite kd.2) (fi_nutrients it).

(** What boto3 and DynamoDB promise: [Infinity] and [NaN] are refused. *)
Class DynamoLaws `{DynamoTable} := {
  put_refuses_special it : item_finite it = false -> put_item_error it <> None
}.

(** The counters and the table (items by their key [food_id]). *)
Record import_state := mk_import_state {
  success_count : nat;
  error_count : nat;
  table : list (text * food_item)
}.

Fixpoint table_put (tbl : list (text * food_item)) (it : food_item) : list (text * food_item) :=
  match tbl with
  | [] => [(fi_food_id it, it)]
  | (k, old) :: rest =>
      if text_eqb k (fi_food_id it) then (k, it) :: rest else (k, old) :: table_put rest it
  end.

Section Loop.
Context `{UnicodeDB} `{PyRepr} `{DynamoTable}.
Variable timestamp : text.

(** One iteration; the [except] block reads [food.get('foodName')],
    which raises [AttributeError] and ends the import when [food] is not
    a dict. *)
Definition import_step (st : import_state) (food : pyval) : Py import_state :=
  match food with
  | VDict kvs =>
      let failed := mk_import_state (success_count st) (S (error_count st)) (table st) in
      match build_item timestamp kvs with
      | PyOk it =>
          match put_item_error it with
          | None => PyOk (mk_import_state (S (success_count st)) (error_count st) (table_put (table st) it))
          | Some _ => PyOk failed
          end
      | PyRaise _ => PyOk failed
      end
  | _ => PyRaise (attr_error "object has no attribute 'get'")
  end.

Fixpoint import_loop (st : import_state) (foods : list pyval) : Py import_state :=
  match foods with
  | [] => PyOk st
  | food :: rest => st' <- import_step st food ;; import_loop st' rest
  end.

Definition import_to_dynamodb (tbl : list (text * food_item)) (foods : list pyval)
    : Py (nat * nat * list (text * food_item)) :=
  st <- import_loop (mk_import_state 0 0 tbl) foods ;;
  PyOk (success_count st, error_count st, table st).
End Loop.

(** ** The import loop *)

Section LoopFacts.
Context `{UnicodeDB} `{PyRepr} `{DynamoTable}.
Variable timestamp : text.

Lemma import_step_counts st food st' :
  import_step timestamp st food = PyOk st' ->
  success_count st' + error_count st' = S (success_count st + error_count st).
Proof.
  destruct food; try discriminate. cbn [import_step].
  destruct (build_item _ _) as [it|]; [destruct (put_item_error it)|];
    intros [= <-]; simpl; lia.
Qed.

Lemma import_step_dict st kvs : exists st', import_step timestamp st (VDict kvs) = PyOk st'.
Proof.
  cbn [import_step]. destruct (build_item _ _) as [it|]; [destruct (put_item_error it)|]; eauto.
Qed.

Lemma import_loop_counts st foods st' :
  import_loop timestamp st foods = PyOk st' ->
  success_count st' + error_count st' = success_count st + error_count st + length foods.
Proof.
  revert st. induction foods as [|food foods IH]; intros st; cbn [import_loop].
  - intros [= <-]. simpl. lia.
  - destruct (import_step timestamp st food) as [st1|] eqn:Hs; cbn [py_bind]; [|done].
    intros Hl. rewrite (IH _ Hl), (import_step_counts _ _ _ Hs). simpl. lia.
Qed.

Lemma import_loop_raise st foods :
  (exists e, import_loop timestamp st foods = PyRaise e) <-> Exists (fun f => is_dict f = false) foods.
Proof.
  revert st. induction foods as [|food foods IH]; intros st; cbn [import_loop].
  - split; [by intros [e ?]|inversion 1].
  - rewrite Exists_cons. destruct food as [| | | | | |kvs]; cbn [is_dict];
      try (cbn [import_step py_bind]; split; [by left|intros _; eexists; done]).
    destruct (import_step_dict st kvs) as [st1 Hs]. rewrite Hs. cbn [py_bind].
    rewrite IH. split; [by right|intros [?|?]; done].
Qed.
End LoopFacts.

(** ** [clean_value] on numbers and on what [str(Decimal)] prints *)

Lemma markers_unparsable s :
  existsb (text_eqb s) MISSING_MARKERS = true -> parse_decimal_ascii s = None.
Proof.
  intros Hs. apply existsb_exists in Hs as (m & Hm & Heq). apply text_eqb_spec in Heq as <-.
  repeat (destruct Hm as [<-|Hm]; [vm_compute; reflexivity|]). done.
Qed.

Lemma paren_unparsable r : parse_decimal_ascii (40%N :: r) = None.
Proof. reflexivity. Qed.

Lemma parsable_not_marker s d : parse_decimal_ascii s = Some d -> existsb (text_eqb s) MISSING_MARKERS = false.
Proof. intros Hs. destruct (existsb _ _) eqn:E; [|done]. by rewrite markers_unparsable in Hs. Qed.

Lemma parsable_not_paren s d : parse_decimal_ascii s = Some d -> py_startswith s (T "(") = false.
Proof.
  intros Hs. destruct s as [|c s]; [done|]. unfold py_startswith. eval_T. cbn [is_prefix].
  destruct (N.eqb_spec 40 c) as [<-|]; [by rewrite paren_unparsable in Hs|done].
Qed.

(** A parenthesised text is a marker only when it is ["(Tr)"]. *)
Lemma MISSING_MARKERS_eq : MISSING_MARKERS = [[84; 114]; [45]; []; [40; 84; 114; 41]; [8213]]%N.
Proof. reflexivity. Qed.

Lemma paren_marker s :
  existsb (text_eqb (T "(" ++ s ++ T ")")) MISSING_MARKERS = true -> s = T "Tr".
Proof.
  intros Hs. apply existsb_exists in Hs as (m & Hm & Heq). apply text_eqb_spec in Heq.
  change (T "(") with [40%N] in Heq. change (T ")") with [41%N] in Heq.
  rewrite MISSING_MARKERS_eq in Hm. cbn [app] in Heq.
  repeat destruct Hm as [<-|Hm]; try discriminate; [|done].
  injection Heq as Heq. change [84%N; 114%N; 41%N] with ([84%N; 114%N] ++ [41%N]) in Heq.
  by apply app_inj_tail in Heq as [-> _].
Qed.

Lemma strip_parens_wrap s : strip_parens (T "(" ++ s ++ T ")") = s.
Proof. unfold strip_parens. eval_T. cbn [app tail]. apply removelast_last. Qed.

Lemma wrap_starts_ends s :
  py_startswith (T "(" ++ s ++ T ")") (T "(") && py_endswith (T "(" ++ s ++ T ")") (T ")") = true.
Proof.
  unfold py_startswith, py_endswith. eval_T. cbn [app rev]. rewrite rev_app_distr. reflexivity.
Qed.

Lemma decimal_str_int neg c : decimal_str (DFinite neg c 0) = sign_text neg ++ n_to_dec c.
Proof.
  destruct (n_to_dec_spec c) as (_ & _ & Hne). cbn [decimal_str].
  remember (n_to_dec c) as ds eqn:E. clear E.
  assert (HL : 1 <= length ds) by (destruct ds; [done|simpl; lia]).
  replace ((0 <=? 0)%Z && (-6 <? 0 + Z.of_nat (length ds))%Z) with true
    by (symmetry; apply andb_true_intro; split; [done|apply Z.ltb_lt; lia]).
  rewrite Z.eqb_refl, app_nil_r. unfold place_point.
  replace (0 + Z.of_nat (length ds) <=? 0)%Z with false by (symmetry; apply Z.leb_gt; lia).
  replace (Z.of_nat (length ds) <=? 0 + Z.of_nat (length ds))%Z with true
    by (symmetry; apply Z.leb_le; lia).
  replace (Z.to_nat (0 + Z.of_nat (length ds)) - length ds) with 0 by lia.
  by rewrite app_nil_r.
Qed.

Lemma z_to_dec_decimal z : z_to_dec z = decimal_str (DFinite (z <? 0)%Z (Z.abs_N z) 0).
Proof. rewrite decimal_str_int. by destruct z. Qed.

Section CleanFacts.
Context `{UnicodeLaws} `{PyRepr}.

Lemma drop_space_head c r : uc_isspace c = false -> drop_space (c :: r) = c :: r.
Proof. simpl. by intros ->. Qed.

Lemma py_strip_wrap s : py_strip (T "(" ++ s ++ T ")") = T "(" ++ s ++ T ")".
Proof.
  assert (H40 : uc_isspace 40%N = false) by (rewrite law_space_ascii; [done|lia]).
  assert (H41 : uc_isspace 41%N = false) by (rewrite law_space_ascii; [done|lia]).
  unfold py_strip. change (T "(") with [40%N]. change (T ")") with [41%N]. cbn [app].
  rewrite drop_space_head by done.
  replace (rev (40%N :: s ++ [41%N])) with (41%N :: rev s ++ [40%N])
    by (cbn [rev]; rewrite rev_app_distr; reflexivity).
  rewrite drop_space_head by done. cbn [rev]. rewrite rev_app_distr, rev_involutive.
  reflexivity.
Qed.

(** C29: [clean_value] gives back every [Decimal] from its printed form,
    bare or in the parentheses the table uses for estimated values:
    coefficient, exponent, sign, infinities and NaN payloads included. *)
Theorem clean_value_roundtrip d :
  clean_value (VStr (decimal_str d)) = PyOk (Some d)
  /\ clean_value (VStr (T "(" ++ decimal_str d ++ T ")")) = PyOk (Some d).
Proof.
  split; cbn [clean_value].
  - rewrite py_strip_printable by apply printable_str.
    rewrite (parsable_not_marker _ d), (parsable_not_paren _ d) by apply parse_str.
    unfold decimal_or_none. cbn [py_str]. by rewrite py_Decimal_str.
  - rewrite py_strip_wrap. destruct (existsb _ _) eqn:Hm.
    + apply paren_marker in Hm. pose proof (parse_str d) as Hp. rewrite Hm in Hp. discriminate.
    + by rewrite wrap_starts_ends, strip_parens_wrap, py_Decimal_str.
Qed.

(** an [int] cell becomes the [Decimal] with the same sign and digits
    and exponent 0. *)
Theorem clean_value_int z : clean_value (VInt z) = PyOk (Some (DFinite (z <? 0)%Z (Z.abs_N z) 0)).
Proof. cbn [clean_value]. unfold decimal_or_none. cbn [py_str]. by rewrite z_to_dec_decimal, py_Decimal_str. Qed.

(** C30: a parenthesised cell whose inside is not a number (["(-)"],
    ["(*)"], ["()"], ...) raises [NameError] instead of giving [None]:
    the handler of the [InvalidOperation] names the module [decimal],
    which is not imported. *)
Theorem clean_value_paren_name_error s e :
  s <> T "Tr" -> py_Decimal s = PyRaise e ->
  clean_value (VStr (T "(" ++ s ++ T ")")) = PyRaise name_error_decimal.
Proof.
  intros Hs He. cbn [clean_value]. rewrite py_strip_wrap.
  destruct (existsb _ _) eqn:Hm; [by apply paren_marker in Hm|].
  by rewrite wrap_starts_ends, strip_parens_wrap, He.
Qed.
End CleanFacts.

(** ** [format_food_id] *)

Lemma n_digits_length fuel n acc k :
  (n < 10 ^ N.of_nat k)%N -> 1 <= k -> length (n_digits fuel n acc) <= k + length acc.
Proof.
  revert n acc k. induction fuel as [|f IH]; intros n acc k Hn Hk; cbn [n_digits]; [lia|].
  destruct (N.ltb_spec n 10) as [Hlt|Hge]; [simpl; lia|].
  destruct k as [|[|k]];
    [lia|change (10 ^ N.of_nat 1)%N with 10%N in Hn; exfalso; eapply N.lt_irrefl, N.le_lt_trans; eassumption|].
  assert (Hq : (n / 10 < 10 ^ N.of_nat (S k))%N).
  { rewrite Nat2N.inj_succ, N.pow_succ_r' in Hn. apply N.Div0.div_lt_upper_bound. lia. }
  etransitivity; [apply (IH _ _ (S k) Hq); lia|simpl; lia].
Qed.

Lemma n_to_dec_length n k : (n < 10 ^ N.of_nat k)%N -> 1 <= k -> length (n_to_dec n) <= k.
Proof. intros Hn Hk. unfold n_to_dec. pose proof (n_digits_length (S (N.size_nat n)) n [] k Hn Hk). simpl in *. lia. Qed.

(** A non-negative number that fits the width is zero-padded to exactly
    that width, and its digits give it back. *)
Lemma pad_int_fits w z :
  (0 <= z)%Z -> length (n_to_dec (Z.to_N z)) <= w ->
  length (pad_int w z) = w /\ is_digit_list (pad_int w z) /\ digits_value (pad_int w z) = Z.to_N z.
Proof.
  intros Hz Hw. destruct (n_to_dec_spec (Z.to_N z)) as (Hd & Hv & _).
  unfold pad_int. replace (z <? 0)%Z with false by (symmetry; apply Z.ltb_ge; lia).
  replace (Z.abs_N z) with (Z.to_N z) by lia. cbn [app length].
  rewrite length_app. unfold zeros at 1. rewrite repeat_length. split_and!.
  - lia.
  - apply Forall_app. split; [apply zeros_digits|done].
  - by rewrite digits_value_zeros.
Qed.

(** The identifier of a food whose group and number fit the documented
    widths is five digits, group first. *)
Lemma format_food_id_code g f :
  (0 <= g < 100)%Z -> (0 <= f < 1000)%Z ->
  exists id, format_food_id (VInt g) (VInt f) = PyOk id /\ length id = 5 /\ is_digit_list id
             /\ digits_value (take 2 id) = Z.to_N g /\ digits_value (drop 2 id) = Z.to_N f.
Proof.
  intros Hg Hf.
  destruct (pad_int_fits 2 g) as (Hg1 & Hg2 & Hg3); [lia|apply n_to_dec_length; simpl; lia|].
  destruct (pad_int_fits 3 f) as (Hf1 & Hf2 & Hf3); [lia|apply n_to_dec_length; simpl; lia|].
  exists (pad_int 2 g ++ pad_int 3 f). split_and!.
  - reflexivity.
  - rewrite length_app. lia.
  - by apply Forall_app.
  - by rewrite take_app_length'.
  - by rewrite drop_app_length'.
Qed.

(** C34: on the documented ranges (group [0..99], food number [0..999])
    [format_food_id] is injective: two foods get the same key only when
    they have the same group and number. *)
Theorem format_food_id_injective g1 f1 g2 f2 :
  (0 <= g1 < 100)%Z -> (0 <= f1 < 1000)%Z -> (0 <= g2 < 100)%Z -> (0 <= f2 < 1000)%Z ->
  format_food_id (VInt g1) (VInt f1) = format_food_id (VInt g2) (VInt f2) -> g1 = g2 /\ f1 = f2.
Proof.
  intros Hg1 Hf1 Hg2 Hf2 Heq.
  destruct (format_food_id_code g1 f1) as (id1 & E1 & _ & _ & G1 & F1); [done|done|].
  destruct (format_food_id_code g2 f2) as (id2 & E2 & _ & _ & G2 & F2); [done|done|].
  rewrite E1, E2 in Heq. injection Heq as <-. split; lia.
Qed.

(** ** The table the import fills *)

(** Every entry is stored under its own [food_id], holds only finite
    numbers, and no key occurs twice. *)
Definition table_wf (tbl : list (text * food_item)) : Prop :=
  Forall (fun kv => kv.1 = fi_food_id kv.2 /\ item_finite kv.2 = true) tbl /\ NoDup (map fst tbl).

Lemma table_put_keys tbl it k :
  k ∈ map fst (table_put tbl it) <-> k ∈ map fst tbl \/ k = fi_food_id it.
Proof.
  induction tbl as [|[k' old] tbl IH]; cbn [table_put map fst].
  - rewrite list_elem_of_singleton. split; [by right|intros [Hk | ->]; [inversion Hk|done]].
  - destruct (decide (k' = fi_food_id it)) as [->|Hne].
    + rewrite text_eqb_refl. cbn [map fst]. rewrite !elem_of_cons. tauto.
    + replace (text_eqb k' (fi_food_id it)) with false
        by (symmetry; apply not_true_iff_false; rewrite text_eqb_spec; done).
      cbn [map fst]. rewrite !elem_of_cons, IH. tauto.
Qed.

Lemma table_put_wf tbl it : table_wf tbl -> item_finite it = true -> table_wf (table_put tbl it).
Proof.
  intros [Hall Hnd] Hit. induction tbl as [|[k old] tbl IH]; cbn [table_put].
  - split; [by repeat constructor|repeat constructor; inversion 1].
  - inversion Hall as [|? ? [Hk Hold] Hrest]; subst. cbn [fst snd] in Hk, Hold.
    cbn [map fst] in Hnd. inversion Hnd as [|? ? Hnin Hnd'].
    destruct (text_eqb k (fi_food_id it)) eqn:E.
    + apply text_eqb_spec in E. split; [constructor; [split; done|exact Hrest]|].
      exact Hnd.
    + destruct (IH Hrest Hnd') as [IHall IHnd]. split; [by constructor|].
      cbn [map fst]. constructor; [|done]. rewrite table_put_keys.
      intros [?|Heq]; [done|]. rewrite Heq, text_eqb_refl in E. discriminate.
Qed.

Section TableFacts.
Context `{UnicodeDB} `{PyRepr} `{DynamoLaws}.
Variable timestamp : text.

Lemma put_ok_finite it : put_item_error it = None -> item_finite it = true.
Proof.
  intros Hok. destruct (item_finite it) eqn:E; [done|]. by apply put_refuses_special in E.
Qed.

Lemma import_loop_wf st foods st' :
  table_wf (table st) -> import_loop timestamp st foods = PyOk st' -> table_wf (table st').
Proof.
  revert st. induction foods as [|food foods IH]; intros st Hwf; cbn [import_loop].
  - by intros [= <-].
  - destruct food as [| | | | | |kvs]; cbn [import_step py_bind]; try discriminate.
    destruct (build_item _ _) as [it|]; [destruct (put_item_error it) eqn:Hput|];
      cbn [py_bind]; apply IH; cbn [table]; try done.
    apply table_put_wf; [done|]. by apply put_ok_finite.
Qed.
End TableFacts.

Section ImportClaims.
Context `{UnicodeDB} `{PyRepr}.
Variable timestamp : text.

(** When the import finishes, every food was counted once, as a
    success or as an error. *)
Lemma import_counts `{DynamoTable} tbl foods s e tbl' :
  import_to_dynamodb timestamp tbl foods = PyOk (s, e, tbl') -> s + e = length foods.
Proof.
  unfold import_to_dynamodb. destruct (import_loop _ _ _) as [st|] eqn:Hl; [|done].
  intros [= <- <- _]. apply import_loop_counts in Hl. simpl in Hl. lia.
Qed.

(** C33: the import stops with an exception exactly when one of the foods
    is not a JSON object: the [except] block itself calls [food.get]. *)
Theorem import_crashes_iff `{DynamoTable} tbl foods :
  (exists e, import_to_dynamodb timestamp tbl foods = PyRaise e)
  <-> Exists (fun f => is_dict f = false) foods.
Proof.
  rewrite <- (import_loop_raise timestamp (mk_import_state 0 0 tbl)).
  unfold import_to_dynamodb. destruct (import_loop _ _ _); split; intros [ex Hex]; by eauto.
Qed.

End ImportClaims.

(** ** The import on concrete foods

    The store of the examples refuses what boto3's serializer refuses:
    a number whose [str] is [Infinity] or [NaN] raises [TypeError]
    ([-Infinity] and [sNaN] are refused by DynamoDB itself). *)

#[local] Existing Instance example_repr.

Definition boto3_table : DynamoTable := {|
  put_item_error it :=
    if item_finite it then None else Some (mk_exn TypeError (T "Infinity and NaN not supported")) |}.
#[local] Existing Instance boto3_table.

#[local] Instance boto3_laws : DynamoLaws.
Proof. split. intros it Hf. unfold put_item_error, boto3_table. by rewrite Hf. Qed.

Definition demo_timestamp : text := T "2025-01-01T00:00:00Z".

Definition demo_food (g f : Z) (kcal : pyval) : pyval :=
  VDict [(T "groupId", VInt g); (T "foodId", VInt f); (T "foodName", VStr (T "こめ"));
         (T "enercKcal", kcal); (T "prot", VStr (T "(6.1)")); (T "fat", VStr (T "Tr"))].

(** Outside the documented ranges two foods share a key: [(11, 1234)]
    and [(111, 234)] both become ["111234"]; the import reports two
    successes while the table keeps only the second item. *)
Example food_id_collision :
  format_food_id (VInt 11) (VInt 1234) = PyOk (T "111234")
  /\ format_food_id (VInt 111) (VInt 234) = PyOk (T "111234")
  /\ match import_to_dynamodb demo_timestamp []
             [demo_food 11 1234 (VInt 100); demo_food 111 234 (VInt 200)] with
     | PyOk (s, e, tbl) =>
         s = 2 /\ e = 0 /\ map fst tbl = [T "111234"]
         /\ map (fun kv => fi_group_id kv.2) tbl = [VInt 111]
     | PyRaise _ => False
     end.
Proof. vm_compute. repeat split. Qed.

(** One bad cell loses the whole food: ["(-)"] makes [clean_value]
    raise [NameError], ["NaN"] is accepted by [clean_value] and refused
    by the store; only the third food is written. *)
Example bad_cells_drop_food :
  match import_to_dynamodb demo_timestamp []
          [demo_food 1 1 (VStr (T "(-)")); demo_food 1 2 (VStr (T "NaN"));
           demo_food 1 3 (VInt 100)] with
  | PyOk (s, e, tbl) => s = 1 /\ e = 2 /\ map fst tbl = [T "01003"]
  | PyRaise _ => False
  end.
Proof. vm_compute. repeat split. Qed.

Definition demo_foods : list pyval :=
  [demo_food 1 1 (VStr (T "(-)")); demo_food 1 2 (VInt 356); demo_food 1 2 (VStr (T "NaN"))].

Lemma clean_value_roundtrip_witness :
  clean_value (VStr (decimal_str (DFinite false 61 (-1)))) = PyOk (Some (DFinite false 61 (-1)))
  /\ clean_value (VStr (T "(" ++ decimal_str (DFinite false 61 (-1)) ++ T ")"))
     = PyOk (Some (DFinite false 61 (-1))).
Proof. apply clean_value_roundtrip. Defined.

Lemma clean_value_int_witness : clean_value (VInt (-7)) = PyOk (Some (DFinite true 7 0)).
Proof. apply (clean_value_int (-7)). Defined.

Lemma clean_value_paren_name_error_witness :
  T "-" <> T "Tr" /\ py_Decimal (T "-") = PyRaise invalid_operation
  /\ clean_value (VStr (T "(" ++ T "-" ++ T ")")) = PyRaise name_error_decimal.
Proof.
  assert (Hne : T "-" <> T "Tr") by (vm_compute; discriminate).
  assert (Hd : py_Decimal (T "-") = PyRaise invalid_operation) by (vm_compute; reflexivity).
  split_and!; [exact Hne|exact Hd|]. exact (clean_value_paren_name_error _ _ Hne Hd).
Defined.

Lemma format_food_id_injective_witness :
  format_food_id (VInt 1) (VInt 88) = format_food_id (VInt 1) (VInt 88) /\ 1%Z = 1%Z /\ 88%Z = 88%Z.
Proof.
  split; [reflexivity|]. apply (format_food_id_injective 1 88 1 88); [lia|lia|lia|lia|reflexivity].
Defined.
