(* ===== verification/FoodMain.v ===== *)
(** * The food import's [main]: download, import, verify

    [main] of [src/scripts/import_mext_foods.py] downloads the table
    ([download_food_data]: [requests.get], [raise_for_status],
    [response.json()], and the [len(foods)] of its log line), imports it
    ([import_to_dynamodb] of [FoodImport], over [enumerate(foods)]),
    reads back the item count and one sample item ([verify_import]:
    [table.scan(Select='COUNT')] and [table.get_item]) and maps every
    exception to the exit code 1 through three [except] clauses.

    The network is the class [Http]; [requests] 2.27 and later raise
    their own [JSONDecodeError], a [RequestException], from
    [response.json()].  The two reads are the class [TableReads]: a scan
    returns one page of at most 1 MB, so its [Count] is at most the
    number of items ([ReadLaws]), and both reads fail with botocore's
    exceptions ([ClientError], [EndpointConnectionError],
    [NoCredentialsError], ...), none of which is a [Boto3Error] or a
    [requests] error.  The messages [main] prints are not modelled; its
    result is a [report] that keeps which clause ran.  When the import
    raises, the items written before are not kept in the report. *)

From Stdlib Require Import NArith ZArith String.
From stdpp Require Import base list numbers.
From S2P Require Import Prelude PyJson PyDecimal FoodImport.

Local Open Scope py_scope.

Definition DATA_URL : text :=
  T "https://raw.githubusercontent.com/katoharu432/standards-tables-of-food-composition-in-japan/master/data.json".

(** [requests.get(url, timeout=30)]: the status code and the body. *)
Class Http := { http_get : text -> Py (Z * text) }.
Class HttpLaws `{Http} := { http_get_error url e : http_get url = PyRaise e -> exn_cls e = RequestException }.

(** [table.scan(Select='COUNT')['Count']] and the failure of
    [table.get_item], if any. *)
Class TableReads := {
  scan_count : list (text * food_item) -> Py nat;
  get_item_fault : option exn
}.
(** A botocore exception: neither boto3's own [Boto3Error] nor a
    [requests] error. *)
Definition botocore_exn (e : exn) : Prop := exn_cls e <> RequestException /\ exn_cls e <> Boto3Error.

Class ReadLaws `{TableReads} := {
  scan_count_le tbl n : scan_count tbl = PyOk n -> n <= length tbl;
  scan_count_error tbl e : scan_count tbl = PyRaise e -> botocore_exn e;
  get_item_fault_client e : get_item_fault = Some e -> botocore_exn e
}.

(** [response.raise_for_status()] *)
Definition raise_for_status (status : Z) : Py unit :=
  if (400 <=? status)%Z && (status <? 600)%Z then PyRaise (mk_exn RequestException (T "HTTPError"))
  else PyOk tt.

(** [response.json()] *)
Definition response_json `{JsonDecoder} (body : text) : Py pyval :=
  match json_loads body with
  | PyOk v => PyOk v
  | PyRaise e => PyRaise (mk_exn RequestException (exn_msg e))
  end.

Definition download_food_data `{Http} `{JsonDecoder} : Py pyval :=
  r <- http_get DATA_URL ;;
  _ <- raise_for_status r.1 ;;
  foods <- response_json r.2 ;;
  _ <- py_len foods ;;
  PyOk foods.

(** [table.get_item(Key={'food_id': k}).get('Item')] *)
Fixpoint table_get (k : text) (tbl : list (text * food_item)) : option food_item :=
  match tbl with
  | [] => None
  | (k', it) :: rest => if text_eqb k k' then Some it else table_get k rest
  end.

Definition SAMPLE_ID : text := T "01088".

Definition verify_import `{TableReads} (tbl : list (text * food_item)) : Py (nat * option food_item) :=
  n <- scan_count tbl ;;
  match get_item_fault with
  | Some e => PyRaise e
  | None => PyOk (n, table_get SAMPLE_ID tbl)
  end.

(** How [main] ends: its [try] block completes, or one of its three
    [except] clauses runs; all but the first return 1. *)
Inductive report :=
  | Completed (success errors count : nat) (sample : option food_item)
  | DownloadFailed (e : exn)
  | AwsFailed (e : exn)
  | Unexpected (e : exn).

(** [except requests.RequestException], [except Boto3Error],
    [except Exception], in this order. *)
Definition classify (e : exn) : report :=
  match exn_cls e with
  | RequestException => DownloadFailed e
  | Boto3Error => AwsFailed e
  | _ => Unexpected e
  end.

Definition exit_code (r : report) : Z := match r with Completed _ _ _ _ => 0 | _ => 1 end.

Section Main.
Context `{UnicodeDB} `{PyRepr} `{DynamoTable} `{Http} `{JsonDecoder} `{TableReads}.
Variable timestamp : text.

(** [main_try]: the [try] block of [main], from the table [tbl0] it finds. *)
Definition main_try (tbl0 : list (text * food_item))
    : Py (nat * nat * list (text * food_item) * (nat * option food_item)) :=
  foods <- download_food_data ;;
  items <- py_iter foods ;;
  r <- import_to_dynamodb timestamp tbl0 items ;;
  v <- verify_import r.2 ;;
  PyOk (r, v).

Definition main (tbl0 : list (text * food_item)) : report :=
  match main_try tbl0 with
  | PyOk (s, e, _, (n, sample)) => Completed s e n sample
  | PyRaise ex => classify ex
  end.
End Main.

(** ** The stages of [main] *)

Lemma table_put_length tbl it : length (table_put tbl it) <= S (length tbl).
Proof.
  induction tbl as [|[k old] tbl IH]; cbn [table_put]; [done|].
  destruct (text_eqb k _); cbn [length]; lia.
Qed.

Lemma table_get_wf tbl k it :
  table_wf tbl -> table_get k tbl = Some it -> fi_food_id it = k /\ item_finite it = true.
Proof.
  intros [Hall _]. induction Hall as [|[k' it'] tbl [Hk Hf] _ IH]; cbn [table_get]; [done|].
  destruct (text_eqb k k') eqn:E; [|exact IH].
  intros [= <-]. apply text_eqb_spec in E. cbn [fst snd] in *. subst. done.
Qed.

Lemma verify_import_ok `{ReadLaws} tbl n sample :
  verify_import tbl = PyOk (n, sample) -> n <= length tbl /\ sample = table_get SAMPLE_ID tbl.
Proof.
  unfold verify_import. destruct (scan_count tbl) as [n'|] eqn:Hs; cbn [py_bind]; [|done].
  destruct get_item_fault; [done|]. intros [= <- <-]. split; [by eapply scan_count_le|done].
Qed.

Lemma verify_import_raise `{ReadLaws} tbl e :
  verify_import tbl = PyRaise e -> botocore_exn e.
Proof.
  unfold verify_import. destruct (scan_count tbl) as [n'|e'] eqn:Hs; cbn [py_bind].
  - destruct get_item_fault eqn:Hg; [intros [= <-]; by apply get_item_fault_client|done].
  - intros [= <-]. by eapply scan_count_error.
Qed.

Lemma download_raise `{HttpLaws} `{JsonDecoder} e :
  download_food_data = PyRaise e -> exn_cls e = RequestException \/ exn_cls e = TypeError.
Proof.
  unfold download_food_data. destruct (http_get DATA_URL) as [r|e'] eqn:Hg; cbn [py_bind].
  - unfold raise_for_status. destruct (_ && _); cbn [py_bind]; [intros [= <-]; by left|].
    unfold response_json. destruct (json_loads r.2) as [v|]; cbn [py_bind]; [|intros [= <-]; by left].
    destruct v; cbn [py_len py_bind]; try done; intros [= <-]; by right.
  - intros [= <-]. left. by eapply http_get_error.
Qed.

Lemma py_iter_raise v e : py_iter v = PyRaise e -> exn_cls e = TypeError.
Proof. destruct v; cbn [py_iter]; try done; by intros [= <-]. Qed.

Section Stages.
Context `{UnicodeDB} `{PyRepr} `{DynamoTable}.
Variable timestamp : text.

Lemma import_loop_length st foods st' :
  import_loop timestamp st foods = PyOk st' ->
  length (table st') + success_count st <= length (table st) + success_count st'.
Proof.
  revert st. induction foods as [|food foods IH]; intros st; cbn [import_loop].
  - by intros [= <-].
  - destruct food as [| | | | | |kvs]; cbn [import_step py_bind]; try discriminate.
    destruct (build_item _ _) as [it|]; [destruct (put_item_error it)|];
      intros Hl; specialize (IH _ Hl); cbn [table success_count] in IH; try lia.
    pose proof (table_put_length (table st) it). lia.
Qed.

Lemma import_loop_raise_attr st foods e :
  import_loop timestamp st foods = PyRaise e -> exn_cls e = AttributeError.
Proof.
  revert st. induction foods as [|food foods IH]; intros st; cbn [import_loop]; [done|].
  destruct (import_step timestamp st food) as [st1|e'] eqn:Hs; cbn [py_bind]; [apply IH|].
  intros [= <-]. destruct food; cbn [import_step] in Hs; try (by injection Hs as <-).
  destruct (build_item _ _) as [it|]; [destruct (put_item_error it)|]; done.
Qed.
End Stages.

Section StoredStages.
Context `{UnicodeDB} `{PyRepr} `{DynamoLaws}.
Variable timestamp : text.

Lemma import_to_dynamodb_ok tbl0 items s er tbl :
  table_wf tbl0 -> import_to_dynamodb timestamp tbl0 items = PyOk (s, er, tbl) ->
  s + er = length items /\ length tbl <= length tbl0 + s /\ table_wf tbl.
Proof.
  intros Hwf Hm. split; [exact (import_counts _ _ _ _ _ _ Hm)|].
  unfold import_to_dynamodb in Hm. destruct (import_loop _ _ _) as [st|] eqn:Hl; [|done].
  injection Hm as <- _ <-. split; [apply import_loop_length in Hl; simpl in Hl; lia|].
  exact (import_loop_wf timestamp (mk_import_state 0 0 tbl0) _ _ Hwf Hl).
Qed.
End StoredStages.

Lemma classify_not_completed e s er n sample : classify e <> Completed s er n sample.
Proof. unfold classify. by destruct (exn_cls e). Qed.

Lemma classify_download e e' : classify e = DownloadFailed e' <-> e' = e /\ exn_cls e = RequestException.
Proof.
  unfold classify. destruct (exn_cls e) eqn:Hc; split; try done; try (by intros [_ ?]).
  - by intros [= ->].
  - by intros [-> _].
Qed.

Lemma classify_aws e e' : classify e = AwsFailed e' -> exn_cls e = Boto3Error.
Proof. unfold classify. by destruct (exn_cls e). Qed.

Section Run.
Context `{UnicodeDB} `{PyRepr} `{DynamoTable} `{HttpLaws} `{JsonDecoder} `{ReadLaws}.
Variable timestamp : text.

Lemma main_try_ok tbl0 s e tbl n sample :
  main_try timestamp tbl0 = PyOk (s, e, tbl, (n, sample)) ->
  exists foods items, download_food_data = PyOk foods /\ py_iter foods = PyOk items
    /\ import_to_dynamodb timestamp tbl0 items = PyOk (s, e, tbl) /\ verify_import tbl = PyOk (n, sample).
Proof.
  unfold main_try. destruct download_food_data as [foods|] eqn:Hd; cbn [py_bind]; [|discriminate].
  destruct (py_iter foods) as [items|] eqn:Hi; cbn [py_bind]; [|discriminate].
  destruct (import_to_dynamodb _ _ _) as [[[s' e'] tbl']|] eqn:Hm; cbn [py_bind snd]; [|discriminate].
  destruct (verify_import tbl') as [v|] eqn:Hv; cbn [py_bind]; [|discriminate].
  intros [= <- <- <- <-]. by exists foods, items.
Qed.

(** Past the download, nothing raises a [requests] error, and nothing
    raises a [Boto3Error] at all. *)
Lemma main_try_raise tbl0 e :
  main_try timestamp tbl0 = PyRaise e ->
  download_food_data = PyRaise e \/ (exn_cls e <> RequestException /\ exn_cls e <> Boto3Error).
Proof.
  unfold main_try. destruct download_food_data as [foods|] eqn:Hd; cbn [py_bind]; [|intros [= ->]; by left].
  intros Hr. right. destruct (py_iter foods) as [items|] eqn:Hi; cbn [py_bind] in Hr;
    [|injection Hr as <-; by rewrite (py_iter_raise _ _ Hi)].
  destruct (import_to_dynamodb _ _ _) as [r|] eqn:Hm; cbn [py_bind] in Hr.
  - destruct (verify_import r.2) as [v|] eqn:Hv; cbn [py_bind] in Hr; [done|].
    injection Hr as <-. exact (verify_import_raise _ _ Hv).
  - unfold import_to_dynamodb in Hm. destruct (import_loop _ _ _) eqn:Hl; cbn [py_bind] in Hm; [done|].
    injection Hm as ->. injection Hr as <-. by rewrite (import_loop_raise_attr _ _ _ _ Hl).
Qed.
End Run.

(** ** What [main] reports *)

Section MainClaims.
Context `{UnicodeDB} `{PyRepr} `{HttpLaws} `{JsonDecoder} `{ReadLaws}.
Variable timestamp : text.

(** C32: [main] exits through [except requests.RequestException] exactly
    when the download raised a [requests] error, and never through
    [except Boto3Error]: the failures of the table reads are botocore
    exceptions, which only [except Exception] catches. *)
Theorem food_main_handlers `{DynamoTable} tbl0 :
  (forall e, main timestamp tbl0 <> AwsFailed e)
  /\ (forall e, main timestamp tbl0 = DownloadFailed e
                <-> download_food_data = PyRaise e /\ exn_cls e = RequestException).
Proof.
  unfold main. destruct (main_try timestamp tbl0) as [[[[s er] tbl] [n sample]]|ex] eqn:Hr.
  - split; [done|]. intros e. split; [done|]. intros [Hd _]. revert Hr.
    unfold main_try. by rewrite Hd.
  - destruct (main_try_raise timestamp tbl0 ex Hr) as [Hd|[Hreq Hboto]]; split.
    + intros e Ha. apply classify_aws in Ha.
      destruct (download_raise ex Hd) as [Hc|Hc]; congruence.
    + intros e. rewrite classify_download. split; [intros [-> ?]; by split|].
      intros [Hd' Hc]. rewrite Hd in Hd'. by injection Hd' as ->.
    + intros e Ha. by apply classify_aws in Ha.
    + intros e. rewrite classify_download. split; [intros [_ ?]; done|].
      intros [Hd Hc]. revert Hr. unfold main_try. rewrite Hd. cbn [py_bind]. intros [= ->]. by split.
Qed.

(** C31: when [main] completes, every downloaded food was counted once,
    the table count it prints is at most the items found before plus the
    successes, and the sample it prints is the item stored under
    ["01088"], with finite numbers only. *)
Theorem food_main_completed `{DynamoLaws} tbl0 s er n sample :
  table_wf tbl0 -> main timestamp tbl0 = Completed s er n sample ->
  exists foods items, download_food_data = PyOk foods /\ py_iter foods = PyOk items
    /\ s + er = length items /\ n <= length tbl0 + s
    /\ (forall it, sample = Some it -> fi_food_id it = SAMPLE_ID /\ item_finite it = true).
Proof.
  intros Hwf. unfold main.
  destruct (main_try timestamp tbl0) as [[[[s' er'] tbl] [n' sample']]|ex] eqn:Hr;
    [|intros Hc; by apply classify_not_completed in Hc].
  intros [= <- <- <- <-].
  destruct (main_try_ok _ _ _ _ _ _ _ Hr) as (foods & items & Hd & Hi & Hm & Hv).
  destruct (import_to_dynamodb_ok _ _ _ _ _ _ Hwf Hm) as (Hcount & Hlen & Hwf').
  destruct (verify_import_ok _ _ _ Hv) as [Hn ->].
  exists foods, items. split_and!; [done|done|done|lia|]. intros it. by apply table_get_wf.
Qed.
End MainClaims.

(** ** [main] on a concrete download

    The server answers the URL of the table with status 200 and one
    body; the decoder knows that body only, and raises [ValueError]
    ([json.JSONDecodeError]) on anything else.  The store is the
    [boto3_table] of [FoodImport]; the scan counts every item. *)

#[local] Existing Instances example_repr boto3_table boto3_laws.

Definition demo_body : text := T "[...]".
Definition demo_download : list pyval := demo_food 1 88 (VInt 342) :: demo_foods.

Definition demo_http (status : Z) : Http :=
  {| http_get url := if text_eqb url DATA_URL then PyOk (status, demo_body)
                     else PyRaise (mk_exn RequestException (T "ConnectionError")) |}.

#[local] Instance demo_http_laws status : HttpLaws (H := demo_http status).
Proof.
  split. intros url e. cbn [http_get demo_http]. destruct (text_eqb url DATA_URL); [done|].
  by intros [= <-].
Qed.

#[local] Instance demo_decoder : JsonDecoder :=
  {| json_loads s := if text_eqb s demo_body then PyOk (VList demo_download)
                     else PyRaise (mk_exn ValueError (T "Expecting value")) |}.

Definition counting_reads (fault : option exn) : TableReads :=
  {| scan_count tbl := PyOk (length tbl); get_item_fault := fault |}.

Definition access_denied : exn := mk_exn (ClientError (T "AccessDeniedException")) (T "not authorized").

Lemma counting_reads_laws fault :
  (forall e, fault = Some e -> botocore_exn e) -> ReadLaws (H := counting_reads fault).
Proof. intros Hf. split; cbn [scan_count get_item_fault counting_reads]; [by intros ? ? [= <-]|done|exact Hf]. Qed.

#[local] Instance reads_ok : ReadLaws (H := counting_reads None).
Proof. apply counting_reads_laws. done. Qed.

#[local] Instance reads_denied : ReadLaws (H := counting_reads (Some access_denied)).
Proof. apply counting_reads_laws. intros e [= <-]. by split. Qed.

(** A scan refused by IAM ends in [except Exception]: the exit code is 1
    and the message printed is ["Unexpected error"], not ["AWS Error"]. *)
Example denied_read_is_unexpected :
  main (H2 := demo_http 200) (H4 := counting_reads (Some access_denied)) demo_timestamp []
  = Unexpected access_denied.
Proof. vm_compute. reflexivity. Qed.

(** With a server error the run stops at [raise_for_status]. *)
Example server_error_is_download_failure :
  exists e, main (H2 := demo_http 503) (H4 := counting_reads None) demo_timestamp [] = DownloadFailed e.
Proof. eexists. vm_compute. reflexivity. Qed.

Lemma food_main_handlers_witness :
  (forall e, main (H2 := demo_http 404) (H4 := counting_reads (Some access_denied)) demo_timestamp [] <> AwsFailed e)
  /\ (forall e, main (H2 := demo_http 404) (H4 := counting_reads (Some access_denied)) demo_timestamp []
                = DownloadFailed e
                <-> download_food_data (H := demo_http 404) = PyRaise e /\ exn_cls e = RequestException).
Proof. exact (food_main_handlers demo_timestamp []). Defined.

Lemma food_main_completed_witness :
  exists s er n sample,
    main (H2 := demo_http 200) (H4 := counting_reads None) demo_timestamp [] = Completed s er n sample
    /\ exists foods items, download_food_data (H := demo_http 200) = PyOk foods /\ py_iter foods = PyOk items
       /\ s + er = length items /\ n <= length (@nil (text * food_item)) + s
       /\ (forall it, sample = Some it -> fi_food_id it = SAMPLE_ID /\ item_finite it = true).
Proof.
  destruct (main (H2 := demo_http 200) (H4 := counting_reads None) demo_timestamp [])
    as [s er n sample| | |] eqn:Hm; try (vm_compute in Hm; discriminate).
  exists s, er, n, sample. split; [done|].
  refine (food_main_completed demo_timestamp [] s er n sample _ Hm). split; constructor.
Defined.

(** The run above: four foods, two written, two counted as errors, and
    the sample found. *)
Example demo_main_completes :
  match main (H2 := demo_http 200) (H4 := counting_reads None) demo_timestamp [] with
  | Completed 2 2 2 (Some it) => fi_food_id it = SAMPLE_ID
  | _ => False
  end.
Proof. vm_compute. reflexivity. Qed.
