(* ===== verification/BulkCli.v ===== *)
(** * The bulk registration script

    [src/lambda_cognito_trigger/bulk_register_users.py] registers the
    users of a local CSV file from an operator's machine: [process_csv]
    runs the same three steps per row as the bulk Lambda (Cognito,
    DynamoDB, S3 folders), with a [dry_run] flag that skips every AWS
    call, and [save_results] writes a JSON report and the credentials
    CSV into a local directory.

    Module [Cli] models the script over the AWS state of [Aws] and a
    local file system, a map from paths to bytes: [process_csv] reads
    its input from it and [save_results] returns the files it writes.
    [argparse], the AWS profile and session, and the console output of
    [main] are not modelled: [main] takes the parsed arguments.

    The file is opened with [encoding="utf-8"] in text mode: universal
    newlines turn ["\r\n"] and ["\r"] into ["\n"] ([universal_newlines])
    and a byte order mark is kept as the character U+FEFF.  The text is
    decoded as a whole before the first row, where CPython decodes in
    chunks of 8192 bytes; a file with an invalid byte past its first
    chunk raises here before any row instead of after the rows of the
    earlier chunks. *)

From Stdlib Require Import NArith ZArith String.
From stdpp Require Import base list numbers gmap.
From S2P Require Import Prelude PyJson Aws Csv UserProfile BulkRegister.

Local Open Scope py_scope.
Local Open Scope aws_scope.

(** Reading a text file with [newline=None]. *)
Fixpoint universal_newlines (s : text) : text :=
  match s with
  | 13%N :: 10%N :: s' => 10%N :: universal_newlines s'
  | 13%N :: s' => 10%N :: universal_newlines s'
  | c :: s' => c :: universal_newlines s'
  | [] => []
  end.

(** The arguments [main] parses. *)
Record cli_args := mk_cli_args { arg_csv : text; arg_profile : text; arg_dry_run : bool; arg_output : text }.

Module Cli.
Section Cli.
Context `{UnicodeDB} `{PyRepr} `{AwsFaults} `{Clock} `{Entropy} `{JsonEncoder}.

(** The script repeats [CSV_COLUMNS] and [generate_temp_password] of the
    Lambda; only their comments differ.  Its rows are read through
    [Lambda.row_get], whose column names are the same. *)
Definition col : string -> text := col.
Definition generate_temp_password : nat -> AwsM text := generate_temp_password.

Definition dry_run_result (msg : string) : pyval :=
  VDict (Lambda.status_dict "dry_run" ++ [(T "message", VStr (T msg))]).

(** [create_cognito_user(cognito_client, email, temp_password, dry_run)] *)
Definition create_cognito_user (email pw : text) (dry_run : bool) : AwsM pyval :=
  if dry_run then aret (dry_run_result "ドライラン - Cognitoユーザー作成スキップ")
  else
    atry (r <~ admin_create_user email pw [(T "email", email); (T "email_verified", T "true")] ;;
          aret (VDict (Lambda.status_dict "success" ++ [(T "user", VStr r.1)])))
         (fun e => match exn_cls e with
                   | ClientError code =>
                       if text_eqb code USERNAME_EXISTS
                       then aret (VDict (Lambda.status_dict "exists" ++ [(T "message", VStr (T "ユーザーは既に存在します"))]))
                       else araise e
                   | _ => araise e
                   end).

(** [create_dynamodb_user(dynamodb_table, user_data, dry_run)]: unlike
    the Lambda's, it writes [user_data] as given. *)
Definition create_dynamodb_user (user_data : list (text * pyval)) (dry_run : bool) : AwsM pyval :=
  if dry_run then aret (dry_run_result "ドライラン - DynamoDB登録スキップ")
  else
    atry (put_item user_data ;;; aret (VDict (Lambda.status_dict "success")))
         (fun e => match exn_cls e with
                   | ClientError code =>
                       if text_eqb code CONDITIONAL_CHECK_FAILED
                       then aret (VDict (Lambda.status_dict "exists" ++ [(T "message", VStr (T "ユーザーは既に存在します"))]))
                       else araise e
                   | _ => araise e
                   end).

(** [create_s3_folders(s3_client, email, dry_run)]: the two folders, no
    README. *)
Definition create_s3_folders (email : text) (dry_run : bool) : AwsM pyval :=
  if dry_run then aret (dry_run_result "ドライラン - S3フォルダ作成スキップ")
  else
    r1 <~ Lambda.s3_folder (T "raw-gene/" ++ email ++ T "/") ;;
    r2 <~ Lambda.s3_folder (T "raw-blood/" ++ email ++ T "/") ;;
    aret (VDict (Lambda.status_dict "success" ++ [(T "folders", VList [r1; r2])])).

(** The block "姓名が分離されていない場合": a last name without a first
    name is kept and the first name set to [""]. *)
Definition split_names (last first : pyval) : pyval * pyval :=
  if truthy last && negb (truthy first) then (last, VStr []) else (last, first).

Definition dynamo_data (row : dict_row) (email pw created : text) : list (text * pyval) :=
  let names := split_names (Lambda.row_get row "last_name") (Lambda.row_get row "first_name") in
  let kana := split_names (Lambda.row_get row "last_name_kana") (Lambda.row_get row "first_name_kana") in
  [(T "id", VStr email); (T "submission_id", Lambda.row_get row "submission_id");
   (T "respondent_id", Lambda.row_get row "respondent_id"); (T "submitted_at", Lambda.row_get row "submitted_at");
   (T "last_name", names.1); (T "first_name", names.2);
   (T "last_name_kana", kana.1); (T "first_name_kana", kana.2);
   (T "birth_date", Lambda.row_get row "birth_date"); (T "gender", Lambda.row_get row "gender");
   (T "temp_password", VStr pw); (T "created_at", VStr created);
   (T "registration_source", VStr (T "bulk_import"))].

(** [{k: v for k, v in dynamo_data.items() if v}] *)
Definition truthy_items (d : list (text * pyval)) : list (text * pyval) := List.filter (fun kv => truthy kv.2) d.

Definition display_name (row : dict_row) : pyval :=
  let names := split_names (Lambda.row_get row "last_name") (Lambda.row_get row "first_name") in
  if truthy names.2 then VStr (py_str names.1 ++ py_str names.2) else names.1.

(** One iteration of [for row in reader] of [process_csv]. *)
Definition process_row (dry_run : bool) (res0 : bulk_results) (row : dict_row) : AwsM bulk_results :=
  let res := mk_bulk_results (S (total res0)) (success res0) (failed res0) (skipped res0)
               (users_log res0) (credentials res0) in
  let n := VInt (Z.of_nat (total res)) in
  email <~ alift (Profile.lower_strip (Lambda.row_get row "email")) ;;
  if empty email then
    aret (Lambda.skip_row res (VDict [(T "row", n); (T "status", VStr (T "skipped"));
                                      (T "reason", VStr (T "メールアドレスが空"))]))
  else
    pw <~ generate_temp_password 12 ;;
    let ur0 := [(T "row", n); (T "email", VStr email);
                (T "temp_password", VStr (if dry_run then T "****" else pw))] in
    Lambda.catching res ur0 (create_cognito_user email pw dry_run) (fun cr =>
      let ur1 := dict_set ur0 (T "cognito") cr in
      if Lambda.cognito_exists cr then
        aret (Lambda.skip_row res (VDict (dict_set (dict_set ur1 (T "status") (VStr (T "skipped")))
                                                   (T "reason") (VStr (T "Cognitoに既存ユーザー")))))
      else
        d <~ now ;;
        let data := truthy_items (dynamo_data row email pw (isoformat d)) in
        Lambda.catching res ur1 (create_dynamodb_user data dry_run) (fun dr =>
          let ur2 := dict_set ur1 (T "dynamodb") dr in
          Lambda.catching res ur2 (create_s3_folders email dry_run) (fun sr =>
            let ur3 := dict_set (dict_set ur2 (T "s3") sr) (T "status") (VStr (T "success")) in
            aret (mk_bulk_results (total res) (S (success res)) (failed res) (skipped res)
                    (users_log res ++ [VDict ur3])
                    (credentials res ++ [[(T "email", VStr email); (T "name", display_name row);
                                          (T "temp_password", VStr pw)]]))))).

Fixpoint cli_loop (dry_run : bool) (res : bulk_results) (rows : list dict_row) : AwsM bulk_results :=
  match rows with
  | [] => aret res
  | row :: rows' => res' <~ process_row dry_run res row ;; cli_loop dry_run res' rows'
  end.

Definition results_value (timestamp path : text) (dry_run : bool) (res : bulk_results) : pyval :=
  VDict [(T "timestamp", VStr timestamp); (T "csv_path", VStr path); (T "dry_run", VBool dry_run);
         (T "total", VInt (Z.of_nat (total res))); (T "success", VInt (Z.of_nat (success res)));
         (T "failed", VInt (Z.of_nat (failed res))); (T "skipped", VInt (Z.of_nat (skipped res)));
         (T "users", VList (users_log res))].

(** [open(csv_path, encoding="utf-8")] *)
Definition read_text (fs : gmap text (list N)) (path : text) : Py text :=
  match fs !! path with
  | Some bs => t <- py_decode bs ;; PyOk (universal_newlines t)
  | None => PyRaise (mk_exn FileNotFoundError (T "No such file or directory: " ++ path))
  end.

(** [process_csv(csv_path, profile, dry_run)]: the results and the
    credentials. *)
Definition process_csv (fs : gmap text (list N)) (path : text) (dry_run : bool)
    : AwsM (pyval * list (list (text * pyval))) :=
  d <~ now ;;
  content <~ alift (read_text fs path) ;;
  let '(rows, err) := dict_reader content in
  res <~ cli_loop dry_run Lambda.empty_results rows ;;
  match err with
  | Some e => araise e
  | None => aret (results_value (isoformat d) path dry_run res, credentials res)
  end.

Definition report_path (out ts : text) : text := out ++ T "/registration_report_" ++ ts ++ T ".json".
Definition creds_path (out ts : text) : text := out ++ T "/user_credentials_" ++ ts ++ T ".csv".

(** [save_results(results, credentials, output_dir)]: the files it
    writes, in order, as (path, bytes). *)
Definition save_results (results : pyval) (creds : list (list (text * pyval))) (out : text)
    : AwsM (list (text * list N)) :=
  d <~ now ;;
  let ts := fmt_stamp d in
  report <~ alift (py_encode (json_dumps results)) ;;
  if empty creds then aret [(report_path out ts, report)]
  else
    content <~ alift (dict_write CRED_FIELDS creds) ;;
    bs <~ alift (py_encode content) ;;
    aret [(report_path out ts, report); (creds_path out ts, bs)].

(** [main()] after [argparse]. *)
Definition main (fs : gmap text (list N)) (args : cli_args) : AwsM (list (text * list N)) :=
  rc <~ process_csv fs (arg_csv args) (arg_dry_run args) ;;
  save_results rc.1 rc.2 (arg_output args).
End Cli.
End Cli.

(** ** The dry run *)

Section DryRun.
Context `{UnicodeDB} `{PyRepr} `{AwsFaults} `{Clock} `{Entropy} `{!EntropyLaws} `{JsonEncoder}.

Lemma keeps_same_now : keeps same_data now.
Proof. intros st. by split_and!. Qed.

Lemma keeps_same_password len : keeps same_data (generate_temp_password len).
Proof. intros st. eapply wp_mono; [apply generate_temp_password_spec| |done]. by intros ?? [_ ?]. Qed.

Create HintDb cli_frames discriminated.
#[local] Hint Resolve keeps_same_now keeps_same_password : cli_frames.

Lemma keeps_dry_process_row res row : keeps same_data (Cli.process_row true res row).
Proof.
  unfold Cli.process_row, Lambda.catching, Cli.create_cognito_user, Cli.create_dynamodb_user,
    Cli.create_s3_folders. cbv zeta. keeps_steps; auto with cli_frames.
Qed.

Lemma keeps_dry_cli_loop res rows : keeps same_data (Cli.cli_loop true res rows).
Proof.
  revert res. induction rows as [|row rows IH]; intros res; cbn [Cli.cli_loop];
    keeps_steps; auto using keeps_dry_process_row.
Qed.

Lemma keeps_dry_main fs args : arg_dry_run args = true -> keeps same_data (Cli.main fs args).
Proof.
  intros Hd. unfold Cli.main, Cli.process_csv, Cli.save_results. rewrite Hd.
  keeps_steps; auto using keeps_dry_cli_loop with cli_frames.
Qed.
End DryRun.

(** A row whose e-mail cell, lowered and stripped, is not empty. *)
Definition has_address `{UnicodeDB} (row : dict_row) : bool :=
  match Lambda.row_get row "email" with VStr s => negb (empty (py_strip (uc_lower s))) | _ => false end.

Section DryRunCounts.
Context `{UnicodeDB} `{PyRepr} `{AwsFaults} `{Clock} `{Entropy} `{!EntropyLaws} `{JsonEncoder}.

Lemma cognito_exists_dry msg : Lambda.cognito_exists (Cli.dry_run_result msg) = false.
Proof. reflexivity. Qed.

Lemma dry_process_row_spec res row st :
  (exists s, Lambda.row_get row "email" = VStr s) ->
  wp (Cli.process_row true res row)
     (fun res' _ => success res' = success res + (if has_address row then 1 else 0) /\ failed res' = failed res /\
                    length (credentials res') = length (credentials res) + (if has_address row then 1 else 0))
     (fun _ _ => False) st.
Proof.
  intros [s Hs]. unfold Cli.process_row, has_address. cbv zeta. rewrite Hs. wp_steps.
  cbn [Profile.lower_strip]. destruct (empty (py_strip (uc_lower s))); cbn [negb].
  { wp_step. cbn. lia. }
  wp_step. eapply wp_mono; [apply generate_temp_password_spec| |done]. intros pw s1 _.
  unfold Lambda.catching, Cli.create_cognito_user, Cli.create_dynamodb_user, Cli.create_s3_folders.
  wp_steps. rewrite cognito_exists_dry. apply now_spec. wp_steps. cbn. rewrite length_app. cbn. lia.
Qed.

Lemma dry_cli_loop_spec res rows st :
  Forall (fun row => exists s, Lambda.row_get row "email" = VStr s) rows ->
  wp (Cli.cli_loop true res rows)
     (fun res' _ => success res' = success res + length (List.filter has_address rows) /\
                    failed res' = failed res /\
                    length (credentials res') = length (credentials res) + length (List.filter has_address rows))
     (fun _ _ => False) st.
Proof.
  revert res st. induction rows as [|row rows IH]; intros res st Hrows; cbn [Cli.cli_loop].
  { wp_step. cbn. lia. }
  apply Forall_cons in Hrows as [Hrow Hrows]. wp_step.
  eapply wp_mono; [by apply dry_process_row_spec| |done]. intros res1 s1 (Hc1 & Hc2 & Hc3).
  eapply wp_mono; [by apply IH| |done]. intros res2 s2 (Hc4 & Hc5 & Hc6). cbn [List.filter].
  destruct (has_address row); cbn [length] in *; lia.
Qed.

(** C23: a dry run counts every row with an address as registered: when
    every e-mail cell is a string, [success] is the number of rows whose
    address is not empty, nothing fails, and every one of them gets a
    credential with a freshly drawn password, although no account was
    created (and even when the user already exists in Cognito).  These
    credentials are written to [user_credentials_<stamp>.csv]. *)
Theorem dry_run_counts_every_address rows st :
  Forall (fun row => exists s, Lambda.row_get row "email" = VStr s) rows ->
  wp (Cli.cli_loop true Lambda.empty_results rows)
     (fun res _ => success res = length (List.filter has_address rows) /\ failed res = 0 /\
                   length (credentials res) = success res)
     (fun _ _ => False) st.
Proof.
  intros Hrows. eapply wp_mono; [by apply dry_cli_loop_spec| |done].
  intros res _ (Hc1 & Hc2 & Hc3). cbn in *. lia.
Qed.

(** C22: with [--dry-run] the script changes no AWS data: on every path,
    returning or raising, the user pool, the table [Users] and the
    bucket are as before, whatever the file and the faults. *)
Theorem dry_run_leaves_aws fs args st :
  arg_dry_run args = true ->
  wp (Cli.main fs args) (fun _ s => same_data st s) (fun _ s => same_data st s) st.
Proof. intros Hd. by apply keeps_dry_main. Qed.
End DryRunCounts.

(** ** The name block *)

(** Two items that agree on the key, on truthiness, and on the value
    when it is truthy: the comprehension [if v] keeps the same pairs. *)
Definition same_truthy (x y : text * pyval) : Prop :=
  x.1 = y.1 /\ truthy x.2 = truthy y.2 /\ (truthy x.2 = true -> x.2 = y.2).

Lemma same_truthy_refl x : same_truthy x x.
Proof. by split_and!. Qed.

Lemma truthy_items_same xs ys : Forall2 same_truthy xs ys -> Cli.truthy_items xs = Cli.truthy_items ys.
Proof.
  unfold Cli.truthy_items. induction 1 as [|[k v] [k' v'] xs ys (Hk & Ht & Hv) _ IH]; [done|].
  cbn [List.filter fst snd] in *. subst k'. rewrite <- Ht, IH.
  destruct (truthy v) eqn:E; [rewrite (Hv eq_refl); done|done].
Qed.

Lemma split_names_fst k l f : same_truthy (k, (Cli.split_names l f).1) (k, l).
Proof. unfold Cli.split_names. case_match; by split_and!. Qed.

Lemma split_names_snd k l f : same_truthy (k, (Cli.split_names l f).2) (k, f).
Proof.
  unfold Cli.split_names. destruct (truthy l && negb (truthy f)) eqn:E; [|by split_and!].
  apply andb_prop in E as [_ E]. apply negb_true_iff in E. split_and!; cbn; by rewrite ?E.
Qed.

(** C24: the block of [process_csv] for names that are not split
    (lines 208-222) changes nothing: after the falsy values are dropped,
    the script writes the same DynamoDB item as the bulk Lambda, which
    has no such block, and computes the same display name. *)
Theorem cli_item_as_lambda `{PyRepr} row email pw created :
  Cli.truthy_items (Cli.dynamo_data row email pw created) =
    Cli.truthy_items (Lambda.dynamo_data row email pw created) /\
  Cli.display_name row = Lambda.display_name row.
Proof.
  split.
  - apply truthy_items_same. unfold Cli.dynamo_data, Lambda.dynamo_data.
    repeat (constructor; [first [apply same_truthy_refl|apply split_names_fst|apply split_names_snd]|]).
    constructor.
  - unfold Cli.display_name, Lambda.display_name, Cli.split_names.
    destruct (truthy (Lambda.row_get row "last_name")) eqn:El, (truthy (Lambda.row_get row "first_name")) eqn:Ef;
      cbn; rewrite ?El, ?Ef; done.
Qed.

(** ** Examples *)

Section Examples.
#[local] Existing Instances bulk_entropy bulk_entropy_laws bulk_clock bulk_json example_repr no_faults.

Definition cli_csv : text :=
  T "Submission ID,メールアドレス,お名前（姓　漢字）" ++ CRLF ++ T "S-1,Taro@Example.com,山田" ++ CRLF.
Definition BOM : char := 65279.

Definition file_system (t : text) : gmap text (list N) := {[T "users.csv" := default [] (utf8_encode t)]}.
Definition cli_run (dry : bool) : cli_args := mk_cli_args (T "users.csv") (T "tuun") dry (T "./output").

Definition submission_of (st : aws) : option (option pyval) :=
  option_map (fun it => dict_lookup it (T "submission_id")) (users st !! taro).

(** A file saved with a byte order mark (as spreadsheet programs save
    UTF-8 CSV) loses its first column: read with [encoding="utf-8"], the
    header's first name is U+FEFF followed by [Submission ID], so
    [row.get("Submission ID", "")] gives [""] and the item is written
    without [submission_id]; the same file without the mark keeps it. *)
Example cli_bom_drops_submission_id :
  submission_of (snd (Cli.main (file_system (BOM :: cli_csv)) (cli_run false) upload_state)) = Some None /\
  submission_of (snd (Cli.main (file_system cli_csv) (cli_run false) upload_state)) = Some (Some (VStr (T "S-1"))).
Proof. split; vm_compute; reflexivity. Qed.

Definition cli_rows : list dict_row := fst (dict_reader cli_csv).

Lemma dry_run_counts_every_address_witness :
  Forall (fun row => exists s, Lambda.row_get row "email" = VStr s) cli_rows /\
  wp (Cli.cli_loop true Lambda.empty_results cli_rows)
     (fun res _ => success res = length (List.filter has_address cli_rows) /\ failed res = 0 /\
                   length (credentials res) = success res)
     (fun _ _ => False) upload_state.
Proof.
  assert (H : Forall (fun row => exists s, Lambda.row_get row "email" = VStr s) cli_rows).
  { vm_compute. repeat constructor. eexists. reflexivity. }
  split; [exact H|exact (dry_run_counts_every_address _ _ H)].
Defined.

Lemma dry_run_leaves_aws_witness :
  arg_dry_run (cli_run true) = true /\
  wp (Cli.main (file_system cli_csv) (cli_run true)) (fun _ s => same_data upload_state s)
     (fun _ s => same_data upload_state s) upload_state.
Proof. split; [reflexivity|]. apply dry_run_leaves_aws. reflexivity. Defined.
End Examples.
